(** * rizz graphics core: deferred command recording, stages, replay

    A shallow embedding of the staged graphics layer of [src/rizz/graphics.c]:
    the stage graph, the per-thread command buffers, the executor, the
    streaming-buffer tracker and the deferred-destroy queues, followed by the
    properties stated about them.

    Conventions.
    - C integers are [Z]; every conversion to a fixed width is written out
      with [u16], [u32] or [i32].
    - [sx_assert] is modelled as it behaves in a debug build: a failed
      assertion stops the call ([Err (AssertFailed _)]).
    - [sx_array]s whose contents only are observed are lists; the parameter
      arena keeps its backing store apart from its element count, because the
      code writes to it through raw pointers. *)

From Stdlib Require Import ZArith Lia String Ascii Bool Sorted Permutation.
From stdpp Require Import base list.

Local Open Scope string_scope.
Local Open Scope list_scope.
Local Open Scope Z_scope.

(* ===================================================================== *)
(** ** Outcomes of a call *)

Inductive fault :=
  | AssertFailed (logged : list string)  (* sx_assert fired; error lines logged before it *)
  | OutOfBounds                          (* array read or write outside its elements *)
  | NullDeref                            (* dereference of a NULL lookup result *)
  | Deadlock.                            (* spinning on a lock that is never released,
                                            or walking a cyclic list *)

Inductive result (A : Type) :=
  | Ret (a : A)
  | Err (f : fault).
Arguments Ret {A} a.
Arguments Err {A} f.

Definition bind {A B} (m : result A) (k : A -> result B) : result B :=
  match m with
  | Ret a => k a
  | Err f => Err f
  end.

Notation "'let*' x ':=' c 'in' k" := (bind c (fun x => k))
  (at level 10, x name, c at level 100, k at level 200).
Notation "'let*' ' p ':=' c 'in' k" := (bind c (fun p => k))
  (at level 10, p pattern, c at level 100, k at level 200).

Definition sx_assert (c : bool) : result unit :=
  if c then Ret tt else Err (AssertFailed []).

Definition is_Ret {A} (r : result A) : bool :=
  match r with Ret _ => true | Err _ => false end.

Definition is_assert_failure {A} (r : result A) : Prop :=
  match r with Err (AssertFailed _) => True | _ => False end.

(* ===================================================================== *)
(** ** Fixed-width integers *)

Definition u16 (z : Z) : Z := z mod 65536.
Definition u32 (z : Z) : Z := z mod 4294967296.
(** [int]: two's complement, 32 bits. *)
Definition i32 (z : Z) : Z := (z + 2147483648) mod 4294967296 - 2147483648.

Definition UINT16_MAX : Z := 65535.
Definition INT_MAX : Z := 2147483647.

(** Array element [a[i]] for a C index [i]. *)
Definition arr_at {A} (a : list A) (i : Z) : result A :=
  if i <? 0 then Err OutOfBounds
  else match a !! Z.to_nat i with
       | Some x => Ret x
       | None => Err OutOfBounds
       end.

(** The store [a[i] = x]; used on an index that [arr_at] accepted.  A store
    to the slot just past the last element ([i = count]) does not become part
    of the array's elements. *)
Definition arr_store {A} (a : list A) (i : Z) (x : A) : list A :=
  if i <? 0 then a else <[Z.to_nat i := x]> a.

(* ===================================================================== *)
(** ** Constants of graphics.c *)

Definition MAX_STAGES : Z := 1024.
Definition MAX_DEPTH : Z := 64.
Definition STAGE_ORDER_DEPTH_BITS : Z := 6.
Definition STAGE_ORDER_DEPTH_MASK : Z := 0xfc00.
Definition STAGE_ORDER_ID_BITS : Z := 10.
Definition STAGE_ORDER_ID_MASK : Z := 0x03ff.

(** Modelled from the spec: the macros [rizz_to_id] and [rizz_to_index] are
    declared in a header that is not part of the sources.  Handle 0 is the
    null handle ("0 when idle", "no parent"), so index [i] has id [i + 1]; the
    assertion [parent_stage.id <= count] of [rizz__stage_register] agrees. *)
Definition rizz_to_id (index : Z) : Z := u32 (u32 index + 1).
Definition rizz_to_index (id : Z) : Z := i32 (i32 id - 1).

(* ===================================================================== *)
(** ** Stage graph *)

Inductive rizz__gfx_stage_state :=
  | STAGE_STATE_NONE
  | STAGE_STATE_SUBMITTING
  | STAGE_STATE_DONE.

Definition stage_state_eqb (a b : rizz__gfx_stage_state) : bool :=
  match a, b with
  | STAGE_STATE_NONE, STAGE_STATE_NONE
  | STAGE_STATE_SUBMITTING, STAGE_STATE_SUBMITTING
  | STAGE_STATE_DONE, STAGE_STATE_DONE => true
  | _, _ => false
  end.

(** [rizz__gfx_stage]; the handles [parent], [child], [next], [prev] are the
    [id] fields of [rizz_gfx_stage] values. *)
Record rizz__gfx_stage := mk_stage {
  stage_name : string;          (* char name[32] *)
  stage_name_hash : Z;
  stage_state : rizz__gfx_stage_state;
  stage_parent : Z;
  stage_child : Z;
  stage_next : Z;
  stage_prev : Z;
  stage_order : Z;              (* uint16_t: higher bits depth, lower bits stage id *)
  stage_enabled : bool;
  stage_single_enabled : bool
}.

Definition set_stage_state (v : rizz__gfx_stage_state) (s : rizz__gfx_stage) :=
  mk_stage (stage_name s) (stage_name_hash s) v (stage_parent s) (stage_child s)
           (stage_next s) (stage_prev s) (stage_order s) (stage_enabled s)
           (stage_single_enabled s).
Definition set_stage_child (v : Z) (s : rizz__gfx_stage) :=
  mk_stage (stage_name s) (stage_name_hash s) (stage_state s) (stage_parent s) v
           (stage_next s) (stage_prev s) (stage_order s) (stage_enabled s)
           (stage_single_enabled s).
Definition set_stage_next (v : Z) (s : rizz__gfx_stage) :=
  mk_stage (stage_name s) (stage_name_hash s) (stage_state s) (stage_parent s)
           (stage_child s) v (stage_prev s) (stage_order s) (stage_enabled s)
           (stage_single_enabled s).
Definition set_stage_prev (v : Z) (s : rizz__gfx_stage) :=
  mk_stage (stage_name s) (stage_name_hash s) (stage_state s) (stage_parent s)
           (stage_child s) (stage_next s) v (stage_order s) (stage_enabled s)
           (stage_single_enabled s).
Definition set_stage_order (v : Z) (s : rizz__gfx_stage) :=
  mk_stage (stage_name s) (stage_name_hash s) (stage_state s) (stage_parent s)
           (stage_child s) (stage_next s) (stage_prev s) v (stage_enabled s)
           (stage_single_enabled s).
Definition set_stage_enabled (v : bool) (s : rizz__gfx_stage) :=
  mk_stage (stage_name s) (stage_name_hash s) (stage_state s) (stage_parent s)
           (stage_child s) (stage_next s) (stage_prev s) (stage_order s) v
           (stage_single_enabled s).
Definition set_stage_single_enabled (v : bool) (s : rizz__gfx_stage) :=
  mk_stage (stage_name s) (stage_name_hash s) (stage_state s) (stage_parent s)
           (stage_child s) (stage_next s) (stage_prev s) (stage_order s)
           (stage_enabled s) v.

(** [sx_strcpy(dst, 32, src)]: at most 31 characters and the terminator. *)
Definition sx_strcpy (dst_size : nat) (src : string) : string :=
  String.substring 0 (dst_size - 1) src.

(** The spin lock [g_gfx.stage_lk]: [true] while held. *)
Definition sx_lock (lk : bool) : result bool :=
  if lk then Err Deadlock else Ret true.
Definition sx_unlock (lk : bool) : bool := false.

(** The depth field of an order key, as the comments of the source and the
    masks describe it: the 6 bits above the 10 id bits. *)
Definition order_depth (order : Z) : Z :=
  Z.shiftr (Z.land order STAGE_ORDER_DEPTH_MASK) STAGE_ORDER_ID_BITS.
Definition order_id (order : Z) : Z := Z.land order STAGE_ORDER_ID_MASK.

(* ===================================================================== *)
(** ** Command buffers *)

Inductive rizz__gfx_command :=
  | GFX_COMMAND_BEGIN_DEFAULT_PASS
  | GFX_COMMAND_BEGIN_PASS
  | GFX_COMMAND_APPLY_VIEWPORT
  | GFX_COMMAND_APPLY_SCISSOR_RECT
  | GFX_COMMAND_APPLY_PIPELINE
  | GFX_COMMAND_APPLY_BINDINGS
  | GFX_COMMAND_APPLY_UNIFORMS
  | GFX_COMMAND_DRAW
  | GFX_COMMAND_DISPATCH
  | GFX_COMMAND_END_PASS
  | GFX_COMMAND_UPDATE_BUFFER
  | GFX_COMMAND_UPDATE_IMAGE
  | GFX_COMMAND_APPEND_BUFFER
  | GFX_COMMAND_BEGIN_PROFILE
  | GFX_COMMAND_END_PROFILE
  | GFX_COMMAND_STAGE_PUSH
  | GFX_COMMAND_STAGE_POP.

(** [rizz__gfx_cmdbuffer_ref] *)
Record rizz__gfx_cmdbuffer_ref := mk_ref {
  ref_key : Z;            (* uint32_t: higher bits stage order, lower bits cmd_idx *)
  ref_cmdbuffer_idx : Z;
  ref_cmd : rizz__gfx_command;
  ref_params_offset : Z
}.

(** The byte array [params_buff].  [arena_count] is [sx_array_count]; the
    backing store [arena_mem] is the memory behind the array pointer, which
    record and replay address directly.  The store is taken as large as a
    write needs (bytes never written read as 0): a write past the element
    count lands in memory that the next [sx_array_add] hands out. *)
Record params_arena := mk_arena {
  arena_mem : list Z;
  arena_count : Z
}.

(** [rizz__gfx_cmdbuffer] *)
Record rizz__gfx_cmdbuffer := mk_cmdbuffer {
  cb_params_buff : params_arena;
  cb_refs : list rizz__gfx_cmdbuffer_ref;
  cb_running_stage : Z;
  cb_index : Z;
  cb_stage_order : Z;     (* uint16_t *)
  cb_cmd_idx : Z          (* uint16_t *)
}.

Definition set_cb_params_buff v (cb : rizz__gfx_cmdbuffer) :=
  mk_cmdbuffer v (cb_refs cb) (cb_running_stage cb) (cb_index cb)
               (cb_stage_order cb) (cb_cmd_idx cb).
Definition set_cb_refs v (cb : rizz__gfx_cmdbuffer) :=
  mk_cmdbuffer (cb_params_buff cb) v (cb_running_stage cb) (cb_index cb)
               (cb_stage_order cb) (cb_cmd_idx cb).
Definition set_cb_running_stage v (cb : rizz__gfx_cmdbuffer) :=
  mk_cmdbuffer (cb_params_buff cb) (cb_refs cb) v (cb_index cb)
               (cb_stage_order cb) (cb_cmd_idx cb).
Definition set_cb_stage_order v (cb : rizz__gfx_cmdbuffer) :=
  mk_cmdbuffer (cb_params_buff cb) (cb_refs cb) (cb_running_stage cb) (cb_index cb)
               v (cb_cmd_idx cb).
Definition set_cb_cmd_idx v (cb : rizz__gfx_cmdbuffer) :=
  mk_cmdbuffer (cb_params_buff cb) (cb_refs cb) (cb_running_stage cb) (cb_index cb)
               (cb_stage_order cb) v.

(** [rizz__gfx_stream_buffer] *)
Record rizz__gfx_stream_buffer := mk_stream_buffer {
  sb_buf : Z;
  sb_offset : Z;          (* sx_atomic_int *)
  sb_size : Z
}.

(* ===================================================================== *)
(** ** The backend (sokol_gfx) as the core sees it *)

Inductive sg_usage := SG_USAGE_IMMUTABLE | SG_USAGE_DYNAMIC | SG_USAGE_STREAM.

Definition sg_usage_eqb (a b : sg_usage) : bool :=
  match a, b with
  | SG_USAGE_IMMUTABLE, SG_USAGE_IMMUTABLE
  | SG_USAGE_DYNAMIC, SG_USAGE_DYNAMIC
  | SG_USAGE_STREAM, SG_USAGE_STREAM => true
  | _, _ => false
  end.

(** A live pool slot: its id and the [cmn] fields the core reads and writes. *)
Record sg_slot := mk_slot {
  slot_id : Z;
  slot_used_frame : Z;    (* int64_t *)
  slot_usage : sg_usage
}.

(** What the backend is asked to do. *)
Inductive sg_call :=
  | Sg_destroy_buffer (id : Z)
  | Sg_destroy_pipeline (id : Z)
  | Sg_destroy_shader (id : Z)
  | Sg_destroy_pass (id : Z)
  | Sg_destroy_image (id : Z)
  | Sg_map_buffer (buf offset : Z) (data : list Z)
  | Sg_update_image (img : Z) (subimages : list (Z * list Z))
      (* per subimage, face-major: its size and the bytes at its pointer *)
  | Sg_decoded (c : rizz__gfx_command) (cmdbuffer_idx params_offset : Z).
      (* the backend call of any other decoder, decoded from that place *)

Record sg_state := mk_sg {
  sg_buffers : list sg_slot;
  sg_pipelines : list sg_slot;
  sg_shaders : list sg_slot;
  sg_passes : list sg_slot;
  sg_images : list sg_slot;
  sg_calls : list sg_call
}.

(** [_sg_lookup_buffer] and its siblings: the slot whose id is [id], or NULL. *)
Definition _sg_lookup (pool : list sg_slot) (id : Z) : option sg_slot :=
  if id =? 0 then None else List.find (fun s => slot_id s =? id) pool.

Definition pool_remove (pool : list sg_slot) (id : Z) : list sg_slot :=
  List.filter (fun s => negb (slot_id s =? id)) pool.

Fixpoint pool_set_used_frame (pool : list sg_slot) (id frame : Z) : list sg_slot :=
  match pool with
  | [] => []
  | s :: pool =>
      if slot_id s =? id
      then mk_slot (slot_id s) frame (slot_usage s) :: pool
      else s :: pool_set_used_frame pool id frame
  end.

Definition sg_destroy_buffer (sg : sg_state) (id : Z) : sg_state :=
  mk_sg (pool_remove (sg_buffers sg) id) (sg_pipelines sg) (sg_shaders sg)
        (sg_passes sg) (sg_images sg) (sg_calls sg ++ [Sg_destroy_buffer id]).
Definition sg_destroy_pipeline (sg : sg_state) (id : Z) : sg_state :=
  mk_sg (sg_buffers sg) (pool_remove (sg_pipelines sg) id) (sg_shaders sg)
        (sg_passes sg) (sg_images sg) (sg_calls sg ++ [Sg_destroy_pipeline id]).
Definition sg_destroy_shader (sg : sg_state) (id : Z) : sg_state :=
  mk_sg (sg_buffers sg) (sg_pipelines sg) (pool_remove (sg_shaders sg) id)
        (sg_passes sg) (sg_images sg) (sg_calls sg ++ [Sg_destroy_shader id]).
Definition sg_destroy_pass (sg : sg_state) (id : Z) : sg_state :=
  mk_sg (sg_buffers sg) (sg_pipelines sg) (sg_shaders sg)
        (pool_remove (sg_passes sg) id) (sg_images sg)
        (sg_calls sg ++ [Sg_destroy_pass id]).
Definition sg_destroy_image (sg : sg_state) (id : Z) : sg_state :=
  mk_sg (sg_buffers sg) (sg_pipelines sg) (sg_shaders sg) (sg_passes sg)
        (pool_remove (sg_images sg) id) (sg_calls sg ++ [Sg_destroy_image id]).

Definition set_sg_buffers v (sg : sg_state) :=
  mk_sg v (sg_pipelines sg) (sg_shaders sg) (sg_passes sg) (sg_images sg) (sg_calls sg).
Definition set_sg_images v (sg : sg_state) :=
  mk_sg (sg_buffers sg) (sg_pipelines sg) (sg_shaders sg) (sg_passes sg) v (sg_calls sg).

(* ===================================================================== *)
(** ** The singleton [g_gfx] *)

Record rizz__gfx := mk_gfx {
  stages : list rizz__gfx_stage;
  cmd_buffers_feed : list rizz__gfx_cmdbuffer;
  cmd_buffers_render : list rizz__gfx_cmdbuffer;
  stage_lk : bool;
  pips : list Z;
  stream_buffs : list rizz__gfx_stream_buffer;
  destroy_buffers : list Z;
  destroy_shaders : list Z;
  destroy_pips : list Z;
  destroy_passes : list Z;
  destroy_images : list Z
}.

Definition set_stages v (g : rizz__gfx) :=
  mk_gfx v (cmd_buffers_feed g) (cmd_buffers_render g) (stage_lk g) (pips g)
         (stream_buffs g) (destroy_buffers g) (destroy_shaders g) (destroy_pips g)
         (destroy_passes g) (destroy_images g).
Definition set_cmd_buffers_feed v (g : rizz__gfx) :=
  mk_gfx (stages g) v (cmd_buffers_render g) (stage_lk g) (pips g)
         (stream_buffs g) (destroy_buffers g) (destroy_shaders g) (destroy_pips g)
         (destroy_passes g) (destroy_images g).
Definition set_cmd_buffers_render v (g : rizz__gfx) :=
  mk_gfx (stages g) (cmd_buffers_feed g) v (stage_lk g) (pips g)
         (stream_buffs g) (destroy_buffers g) (destroy_shaders g) (destroy_pips g)
         (destroy_passes g) (destroy_images g).
Definition set_stage_lk v (g : rizz__gfx) :=
  mk_gfx (stages g) (cmd_buffers_feed g) (cmd_buffers_render g) v (pips g)
         (stream_buffs g) (destroy_buffers g) (destroy_shaders g) (destroy_pips g)
         (destroy_passes g) (destroy_images g).
Definition set_pips v (g : rizz__gfx) :=
  mk_gfx (stages g) (cmd_buffers_feed g) (cmd_buffers_render g) (stage_lk g) v
         (stream_buffs g) (destroy_buffers g) (destroy_shaders g) (destroy_pips g)
         (destroy_passes g) (destroy_images g).
Definition set_stream_buffs v (g : rizz__gfx) :=
  mk_gfx (stages g) (cmd_buffers_feed g) (cmd_buffers_render g) (stage_lk g) (pips g)
         v (destroy_buffers g) (destroy_shaders g) (destroy_pips g)
         (destroy_passes g) (destroy_images g).
Definition set_destroy_buffers v (g : rizz__gfx) :=
  mk_gfx (stages g) (cmd_buffers_feed g) (cmd_buffers_render g) (stage_lk g) (pips g)
         (stream_buffs g) v (destroy_shaders g) (destroy_pips g)
         (destroy_passes g) (destroy_images g).
Definition set_destroy_shaders v (g : rizz__gfx) :=
  mk_gfx (stages g) (cmd_buffers_feed g) (cmd_buffers_render g) (stage_lk g) (pips g)
         (stream_buffs g) (destroy_buffers g) v (destroy_pips g)
         (destroy_passes g) (destroy_images g).
Definition set_destroy_pips v (g : rizz__gfx) :=
  mk_gfx (stages g) (cmd_buffers_feed g) (cmd_buffers_render g) (stage_lk g) (pips g)
         (stream_buffs g) (destroy_buffers g) (destroy_shaders g) v
         (destroy_passes g) (destroy_images g).
Definition set_destroy_passes v (g : rizz__gfx) :=
  mk_gfx (stages g) (cmd_buffers_feed g) (cmd_buffers_render g) (stage_lk g) (pips g)
         (stream_buffs g) (destroy_buffers g) (destroy_shaders g) (destroy_pips g)
         v (destroy_images g).
Definition set_destroy_images v (g : rizz__gfx) :=
  mk_gfx (stages g) (cmd_buffers_feed g) (cmd_buffers_render g) (stage_lk g) (pips g)
         (stream_buffs g) (destroy_buffers g) (destroy_shaders g) (destroy_pips g)
         (destroy_passes g) v.

Section StageGraph.

(** [sx_hash_fnv32_str] comes from the sx library; the stage graph only
    stores and compares its values. *)
Variable sx_hash_fnv32_str : string -> Z.

(** [rizz__stage_add_child].  [rizz__stage_register] calls it before it
    pushes the child, so [_child] points at the slot just past the last stage:
    the store [_child->next = _parent->child] does not reach the table, and
    the push that follows writes the new stage, with a null [next], into that
    slot. *)
Definition rizz__stage_add_child (stages : list rizz__gfx_stage)
           (parent child : Z) : result (list rizz__gfx_stage) :=
  let* _ := sx_assert (negb (parent =? 0)) in
  let* _ := sx_assert (negb (child =? 0)) in
  let* _parent := arr_at stages (rizz_to_index parent) in
  let* stages :=
    if negb (stage_child _parent =? 0) then
      let ifirst := rizz_to_index (stage_child _parent) in
      let* _first_child := arr_at stages ifirst in
      let stages := arr_store stages ifirst (set_stage_prev child _first_child) in
      (* _child->next = _parent->child *)
      Ret (match stages !! Z.to_nat (rizz_to_index child) with
           | Some _child =>
               arr_store stages (rizz_to_index child)
                         (set_stage_next (stage_child _parent) _child)
           | None => stages
           end)
    else Ret stages in
  let* _parent := arr_at stages (rizz_to_index parent) in
  Ret (arr_store stages (rizz_to_index parent) (set_stage_child child _parent)).

(** [rizz__stage_register]: returns the new handle and the stage table. *)
Definition rizz__stage_register (stages : list rizz__gfx_stage)
           (name : string) (parent_stage : Z)
  : result (Z * list rizz__gfx_stage) :=
  let count := Z.of_nat (length stages) in
  let* _ := sx_assert ((parent_stage =? 0) || (parent_stage <=? u32 count)) in
  let* _ := sx_assert (count <? MAX_STAGES) in
  let _stage := mk_stage (sx_strcpy 32 name) (u32 (sx_hash_fnv32_str name))
                         STAGE_STATE_NONE parent_stage 0 0 0 0 true true in
  let stage := rizz_to_id count in
  (* add to dependency graph *)
  let* stages :=
    if negb (parent_stage =? 0)
    then rizz__stage_add_child stages parent_stage stage
    else Ret stages in
  (* dependency order *)
  let* depth :=
    if negb (parent_stage =? 0) then
      let* p := arr_at stages (rizz_to_index parent_stage) in
      let parent_depth :=
        u16 (Z.land (Z.shiftr (stage_order p) STAGE_ORDER_DEPTH_BITS)
                    STAGE_ORDER_DEPTH_MASK) in
      Ret (u16 (parent_depth + 1))
    else Ret 0 in
  let* _ := sx_assert (depth <? MAX_DEPTH) in
  let order :=
    u16 (Z.lor (Z.land (Z.shiftl depth STAGE_ORDER_DEPTH_BITS) STAGE_ORDER_DEPTH_MASK)
               (u16 (Z.land (rizz_to_index stage) STAGE_ORDER_ID_MASK))) in
  Ret (stage, stages ++ [set_stage_order order _stage]).

(** The loop of [rizz__stage_enable]:
    [for (child = _stage->child; child.id; child = stages[child].next)]. *)
Fixpoint enable_children (fuel : nat) (stages : list rizz__gfx_stage) (child : Z)
  : result (list rizz__gfx_stage) :=
  if child =? 0 then Ret stages
  else match fuel with
       | O => Err Deadlock
       | S fuel =>
           let* _child := arr_at stages (rizz_to_index child) in
           let stages :=
             arr_store stages (rizz_to_index child)
                       (set_stage_enabled (stage_single_enabled _child) _child) in
           let* c := arr_at stages (rizz_to_index child) in
           enable_children fuel stages (stage_next c)
       end.

(** The loop of [rizz__stage_disable]. *)
Fixpoint disable_children (fuel : nat) (stages : list rizz__gfx_stage) (child : Z)
  : result (list rizz__gfx_stage) :=
  if child =? 0 then Ret stages
  else match fuel with
       | O => Err Deadlock
       | S fuel =>
           let* _child := arr_at stages (rizz_to_index child) in
           let stages :=
             arr_store stages (rizz_to_index child) (set_stage_enabled false _child) in
           let* c := arr_at stages (rizz_to_index child) in
           disable_children fuel stages (stage_next c)
       end.

(** [rizz__stage_enable] *)
Definition rizz__stage_enable (g : rizz__gfx) (stage : Z) : result rizz__gfx :=
  let* _ := sx_assert (negb (stage =? 0)) in
  let* lk := sx_lock (stage_lk g) in
  let* _stage := arr_at (stages g) (rizz_to_index stage) in
  let stages :=
    arr_store (stages g) (rizz_to_index stage)
              (set_stage_single_enabled true (set_stage_enabled true _stage)) in
  (* apply for children *)
  let* stages := enable_children (S (length stages)) stages (stage_child _stage) in
  Ret (set_stage_lk (sx_unlock lk) (set_stages stages g)).

(** [rizz__stage_disable] *)
Definition rizz__stage_disable (g : rizz__gfx) (stage : Z) : result rizz__gfx :=
  let* _ := sx_assert (negb (stage =? 0)) in
  let* lk := sx_lock (stage_lk g) in
  let* _stage := arr_at (stages g) (rizz_to_index stage) in
  let stages :=
    arr_store (stages g) (rizz_to_index stage)
              (set_stage_single_enabled false (set_stage_enabled false _stage)) in
  (* apply for children *)
  let* stages := disable_children (S (length stages)) stages (stage_child _stage) in
  Ret (set_stage_lk (sx_unlock lk) (set_stages stages g)).

(** [rizz__stage_isenabled] *)
Definition rizz__stage_isenabled (g : rizz__gfx) (stage : Z) : result (bool * rizz__gfx) :=
  let* _ := sx_assert (negb (stage =? 0)) in
  let* lk := sx_lock (stage_lk g) in
  let* _stage := arr_at (stages g) (rizz_to_index stage) in
  let enabled := stage_enabled _stage in
  Ret (enabled, set_stage_lk (sx_unlock lk) g).

(** The scan of [rizz__stage_find] from index [i] on: the index of the first
    stage whose hash matches. *)
Fixpoint find_scan (rest : list rizz__gfx_stage) (i : Z) (name_hash : Z) : option Z :=
  match rest with
  | [] => None
  | s :: rest =>
      if stage_name_hash s =? name_hash then Some i
      else find_scan rest (i + 1) name_hash
  end.

(** [rizz__stage_find].  A match returns from inside the loop, with the
    lock still held; only the not-found path unlocks. *)
Definition rizz__stage_find (g : rizz__gfx) (name : string) : result (Z * rizz__gfx) :=
  let name_hash := u32 (sx_hash_fnv32_str name) in
  let* lk := sx_lock (stage_lk g) in
  match find_scan (stages g) 0 name_hash with
  | Some i => Ret (rizz_to_id i, set_stage_lk lk g)
  | None => Ret (u32 (-1), set_stage_lk (sx_unlock lk) g)
  end.

(** The public [stage_register] entry: [rizz__stage_register] on [g_gfx]. *)
Definition stage_register (g : rizz__gfx) (name : string) (parent_stage : Z)
  : result (Z * rizz__gfx) :=
  let* '(h, stages) := rizz__stage_register (stages g) name parent_stage in
  Ret (h, set_stages stages g).

End StageGraph.

(* ===================================================================== *)
(** ** Parameter arena and raw memory *)

(** Sizes of the target ABI (LP64) and of the sokol types stored in the
    arena; [sg_image_content] is [sg_subimage_content subimage[6][16]], each a
    pointer, an [int] and padding. *)
Definition sizeof_int : Z := 4.
Definition sizeof_ptr : Z := 8.
Definition sizeof_sg_buffer : Z := 4.
Definition sizeof_sg_image : Z := 4.
Definition SG_CUBEFACE_NUM : nat := 6.
Definition SG_MAX_MIPMAPS : nat := 16.
Definition sizeof_sg_subimage_content : Z := 16.
Definition sizeof_sg_image_content : Z :=
  Z.of_nat SG_CUBEFACE_NUM * Z.of_nat SG_MAX_MIPMAPS * sizeof_sg_subimage_content.
Definition SX_CONFIG_ALLOCATOR_NATURAL_ALIGNMENT : Z := 8.

(** [sx_align_mask(value, mask)] *)
Definition sx_align_mask (value mask : Z) : Z :=
  Z.land (value + mask) (Z.lnot mask).

(** Little-endian encoding of an integer on [n] bytes, and back. *)
Fixpoint le_bytes (n : nat) (v : Z) : list Z :=
  match n with
  | O => []
  | S n => v mod 256 :: le_bytes n (v / 256)
  end.

Fixpoint le_value (bs : list Z) : Z :=
  match bs with
  | [] => 0
  | b :: bs => b + 256 * le_value bs
  end.

Definition string_bytes (s : string) : list Z :=
  List.map (fun c => Z.of_N (N_of_ascii c)) (list_ascii_of_string s).

(** The 32 bytes of a [char name[32]] holding [s]: zero-filled after it. *)
Definition name_array (s : string) : list Z :=
  take 32 (string_bytes s ++ replicate 32 0).

(** A store of [bs] at address [mem + off].  The list is the memory behind
    the pointer, not the extent of an allocation: a store that ends past its
    length makes it longer, where in C the store would leave the allocated
    memory. *)
Definition mem_write (mem : list Z) (off : Z) (bs : list Z) : list Z :=
  let o := Z.to_nat off in
  let mem := mem ++ replicate (o + length bs - length mem) 0 in
  take o mem ++ bs ++ drop (o + length bs) mem.

(** A load of [n] bytes at address [mem + off]. *)
Definition mem_read (mem : list Z) (off n : Z) : result (list Z) :=
  if (off <? 0) || (n <? 0) || (Z.of_nat (length mem) <? off + n)
  then Err OutOfBounds
  else Ret (take (Z.to_nat n) (drop (Z.to_nat off) mem)).

(** [sx_array_add(alloc, a, n)]: grows the array by [n] elements and yields
    the index of the first new one. *)
Definition sx_array_add (a : params_arena) (n : Z) : Z * params_arena :=
  let count := arena_count a + n in
  (arena_count a,
   mk_arena (arena_mem a ++ replicate (Z.to_nat count - length (arena_mem a)) 0) count).

(** [sx_array_clear]: the count goes back to 0, the memory stays. *)
Definition sx_array_clear (a : params_arena) : params_arena :=
  mk_arena (arena_mem a) 0.

(** [rizz__cb_alloc_params_buff]: the offset of the new block (the allocator
    is taken to succeed). *)
Definition rizz__cb_alloc_params_buff (cb : rizz__gfx_cmdbuffer) (size : Z)
  : Z * rizz__gfx_cmdbuffer :=
  let '(offset, a) :=
    sx_array_add (cb_params_buff cb)
                 (sx_align_mask size (SX_CONFIG_ALLOCATOR_NATURAL_ALIGNMENT - 1)) in
  (offset, set_cb_params_buff a cb).

(** A store through a pointer into the parameter arena.  It is not checked
    against [arena_count]: bytes stored past the block that
    [rizz__cb_alloc_params_buff] handed out stay in the memory behind the
    arena, from which the next block is taken.  In C such a store overruns
    the array, and is undefined once it passes the array's capacity; what
    the model says about bytes stored there holds for an array with spare
    capacity only. *)
Definition cb_mem_write (cb : rizz__gfx_cmdbuffer) (off : Z) (bs : list Z) :=
  set_cb_params_buff
    (mk_arena (mem_write (arena_mem (cb_params_buff cb)) off bs)
              (arena_count (cb_params_buff cb))) cb.

(* ===================================================================== *)
(** ** Recording *)

(** The two assertions every recording call starts with. *)
Definition cb_assert_recording (cb : rizz__gfx_cmdbuffer) : result unit :=
  let* _ := sx_assert (negb (cb_running_stage cb =? 0)) in
  sx_assert (cb_cmd_idx cb <? UINT16_MAX).

(** The sort key [((uint32_t)cb->stage_order << 16) | (uint32_t)cb->cmd_idx]. *)
Definition sort_key (stage_order cmd_idx : Z) : Z :=
  Z.lor (u32 (Z.shiftl (u32 stage_order) 16)) (u32 cmd_idx).

(** [sx_array_push(cb->alloc, cb->refs, ref); ++cb->cmd_idx;] *)
Definition cb_push_ref (cb : rizz__gfx_cmdbuffer) (c : rizz__gfx_command)
           (params_offset : Z) : rizz__gfx_cmdbuffer :=
  let ref := mk_ref (sort_key (cb_stage_order cb) (cb_cmd_idx cb))
                    (cb_index cb) c params_offset in
  set_cb_cmd_idx (u16 (cb_cmd_idx cb + 1)) (set_cb_refs (cb_refs cb ++ [ref]) cb).

(** [&g_gfx.cmd_buffers_feed[the__core.job_thread_index()]], read and
    written back. *)
Definition feed_cb (g : rizz__gfx) (job_thread_index : Z) : result rizz__gfx_cmdbuffer :=
  arr_at (cmd_buffers_feed g) job_thread_index.
Definition store_feed_cb (g : rizz__gfx) (job_thread_index : Z)
           (cb : rizz__gfx_cmdbuffer) : rizz__gfx :=
  set_cmd_buffers_feed (arr_store (cmd_buffers_feed g) job_thread_index cb) g.

(** [rizz__cb_begin_profile_sample(name, hash_cache)] *)
Definition rizz__cb_begin_profile_sample (g : rizz__gfx) (job_thread_index : Z)
           (name : string) (hash_cache : Z) : result rizz__gfx :=
  let* cb := feed_cb g job_thread_index in
  let* _ := cb_assert_recording cb in
  let '(offset, cb) := rizz__cb_alloc_params_buff cb (32 + sizeof_ptr) in
  let cb := cb_push_ref cb GFX_COMMAND_BEGIN_PROFILE offset in
  let cb := cb_mem_write cb offset (string_bytes (sx_strcpy 32 name) ++ [0]) in
  let cb := cb_mem_write cb (offset + 32) (le_bytes 8 hash_cache) in
  Ret (store_feed_cb g job_thread_index cb).

(** [rizz__cb_end_profile_sample()] *)
Definition rizz__cb_end_profile_sample (g : rizz__gfx) (job_thread_index : Z)
  : result rizz__gfx :=
  let* cb := feed_cb g job_thread_index in
  let* _ := cb_assert_recording cb in
  let cb := cb_push_ref cb GFX_COMMAND_END_PROFILE (arena_count (cb_params_buff cb)) in
  Ret (store_feed_cb g job_thread_index cb).

(** [rizz__cb_record_begin_stage(name, name_sz)]; [name] is the 32-byte
    array of the stage. *)
Definition rizz__cb_record_begin_stage (g : rizz__gfx) (job_thread_index : Z)
           (name : string) (name_sz : Z) : result rizz__gfx :=
  let* _ := sx_assert (name_sz =? 32) in
  let* cb := feed_cb g job_thread_index in
  let* _ := cb_assert_recording cb in
  let '(offset, cb) := rizz__cb_alloc_params_buff cb name_sz in
  let cb := cb_push_ref cb GFX_COMMAND_STAGE_PUSH offset in
  let cb := cb_mem_write cb offset (name_array name) in
  Ret (store_feed_cb g job_thread_index cb).

(** [rizz__cb_record_end_stage()] *)
Definition rizz__cb_record_end_stage (g : rizz__gfx) (job_thread_index : Z)
  : result rizz__gfx :=
  let* cb := feed_cb g job_thread_index in
  let* _ := cb_assert_recording cb in
  let cb := cb_push_ref cb GFX_COMMAND_STAGE_POP (arena_count (cb_params_buff cb)) in
  Ret (store_feed_cb g job_thread_index cb).

(** [sx_snprintf(prof_name, 64, fmt, stage_name)] with fmt = Stage: %s *)
Definition stage_prof_name (stage_name : string) : string :=
  String.substring 0 63 ("Stage: " ++ stage_name)%string.

(** [rizz__cb_begin_stage]: the returned boolean and the state after. *)
Definition rizz__cb_begin_stage (g : rizz__gfx) (job_thread_index : Z) (stage : Z)
  : result (bool * rizz__gfx) :=
  let* lk := sx_lock (stage_lk g) in
  let g := set_stage_lk lk g in
  let* _stage := arr_at (stages g) (rizz_to_index stage) in
  let* _ := sx_assert (stage_state_eqb (stage_state _stage) STAGE_STATE_NONE) in
  let enabled := stage_enabled _stage in
  if negb enabled then
    Ret (false, set_stage_lk (sx_unlock lk) g)
  else
    let g := set_stages (arr_store (stages g) (rizz_to_index stage)
                                   (set_stage_state STAGE_STATE_SUBMITTING _stage)) g in
    let* cb := feed_cb g job_thread_index in
    let cb := set_cb_stage_order (stage_order _stage) (set_cb_running_stage stage cb) in
    let g := store_feed_cb g job_thread_index cb in
    let stage_name := stage_name _stage in
    let g := set_stage_lk (sx_unlock lk) g in
    let* g := rizz__cb_record_begin_stage g job_thread_index stage_name 32 in
    let prof_name := stage_prof_name stage_name in
    let* g := rizz__cb_begin_profile_sample g job_thread_index prof_name 0 in
    Ret (true, g).

(** [rizz__cb_end_stage] *)
Definition rizz__cb_end_stage (g : rizz__gfx) (job_thread_index : Z) : result rizz__gfx :=
  let* cb := feed_cb g job_thread_index in
  let* _ := sx_assert (negb (cb_running_stage cb =? 0)) in
  let* g := rizz__cb_end_profile_sample g job_thread_index in
  let* lk := sx_lock (stage_lk g) in
  let* cb := feed_cb g job_thread_index in
  let* _stage := arr_at (stages g) (rizz_to_index (cb_running_stage cb)) in
  let* _ := sx_assert (stage_state_eqb (stage_state _stage) STAGE_STATE_SUBMITTING) in
  let g := set_stages (arr_store (stages g) (rizz_to_index (cb_running_stage cb))
                                 (set_stage_state STAGE_STATE_DONE _stage)) g in
  let g := set_stage_lk (sx_unlock lk) g in
  let* g := rizz__cb_record_end_stage g job_thread_index in
  let* cb := feed_cb g job_thread_index in
  Ret (store_feed_cb g job_thread_index (set_cb_running_stage 0 cb)).

(** A [const void*] argument pointing at the bytes [data]: the first [n] of
    them, as [sx_memcpy] reads them. *)
Definition user_read (data : list Z) (n : Z) : result (list Z) :=
  if (n <? 0) || (Z.of_nat (length data) <? n) then Err OutOfBounds
  else Ret (take (Z.to_nat n) data).

(** [rizz__init_buffer]: a stream buffer gets its tracker entry. *)
Definition rizz__init_buffer (g : rizz__gfx) (sg : sg_state) (buf_id : Z)
           (usage : sg_usage) (size : Z) : rizz__gfx * sg_state :=
  let g :=
    if sg_usage_eqb usage SG_USAGE_STREAM
    then set_stream_buffs (stream_buffs g ++ [mk_stream_buffer buf_id 0 size]) g
    else g in
  (g, set_sg_buffers (sg_buffers sg ++ [mk_slot buf_id 0 usage]) sg).

(** The search loop of [rizz__cb_append_buffer]: the first index whose
    buffer id is [buf], or -1. *)
Fixpoint stream_buffer_index (sbs : list rizz__gfx_stream_buffer) (i : Z) (buf : Z) : Z :=
  match sbs with
  | [] => -1
  | sb :: sbs => if sb_buf sb =? buf then i else stream_buffer_index sbs (i + 1) buf
  end.

(** Modelled from the spec: [sx_atomic_fetch_add] of the sx library adds
    [n] to the cell and returns "the pre-add value". *)
Definition sx_atomic_fetch_add (cell n : Z) : Z * Z := (cell, i32 (cell + n)).

(** [_buff->cmn.used_frame = the__core.frame_index()] on a looked-up slot. *)
Definition stamp_used_frame (pool : list sg_slot) (id frame : Z) : result (list sg_slot) :=
  match _sg_lookup pool id with
  | Some _ => Ret (pool_set_used_frame pool id frame)
  | None => Err NullDeref
  end.

(** [rizz__cb_append_buffer]: the returned stream offset and the state after. *)
Definition rizz__cb_append_buffer (g : rizz__gfx) (sg : sg_state)
           (job_thread_index frame_index : Z)
           (buf : Z) (data_ptr : list Z) (data_size : Z)
  : result (Z * rizz__gfx * sg_state) :=
  (* search for stream-buffer *)
  let index := stream_buffer_index (stream_buffs g) 0 buf in
  let* _ := sx_assert (negb (index =? -1)) in
  let* sbuff := arr_at (stream_buffs g) index in
  let* _ := sx_assert (i32 (sb_offset sbuff + data_size) <=? sb_size sbuff) in
  let '(stream_offset, new_offset) := sx_atomic_fetch_add (sb_offset sbuff) data_size in
  let g := set_stream_buffs
             (arr_store (stream_buffs g) index
                        (mk_stream_buffer (sb_buf sbuff) new_offset (sb_size sbuff))) g in
  let* cb := feed_cb g job_thread_index in
  let* _ := cb_assert_recording cb in
  let '(offset, cb) :=
    rizz__cb_alloc_params_buff cb (i32 (data_size + sizeof_int * 3 + sizeof_sg_buffer)) in
  let cb := cb_push_ref cb GFX_COMMAND_APPEND_BUFFER offset in
  let cb := cb_mem_write cb offset (le_bytes 4 index) in
  let cb := cb_mem_write cb (offset + 4) (le_bytes 4 buf) in
  let cb := cb_mem_write cb (offset + 8) (le_bytes 4 stream_offset) in
  let cb := cb_mem_write cb (offset + 12) (le_bytes 4 data_size) in
  let* data := user_read data_ptr data_size in
  let cb := cb_mem_write cb (offset + 16) data in
  let g := store_feed_cb g job_thread_index cb in
  let* buffers := stamp_used_frame (sg_buffers sg) buf frame_index in
  Ret (stream_offset, g, set_sg_buffers buffers sg).

(** [rizz__cb_run_append_buffer] on the bytes at [mem + off]. *)
Definition rizz__cb_run_append_buffer (sbs : list rizz__gfx_stream_buffer)
           (mem : list Z) (off : Z) : result sg_call :=
  let* b := mem_read mem off 4 in
  let stream_index := i32 (le_value b) in
  let* b := mem_read mem (off + 4) 4 in
  let buf := u32 (le_value b) in
  let* b := mem_read mem (off + 8) 4 in
  let stream_offset := i32 (le_value b) in
  let* b := mem_read mem (off + 12) 4 in
  let data_size := i32 (le_value b) in
  let* _ := sx_assert (stream_index <? Z.of_nat (length sbs)) in
  let* _ := sx_assert (negb (Nat.eqb (length sbs) 0)) in
  let* sbuff := arr_at sbs stream_index in
  let* _ := sx_assert (sb_buf sbuff =? buf) in
  let* data := mem_read mem (off + 16) data_size in
  Ret (Sg_map_buffer buf stream_offset data).

(** [sg_subimage_content]: [sub_ptr = None] is the NULL pointer, [Some bs]
    a pointer to the bytes [bs]. *)
Record sg_subimage_content := mk_subimage {
  sub_ptr : option (list Z);
  sub_size : Z
}.

(** [sg_image_content]: [subimage[face][mip]]. *)
Definition sg_image_content := nat -> nat -> sg_subimage_content.

(** The pairs (face, mip) in the order of the two nested loops. *)
Definition subimage_indices : list (nat * nat) :=
  List.flat_map (fun face => List.map (fun mip => (face, mip)) (seq 0 SG_MAX_MIPMAPS))
                (seq 0 SG_CUBEFACE_NUM).

(** Byte offset of [subimage[face][mip]] inside an [sg_image_content]. *)
Definition subimage_entry (face mip : nat) : Z :=
  (Z.of_nat face * Z.of_nat SG_MAX_MIPMAPS + Z.of_nat mip) * sizeof_sg_subimage_content.

(** The copy loop of [rizz__cb_update_image]; the state is the cursor [buff]
    and the command buffer. *)
Definition update_image_copy (data : sg_image_content) (data_copy start_buff : Z)
           (st : result (Z * rizz__gfx_cmdbuffer)) (fm : nat * nat)
  : result (Z * rizz__gfx_cmdbuffer) :=
  let* '(buff, cb) := st in
  let s := data (fst fm) (snd fm) in
  match sub_ptr s with
  | Some bytes =>
      let* src := user_read bytes (sub_size s) in
      let cb := cb_mem_write cb buff src in
      let entry := data_copy + subimage_entry (fst fm) (snd fm) in
      (* this is actually the offset *)
      let cb := cb_mem_write cb entry (le_bytes 8 (buff - start_buff)) in
      let cb := cb_mem_write cb (entry + 8) (le_bytes 4 (sub_size s)) in
      Ret (buff + sub_size s, cb)
  | None => Ret (buff, cb)
  end.

(** [rizz__cb_update_image] *)
Definition rizz__cb_update_image (g : rizz__gfx) (sg : sg_state)
           (job_thread_index frame_index : Z) (img : Z) (data : sg_image_content)
  : result (rizz__gfx * sg_state) :=
  let* cb := feed_cb g job_thread_index in
  let* _ := cb_assert_recording cb in
  let image_size :=
    fold_left (fun acc fm => i32 (acc + sub_size (data (fst fm) (snd fm))))
              subimage_indices 0 in
  let '(offset, cb) :=
    rizz__cb_alloc_params_buff cb (sizeof_sg_image + sizeof_sg_image_content) in
  let cb := cb_push_ref cb GFX_COMMAND_UPDATE_IMAGE offset in
  let buff := offset in
  let cb := cb_mem_write cb buff (le_bytes 4 img) in
  let buff := buff + sizeof_sg_image in
  let data_copy := buff in
  let buff := buff + sizeof_sg_image_content in
  let cb := cb_mem_write cb data_copy (replicate (Z.to_nat sizeof_sg_image_content) 0) in
  let start_buff := buff in
  let* '(_, cb) :=
    fold_left (update_image_copy data data_copy start_buff)
              subimage_indices (Ret (buff, cb)) in
  let g := store_feed_cb g job_thread_index cb in
  match _sg_lookup (sg_images sg) img with
  | Some _ => Ret (g, set_sg_images (pool_set_used_frame (sg_images sg) img frame_index) sg)
  | None => Err NullDeref
  end.

(** One subimage of the replayed descriptor: its size and, when the size is
    not zero, the bytes at [start_buff +] the stored offset. *)
Definition run_update_image_entry (mem : list Z) (data start_buff : Z) (fm : nat * nat)
  : result (Z * list Z) :=
  let entry := data + subimage_entry (fst fm) (snd fm) in
  let* p := mem_read mem entry 8 in
  let* s := mem_read mem (entry + 8) 4 in
  let size := i32 (le_value s) in
  if negb (size =? 0) then
    let ptr := start_buff + le_value p in
    let* bytes := mem_read mem ptr size in
    Ret (size, bytes)
  else Ret (size, []).

Fixpoint result_list {A} (l : list (result A)) : result (list A) :=
  match l with
  | [] => Ret []
  | r :: l => let* x := r in let* xs := result_list l in Ret (x :: xs)
  end.

(** [rizz__cb_run_update_image] on the bytes at [mem + off]: the call made
    to [sg_update_image]. *)
Definition rizz__cb_run_update_image (mem : list Z) (off : Z) : result sg_call :=
  let* b := mem_read mem off 4 in
  let img_id := u32 (le_value b) in
  let buff := off + sizeof_sg_image in
  let data := buff in
  let* _ := mem_read mem data sizeof_sg_image_content in
  let buff := buff + sizeof_sg_image_content in
  let start_buff := buff in
  (* change offsets to pointers *)
  let* subs :=
    result_list (List.map (run_update_image_entry mem data start_buff) subimage_indices) in
  Ret (Sg_update_image img_id subs).

(** The table [k_run_cbs], applied to [&cb->params_buff[params_offset]].
    The decoders of the other commands read their own fields and call the
    backend; they touch no state of the core. *)
Definition k_run_cbs (c : rizz__gfx_command) (sbs : list rizz__gfx_stream_buffer)
           (cmdbuffer_idx : Z) (mem : list Z) (params_offset : Z) : result sg_call :=
  match c with
  | GFX_COMMAND_UPDATE_IMAGE => rizz__cb_run_update_image mem params_offset
  | GFX_COMMAND_APPEND_BUFFER => rizz__cb_run_append_buffer sbs mem params_offset
  | _ => Ret (Sg_decoded c cmdbuffer_idx params_offset)
  end.

(* ===================================================================== *)
(** ** Scheduler / executor *)

(** The diagnostic of [rizz__gfx_validate_stage_deps]. *)
Definition stage_deps_error (stage_name parent_name : string) : string :=
  ("trying to execute stage '" ++ stage_name ++ "' that depends on '" ++ parent_name
     ++ "', but '" ++ parent_name ++ "' is not rendered")%string.

(** The body of the validation loop for one stage. *)
Definition validate_stage (stages : list rizz__gfx_stage) (_stage : rizz__gfx_stage)
  : result unit :=
  if stage_state_eqb (stage_state _stage) STAGE_STATE_DONE
     && negb (stage_parent _stage =? 0)
  then
    let* _parent := arr_at stages (rizz_to_index (stage_parent _stage)) in
    if negb (stage_state_eqb (stage_state _parent) STAGE_STATE_DONE)
    then Err (AssertFailed [stage_deps_error (stage_name _stage) (stage_name _parent)])
    else Ret tt
  else Ret tt.

Fixpoint validate_stages (stages rest : list rizz__gfx_stage) : result unit :=
  match rest with
  | [] => Ret tt
  | _stage :: rest =>
      let* _ := validate_stage stages _stage in
      validate_stages stages rest
  end.

(** [rizz__gfx_validate_stage_deps] *)
Definition rizz__gfx_validate_stage_deps (g : rizz__gfx) : result rizz__gfx :=
  let* lk := sx_lock (stage_lk g) in
  let* _ := validate_stages (stages g) (stages g) in
  Ret (set_stage_lk (sx_unlock lk) g).

(** [SORT_CMP(x, y)] *)
Definition SORT_CMP (x y : rizz__gfx_cmdbuffer_ref) : Z :=
  if ref_key x <? ref_key y then -1 else 1.

(** Insertion of [x] in front of the first element that does not compare
    below it. *)
Fixpoint sort_insert (x : rizz__gfx_cmdbuffer_ref) (l : list rizz__gfx_cmdbuffer_ref)
  : list rizz__gfx_cmdbuffer_ref :=
  match l with
  | [] => [x]
  | y :: l' => if SORT_CMP y x <? 0 then y :: sort_insert x l' else x :: l
  end.

(** Modelled from the spec: [rizz__gfx_tim_sort] is generated by the header
    sort/sort.h, which is not part of the sources.  The spec: "Sort the
    scratch array by sort key ascending using a stable sort."  It is taken as
    the stable insertion sort over [SORT_CMP]. *)
Definition rizz__gfx_tim_sort (refs : list rizz__gfx_cmdbuffer_ref)
  : list rizz__gfx_cmdbuffer_ref :=
  foldr sort_insert [] refs.

(** First loop of the executor, over [i = 0 .. c-1] with [n] iterations
    left: every buffer is idle; the references are counted. *)
Fixpoint execute_count (n : nat) (i : Z) (cmds : list rizz__gfx_cmdbuffer) (cmd_count : Z)
  : result Z :=
  match n with
  | O => Ret cmd_count
  | S n =>
      let* cb := arr_at cmds i in
      let* _ := sx_assert (cb_running_stage cb =? 0) in
      execute_count n (i + 1) cmds (i32 (cmd_count + Z.of_nat (length (cb_refs cb))))
  end.

(** Second loop: the references of every buffer are copied to the scratch
    array in thread-index order and the source list is cleared. *)
Fixpoint execute_gather (n : nat) (i : Z) (cmds : list rizz__gfx_cmdbuffer)
         (refs : list rizz__gfx_cmdbuffer_ref)
  : result (list rizz__gfx_cmdbuffer_ref * list rizz__gfx_cmdbuffer) :=
  match n with
  | O => Ret (refs, cmds)
  | S n =>
      let* cb := arr_at cmds i in
      let ref_count := Z.of_nat (length (cb_refs cb)) in
      if negb (ref_count =? 0)
      then execute_gather n (i + 1) (arr_store cmds i (set_cb_refs [] cb))
                          (refs ++ cb_refs cb)
      else execute_gather n (i + 1) cmds refs
  end.

(** One step of the dispatch loop: the decoder of the reference runs on the
    arena of the buffer that recorded it. *)
Definition execute_ref (sbs : list rizz__gfx_stream_buffer)
           (cmds : list rizz__gfx_cmdbuffer) (ref : rizz__gfx_cmdbuffer_ref)
  : result sg_call :=
  let* cb := arr_at cmds (ref_cmdbuffer_idx ref) in
  k_run_cbs (ref_cmd ref) sbs (ref_cmdbuffer_idx ref)
            (arena_mem (cb_params_buff cb)) (ref_params_offset ref).

Fixpoint execute_dispatch (sbs : list rizz__gfx_stream_buffer)
         (cmds : list rizz__gfx_cmdbuffer) (refs : list rizz__gfx_cmdbuffer_ref)
  : result (list (rizz__gfx_cmdbuffer_ref * sg_call)) :=
  match refs with
  | [] => Ret []
  | ref :: refs =>
      let* call := execute_ref sbs cmds ref in
      let* rest := execute_dispatch sbs cmds refs in
      Ret ((ref, call) :: rest)
  end.

(** Last loop: reset param buffers. *)
Fixpoint execute_reset (n : nat) (i : Z) (cmds : list rizz__gfx_cmdbuffer)
  : result (list rizz__gfx_cmdbuffer) :=
  match n with
  | O => Ret cmds
  | S n =>
      let* cb := arr_at cmds i in
      execute_reset n (i + 1)
        (arr_store cmds i
           (set_cb_cmd_idx 0 (set_cb_params_buff (sx_array_clear (cb_params_buff cb)) cb)))
  end.

(** [rizz__gfx_execute_command_buffer(cmds)]: the returned [cmd_count], the
    references in the order they were dispatched, each with the backend call
    its decoder made, and the buffers after. *)
Definition rizz__gfx_execute_command_buffer (sbs : list rizz__gfx_stream_buffer)
           (job_thread_index job_num_threads : Z) (cmds : list rizz__gfx_cmdbuffer)
  : result (Z * list (rizz__gfx_cmdbuffer_ref * sg_call) * list rizz__gfx_cmdbuffer) :=
  let* _ := sx_assert (job_thread_index =? 0) in
  (* gather all command buffers that submitted a command *)
  let cmd_buffer_count := Z.to_nat job_num_threads in
  let* cmd_count := execute_count cmd_buffer_count 0 cmds 0 in
  (* gather/sort and submit to GPU *)
  let* '(dispatched, cmds) :=
    if negb (cmd_count =? 0) then
      let* '(refs, cmds) := execute_gather cmd_buffer_count 0 cmds [] in
      (* sort the command refs and execute them *)
      let refs := rizz__gfx_tim_sort refs in
      let* dispatched := execute_dispatch sbs cmds refs in
      Ret (dispatched, cmds)
    else Ret ([], cmds) in
  (* reset param buffers *)
  let* cmds := execute_reset cmd_buffer_count 0 cmds in
  Ret (cmd_count, dispatched, cmds).

(** [rizz__gfx_execute_command_buffers_final]: the state after and what was
    dispatched, render set first. *)
Definition rizz__gfx_execute_command_buffers_final (g : rizz__gfx)
           (job_thread_index job_num_threads : Z)
  : result (list (rizz__gfx_cmdbuffer_ref * sg_call) * rizz__gfx) :=
  let* g := rizz__gfx_validate_stage_deps g in
  (* execute both buffers, because there maybe some commands remaining in the
     feed and not swapped *)
  let* '(_, d1, render) :=
    rizz__gfx_execute_command_buffer (stream_buffs g) job_thread_index job_num_threads
                                     (cmd_buffers_render g) in
  let g := set_cmd_buffers_render render g in
  let* '(_, d2, feed) :=
    rizz__gfx_execute_command_buffer (stream_buffs g) job_thread_index job_num_threads
                                     (cmd_buffers_feed g) in
  let g := set_cmd_buffers_feed feed g in
  (* clear all stages *)
  let g := set_stages (List.map (set_stage_state STAGE_STATE_NONE) (stages g)) g in
  (* clear stream buffer offsets *)
  let g := set_stream_buffs
             (List.map (fun sb => mk_stream_buffer (sb_buf sb) 0 (sb_size sb))
                       (stream_buffs g)) g in
  Ret (d1 ++ d2, g).

(** [rizz__gfx_swap_command_buffers] *)
Definition rizz__gfx_swap_command_buffers (g : rizz__gfx) (job_thread_index : Z)
  : result rizz__gfx :=
  let* _ := sx_assert (job_thread_index =? 0) in
  Ret (set_cmd_buffers_render (cmd_buffers_feed g)
         (set_cmd_buffers_feed (cmd_buffers_render g) g)).

(** [rizz__gfx_commit]: what was dispatched, whether the GPU commit ran,
    and the state after. *)
Definition rizz__gfx_commit (g : rizz__gfx) (job_thread_index job_num_threads : Z)
  : result (list (rizz__gfx_cmdbuffer_ref * sg_call) * bool * rizz__gfx) :=
  let* _ := sx_assert (job_thread_index =? 0) in
  let* g := rizz__gfx_validate_stage_deps g in
  let* '(cmd_count, d, render) :=
    rizz__gfx_execute_command_buffer (stream_buffs g) job_thread_index job_num_threads
                                     (cmd_buffers_render g) in
  Ret (d, 0 <? cmd_count, set_cmd_buffers_render render g).

(* ===================================================================== *)
(** ** Deferred destruction *)

(** [rizz__queue_destroy(_a, _id, _alloc)], the [_DEBUG] variant: a handle
    that is already queued fails the assertion. *)
Definition rizz__queue_destroy (a : list Z) (id : Z) : result (list Z) :=
  let* _ := sx_assert (forallb (fun x => negb (x =? id)) a) in
  Ret (a ++ [id]).

Definition rizz__destroy_pipeline (g : rizz__gfx) (pip_id : Z) : result rizz__gfx :=
  let* q := rizz__queue_destroy (destroy_pips g) pip_id in Ret (set_destroy_pips q g).
Definition rizz__destroy_shader (g : rizz__gfx) (shd_id : Z) : result rizz__gfx :=
  let* q := rizz__queue_destroy (destroy_shaders g) shd_id in Ret (set_destroy_shaders q g).
Definition rizz__destroy_pass (g : rizz__gfx) (pass_id : Z) : result rizz__gfx :=
  let* q := rizz__queue_destroy (destroy_passes g) pass_id in Ret (set_destroy_passes q g).
Definition rizz__destroy_image (g : rizz__gfx) (img_id : Z) : result rizz__gfx :=
  let* q := rizz__queue_destroy (destroy_images g) img_id in Ret (set_destroy_images q g).
Definition rizz__destroy_buffer (g : rizz__gfx) (buf_id : Z) : result rizz__gfx :=
  let* q := rizz__queue_destroy (destroy_buffers g) buf_id in Ret (set_destroy_buffers q g).

(** [sx_array_pop(a, idx)]: the last element takes the place of [a[idx]]. *)
Definition sx_array_pop {A} (a : list A) (idx : Z) : list A :=
  match last a with
  | Some x => take (length a - 1) (arr_store a idx x)
  | None => a
  end.

(** The shape shared by the five loops of [rizz__gfx_collect_garbage]:
    [for (i = 0, c = count; i < c; i++)] over a queue, where a body that pops
    [queue[i]] also does [i--; c--].  [body h s] says whether it popped. *)
Fixpoint collect_loop {S} (body : Z -> S -> result (bool * S))
         (fuel : nat) (i c : Z) (queue : list Z) (s : S) : result (list Z * S) :=
  if i <? c then
    match fuel with
    | O => Err Deadlock
    | S fuel =>
        let* h := arr_at queue i in
        let* '(popped, s) := body h s in
        if popped : bool
        then collect_loop body fuel i (c - 1) (sx_array_pop queue i) s
        else collect_loop body fuel (i + 1) c queue s
    end
  else Ret (queue, s).

(** Removal of a handle from a shadow table ([g_gfx.stream_buffs],
    [g_gfx.pips]): the first match is popped. *)
Fixpoint shadow_index {A} (key : A -> Z) (l : list A) (i : Z) (id : Z) : option Z :=
  match l with
  | [] => None
  | x :: l => if key x =? id then Some i else shadow_index key l (i + 1) id
  end.

Definition shadow_remove {A} (key : A -> Z) (l : list A) (id : Z) : list A :=
  match shadow_index key l 0 id with
  | Some ii => sx_array_pop l ii
  | None => l
  end.

(** Body of the buffers loop; the state is the stream-buffer table and the
    backend. *)
Definition collect_buffer (frame : Z) (buf_id : Z)
           (s : list rizz__gfx_stream_buffer * sg_state)
  : result (bool * (list rizz__gfx_stream_buffer * sg_state)) :=
  let '(sbs, sg) := s in
  match _sg_lookup (sg_buffers sg) buf_id with
  | None => Err NullDeref
  | Some buf =>
      if slot_used_frame buf + 1 <? frame then
        let sbs :=
          if sg_usage_eqb (slot_usage buf) SG_USAGE_STREAM
          then shadow_remove sb_buf sbs buf_id
          else sbs in
        Ret (true, (sbs, sg_destroy_buffer sg buf_id))
      else Ret (false, (sbs, sg))
  end.

(** Body of the pipelines loop (RIZZ_CONFIG_HOT_LOADING on); the state is
    [g_gfx.pips] and the backend. *)
Definition collect_pipeline (frame : Z) (pip_id : Z) (s : list Z * sg_state)
  : result (bool * (list Z * sg_state)) :=
  let '(pips, sg) := s in
  match _sg_lookup (sg_pipelines sg) pip_id with
  | None => Err NullDeref
  | Some pip =>
      if slot_used_frame pip + 1 <? frame
      then Ret (true, (shadow_remove (fun p => p) pips pip_id, sg_destroy_pipeline sg pip_id))
      else Ret (false, (pips, sg))
  end.

(** Body of the shaders loop.  The handle is looked up with
    [_sg_lookup_pipeline], and the [else] branch pops it as well. *)
Definition collect_shader (frame : Z) (shd_id : Z) (sg : sg_state)
  : result (bool * sg_state) :=
  match _sg_lookup (sg_pipelines sg) shd_id with
  | Some shd =>
      if slot_used_frame shd + 1 <? frame
      then Ret (true, sg_destroy_shader sg shd_id)
      else Ret (true, sg)
  | None => Ret (true, sg)
  end.

(** Body of the passes loop. *)
Definition collect_pass (frame : Z) (pass_id : Z) (sg : sg_state)
  : result (bool * sg_state) :=
  match _sg_lookup (sg_passes sg) pass_id with
  | None => Err NullDeref
  | Some pass =>
      if slot_used_frame pass + 1 <? frame
      then Ret (true, sg_destroy_pass sg pass_id)
      else Ret (false, sg)
  end.

(** Body of the images loop. *)
Definition collect_image (frame : Z) (img_id : Z) (sg : sg_state)
  : result (bool * sg_state) :=
  match _sg_lookup (sg_images sg) img_id with
  | None => Err NullDeref
  | Some img =>
      if slot_used_frame img + 1 <? frame
      then Ret (true, sg_destroy_image sg img_id)
      else Ret (false, sg)
  end.

Definition queue_fuel (q : list Z) : nat := length q.
Definition queue_count (q : list Z) : Z := Z.of_nat (length q).

(** [rizz__gfx_collect_garbage(frame)] *)
Definition rizz__gfx_collect_garbage (g : rizz__gfx) (sg : sg_state) (frame : Z)
  : result (rizz__gfx * sg_state) :=
  (* buffers *)
  let q := destroy_buffers g in
  let* '(q, (sbs, sg)) :=
    collect_loop (collect_buffer frame) (queue_fuel q) 0 (queue_count q) q
                 (stream_buffs g, sg) in
  let g := set_stream_buffs sbs (set_destroy_buffers q g) in
  (* pipelines *)
  let q := destroy_pips g in
  let* '(q, (ps, sg)) :=
    collect_loop (collect_pipeline frame) (queue_fuel q) 0 (queue_count q) q (pips g, sg) in
  let g := set_pips ps (set_destroy_pips q g) in
  (* shaders *)
  let q := destroy_shaders g in
  let* '(q, sg) :=
    collect_loop (collect_shader frame) (queue_fuel q) 0 (queue_count q) q sg in
  let g := set_destroy_shaders q g in
  (* passes *)
  let q := destroy_passes g in
  let* '(q, sg) :=
    collect_loop (collect_pass frame) (queue_fuel q) 0 (queue_count q) q sg in
  let g := set_destroy_passes q g in
  (* images *)
  let q := destroy_images g in
  let* '(q, sg) :=
    collect_loop (collect_image frame) (queue_fuel q) 0 (queue_count q) q sg in
  let g := set_destroy_images q g in
  Ret (g, sg).

(** [rizz__gfx_update] *)
Definition rizz__gfx_update (g : rizz__gfx) (sg : sg_state) (frame_index : Z)
  : result (rizz__gfx * sg_state) :=
  rizz__gfx_collect_garbage g sg frame_index.

(* ===================================================================== *)
(** ** Predicates and drivers used to state the properties *)

(** A stage that the validation rejects: DONE, with a parent handle that is
    not null, whose stage is not DONE. *)
Definition dep_violation (stages : list rizz__gfx_stage) (s p : rizz__gfx_stage) : Prop :=
  stage_state s = STAGE_STATE_DONE
  /\ stage_parent s <> 0
  /\ arr_at stages (rizz_to_index (stage_parent s)) = Ret p
  /\ stage_state p <> STAGE_STATE_DONE.

(** Parent handles point into the table. *)
Definition parents_in_table (stages : list rizz__gfx_stage) : bool :=
  forallb (fun s => (stage_parent s =? 0)
                    || is_Ret (arr_at stages (rizz_to_index (stage_parent s))))
          stages.

(** The links of a stage table as [rizz__stage_register] builds them:
    sibling links lead to stages registered earlier, child handles are null or
    point into the table, a parent has a smaller id than its child, and the
    order key is a [uint16_t].  [i] is the index of the stage and [n] the
    number of stages. *)
Definition wf_stage (n i : Z) (s : rizz__gfx_stage) : bool :=
  (0 <=? stage_next s) && (stage_next s <=? i)
  && (0 <=? stage_child s) && (stage_child s <=? n)
  && (0 <=? stage_parent s) && (stage_parent s <=? i)
  && (0 <=? stage_order s) && (stage_order s <? 65536).

Fixpoint wf_stages_from (n i : Z) (st : list rizz__gfx_stage) : bool :=
  match st with
  | [] => true
  | s :: st => wf_stage n i s && wf_stages_from n (i + 1) st
  end.

Definition wf_stages (st : list rizz__gfx_stage) : bool :=
  (Z.of_nat (length st) <=? MAX_STAGES)
  && wf_stages_from (Z.of_nat (length st)) 0 st.

(** The empty singleton: no stage, no thread, nothing queued. *)
Definition gfx_empty : rizz__gfx := mk_gfx [] [] [] false [] [] [] [] [] [] [].

(** A chain of [n] stages, each registered under the one before. *)
Definition register_chain (hash : string -> Z) (n : nat)
  : result (Z * list rizz__gfx_stage) :=
  Nat.iter n (fun r => let* '(parent, st) := r in
                       rizz__stage_register hash st "stage" parent)
           (Ret (0, [])).

(** A stand-in for the string hash, for concrete runs. *)
Definition sample_hash (s : string) : Z := le_value (string_bytes s).

(** The stage at index [k] is switched off, with its own memory off too. *)
Definition off_at (k : nat) (j : nat) (s : rizz__gfx_stage) : Prop :=
  j = k -> stage_enabled s = false /\ stage_single_enabled s = false.

(** Every reference pending in a set of command buffers, in thread-index
    order. *)
Definition all_refs (cmds : list rizz__gfx_cmdbuffer) : list rizz__gfx_cmdbuffer_ref :=
  List.flat_map cb_refs cmds.

(** The stage-order half of a sort key. *)
Definition key_order (r : rizz__gfx_cmdbuffer_ref) : Z := Z.shiftr (ref_key r) 16.

(** A buffer with no pending reference, an empty arena and command index 0. *)
Definition cb_drained (cb : rizz__gfx_cmdbuffer) : bool :=
  Nat.eqb (length (cb_refs cb)) 0
  && (arena_count (cb_params_buff cb) =? 0)
  && (cb_cmd_idx cb =? 0).

(** No buffer of the set is inside begin_stage..end_stage. *)
Definition all_idle (cmds : list rizz__gfx_cmdbuffer) : bool :=
  forallb (fun cb => cb_running_stage cb =? 0) cmds.

(** Every decoder completes on the reference it is given. *)
Definition replay_completes (sbs : list rizz__gfx_stream_buffer)
           (cmds : list rizz__gfx_cmdbuffer) : bool :=
  forallb (fun r => is_Ret (execute_ref sbs cmds r)) (all_refs cmds).

(** What the last loop of the executor does to one buffer. *)
Definition cb_reset (cb : rizz__gfx_cmdbuffer) : rizz__gfx_cmdbuffer :=
  set_cb_cmd_idx 0 (set_cb_params_buff (sx_array_clear (cb_params_buff cb)) cb).

(** Keys in non-decreasing order. *)
Definition key_le (a b : rizz__gfx_cmdbuffer_ref) : Prop := ref_key a <= ref_key b.

(** The tracker entry that [rizz__cb_append_buffer] finds for a buffer. *)
Definition stream_buffer_entry (g : rizz__gfx) (buf : Z)
  : option rizz__gfx_stream_buffer :=
  let index := stream_buffer_index (stream_buffs g) 0 buf in
  if index =? -1 then None else stream_buffs g !! Z.to_nat index.

(** One append request: the calling thread, the data and the byte count. *)
Record append_call := mk_append_call {
  ac_thread : Z;
  ac_data : list Z;
  ac_size : Z
}.

(** A sequence of appends to one buffer within one frame; the offsets
    returned, in call order. *)
Fixpoint append_all (g : rizz__gfx) (sg : sg_state) (frame_index buf : Z)
         (calls : list append_call) : result (list Z * rizz__gfx * sg_state) :=
  match calls with
  | [] => Ret ([], g, sg)
  | c :: calls =>
      let* '(off, g, sg) :=
        rizz__cb_append_buffer g sg (ac_thread c) frame_index buf (ac_data c) (ac_size c) in
      let* '(offs, g, sg) := append_all g sg frame_index buf calls in
      Ret (off :: offs, g, sg)
  end.

Definition total_size (calls : list append_call) : Z :=
  fold_right (fun c acc => ac_size c + acc) 0 calls.

(** The ranges laid end to end from [start]: each call's offset is the sum
    of [start] and the sizes before it. *)
Fixpoint offsets_from (start : Z) (calls : list append_call) : list Z :=
  match calls with
  | [] => []
  | c :: calls => start :: offsets_from (start + ac_size c) calls
  end.

(** No request is so large that adding it to an offset inside the buffer
    leaves the range of [int]. *)
Definition sizes_fit (size : Z) (calls : list append_call) : bool :=
  forallb (fun c => ac_size c + size <=? INT_MAX) calls.

(** *** Concrete scenarios *)

(** One job thread, nothing recorded. *)
Definition cb_fresh (index : Z) : rizz__gfx_cmdbuffer :=
  mk_cmdbuffer (mk_arena [] 0) [] 0 index 0 0.
Definition gfx_one_thread : rizz__gfx :=
  mk_gfx [] [cb_fresh 0] [cb_fresh 0] false [] [] [] [] [] [] [].
Definition gfx_two_threads : rizz__gfx :=
  mk_gfx [] [cb_fresh 0; cb_fresh 1] [cb_fresh 0; cb_fresh 1] false [] [] [] [] [] [] [].

(** A backend with two live images (ids 5 and 6), two shaders (ids 7 and
    12) and a pass (id 8), all three last used at frame 10, and a pipeline
    that happens to have the id 12 as well, last used at frame 3. *)
Definition sg_sample : sg_state :=
  mk_sg []
        [mk_slot 12 3 SG_USAGE_IMMUTABLE]
        [mk_slot 7 10 SG_USAGE_IMMUTABLE; mk_slot 12 10 SG_USAGE_IMMUTABLE]
        [mk_slot 8 10 SG_USAGE_IMMUTABLE]
        [mk_slot 5 0 SG_USAGE_DYNAMIC; mk_slot 6 0 SG_USAGE_DYNAMIC]
        [].

(** Image contents with one subimage, [subimage[0][0]], of 8 bytes. *)
Definition one_subimage (bytes : list Z) : sg_image_content :=
  fun face mip =>
    match face, mip with
    | O, O => mk_subimage (Some bytes) (Z.of_nat (length bytes))
    | _, _ => mk_subimage None 0
    end.
Definition pixels_a : list Z := [1; 2; 3; 4; 5; 6; 7; 8].
Definition pixels_b : list Z := [9; 9; 9; 9; 9; 9; 9; 9].

(** Thread 0 registers and begins the stage "opaque", records an update of
    image 5 and, when [second] is set, an update of image 6 after it, and ends
    the stage. *)
Definition scenario_update_image (second : bool) : result (rizz__gfx * sg_state) :=
  let* '(opaque, g) := stage_register sample_hash gfx_one_thread "opaque" 0 in
  let* '(_, g) := rizz__cb_begin_stage g 0 opaque in
  let* '(g, sg) := rizz__cb_update_image g sg_sample 0 1 5 (one_subimage pixels_a) in
  let* '(g, sg) :=
    if second
    then rizz__cb_update_image g sg 0 1 6 (one_subimage pixels_b)
    else Ret (g, sg) in
  let* g := rizz__cb_end_stage g 0 in
  Ret (g, sg).

(** The image updates among backend calls: the image and the size and
    bytes of [subimage[0][0]]. *)
Definition image_updates (calls : list sg_call) : list (Z * option (Z * list Z)) :=
  List.flat_map (fun c => match c with
                          | Sg_update_image img subs => [(img, List.head subs)]
                          | _ => []
                          end) calls.

(** The frame is presented and committed on the main thread: the image
    updates that reach the backend. *)
Definition present_and_commit (r : result (rizz__gfx * sg_state))
  : result (list (Z * option (Z * list Z))) :=
  let* '(g, _) := r in
  let* g := rizz__gfx_swap_command_buffers g 0 in
  let* '(dispatched, _, _) := rizz__gfx_commit g 0 1 in
  Ret (image_updates (List.map snd dispatched)).

(** At frame 10 the shaders 7 and 12 and the pass 8 are handed to the
    deferred destroy queues; the garbage collection then runs at frames 11
    and 12 and at shutdown (frame index + 100).  Per step: the shader queue,
    the pass queue and the backend calls so far. *)
Definition scenario_deferred_destroy : result (list (list Z * list Z * list sg_call)) :=
  let* g := rizz__destroy_shader gfx_one_thread 7 in
  let* g := rizz__destroy_shader g 12 in
  let* g := rizz__destroy_pass g 8 in
  let s0 := (destroy_shaders g, destroy_passes g, sg_calls sg_sample) in
  let* '(g, sg) := rizz__gfx_update g sg_sample 11 in
  let s1 := (destroy_shaders g, destroy_passes g, sg_calls sg) in
  let* '(g, sg) := rizz__gfx_update g sg 12 in
  let s2 := (destroy_shaders g, destroy_passes g, sg_calls sg) in
  let* '(g, sg) := rizz__gfx_collect_garbage g sg (12 + 100) in
  let s3 := (destroy_shaders g, destroy_passes g, sg_calls sg) in
  Ret [s0; s1; s2; s3].

Definition gfx_of (r : result rizz__gfx) : rizz__gfx :=
  match r with Ret g => g | Err _ => gfx_empty end.

(** "shadow" is registered as a root and "opaque" under it, with two job
    threads. *)
Definition scenario_two_stages : result rizz__gfx :=
  let* '(shadow, g) := stage_register sample_hash gfx_two_threads "shadow" 0 in
  let* '(opaque, g) := stage_register sample_hash g "opaque" shadow in
  Ret g.


(** Thread 0 records "opaque" and thread 1 records "shadow" (handle 1). *)
Definition scenario_both_stages_recorded : result rizz__gfx :=
  let* g := scenario_two_stages in
  let* '(_, g) := rizz__cb_begin_stage g 0 2 in
  let* '(_, g) := rizz__cb_begin_stage g 1 1 in
  let* g := rizz__cb_end_stage g 0 in
  rizz__cb_end_stage g 1.

(** "shadow" is disabled before it is begun. *)
Definition scenario_shadow_disabled : result rizz__gfx :=
  let* g := scenario_two_stages in
  rizz__stage_disable g 1.

(** root -> child -> grandchild, registered in that order. *)
Definition scenario_three_stages : result rizz__gfx :=
  let* '(root, g) := stage_register sample_hash gfx_one_thread "root" 0 in
  let* '(child, g) := stage_register sample_hash g "child" root in
  let* '(grandchild, g) := stage_register sample_hash g "grandchild" child in
  Ret g.

(** A stream buffer (id 9) of 256 bytes is initialised; thread 0 is inside
    "opaque" and thread 1 inside "shadow". *)
Definition scenario_stream_buffer : rizz__gfx * sg_state :=
  match (let* g := scenario_two_stages in
         let* '(_, g) := rizz__cb_begin_stage g 0 2 in
         let* '(_, g) := rizz__cb_begin_stage g 1 1 in
         Ret (rizz__init_buffer g sg_sample 9 SG_USAGE_STREAM 256))
  with
  | Ret s => s
  | Err _ => (gfx_empty, sg_sample)
  end.

Definition hundred_bytes : list Z := replicate 100 0.

(** A stream buffer of 64 bytes (id 10) is initialised before the one of
    256 bytes (id 9), so that buffer 9 has the second tracker entry; thread 0
    is inside "opaque" and thread 1 inside "shadow". *)
Definition scenario_second_stream_buffer : rizz__gfx * sg_state :=
  match (let* g := scenario_two_stages in
         let* '(_, g) := rizz__cb_begin_stage g 0 2 in
         let* '(_, g) := rizz__cb_begin_stage g 1 1 in
         let '(g, sg) := rizz__init_buffer g sg_sample 10 SG_USAGE_STREAM 64 in
         Ret (rizz__init_buffer g sg 9 SG_USAGE_STREAM 256))
  with
  | Ret s => s
  | Err _ => (gfx_empty, sg_sample)
  end.

(** The tracker entry of [buf], said without the search of the code: the
    entry at index [k] is for [buf], and no entry before it is. *)
Definition tracked_at (sbs : list rizz__gfx_stream_buffer) (buf : Z) (k : nat) : bool :=
  forallb (fun e => negb (sb_buf e =? buf)) (take k sbs)
  && match sbs !! k with
     | Some e => sb_buf e =? buf
     | None => false
     end.

(** What the appends of a sequence need besides room in the buffer: the
    buffer is live in the backend, every request has the bytes it announces,
    and every calling thread is inside a stage with command indices left for
    the whole sequence. *)
Definition appends_ready (g : rizz__gfx) (sg : sg_state) (buf : Z)
           (calls : list append_call) : bool :=
  match _sg_lookup (sg_buffers sg) buf with
  | Some _ => true
  | None => false
  end
  && forallb (fun c =>
                (0 <=? ac_size c) && (ac_size c <=? Z.of_nat (length (ac_data c)))
                && match feed_cb g (ac_thread c) with
                   | Ret cb =>
                       negb (cb_running_stage cb =? 0) && (0 <=? cb_cmd_idx cb)
                       && (cb_cmd_idx cb + Z.of_nat (length calls) <=? UINT16_MAX)
                   | Err _ => false
                   end) calls.

(** The body shared by the passes and images loops (and, up to the shadow
    table, by the buffers and pipelines loops): a handle is destroyed when
    [frame > used_frame + 1] and left in the queue otherwise. *)
Definition pool_body (pool : sg_state -> list sg_slot)
           (destroy : sg_state -> Z -> sg_state) (frame : Z)
           (h : Z) (sg : sg_state) : result (bool * sg_state) :=
  match _sg_lookup (pool sg) h with
  | None => Err NullDeref
  | Some slot =>
      if slot_used_frame slot + 1 <? frame
      then Ret (true, destroy sg h)
      else Ret (false, sg)
  end.

(** A queued handle is due at [frame] when its slot was last used more
    than one frame before. *)
Definition due_at (slots : list sg_slot) (frame : Z) (h : Z) : bool :=
  match _sg_lookup slots h with
  | Some slot => slot_used_frame slot + 1 <? frame
  | None => false
  end.

(** The body of the buffers and pipelines loops: as [pool_body], with the
    shadow table [x] updated by [aux] when the handle is destroyed. *)
Definition pool_body_aux {X : Type} (pool : sg_state -> list sg_slot)
           (destroy : sg_state -> Z -> sg_state) (aux : sg_slot -> Z -> X -> X)
           (frame : Z) (h : Z) (s : X * sg_state) : result (bool * (X * sg_state)) :=
  let '(x, sg) := s in
  match _sg_lookup (pool sg) h with
  | None => Err NullDeref
  | Some slot =>
      if slot_used_frame slot + 1 <? frame
      then Ret (true, (aux slot h x, destroy sg h))
      else Ret (false, (x, sg))
  end.

(** What destroying a due handle does to the shadow table and the backend. *)
Definition kill_aux {X : Type} (pool : sg_state -> list sg_slot)
           (destroy : sg_state -> Z -> sg_state) (aux : sg_slot -> Z -> X -> X)
           (h : Z) (s : X * sg_state) : X * sg_state :=
  match _sg_lookup (pool (snd s)) h with
  | Some slot => (aux slot h (fst s), destroy (snd s) h)
  | None => s
  end.

(** A later state that still has the pool [proj] of [sg0] and every backend
    call made up to [sg0]. *)
Definition kept_in (proj : sg_state -> list sg_slot) (sg0 : sg_state)
           (sg : sg_state) : Prop :=
  proj sg = proj sg0 /\ forall c, c ∈ sg_calls sg0 -> c ∈ sg_calls sg.

(** The outcome of one collection for a queued handle with slot [slot]:
    when it is not yet due (its last-used frame [F] has [frame <= F + 1]) it
    is still queued and still holds its slot; when it is due
    ([F + 2 <= frame]) it has left the queue and was handed to the backend's
    destroy call. *)
Definition grace_period (frame : Z) (queue' : list Z) (pool' : list sg_slot)
           (calls' : list sg_call) (call : Z -> sg_call) (h : Z) (slot : sg_slot) : Prop :=
  (frame <= slot_used_frame slot + 1 ->
   h ∈ queue' /\ _sg_lookup pool' h = Some slot)
  /\ (slot_used_frame slot + 2 <= frame ->
      ~ h ∈ queue' /\ call h ∈ calls').

(* ===================================================================== *)
(** ** The stage graph as registration builds it *)

(** Two stages that differ at most in the links [prev] and [child], the
    only fields of a stage already in the table that
    [rizz__stage_add_child] stores to. *)
Definition same_but_links (s0 s : rizz__gfx_stage) : Prop :=
  stage_name s = stage_name s0
  /\ stage_name_hash s = stage_name_hash s0
  /\ stage_state s = stage_state s0
  /\ stage_parent s = stage_parent s0
  /\ stage_next s = stage_next s0
  /\ stage_order s = stage_order s0
  /\ stage_enabled s = stage_enabled s0
  /\ stage_single_enabled s = stage_single_enabled s0.

(** A run of registrations, each a name and a parent handle; the handles
    returned, in call order, and the table after. *)
Fixpoint register_all (hash : string -> Z) (st : list rizz__gfx_stage)
         (reqs : list (string * Z)) : result (list Z * list rizz__gfx_stage) :=
  match reqs with
  | [] => Ret ([], st)
  | (name, parent) :: reqs =>
      let* '(h, st) := rizz__stage_register hash st name parent in
      let* '(hs, st) := register_all hash st reqs in
      Ret (h :: hs, st)
  end.

(** Parent handles are [uint32_t] values that name a request made before. *)
Fixpoint parents_before (i : Z) (reqs : list (string * Z)) : bool :=
  match reqs with
  | [] => true
  | (_, parent) :: reqs => (0 <=? parent) && (parent <=? i) && parents_before (i + 1) reqs
  end.

(** [k] is the first index whose stage has the name hash [h]. *)
Definition first_match (stages : list rizz__gfx_stage) (h : Z) (k : nat) : bool :=
  forallb (fun s => negb (stage_name_hash s =? h)) (take k stages)
  && match stages !! k with
     | Some s => stage_name_hash s =? h
     | None => false
     end.

(** The stage that [rizz__stage_register] pushes on a table of [count]
    stages; its order key is the table index under the id mask. *)
Definition new_stage (hash : string -> Z) (name : string) (parent count : Z)
  : rizz__gfx_stage :=
  mk_stage (sx_strcpy 32 name) (u32 (hash name)) STAGE_STATE_NONE
           parent 0 0 0 (Z.land count STAGE_ORDER_ID_MASK) true true.

(** What holds of a table that only registration has touched: no stage has
    a sibling link, and the order key of a stage is its index. *)
Definition built_by_register (st : list rizz__gfx_stage) : Prop :=
  forall (j : nat) s, st !! j = Some s -> stage_next s = 0 /\ stage_order s = Z.of_nat j.

(* ===================================================================== *)
(** ** The staged calls with plain parameters, and their decoders *)

Definition sizeof_bool : Z := 1.
Definition sizeof_sg_shader_stage : Z := 4.

(** A [bool] in memory, and what a load of it yields. *)
Definition bool_bytes (b : bool) : list Z := [if b then 1 else 0].
Definition bytes_bool (bs : list Z) : bool := negb (le_value bs =? 0).

(** The backend calls that the decoders below make; a staged call has the
    same parameters as the backend call it stands for. *)
Inductive sg_frame_call :=
  | Sg_apply_viewport (x y width height : Z) (origin_top_left : bool)
  | Sg_apply_scissor_rect (x y width height : Z) (origin_top_left : bool)
  | Sg_apply_uniforms (stage ub_index : Z) (data : list Z) (num_bytes : Z)
  | Sg_draw (base_element num_elements num_instances : Z)
  | Sg_dispatch (thread_group_x thread_group_y thread_group_z : Z)
  | Sg_end_pass
  | Sg_update_buffer (buf : Z) (data : list Z) (data_size : Z).

(** [rizz__cb_apply_viewport] *)
Definition rizz__cb_apply_viewport (g : rizz__gfx) (job_thread_index : Z)
           (x y width height : Z) (origin_top_left : bool) : result rizz__gfx :=
  let* cb := feed_cb g job_thread_index in
  let* _ := cb_assert_recording cb in
  let '(offset, cb) := rizz__cb_alloc_params_buff cb (sizeof_int * 4 + sizeof_bool) in
  let cb := cb_push_ref cb GFX_COMMAND_APPLY_VIEWPORT offset in
  let cb := cb_mem_write cb offset (le_bytes 4 x) in
  let cb := cb_mem_write cb (offset + 4) (le_bytes 4 y) in
  let cb := cb_mem_write cb (offset + 8) (le_bytes 4 width) in
  let cb := cb_mem_write cb (offset + 12) (le_bytes 4 height) in
  let cb := cb_mem_write cb (offset + 16) (bool_bytes origin_top_left) in
  Ret (store_feed_cb g job_thread_index cb).

(** [rizz__cb_run_apply_viewport]: the call made and the pointer returned. *)
Definition rizz__cb_run_apply_viewport (mem : list Z) (buff : Z)
  : result (sg_frame_call * Z) :=
  let* b := mem_read mem buff 4 in
  let x := i32 (le_value b) in
  let* b := mem_read mem (buff + 4) 4 in
  let y := i32 (le_value b) in
  let* b := mem_read mem (buff + 8) 4 in
  let width := i32 (le_value b) in
  let* b := mem_read mem (buff + 12) 4 in
  let height := i32 (le_value b) in
  let* b := mem_read mem (buff + 16) 1 in
  let origin_top_left := bytes_bool b in
  Ret (Sg_apply_viewport x y width height origin_top_left, buff + 17).

(** [rizz__cb_apply_scissor_rect] *)
Definition rizz__cb_apply_scissor_rect (g : rizz__gfx) (job_thread_index : Z)
           (x y width height : Z) (origin_top_left : bool) : result rizz__gfx :=
  let* cb := feed_cb g job_thread_index in
  let* _ := cb_assert_recording cb in
  let '(offset, cb) := rizz__cb_alloc_params_buff cb (sizeof_int * 4 + sizeof_bool) in
  let cb := cb_push_ref cb GFX_COMMAND_APPLY_SCISSOR_RECT offset in
  let cb := cb_mem_write cb offset (le_bytes 4 x) in
  let cb := cb_mem_write cb (offset + 4) (le_bytes 4 y) in
  let cb := cb_mem_write cb (offset + 8) (le_bytes 4 width) in
  let cb := cb_mem_write cb (offset + 12) (le_bytes 4 height) in
  let cb := cb_mem_write cb (offset + 16) (bool_bytes origin_top_left) in
  Ret (store_feed_cb g job_thread_index cb).

(** [rizz__cb_run_apply_scissor_rect] *)
Definition rizz__cb_run_apply_scissor_rect (mem : list Z) (buff : Z)
  : result (sg_frame_call * Z) :=
  let* b := mem_read mem buff 4 in
  let x := i32 (le_value b) in
  let* b := mem_read mem (buff + 4) 4 in
  let y := i32 (le_value b) in
  let* b := mem_read mem (buff + 8) 4 in
  let width := i32 (le_value b) in
  let* b := mem_read mem (buff + 12) 4 in
  let height := i32 (le_value b) in
  let* b := mem_read mem (buff + 16) 1 in
  let origin_top_left := bytes_bool b in
  Ret (Sg_apply_scissor_rect x y width height origin_top_left, buff + 17).

(** [rizz__cb_apply_uniforms] *)
Definition rizz__cb_apply_uniforms (g : rizz__gfx) (job_thread_index : Z)
           (stage ub_index : Z) (data : list Z) (num_bytes : Z) : result rizz__gfx :=
  let* cb := feed_cb g job_thread_index in
  let* _ := cb_assert_recording cb in
  let '(offset, cb) :=
    rizz__cb_alloc_params_buff cb (i32 (sizeof_sg_shader_stage + sizeof_int * 2 + num_bytes)) in
  let cb := cb_push_ref cb GFX_COMMAND_APPLY_UNIFORMS offset in
  let cb := cb_mem_write cb offset (le_bytes 4 stage) in
  let cb := cb_mem_write cb (offset + 4) (le_bytes 4 ub_index) in
  let cb := cb_mem_write cb (offset + 8) (le_bytes 4 num_bytes) in
  let* bytes := user_read data num_bytes in
  let cb := cb_mem_write cb (offset + 12) bytes in
  Ret (store_feed_cb g job_thread_index cb).

(** [rizz__cb_run_apply_uniforms] *)
Definition rizz__cb_run_apply_uniforms (mem : list Z) (buff : Z)
  : result (sg_frame_call * Z) :=
  let* b := mem_read mem buff 4 in
  let stage := i32 (le_value b) in
  let* b := mem_read mem (buff + 4) 4 in
  let ub_index := i32 (le_value b) in
  let* b := mem_read mem (buff + 8) 4 in
  let num_bytes := i32 (le_value b) in
  let* data := mem_read mem (buff + 12) num_bytes in
  Ret (Sg_apply_uniforms stage ub_index data num_bytes, buff + 12 + num_bytes).

(** [rizz__cb_draw] *)
Definition rizz__cb_draw (g : rizz__gfx) (job_thread_index : Z)
           (base_element num_elements num_instances : Z) : result rizz__gfx :=
  let* cb := feed_cb g job_thread_index in
  let* _ := cb_assert_recording cb in
  let '(offset, cb) := rizz__cb_alloc_params_buff cb (sizeof_int * 3) in
  let cb := cb_push_ref cb GFX_COMMAND_DRAW offset in
  let cb := cb_mem_write cb offset (le_bytes 4 base_element) in
  let cb := cb_mem_write cb (offset + 4) (le_bytes 4 num_elements) in
  let cb := cb_mem_write cb (offset + 8) (le_bytes 4 num_instances) in
  Ret (store_feed_cb g job_thread_index cb).

(** [rizz__cb_run_draw] *)
Definition rizz__cb_run_draw (mem : list Z) (buff : Z) : result (sg_frame_call * Z) :=
  let* b := mem_read mem buff 4 in
  let base_element := i32 (le_value b) in
  let* b := mem_read mem (buff + 4) 4 in
  let num_elements := i32 (le_value b) in
  let* b := mem_read mem (buff + 8) 4 in
  let num_instances := i32 (le_value b) in
  Ret (Sg_draw base_element num_elements num_instances, buff + 12).

(** [rizz__cb_dispatch] *)
Definition rizz__cb_dispatch (g : rizz__gfx) (job_thread_index : Z)
           (thread_group_x thread_group_y thread_group_z : Z) : result rizz__gfx :=
  let* cb := feed_cb g job_thread_index in
  let* _ := cb_assert_recording cb in
  let '(offset, cb) := rizz__cb_alloc_params_buff cb (sizeof_int * 3) in
  let cb := cb_push_ref cb GFX_COMMAND_DISPATCH offset in
  let cb := cb_mem_write cb offset (le_bytes 4 thread_group_x) in
  let cb := cb_mem_write cb (offset + 4) (le_bytes 4 thread_group_y) in
  let cb := cb_mem_write cb (offset + 8) (le_bytes 4 thread_group_z) in
  Ret (store_feed_cb g job_thread_index cb).

(** [rizz__cb_run_dispatch] *)
Definition rizz__cb_run_dispatch (mem : list Z) (buff : Z) : result (sg_frame_call * Z) :=
  let* b := mem_read mem buff 4 in
  let thread_group_x := i32 (le_value b) in
  let* b := mem_read mem (buff + 4) 4 in
  let thread_group_y := i32 (le_value b) in
  let* b := mem_read mem (buff + 8) 4 in
  let thread_group_z := i32 (le_value b) in
  Ret (Sg_dispatch thread_group_x thread_group_y thread_group_z, buff + 12).

(** [rizz__cb_end_pass] *)
Definition rizz__cb_end_pass (g : rizz__gfx) (job_thread_index : Z) : result rizz__gfx :=
  let* cb := feed_cb g job_thread_index in
  let* _ := cb_assert_recording cb in
  let cb := cb_push_ref cb GFX_COMMAND_END_PASS (arena_count (cb_params_buff cb)) in
  Ret (store_feed_cb g job_thread_index cb).

(** [rizz__cb_run_end_pass] *)
Definition rizz__cb_run_end_pass (mem : list Z) (buff : Z) : result (sg_frame_call * Z) :=
  Ret (Sg_end_pass, buff).

(** [rizz__cb_update_buffer] *)
Definition rizz__cb_update_buffer (g : rizz__gfx) (sg : sg_state)
           (job_thread_index frame_index : Z)
           (buf : Z) (data_ptr : list Z) (data_size : Z) : result (rizz__gfx * sg_state) :=
  let* cb := feed_cb g job_thread_index in
  let* _ := cb_assert_recording cb in
  let '(offset, cb) :=
    rizz__cb_alloc_params_buff cb (i32 (sizeof_sg_buffer + data_size + sizeof_int)) in
  let cb := cb_push_ref cb GFX_COMMAND_UPDATE_BUFFER offset in
  let cb := cb_mem_write cb offset (le_bytes 4 buf) in
  let cb := cb_mem_write cb (offset + 4) (le_bytes 4 data_size) in
  let* data := user_read data_ptr data_size in
  let cb := cb_mem_write cb (offset + 8) data in
  let g := store_feed_cb g job_thread_index cb in
  let* buffers := stamp_used_frame (sg_buffers sg) buf frame_index in
  Ret (g, set_sg_buffers buffers sg).

(** [rizz__cb_run_update_buffer] *)
Definition rizz__cb_run_update_buffer (mem : list Z) (buff : Z)
  : result (sg_frame_call * Z) :=
  let* b := mem_read mem buff 4 in
  let buf := u32 (le_value b) in
  let* b := mem_read mem (buff + 4) 4 in
  let data_size := i32 (le_value b) in
  let* data := mem_read mem (buff + 8) data_size in
  Ret (Sg_update_buffer buf data data_size, buff + 8 + data_size).

(** The entries of [the__gfx.staged] for these calls. *)
Definition staged_call (g : rizz__gfx) (sg : sg_state) (job_thread_index frame_index : Z)
           (c : sg_frame_call) : result (rizz__gfx * sg_state) :=
  match c with
  | Sg_apply_viewport x y w h o =>
      let* g := rizz__cb_apply_viewport g job_thread_index x y w h o in Ret (g, sg)
  | Sg_apply_scissor_rect x y w h o =>
      let* g := rizz__cb_apply_scissor_rect g job_thread_index x y w h o in Ret (g, sg)
  | Sg_apply_uniforms stage ub_index data num_bytes =>
      let* g := rizz__cb_apply_uniforms g job_thread_index stage ub_index data num_bytes in
      Ret (g, sg)
  | Sg_draw b n i => let* g := rizz__cb_draw g job_thread_index b n i in Ret (g, sg)
  | Sg_dispatch x y z => let* g := rizz__cb_dispatch g job_thread_index x y z in Ret (g, sg)
  | Sg_end_pass => let* g := rizz__cb_end_pass g job_thread_index in Ret (g, sg)
  | Sg_update_buffer buf data data_size =>
      rizz__cb_update_buffer g sg job_thread_index frame_index buf data data_size
  end.

(** The command a staged call is recorded under. *)
Definition command_of (c : sg_frame_call) : rizz__gfx_command :=
  match c with
  | Sg_apply_viewport _ _ _ _ _ => GFX_COMMAND_APPLY_VIEWPORT
  | Sg_apply_scissor_rect _ _ _ _ _ => GFX_COMMAND_APPLY_SCISSOR_RECT
  | Sg_apply_uniforms _ _ _ _ => GFX_COMMAND_APPLY_UNIFORMS
  | Sg_draw _ _ _ => GFX_COMMAND_DRAW
  | Sg_dispatch _ _ _ => GFX_COMMAND_DISPATCH
  | Sg_end_pass => GFX_COMMAND_END_PASS
  | Sg_update_buffer _ _ _ => GFX_COMMAND_UPDATE_BUFFER
  end.

(** The rows of [k_run_cbs] for these commands; the other rows are not
    decoded here. *)
Definition run_frame_call (c : rizz__gfx_command) (mem : list Z) (buff : Z)
  : option (result (sg_frame_call * Z)) :=
  match c with
  | GFX_COMMAND_APPLY_VIEWPORT => Some (rizz__cb_run_apply_viewport mem buff)
  | GFX_COMMAND_APPLY_SCISSOR_RECT => Some (rizz__cb_run_apply_scissor_rect mem buff)
  | GFX_COMMAND_APPLY_UNIFORMS => Some (rizz__cb_run_apply_uniforms mem buff)
  | GFX_COMMAND_DRAW => Some (rizz__cb_run_draw mem buff)
  | GFX_COMMAND_DISPATCH => Some (rizz__cb_run_dispatch mem buff)
  | GFX_COMMAND_END_PASS => Some (rizz__cb_run_end_pass mem buff)
  | GFX_COMMAND_UPDATE_BUFFER => Some (rizz__cb_run_update_buffer mem buff)
  | _ => None
  end.

(** Staged calls made one after the other by one thread. *)
Fixpoint staged_calls (g : rizz__gfx) (sg : sg_state) (job_thread_index frame_index : Z)
         (calls : list sg_frame_call) : result (rizz__gfx * sg_state) :=
  match calls with
  | [] => Ret (g, sg)
  | c :: calls =>
      let* '(g, sg) := staged_call g sg job_thread_index frame_index c in
      staged_calls g sg job_thread_index frame_index calls
  end.

(** An [int] argument. *)
Definition is_int (v : Z) : bool := (-2147483648 <=? v) && (v <=? INT_MAX).

(** The arguments of a staged call as C passes them: [int]s, a 32-bit
    buffer id, and a data pointer with exactly the bytes that the size
    announces, small enough for the [int] that the allocation size is
    computed in. *)
Definition call_fits (c : sg_frame_call) : bool :=
  match c with
  | Sg_apply_viewport x y w h _ | Sg_apply_scissor_rect x y w h _ =>
      is_int x && is_int y && is_int w && is_int h
  | Sg_apply_uniforms stage ub_index data num_bytes =>
      is_int stage && is_int ub_index && (num_bytes =? Z.of_nat (length data))
      && (num_bytes <=? INT_MAX - 12)
  | Sg_draw a b c | Sg_dispatch a b c => is_int a && is_int b && is_int c
  | Sg_end_pass => true
  | Sg_update_buffer buf data data_size =>
      (0 <=? buf) && (buf <? 4294967296) && (data_size =? Z.of_nat (length data))
      && (data_size <=? INT_MAX - 8)
  end.

(** The buffers that the update calls of a sequence name are live in the
    backend. *)
Definition buffers_live (sg : sg_state) (calls : list sg_frame_call) : bool :=
  forallb (fun c => match c with
                    | Sg_update_buffer buf _ _ =>
                        match _sg_lookup (sg_buffers sg) buf with
                        | Some _ => true
                        | None => false
                        end
                    | _ => true
                    end) calls.

(** A command buffer between two executions: the command index and the
    stage order are [uint16_t] values, and the arena's elements lie in its
    memory. *)
Definition cb_ok (cb : rizz__gfx_cmdbuffer) : bool :=
  (0 <=? cb_cmd_idx cb) && (cb_cmd_idx cb <? 65536)
  && (0 <=? cb_stage_order cb) && (cb_stage_order cb <? 65536)
  && (0 <=? arena_count (cb_params_buff cb))
  && (arena_count (cb_params_buff cb) <=? Z.of_nat (length (arena_mem (cb_params_buff cb)))).

(** What one recording call does to a command buffer: one reference more,
    under the running stage's order and the next command index, pointing at
    the old end of the arena; the arena grows by [size] and keeps the bytes
    below its old end. *)
Definition cb_recorded (c : rizz__gfx_command) (size : Z)
           (cb cb' : rizz__gfx_cmdbuffer) : Prop :=
  cb_refs cb' = cb_refs cb ++ [mk_ref (sort_key (cb_stage_order cb) (cb_cmd_idx cb))
                                      (cb_index cb) c (arena_count (cb_params_buff cb))]
  /\ cb_cmd_idx cb' = cb_cmd_idx cb + 1
  /\ cb_running_stage cb' = cb_running_stage cb
  /\ cb_stage_order cb' = cb_stage_order cb
  /\ cb_index cb' = cb_index cb
  /\ arena_count (cb_params_buff cb') = arena_count (cb_params_buff cb) + size
  /\ arena_count (cb_params_buff cb') <= Z.of_nat (length (arena_mem (cb_params_buff cb')))
  /\ take (Z.to_nat (arena_count (cb_params_buff cb))) (arena_mem (cb_params_buff cb'))
     = take (Z.to_nat (arena_count (cb_params_buff cb))) (arena_mem (cb_params_buff cb)).

(** [rizz__imm_begin_stage] *)
Definition rizz__imm_begin_stage (g : rizz__gfx) (job_thread_index : Z) (stage : Z)
  : result (bool * rizz__gfx) :=
  let* lk := sx_lock (stage_lk g) in
  let g := set_stage_lk lk g in
  let* _stage := arr_at (stages g) (rizz_to_index stage) in
  let* _ := sx_assert (stage_state_eqb (stage_state _stage) STAGE_STATE_NONE) in
  let enabled := stage_enabled _stage in
  if negb enabled then
    Ret (false, set_stage_lk (sx_unlock lk) g)
  else
    let g := set_stages (arr_store (stages g) (rizz_to_index stage)
                                   (set_stage_state STAGE_STATE_SUBMITTING _stage)) g in
    let stage_name := stage_name _stage in
    let g := set_stage_lk (sx_unlock lk) g in
    let prof_name := stage_prof_name stage_name in
    let* g := rizz__cb_begin_profile_sample g job_thread_index prof_name 0 in
    Ret (true, g).

(** [rizz__imm_end_stage] *)
Definition rizz__imm_end_stage (g : rizz__gfx) (job_thread_index : Z) : result rizz__gfx :=
  rizz__cb_end_profile_sample g job_thread_index.

(** A command buffer after more recording by the same thread inside the
    same stage: the arena has grown and keeps the bytes below its old end. *)
Definition cb_extends (cb cb' : rizz__gfx_cmdbuffer) : Prop :=
  cb_running_stage cb' = cb_running_stage cb
  /\ cb_stage_order cb' = cb_stage_order cb
  /\ cb_index cb' = cb_index cb
  /\ arena_count (cb_params_buff cb) <= arena_count (cb_params_buff cb')
  /\ arena_count (cb_params_buff cb') <= Z.of_nat (length (arena_mem (cb_params_buff cb')))
  /\ take (Z.to_nat (arena_count (cb_params_buff cb))) (arena_mem (cb_params_buff cb'))
     = take (Z.to_nat (arena_count (cb_params_buff cb))) (arena_mem (cb_params_buff cb)).

(* ===================================================================== *)
(** ** A frame *)

(** The state between two frames: the stage lock is free, every stage is in
    state NONE, and the [n] command buffers of both sets are drained, outside
    any stage and well formed. *)
Definition frame_start (g : rizz__gfx) (n : Z) : bool :=
  negb (stage_lk g)
  && (Z.of_nat (length (cmd_buffers_feed g)) =? n)
  && (Z.of_nat (length (cmd_buffers_render g)) =? n)
  && forallb cb_drained (cmd_buffers_feed g)
  && forallb cb_drained (cmd_buffers_render g)
  && all_idle (cmd_buffers_feed g)
  && all_idle (cmd_buffers_render g)
  && forallb cb_ok (cmd_buffers_feed g)
  && forallb cb_ok (cmd_buffers_render g)
  && forallb (fun s => stage_state_eqb (stage_state s) STAGE_STATE_NONE) (stages g).

(** Keys in strictly increasing order. *)
Definition key_lt (a b : rizz__gfx_cmdbuffer_ref) : Prop := ref_key a < ref_key b.

(* ===================================================================== *)
(** ** Stream buffers *)

(** After [scenario_stream_buffer] a second stream buffer (id 10, 128
    bytes) is initialised, and the first one (id 9) is handed to the destroy
    queue. *)
Definition scenario_two_stream_buffers : rizz__gfx * sg_state :=
  let '(g, sg) := scenario_stream_buffer in
  let '(g, sg) := rizz__init_buffer g sg 10 SG_USAGE_STREAM 128 in
  match rizz__destroy_buffer g 9 with
  | Ret g => (g, sg)
  | Err _ => (g, sg)
  end.

(* ===================================================================== *)
(** ** The checker texture *)

(** [sg_image_type] and [sg_pixel_format], with the values that graphics.c
    names. *)
Inductive sg_image_type :=
  | _SG_IMAGETYPE_DEFAULT
  | SG_IMAGETYPE_2D
  | SG_IMAGETYPE_CUBE
  | SG_IMAGETYPE_3D
  | SG_IMAGETYPE_ARRAY.

Inductive sg_pixel_format :=
  | SG_PIXELFORMAT_NONE
  | SG_PIXELFORMAT_RGBA8
  | SG_PIXELFORMAT_RGBA16F
  | SG_PIXELFORMAT_R32F
  | SG_PIXELFORMAT_R16F.

(** The fields that [rizz__texture_create_checker] sets in the
    [sg_image_desc] it hands to [make_image]; [desc_pixels] are the
    [uint32_t] values behind [content.subimage[0][0].ptr]. *)
Record sg_image_desc := mk_image_desc {
  desc_width : Z;
  desc_height : Z;
  desc_num_mipmaps : Z;
  desc_pixel_format : sg_pixel_format;
  desc_pixels : list Z;
  desc_size : Z
}.

(** [rizz_texture_info] *)
Record rizz_texture_info := mk_texture_info {
  ti_type : sg_image_type;
  ti_format : sg_pixel_format;
  ti_mem_size_bytes : Z;
  ti_width : Z;
  ti_height : Z;
  ti_layers : Z;
  ti_mips : Z;
  ti_bpp : Z
}.

Definition sizeof_uint32_t : Z := 4.

(** The store [pixels[i] = v] into the allocated block. *)
Definition px_store (pixels : list Z) (i v : Z) : result (list Z) :=
  if (i <? 0) || (Z.of_nat (length pixels) <=? i) then Err OutOfBounds
  else Ret (<[Z.to_nat i := v]> pixels).

(** The first loop of [rizz__texture_create_checker]: the tile origins
    [poss[0 .. num_tiles)], from the cursor [(_x, _y)]. *)
Fixpoint checker_poss (n : nat) (checker_size size _x _y : Z) : list (Z * Z) :=
  match n with
  | O => []
  | S n =>
      let p := (_x, _y) in
      let _x := _x + checker_size in
      if size <=? _x
      then p :: checker_poss n checker_size size 0 (_y + checker_size)
      else p :: checker_poss n checker_size size _x _y
  end.

(** [for (int x = p.x; x < end_x; x++) pixels[x + y * size] = c.n;] with
    [n] iterations left. *)
Fixpoint checker_row (n : nat) (x y size c : Z) (pixels : list Z) : result (list Z) :=
  match n with
  | O => Ret pixels
  | S n =>
      let pixel := x + y * size in
      let* pixels := px_store pixels pixel c in
      checker_row n (x + 1) y size c pixels
  end.

(** [for (int y = p.y; y < end_y; y++)] around it, with [n] rows left. *)
Fixpoint checker_tile (n : nat) (y : Z) (px end_x size c : Z) (pixels : list Z)
  : result (list Z) :=
  match n with
  | O => Ret pixels
  | S n =>
      let* pixels := checker_row (Z.to_nat (end_x - px)) px y size c pixels in
      checker_tile n (y + 1) px end_x size c pixels
  end.

(** The second loop over the tiles, from tile [i] with [n] tiles left. *)
Fixpoint checker_tiles (n : nat) (i : Z) (tiles_x checker_size size : Z)
         (colors : list Z) (poss : list (Z * Z)) (color_idx : Z) (pixels : list Z)
  : result (list Z) :=
  match n with
  | O => Ret pixels
  | S n =>
      let* p := arr_at poss i in
      let* c := arr_at colors color_idx in
      let color_idx :=
        if (i =? 0) || negb (Z.rem (i + 1) tiles_x =? 0)
        then (if color_idx =? 0 then 1 else 0)
        else color_idx in
      let end_x := fst p + checker_size in
      let end_y := snd p + checker_size in
      let* pixels :=
        checker_tile (Z.to_nat (end_y - snd p)) (snd p) (fst p) end_x size c pixels in
      checker_tiles n (i + 1) tiles_x checker_size size colors poss color_idx pixels
  end.

(** [rizz__texture_create_checker]: the descriptor handed to [make_image]
    and the texture info.  [junk] is what the freshly allocated pixel block
    holds.  The result is [None] where [size % checker_size] divides by
    zero, which C leaves undefined; the [int] arithmetic is exact as long as
    [size * size * 4] fits an [int]. *)
Definition rizz__texture_create_checker (checker_size size : Z) (colors : list Z)
           (junk : nat -> Z) : option (result (sg_image_desc * rizz_texture_info)) :=
  match sx_assert (Z.rem size 4 =? 0) with
  | Err f => Some (Err f)
  | Ret _ =>
      if checker_size =? 0 then None
      else Some (
        let* _ := sx_assert (Z.rem size checker_size =? 0) in
        let size_bytes := size * size * sizeof_uint32_t in
        let pixels := List.map junk (seq 0 (Z.to_nat (size * size))) in
        (* split into tiles and color them *)
        let tiles_x := Z.quot size checker_size in
        let tiles_y := Z.quot size checker_size in
        let num_tiles := tiles_x * tiles_y in
        let poss := checker_poss (Z.to_nat num_tiles) checker_size size 0 0 in
        let* pixels :=
          checker_tiles (Z.to_nat num_tiles) 0 tiles_x checker_size size colors poss 0
                        pixels in
        Ret (mk_image_desc size size 1 SG_PIXELFORMAT_RGBA8 pixels size_bytes,
             mk_texture_info SG_IMAGETYPE_2D SG_PIXELFORMAT_RGBA8 size_bytes
                             size size 1 1 32))
  end.

(** The colour index of the tile in column [tx] and row [ty] when a row has
    [tiles] tiles: a checkerboard for an even [tiles], columns for an odd
    one. *)
Definition checker_index (tiles tx ty : Z) : Z :=
  if Z.even tiles
  then (if Z.even (tx + ty) then 0 else 1)
  else (if Z.even tx then 0 else 1).

(* ===================================================================== *)
(** * Properties *)

(** ** Basic facts about outcomes, arrays and handles *)

Lemma bind_Ret {A B} (m : result A) (k : A -> result B) (b : B) :
  bind m k = Ret b -> exists a, m = Ret a /\ k a = Ret b.
Proof. destruct m as [a|f]; simpl; [eauto | discriminate]. Qed.

Lemma sx_assert_Ret (c : bool) (u : unit) : sx_assert c = Ret u -> c = true.
Proof. destruct c; [reflexivity | discriminate]. Qed.

Lemma sx_assert_true (c : bool) : c = true -> sx_assert c = Ret tt.
Proof. intros ->. reflexivity. Qed.

Lemma arr_at_Ret {A} (a : list A) (i : Z) (x : A) :
  arr_at a i = Ret x <-> 0 <= i /\ a !! Z.to_nat i = Some x.
Proof.
  unfold arr_at. destruct (Z.ltb_spec i 0).
  - split; [discriminate | lia].
  - destruct (a !! Z.to_nat i) as [y|]; split.
    + intros [= ->]. split; [lia | reflexivity].
    + intros [_ [= ->]]. reflexivity.
    + discriminate.
    + intros [_ [=]].
  Qed.

Lemma arr_at_nat {A} (a : list A) (i : nat) (x : A) :
  a !! i = Some x -> arr_at a (Z.of_nat i) = Ret x.
Proof. intros H. apply arr_at_Ret. rewrite Nat2Z.id. split; [lia | exact H]. Qed.

Lemma arr_store_length {A} (a : list A) (i : Z) (x : A) :
  length (arr_store a i x) = length a.
Proof. unfold arr_store. destruct (i <? 0); [reflexivity | apply length_insert]. Qed.

Lemma arr_store_lookup_ne {A} (a : list A) (i : Z) (x : A) (j : nat) :
  0 <= i -> Z.to_nat i <> j -> arr_store a i x !! j = a !! j.
Proof.
  intros Hi Hne. unfold arr_store. destruct (Z.ltb_spec i 0); [lia|].
  apply list_lookup_insert_ne. exact Hne.
Qed.

Lemma arr_store_lookup_eq {A} (a : list A) (i : Z) (x y : A) :
  0 <= i -> a !! Z.to_nat i = Some y -> arr_store a i x !! Z.to_nat i = Some x.
Proof.
  intros Hi Hy. unfold arr_store. destruct (Z.ltb_spec i 0); [lia|].
  apply list_lookup_insert_eq. eapply lookup_lt_Some. exact Hy.
Qed.

Lemma rizz_to_index_id (i : Z) :
  0 <= i < 2147483647 -> rizz_to_index (rizz_to_id i) = i.
Proof.
  intros Hi. unfold rizz_to_index, rizz_to_id, i32, u32.
  rewrite (Z.mod_small i) by lia.
  rewrite (Z.mod_small (i + 1)) by lia.
  rewrite (Z.mod_small (i + 1 + 2147483648)) by lia.
  replace (i + 1 + 2147483648 - 2147483648 - 1 + 2147483648) with (i + 2147483648) by lia.
  rewrite Z.mod_small by lia. lia.
Qed.

Lemma rizz_to_index_small (id : Z) :
  0 <= id < 2147483648 -> rizz_to_index id = id - 1.
Proof.
  intros Hi. unfold rizz_to_index, i32.
  rewrite (Z.mod_small (id + 2147483648)) by lia.
  replace (id + 2147483648 - 2147483648 - 1 + 2147483648) with (id - 1 + 2147483648) by lia.
  rewrite Z.mod_small by lia. lia.
Qed.

Lemma set_stage_lk_same (g : rizz__gfx) : set_stage_lk (stage_lk g) g = g.
Proof. destruct g; reflexivity. Qed.

Section StageFacts.

Variable sx_hash_fnv32_str : string -> Z.

Lemma find_scan_None (rest : list rizz__gfx_stage) (i h : Z) :
  (forall s, s ∈ rest -> stage_name_hash s <> h) -> find_scan rest i h = None.
Proof.
  revert i. induction rest as [|s rest IH]; intros i Hno; simpl; [reflexivity|].
  destruct (Z.eqb_spec (stage_name_hash s) h) as [E|_].
  - exfalso. apply (Hno s); [left | exact E].
  - apply IH. intros s' Hs'. apply Hno. right. exact Hs'.
Qed.

(** C10: a name whose hash matches no registered stage makes
    [rizz__stage_find] return the handle with id 0xffffffff (the [-1] of
    the source as a [uint32_t]), releasing the lock and changing nothing;
    that id is not the null handle 0, and its test against 0, the test the
    stage operations use for "no stage", is false. *)
Theorem stage_find_not_found (g : rizz__gfx) (name : string) :
  stage_lk g = false ->
  forallb (fun s => negb (stage_name_hash s =? u32 (sx_hash_fnv32_str name)))
          (stages g) = true ->
  rizz__stage_find sx_hash_fnv32_str g name = Ret (4294967295, g)
  /\ 4294967295 <> 0
  /\ (4294967295 =? 0) = false.
Proof.
  intros Hlk Hno. split; [|split; [lia | reflexivity]].
  unfold rizz__stage_find. rewrite Hlk. simpl.
  rewrite find_scan_None.
  - unfold sx_unlock. rewrite <- Hlk at 1. rewrite set_stage_lk_same. reflexivity.
  - rewrite forallb_forall in Hno. intros s Hs E.
    apply list_elem_of_In, Hno in Hs. rewrite E, Z.eqb_refl in Hs. discriminate.
Qed.

End StageFacts.

(** ** Beginning a disabled stage *)

(** C7: take a stage that is disabled.  [rizz__cb_begin_stage] asserts
    first that the stage is in state NONE; from there it returns [false] and
    leaves the whole of [g_gfx] as it was: the stage stays in state NONE, no
    command buffer gets a reference, a parameter byte or a running stage, and
    the lock is released again.  In any other state the assertion fires.  So
    whenever the call returns at all, it returns [false] with the state
    unchanged. *)
Theorem begin_stage_disabled (g : rizz__gfx) (job_thread_index stage : Z)
        (_stage : rizz__gfx_stage) :
  stage_lk g = false ->
  arr_at (stages g) (rizz_to_index stage) = Ret _stage ->
  stage_enabled _stage = false ->
  (stage_state _stage = STAGE_STATE_NONE ->
   rizz__cb_begin_stage g job_thread_index stage = Ret (false, g))
  /\ (stage_state _stage <> STAGE_STATE_NONE ->
      rizz__cb_begin_stage g job_thread_index stage = Err (AssertFailed []))
  /\ (forall started g',
        rizz__cb_begin_stage g job_thread_index stage = Ret (started, g') ->
        started = false /\ g' = g /\ stage_state _stage = STAGE_STATE_NONE).
Proof.
  intros Hlk Hst Hdis.
  assert (E : rizz__cb_begin_stage g job_thread_index stage
              = if stage_state_eqb (stage_state _stage) STAGE_STATE_NONE
                then Ret (false, g) else Err (AssertFailed [])).
  { unfold rizz__cb_begin_stage. rewrite Hlk. simpl.
    rewrite Hst. simpl.
    destruct (stage_state_eqb (stage_state _stage) STAGE_STATE_NONE); simpl;
      [|reflexivity].
    rewrite Hdis. simpl. destruct g; simpl in *; subst; reflexivity. }
  rewrite E. split; [|split].
  - intros ->. reflexivity.
  - intros Hne. destruct (stage_state _stage); try reflexivity. contradiction.
  - intros started g' E'.
    destruct (stage_state _stage); simpl in E'; try discriminate.
    injection E' as <- <-. auto.
Qed.

(** ** Stage-dependency validation *)

Lemma stage_state_eqb_spec (a b : rizz__gfx_stage_state) :
  stage_state_eqb a b = true <-> a = b.
Proof. destruct a, b; simpl; split; congruence. Qed.

Lemma stage_state_eqb_false (a b : rizz__gfx_stage_state) :
  stage_state_eqb a b = false <-> a <> b.
Proof. destruct a, b; simpl; split; congruence. Qed.


Lemma validate_stage_ok stages s :
  (stage_parent s <> 0 -> exists p, arr_at stages (rizz_to_index (stage_parent s)) = Ret p) ->
  (forall p, ~ dep_violation stages s p) ->
  validate_stage stages s = Ret tt.
Proof.
  intros Hin Hno. unfold validate_stage.
  destruct (stage_state_eqb (stage_state s) STAGE_STATE_DONE) eqn:Ed; [|reflexivity].
  destruct (Z.eqb_spec (stage_parent s) 0) as [|Hp]; [reflexivity|]. simpl.
  destruct (Hin Hp) as [p Hat]. rewrite Hat. simpl.
  destruct (stage_state_eqb (stage_state p) STAGE_STATE_DONE) eqn:Ep; [reflexivity|].
  exfalso. apply (Hno p). repeat split; try assumption.
  - apply stage_state_eqb_spec. exact Ed.
  - apply stage_state_eqb_false. exact Ep.
Qed.

Lemma validate_stages_ok stages rest :
  (forall s, s ∈ rest -> stage_parent s <> 0 ->
             exists p, arr_at stages (rizz_to_index (stage_parent s)) = Ret p) ->
  (forall s p, s ∈ rest -> ~ dep_violation stages s p) ->
  validate_stages stages rest = Ret tt.
Proof.
  induction rest as [|s rest IH]; intros Hin Hno; simpl; [reflexivity|].
  rewrite validate_stage_ok.
  - simpl. apply IH.
    + intros s' Hs'. apply Hin. right. exact Hs'.
    + intros s' p Hs'. apply Hno. right. exact Hs'.
  - apply Hin. left.
  - intros p. apply Hno. left.
Qed.


Lemma parents_in_table_spec (stages : list rizz__gfx_stage) :
  parents_in_table stages = true ->
  forall s, s ∈ stages -> stage_parent s <> 0 ->
            exists p, arr_at stages (rizz_to_index (stage_parent s)) = Ret p.
Proof.
  unfold parents_in_table. rewrite forallb_forall. intros H s Hs Hp.
  apply list_elem_of_In, H in Hs. apply orb_true_iff in Hs as [E|E].
  - apply Z.eqb_eq in E. contradiction.
  - destruct (arr_at stages (rizz_to_index (stage_parent s))) as [p|]; [eauto | discriminate].
Qed.


(** ** The order key written by registration *)

Lemma land_depth_mask_small (x : Z) :
  0 <= x < 1024 -> Z.land x STAGE_ORDER_DEPTH_MASK = 0.
Proof.
  intros Hx. apply Z.bits_inj'. intros n Hn.
  rewrite Z.land_spec, Z.bits_0.
  destruct (Z.ltb_spec n 10) as [Hlt|Hge].
  - assert (Hm : Z.testbit STAGE_ORDER_DEPTH_MASK n = false).
    { change STAGE_ORDER_DEPTH_MASK with (Z.shiftl 63 10). apply Z.shiftl_spec_low. lia. }
    rewrite Hm. apply andb_false_r.
  - assert (Hb : Z.testbit x n = false).
    { destruct (Z.eq_dec x 0) as [->|Hnz]; [apply Z.bits_0|].
      apply Z.bits_above_log2; [lia|].
      assert (Z.log2 x < 10) by (apply Z.log2_lt_pow2; lia). lia. }
    rewrite Hb. reflexivity.
Qed.

Lemma land_id_mask_range (x : Z) : 0 <= Z.land x STAGE_ORDER_ID_MASK < 1024.
Proof.
  change STAGE_ORDER_ID_MASK with (Z.ones 10). rewrite Z.land_ones by lia.
  apply Z.mod_pos_bound. lia.
Qed.

Lemma shiftr_depth_bits_range (x : Z) :
  0 <= x < 65536 -> 0 <= Z.shiftr x STAGE_ORDER_DEPTH_BITS < 1024.
Proof.
  intros Hx. unfold STAGE_ORDER_DEPTH_BITS. rewrite Z.shiftr_div_pow2 by lia.
  change (2 ^ 6) with 64. split.
  - apply Z.div_pos; lia.
  - apply Z.div_lt_upper_bound; lia.
Qed.

(** What the order computation of [rizz__stage_register] yields for a
    parent whose order key is a [uint16_t]: the parent's depth reads as 0,
    the child's depth 1 is masked away, the key is the table index. *)
Lemma register_order_value (parent_order index : Z) :
  0 <= parent_order < 65536 ->
  let parent_depth :=
    u16 (Z.land (Z.shiftr parent_order STAGE_ORDER_DEPTH_BITS) STAGE_ORDER_DEPTH_MASK) in
  let depth := u16 (parent_depth + 1) in
  parent_depth = 0 /\ depth = 1
  /\ u16 (Z.lor (Z.land (Z.shiftl depth STAGE_ORDER_DEPTH_BITS) STAGE_ORDER_DEPTH_MASK)
                (u16 (Z.land index STAGE_ORDER_ID_MASK)))
     = Z.land index STAGE_ORDER_ID_MASK.
Proof.
  intros Hp. simpl.
  rewrite (land_depth_mask_small _ (shiftr_depth_bits_range _ Hp)).
  change (u16 0) with 0. change (u16 (0 + 1)) with 1.
  split; [reflexivity|]. split; [reflexivity|].
  change (Z.land (Z.shiftl 1 STAGE_ORDER_DEPTH_BITS) STAGE_ORDER_DEPTH_MASK) with 0.
  pose proof (land_id_mask_range index) as Hr.
  unfold u16. rewrite (Z.mod_small (Z.land index STAGE_ORDER_ID_MASK)) by lia.
  rewrite Z.lor_0_l. apply Z.mod_small. lia.
Qed.

Lemma order_depth_of_index (index : Z) :
  order_depth (Z.land index STAGE_ORDER_ID_MASK) = 0.
Proof.
  unfold order_depth. rewrite <- Z.land_assoc.
  change (Z.land STAGE_ORDER_ID_MASK STAGE_ORDER_DEPTH_MASK) with 0.
  rewrite Z.land_0_r. reflexivity.
Qed.

(** ** The invariant of registered stage tables *)

Lemma wf_stages_from_lookup (n i0 : Z) (st : list rizz__gfx_stage) :
  wf_stages_from n i0 st = true <->
  forall (j : nat) s, st !! j = Some s -> wf_stage n (i0 + Z.of_nat j) s = true.
Proof.
  revert i0. induction st as [|x st IH]; intros i0; simpl.
  - split; [intros _ j s H; inversion H | reflexivity].
  - rewrite andb_true_iff, IH. split.
    + intros [Hx Hst] [|j] s H; simpl in H.
      * injection H as <-. rewrite Z.add_0_r. exact Hx.
      * replace (i0 + Z.of_nat (S j)) with (i0 + 1 + Z.of_nat j) by lia. eauto.
    + intros H. split.
      * specialize (H O x eq_refl). rewrite Z.add_0_r in H. exact H.
      * intros j s Hj. specialize (H (S j) s Hj).
        replace (i0 + Z.of_nat (S j)) with (i0 + 1 + Z.of_nat j) in H by lia. exact H.
Qed.

Lemma wf_stages_spec (st : list rizz__gfx_stage) :
  wf_stages st = true <->
  Z.of_nat (length st) <= MAX_STAGES
  /\ forall (j : nat) s, st !! j = Some s ->
       wf_stage (Z.of_nat (length st)) (Z.of_nat j) s = true.
Proof.
  unfold wf_stages. rewrite andb_true_iff, Z.leb_le, wf_stages_from_lookup. reflexivity.
Qed.

Lemma wf_stage_spec (n i : Z) (s : rizz__gfx_stage) :
  wf_stage n i s = true <->
  0 <= stage_next s <= i /\ 0 <= stage_child s <= n /\ 0 <= stage_parent s <= i
  /\ 0 <= stage_order s < 65536.
Proof.
  unfold wf_stage. rewrite !andb_true_iff, !Z.leb_le, Z.ltb_lt. tauto.
Qed.

Lemma arr_store_pointwise {A} (P : nat -> A -> Prop) (a : list A) (i : Z) (x : A) :
  (forall j s, a !! j = Some s -> P j s) ->
  (0 <= i -> P (Z.to_nat i) x) ->
  forall j s, arr_store a i x !! j = Some s -> P j s.
Proof.
  intros Ha Hx j s. unfold arr_store. destruct (Z.ltb_spec i 0); [apply Ha|].
  rewrite list_lookup_insert_Some. intros [(<- & <- & _)|(_ & H')]; [apply Hx; lia | eauto].
Qed.

Section StageInvariant.

Variable sx_hash_fnv32_str : string -> Z.

Lemma add_child_pointwise (P : nat -> rizz__gfx_stage -> Prop)
      (st : list rizz__gfx_stage) (parent child : Z) (st' : list rizz__gfx_stage) :
  (forall j s v, P j s -> P j (set_stage_prev v s)) ->
  (forall j s, P j s -> P j (set_stage_child child s)) ->
  (length st <= Z.to_nat (rizz_to_index child))%nat ->
  rizz__stage_add_child st parent child = Ret st' ->
  (forall j s, st !! j = Some s -> P j s) ->
  length st' = length st /\ forall j s, st' !! j = Some s -> P j s.
Proof.
  intros Hprev Hchild Hout E Hst. unfold rizz__stage_add_child in E.
  apply bind_Ret in E as (_ & _ & E). apply bind_Ret in E as (_ & _ & E).
  apply bind_Ret in E as (_parent & Hpar & E).
  apply bind_Ret in E as (st1 & E1 & E).
  apply bind_Ret in E as (_parent' & Hpar' & E). injection E as <-.
  assert (H1 : length st1 = length st /\ forall j s, st1 !! j = Some s -> P j s).
  { destruct (negb (stage_child _parent =? 0)).
    - apply bind_Ret in E1 as (fc & Hfc & E1).
      rewrite (lookup_ge_None_2 _ _) in E1 by (rewrite arr_store_length; exact Hout).
      injection E1 as <-. split; [apply arr_store_length|].
      apply arr_at_Ret in Hfc as [Hi Hfc].
      apply arr_store_pointwise; [exact Hst|]. intros _. apply Hprev. eauto.
    - injection E1 as <-. split; [reflexivity | exact Hst]. }
  destruct H1 as [Hlen H1]. split; [rewrite arr_store_length; exact Hlen|].
  apply arr_at_Ret in Hpar' as [Hi Hp'].
  apply arr_store_pointwise; [exact H1|]. intros _. apply Hchild. eauto.
Qed.

(** What a successful registration returns: the handle [count + 1] and
    the table with one more stage, whose order key is the table index under
    the id mask. *)
Lemma rizz__stage_register_inv (st : list rizz__gfx_stage) (name : string)
      (parent h : Z) (st' : list rizz__gfx_stage) :
  wf_stages st = true ->
  0 <= parent ->
  rizz__stage_register sx_hash_fnv32_str st name parent = Ret (h, st') ->
  let count := Z.of_nat (length st) in
  count < MAX_STAGES /\ h = count + 1 /\ parent <= count
  /\ exists st1,
       st' = st1 ++ [mk_stage (sx_strcpy 32 name) (u32 (sx_hash_fnv32_str name))
                              STAGE_STATE_NONE parent 0 0 0
                              (Z.land count STAGE_ORDER_ID_MASK) true true]
       /\ length st1 = length st
       /\ forall (j : nat) s, st1 !! j = Some s ->
            wf_stage (count + 1) (Z.of_nat j) s = true.
Proof.
  intros Hwf Hpar0 E count.
  apply wf_stages_spec in Hwf as [Hmax Hwf]. unfold MAX_STAGES in *.
  unfold rizz__stage_register in E. fold count in E.
  apply bind_Ret in E as (u1 & Ha1 & E). apply sx_assert_Ret in Ha1.
  apply bind_Ret in E as (u2 & Ha2 & E). apply sx_assert_Ret in Ha2.
  apply Z.ltb_lt in Ha2. unfold MAX_STAGES in Ha2.
  assert (Hu : u32 count = count) by (unfold u32; apply Z.mod_small; lia).
  rewrite Hu in Ha1.
  assert (Hid : rizz_to_id count = count + 1).
  { unfold rizz_to_id. rewrite Hu. unfold u32. apply Z.mod_small. lia. }
  assert (Hidx : rizz_to_index (rizz_to_id count) = count)
    by (apply rizz_to_index_id; lia).
  assert (Hple : parent <= count).
  { apply orb_true_iff in Ha1 as [H|H]; [apply Z.eqb_eq in H; lia | apply Z.leb_le in H; lia]. }
  apply bind_Ret in E as (st1 & E1 & E).
  apply bind_Ret in E as (depth & Ed & E).
  apply bind_Ret in E as (u3 & Ha3 & E). injection E as <- <-.
  assert (Hmono : forall (j : nat) s, st !! j = Some s ->
                    wf_stage (count + 1) (Z.of_nat j) s = true).
  { intros j s Hj. specialize (Hwf j s Hj). fold count in Hwf.
    apply wf_stage_spec in Hwf. apply wf_stage_spec. lia. }
  assert (H1 : length st1 = length st
               /\ forall (j : nat) s, st1 !! j = Some s ->
                    wf_stage (count + 1) (Z.of_nat j) s = true).
  { destruct (Z.eqb_spec parent 0) as [->|Hnz]; simpl in E1.
    - injection E1 as <-. split; [reflexivity | exact Hmono].
    - eapply (add_child_pointwise
                (fun j s => wf_stage (count + 1) (Z.of_nat j) s = true));
        [| | | exact E1 | exact Hmono].
      + intros j s v H. exact H.
      + intros j s H. apply wf_stage_spec in H. apply wf_stage_spec. simpl.
        rewrite Hid. lia.
      + rewrite Hidx. unfold count. lia. }
  destruct H1 as [Hlen H1].
  assert (Hord : u16 (Z.lor (Z.land (Z.shiftl depth STAGE_ORDER_DEPTH_BITS)
                                    STAGE_ORDER_DEPTH_MASK)
                            (u16 (Z.land (rizz_to_index (rizz_to_id count))
                                         STAGE_ORDER_ID_MASK)))
                 = Z.land count STAGE_ORDER_ID_MASK).
  { rewrite Hidx. destruct (Z.eqb_spec parent 0) as [->|Hnz]; simpl in Ed.
    - injection Ed as <-. simpl.
      pose proof (land_id_mask_range count) as Hr.
      unfold u16. rewrite (Z.mod_small (Z.land count STAGE_ORDER_ID_MASK)) by lia.
      apply Z.mod_small. lia.
    - apply bind_Ret in Ed as (p & Hp & Ed). injection Ed as <-.
      apply arr_at_Ret in Hp as [Hi Hp]. specialize (H1 _ _ Hp).
      apply wf_stage_spec in H1 as (_ & _ & _ & Ho).
      apply (register_order_value (stage_order p) count Ho). }
  split; [lia|]. split; [exact Hid|]. split; [exact Hple|].
  exists st1. split; [|split; [exact Hlen | exact H1]].
  unfold set_stage_order. simpl. rewrite Hord. reflexivity.
Qed.

(** Registration keeps the invariant. *)
Lemma rizz__stage_register_wf (st : list rizz__gfx_stage) (name : string)
      (parent h : Z) (st' : list rizz__gfx_stage) :
  wf_stages st = true ->
  0 <= parent ->
  rizz__stage_register sx_hash_fnv32_str st name parent = Ret (h, st') ->
  wf_stages st' = true.
Proof.
  intros Hwf Hp E.
  destruct (rizz__stage_register_inv _ _ _ _ _ Hwf Hp E)
    as (Hmax & _ & Hple & st1 & -> & Hlen & H1).
  unfold MAX_STAGES in Hmax.
  apply wf_stages_spec. rewrite length_app. simpl. split; [unfold MAX_STAGES; lia|].
  intros j s Hj.
  replace (Z.of_nat (length st1 + 1)) with (Z.of_nat (length st) + 1) by lia.
  apply lookup_app_Some in Hj as [Hj|[Hge Hj]]; [eauto|].
  destruct (j - length st1)%nat as [|k] eqn:Ek; simpl in Hj; [|inversion Hj].
  injection Hj as <-. apply wf_stage_spec. simpl.
  pose proof (land_id_mask_range (Z.of_nat (length st))). lia.
Qed.

(** The depth field of every newly registered stage is 0, whatever its
    parent: the shift by [STAGE_ORDER_DEPTH_BITS] leaves nothing under
    [STAGE_ORDER_DEPTH_MASK]. *)
Lemma rizz__stage_register_depth_zero (st : list rizz__gfx_stage) (name : string)
      (parent h : Z) (st' : list rizz__gfx_stage) :
  wf_stages st = true ->
  0 <= parent ->
  rizz__stage_register sx_hash_fnv32_str st name parent = Ret (h, st') ->
  exists s, st' !! length st = Some s /\ order_depth (stage_order s) = 0.
Proof.
  intros Hwf Hp E.
  destruct (rizz__stage_register_inv _ _ _ _ _ Hwf Hp E)
    as (_ & _ & _ & st1 & -> & Hlen & _).
  eexists. split.
  - rewrite lookup_app_r by lia. rewrite Hlen, Nat.sub_diag. reflexivity.
  - simpl. apply order_depth_of_index.
Qed.

End StageInvariant.

(** C2 (what the code does): registering "shadow" as a root and "opaque"
    under it succeeds and leaves both order keys with depth field 0, so the
    child's depth is not the parent's plus one; and a chain of 65 stages,
    each the child of the one before, registers without any assertion, the
    deepest stage again with depth field 0. *)
Theorem stage_register_depth_not_recorded (hash : string -> Z) :
  (exists root child st1 st2 s_root s_child,
      rizz__stage_register hash [] "shadow" 0 = Ret (root, st1)
      /\ rizz__stage_register hash st1 "opaque" root = Ret (child, st2)
      /\ st2 !! Z.to_nat (rizz_to_index root) = Some s_root
      /\ st2 !! Z.to_nat (rizz_to_index child) = Some s_child
      /\ stage_parent s_child = root
      /\ order_depth (stage_order s_root) = 0
      /\ order_depth (stage_order s_child) = 0)
  /\ (exists deepest st s,
        register_chain hash 65 = Ret (deepest, st)
        /\ length st = 65%nat
        /\ st !! Z.to_nat (rizz_to_index deepest) = Some s
        /\ order_depth (stage_order s) = 0).
Proof.
  split.
  - do 6 eexists. repeat split; reflexivity.
  - assert (E : match register_chain hash 65 with
                | Ret (deepest, st) =>
                    length st = 65%nat
                    /\ option_map (fun s => order_depth (stage_order s))
                                  (st !! Z.to_nat (rizz_to_index deepest)) = Some 0
                | Err _ => False
                end) by (vm_compute; split; reflexivity).
    destruct (register_chain hash 65) as [[deepest st]|f]; [|contradiction].
    destruct E as [Hlen Hd].
    destruct (st !! Z.to_nat (rizz_to_index deepest)) as [s|] eqn:Es; [|discriminate].
    injection Hd as Hd. exists deepest, st, s. auto.
Qed.

(** ** Enable and disable: a single-level cascade *)

Lemma handle_of_index (id : Z) :
  0 <= id < 4294967296 -> 0 <= rizz_to_index id < 2147483647 ->
  id = rizz_to_index id + 1.
Proof.
  unfold rizz_to_index, i32. intros H1 H2.
  destruct (Z.ltb_spec id 2147483648) as [Hlt|Hge].
  - rewrite (Z.mod_small (id + 2147483648)) in * by lia.
    replace (id + 2147483648 - 2147483648 - 1 + 2147483648)
      with (id - 1 + 2147483648) in * by lia.
    destruct (Z.eq_dec id 0) as [->|Hn].
    + exfalso. change ((0 - 1 + 2147483648) mod 4294967296 - 2147483648) with (-1) in H2.
      lia.
    + rewrite Z.mod_small in * by lia. lia.
  - exfalso.
    assert (E1 : (id + 2147483648) mod 4294967296 = id - 2147483648).
    { symmetry. apply (Z.mod_unique _ _ 1); lia. }
    rewrite E1 in H2.
    destruct (Z.eq_dec id 2147483648) as [->|Hn].
    + change ((2147483648 - 2147483648 - 2147483648 - 1 + 2147483648) mod 4294967296
              - 2147483648) with 2147483647 in H2.
      lia.
    + assert (E2 : (id - 2147483648 - 2147483648 - 1 + 2147483648) mod 4294967296
                   = id - 2147483648 - 1).
      { symmetry. apply (Z.mod_unique _ _ 0); lia. }
      rewrite E2 in H2. lia.
Qed.

Lemma enable_children_pointwise (P : nat -> rizz__gfx_stage -> Prop) :
  (forall j s, P j s -> P j (set_stage_enabled (stage_single_enabled s) s)) ->
  forall fuel st c st',
    enable_children fuel st c = Ret st' ->
    (forall j s, st !! j = Some s -> P j s) ->
    length st' = length st /\ forall j s, st' !! j = Some s -> P j s.
Proof.
  intros HP fuel. induction fuel as [|fuel IH]; intros st c st' E Hst; simpl in E.
  - destruct (c =? 0); [|discriminate]. injection E as <-. auto.
  - destruct (c =? 0); [injection E as <-; auto|].
    apply bind_Ret in E as (_child & Hc & E).
    apply bind_Ret in E as (c' & _ & E).
    apply arr_at_Ret in Hc as [Hi Hc].
    apply IH in E as [Hlen E].
    + split; [rewrite Hlen; apply arr_store_length | exact E].
    + apply arr_store_pointwise; [exact Hst|]. intros _. apply HP. eauto.
Qed.

Lemma disable_children_pointwise (P : nat -> rizz__gfx_stage -> Prop) :
  (forall j s, P j s -> P j (set_stage_enabled false s)) ->
  forall fuel st c st',
    disable_children fuel st c = Ret st' ->
    (forall j s, st !! j = Some s -> P j s) ->
    length st' = length st /\ forall j s, st' !! j = Some s -> P j s.
Proof.
  intros HP fuel. induction fuel as [|fuel IH]; intros st c st' E Hst; simpl in E.
  - destruct (c =? 0); [|discriminate]. injection E as <-. auto.
  - destruct (c =? 0); [injection E as <-; auto|].
    apply bind_Ret in E as (_child & Hc & E).
    apply bind_Ret in E as (c' & _ & E).
    apply arr_at_Ret in Hc as [Hi Hc].
    apply IH in E as [Hlen E].
    + split; [rewrite Hlen; apply arr_store_length | exact E].
    + apply arr_store_pointwise; [exact Hst|]. intros _. apply HP. eauto.
Qed.

Lemma wf_stage_set_enabled (n i : Z) (v : bool) (s : rizz__gfx_stage) :
  wf_stage n i s = true -> wf_stage n i (set_stage_enabled v s) = true.
Proof. intros H. exact H. Qed.

(** On a table with the invariant, the walk over a child list ends: every
    sibling link leads to a smaller id. *)
Lemma enable_children_returns (n : Z) (fuel : nat) :
  forall (st : list rizz__gfx_stage) (c : Z),
    (forall (j : nat) s, st !! j = Some s -> wf_stage n (Z.of_nat j) s = true) ->
    0 <= c <= Z.of_nat (length st) -> c <= Z.of_nat fuel ->
    Z.of_nat (length st) <= MAX_STAGES ->
    exists st', enable_children fuel st c = Ret st'.
Proof.
  induction fuel as [|fuel IH]; intros st c Hwf Hc Hfuel Hmax; unfold MAX_STAGES in Hmax.
  - simpl. destruct (Z.eqb_spec c 0); [eauto | lia].
  - cbn [enable_children]. destruct (Z.eqb_spec c 0) as [|Hnz]; [eauto|].
    rewrite rizz_to_index_small by lia.
    destruct (lookup_lt_is_Some_2 st (Z.to_nat (c - 1))) as [s Hs]; [lia|].
    rewrite (proj2 (arr_at_Ret _ _ s)) by (split; [lia | exact Hs]). cbn [bind].
    rewrite (proj2 (arr_at_Ret _ _ (set_stage_enabled (stage_single_enabled s) s)))
      by (split; [lia | eapply arr_store_lookup_eq; [lia | exact Hs]]).
    cbn [bind].
    pose proof (Hwf _ _ Hs) as Ws. apply wf_stage_spec in Ws as (Hnext & _).
    rewrite Z2Nat.id in Hnext by lia.
    apply IH.
    + apply (arr_store_pointwise (fun j x => wf_stage n (Z.of_nat j) x = true));
        [exact Hwf|]. intros _. apply wf_stage_set_enabled. exact (Hwf _ _ Hs).
    + rewrite arr_store_length. simpl. lia.
    + simpl. lia.
    + rewrite arr_store_length. unfold MAX_STAGES. lia.
Qed.

Lemma disable_children_returns (n : Z) (fuel : nat) :
  forall (st : list rizz__gfx_stage) (c : Z),
    (forall (j : nat) s, st !! j = Some s -> wf_stage n (Z.of_nat j) s = true) ->
    0 <= c <= Z.of_nat (length st) -> c <= Z.of_nat fuel ->
    Z.of_nat (length st) <= MAX_STAGES ->
    exists st', disable_children fuel st c = Ret st'.
Proof.
  induction fuel as [|fuel IH]; intros st c Hwf Hc Hfuel Hmax; unfold MAX_STAGES in Hmax.
  - simpl. destruct (Z.eqb_spec c 0); [eauto | lia].
  - cbn [disable_children]. destruct (Z.eqb_spec c 0) as [|Hnz]; [eauto|].
    rewrite rizz_to_index_small by lia.
    destruct (lookup_lt_is_Some_2 st (Z.to_nat (c - 1))) as [s Hs]; [lia|].
    rewrite (proj2 (arr_at_Ret _ _ s)) by (split; [lia | exact Hs]). cbn [bind].
    rewrite (proj2 (arr_at_Ret _ _ (set_stage_enabled false s)))
      by (split; [lia | eapply arr_store_lookup_eq; [lia | exact Hs]]).
    cbn [bind].
    pose proof (Hwf _ _ Hs) as Ws. apply wf_stage_spec in Ws as (Hnext & _).
    rewrite Z2Nat.id in Hnext by lia.
    apply IH.
    + apply (arr_store_pointwise (fun j x => wf_stage n (Z.of_nat j) x = true));
        [exact Hwf|]. intros _. apply wf_stage_set_enabled. exact (Hwf _ _ Hs).
    + rewrite arr_store_length. simpl. lia.
    + simpl. lia.
    + rewrite arr_store_length. unfold MAX_STAGES. lia.
Qed.

(** [rizz__stage_enable] on a table with the invariant: it returns, keeps
    the invariant and the lock state, and keeps any property of single stages
    that the two flag updates keep. *)
Lemma rizz__stage_enable_spec (P : nat -> rizz__gfx_stage -> Prop)
      (g : rizz__gfx) (stage : Z) :
  wf_stages (stages g) = true -> stage_lk g = false ->
  0 < stage <= Z.of_nat (length (stages g)) ->
  (forall j s, P j s -> P j (set_stage_enabled (stage_single_enabled s) s)) ->
  (forall s, P (Z.to_nat (stage - 1))
               (set_stage_single_enabled true (set_stage_enabled true s))) ->
  (forall j s, stages g !! j = Some s -> P j s) ->
  exists g', rizz__stage_enable g stage = Ret g'
    /\ wf_stages (stages g') = true /\ stage_lk g' = false
    /\ length (stages g') = length (stages g)
    /\ forall j s, stages g' !! j = Some s -> P j s.
Proof.
  intros Hwf Hlk Hs HP1 HP2 HP.
  apply wf_stages_spec in Hwf as [Hmax Hwf]. pose proof Hmax as Hmax'.
  unfold MAX_STAGES in Hmax'.
  unfold rizz__stage_enable.
  rewrite sx_assert_true by (apply negb_true_iff, Z.eqb_neq; lia). cbn [bind].
  rewrite Hlk. cbn [bind sx_lock].
  rewrite rizz_to_index_small by lia.
  destruct (lookup_lt_is_Some_2 (stages g) (Z.to_nat (stage - 1))) as [s Hst]; [lia|].
  rewrite (proj2 (arr_at_Ret _ _ _)) by (split; [lia | exact Hst]). cbn [bind].
  set (st1 := arr_store (stages g) (stage - 1) _).
  assert (Hlen1 : length st1 = length (stages g)) by apply arr_store_length.
  assert (Hwf1 : forall (j : nat) s', st1 !! j = Some s' ->
                   wf_stage (Z.of_nat (length (stages g))) (Z.of_nat j) s' = true).
  { apply (arr_store_pointwise
             (fun j s' => wf_stage (Z.of_nat (length (stages g))) (Z.of_nat j) s' = true));
      [exact Hwf|]. intros _. exact (Hwf _ _ Hst). }
  assert (HP1' : forall j s', st1 !! j = Some s' -> P j s').
  { apply arr_store_pointwise; [exact HP|]. intros _. apply HP2. }
  pose proof (Hwf _ _ Hst) as Hs'. apply wf_stage_spec in Hs' as (_ & Hch & _).
  destruct (enable_children_returns _ (S (length st1)) st1 (stage_child s) Hwf1)
    as [st' E]; [lia | lia | lia |].
  rewrite E. simpl. eexists. split; [reflexivity|]. simpl.
  destruct (enable_children_pointwise
              (fun j s' => wf_stage (Z.of_nat (length (stages g))) (Z.of_nat j) s' = true
                           /\ P j s')
              (fun j s' H => conj (proj1 H) (HP1 j s' (proj2 H)))
              _ _ _ _ E) as [Hlen' H'].
  { intros j s' Hj. split; [apply Hwf1 | apply HP1']; exact Hj. }
  split; [|split; [reflexivity|split]].
  - apply wf_stages_spec. rewrite Hlen', Hlen1. split; [exact Hmax|].
    intros j s' Hj. apply (H' j s' Hj).
  - lia.
  - intros j s' Hj. apply (H' j s' Hj).
Qed.

Lemma rizz__stage_disable_spec (P : nat -> rizz__gfx_stage -> Prop)
      (g : rizz__gfx) (stage : Z) :
  wf_stages (stages g) = true -> stage_lk g = false ->
  0 < stage <= Z.of_nat (length (stages g)) ->
  (forall j s, P j s -> P j (set_stage_enabled false s)) ->
  (forall s, P (Z.to_nat (stage - 1))
               (set_stage_single_enabled false (set_stage_enabled false s))) ->
  (forall j s, stages g !! j = Some s -> j <> Z.to_nat (stage - 1) -> P j s) ->
  exists g', rizz__stage_disable g stage = Ret g'
    /\ wf_stages (stages g') = true /\ stage_lk g' = false
    /\ length (stages g') = length (stages g)
    /\ forall j s, stages g' !! j = Some s -> P j s.
Proof.
  intros Hwf Hlk Hs HP1 HP2 HP.
  apply wf_stages_spec in Hwf as [Hmax Hwf]. pose proof Hmax as Hmax'.
  unfold MAX_STAGES in Hmax'.
  unfold rizz__stage_disable.
  rewrite sx_assert_true by (apply negb_true_iff, Z.eqb_neq; lia). cbn [bind].
  rewrite Hlk. cbn [bind sx_lock].
  rewrite rizz_to_index_small by lia.
  destruct (lookup_lt_is_Some_2 (stages g) (Z.to_nat (stage - 1))) as [s Hst]; [lia|].
  rewrite (proj2 (arr_at_Ret _ _ _)) by (split; [lia | exact Hst]). cbn [bind].
  set (st1 := arr_store (stages g) (stage - 1) _).
  assert (Hlen1 : length st1 = length (stages g)) by apply arr_store_length.
  assert (Hwf1 : forall (j : nat) s', st1 !! j = Some s' ->
                   wf_stage (Z.of_nat (length (stages g))) (Z.of_nat j) s' = true).
  { apply (arr_store_pointwise
             (fun j s' => wf_stage (Z.of_nat (length (stages g))) (Z.of_nat j) s' = true));
      [exact Hwf|]. intros _. exact (Hwf _ _ Hst). }
  assert (HP1' : forall j s', st1 !! j = Some s' -> P j s').
  { intros j s' Hj. destruct (Nat.eq_dec j (Z.to_nat (stage - 1))) as [->|Hne].
    - unfold st1 in Hj. erewrite arr_store_lookup_eq in Hj; [|lia|exact Hst].
      injection Hj as <-. apply HP2.
    - unfold st1 in Hj. rewrite arr_store_lookup_ne in Hj by (try lia; congruence).
      apply HP; assumption. }
  pose proof (Hwf _ _ Hst) as Hs'. apply wf_stage_spec in Hs' as (_ & Hch & _).
  destruct (disable_children_returns _ (S (length st1)) st1 (stage_child s) Hwf1)
    as [st' E]; [lia | lia | lia |].
  rewrite E. simpl. eexists. split; [reflexivity|]. simpl.
  destruct (disable_children_pointwise
              (fun j s' => wf_stage (Z.of_nat (length (stages g))) (Z.of_nat j) s' = true
                           /\ P j s')
              (fun j s' H => conj (proj1 H) (HP1 j s' (proj2 H)))
              _ _ _ _ E) as [Hlen' H'].
  { intros j s' Hj. split; [apply Hwf1 | apply HP1']; exact Hj. }
  split; [|split; [reflexivity|split]].
  - apply wf_stages_spec. rewrite Hlen', Hlen1. split; [exact Hmax|].
    intros j s' Hj. apply (H' j s' Hj).
  - lia.
  - intros j s' Hj. apply (H' j s' Hj).
Qed.

(** C5: in a stage table with the links that registration builds, take a
    chain root -> child -> grandchild (by parent handles).  Then
    enable(root); disable(grandchild); enable(root) all return, and afterwards
    [rizz__stage_isenabled] answers [false] for the grandchild: the second
    enable re-applies [single_enabled] to the direct children of the root
    only. *)
Theorem enable_disable_enable_grandchild
        (g : rizz__gfx) (root child grandchild : Z) (s_child s_gc : rizz__gfx_stage) :
  wf_stages (stages g) = true ->
  stage_lk g = false ->
  root <> 0 ->
  0 <= grandchild < 4294967296 ->
  arr_at (stages g) (rizz_to_index child) = Ret s_child ->
  stage_parent s_child = root ->
  arr_at (stages g) (rizz_to_index grandchild) = Ret s_gc ->
  stage_parent s_gc = child ->
  exists g1 g2 g3,
    rizz__stage_enable g root = Ret g1
    /\ rizz__stage_disable g1 grandchild = Ret g2
    /\ rizz__stage_enable g2 root = Ret g3
    /\ rizz__stage_isenabled g3 grandchild = Ret (false, g3).
Proof.
  intros Hwf Hlk Hroot Hgc Hc Hpc Hg Hpg.
  pose proof Hwf as Hwf0. apply wf_stages_spec in Hwf0 as [Hmax Hwf0].
  unfold MAX_STAGES in Hmax.
  apply arr_at_Ret in Hc as [Hci Hc]. apply arr_at_Ret in Hg as [Hgi Hg].
  pose proof (lookup_lt_Some _ _ _ Hc) as Hclt.
  pose proof (lookup_lt_Some _ _ _ Hg) as Hglt.
  pose proof (Hwf0 _ _ Hc) as Wc. apply wf_stage_spec in Wc as (_ & _ & Wc & _).
  pose proof (Hwf0 _ _ Hg) as Wg. apply wf_stage_spec in Wg as (_ & _ & Wg & _).
  rewrite Hpc in Wc. rewrite Hpg in Wg. rewrite Z2Nat.id in Wc, Wg by lia.
  assert (Hchild : child = rizz_to_index child + 1).
  { apply handle_of_index; lia. }
  assert (Hgrand : grandchild = rizz_to_index grandchild + 1).
  { apply handle_of_index; lia. }
  set (k := Z.to_nat (grandchild - 1)).
  (* enable(root) *)
  destruct (rizz__stage_enable_spec (fun _ _ => True) g root Hwf Hlk)
    as (g1 & E1 & Hwf1 & Hlk1 & Hlen1 & _); [lia | auto | auto | auto |].
  (* disable(grandchild) *)
  destruct (rizz__stage_disable_spec (off_at k) g1 grandchild Hwf1 Hlk1)
    as (g2 & E2 & Hwf2 & Hlk2 & Hlen2 & Hoff2).
  { lia. }
  { intros j s H Hj. destruct (H Hj) as [_ H2]. split; [reflexivity | exact H2]. }
  { intros s _. split; reflexivity. }
  { intros j s _ Hne Hj. contradiction. }
  (* enable(root) *)
  destruct (rizz__stage_enable_spec (off_at k) g2 root Hwf2 Hlk2)
    as (g3 & E3 & Hwf3 & Hlk3 & Hlen3 & Hoff3).
  { lia. }
  { intros j s H Hj. destruct (H Hj) as [_ H2]. simpl. split; exact H2. }
  { intros s Hj. exfalso. unfold k in Hj. lia. }
  { exact Hoff2. }
  exists g1, g2, g3. repeat split; try assumption.
  (* is_enabled(grandchild) *)
  unfold rizz__stage_isenabled.
  rewrite sx_assert_true by (apply negb_true_iff, Z.eqb_neq; lia). simpl.
  rewrite Hlk3. simpl.
  destruct (lookup_lt_is_Some_2 (stages g3) k) as [s Hs]; [unfold k; lia|].
  rewrite (proj2 (arr_at_Ret _ _ s)).
  2:{ split; [lia|]. replace (rizz_to_index grandchild) with (grandchild - 1) by lia.
      exact Hs. }
  simpl. destruct (Hoff3 _ _ Hs eq_refl) as [-> _].
  unfold sx_unlock. rewrite <- Hlk3. rewrite set_stage_lk_same. reflexivity.
Qed.

(** ** The executor *)

Lemma lookup_middle {A} (pre rest : list A) (x : A) :
  (pre ++ x :: rest) !! length pre = Some x.
Proof. rewrite lookup_app_r by lia. rewrite Nat.sub_diag. reflexivity. Qed.

Lemma arr_at_middle {A} (pre rest : list A) (x : A) :
  arr_at (pre ++ x :: rest) (Z.of_nat (length pre)) = Ret x.
Proof. apply arr_at_nat, lookup_middle. Qed.

Lemma arr_store_middle {A} (pre rest : list A) (x y : A) :
  arr_store (pre ++ x :: rest) (Z.of_nat (length pre)) y = pre ++ y :: rest.
Proof.
  unfold arr_store. destruct (Z.ltb_spec (Z.of_nat (length pre)) 0); [lia|].
  rewrite Nat2Z.id. rewrite insert_app_r_alt by lia. rewrite Nat.sub_diag. reflexivity.
Qed.

Lemma app_cons_assoc {A} (pre rest : list A) (x : A) :
  pre ++ x :: rest = (pre ++ [x]) ++ rest.
Proof. rewrite <- app_assoc. reflexivity. Qed.

Lemma length_snoc_Z {A} (pre : list A) (x : A) :
  Z.of_nat (length (pre ++ [x])) = Z.of_nat (length pre) + 1.
Proof. rewrite length_app. simpl. lia. Qed.

Lemma i32_small (z : Z) : -2147483648 <= z <= INT_MAX -> i32 z = z.
Proof.
  unfold INT_MAX, i32. intros H. rewrite Z.mod_small by lia. lia.
Qed.

Lemma all_refs_cons cb cmds : all_refs (cb :: cmds) = cb_refs cb ++ all_refs cmds.
Proof. reflexivity. Qed.

Lemma all_idle_cons cb cmds :
  all_idle (cb :: cmds) = true <-> cb_running_stage cb = 0 /\ all_idle cmds = true.
Proof. unfold all_idle. simpl. rewrite andb_true_iff, Z.eqb_eq. reflexivity. Qed.

Lemma execute_count_spec (rest pre : list rizz__gfx_cmdbuffer) (acc : Z) :
  all_idle rest = true ->
  0 <= acc -> acc + Z.of_nat (length (all_refs rest)) <= INT_MAX ->
  execute_count (length rest) (Z.of_nat (length pre)) (pre ++ rest) acc
  = Ret (acc + Z.of_nat (length (all_refs rest))).
Proof.
  revert pre acc. induction rest as [|cb rest IH]; intros pre acc Hidle Hacc Hmax.
  - simpl. rewrite Z.add_0_r. reflexivity.
  - apply all_idle_cons in Hidle as [Hcb Hidle].
    rewrite all_refs_cons, length_app in Hmax |- *.
    simpl. rewrite arr_at_middle. simpl. rewrite Hcb. simpl.
    rewrite i32_small by (unfold INT_MAX in *; lia).
    rewrite app_cons_assoc, <- length_snoc_Z with (x := cb).
    rewrite IH by (try assumption; lia). f_equal. lia.
Qed.

Lemma set_cb_refs_nil_id cb : cb_refs cb = [] -> set_cb_refs [] cb = cb.
Proof. destruct cb; simpl; intros ->; reflexivity. Qed.

Lemma execute_gather_spec (rest pre : list rizz__gfx_cmdbuffer)
      (acc : list rizz__gfx_cmdbuffer_ref) :
  execute_gather (length rest) (Z.of_nat (length pre)) (pre ++ rest) acc
  = Ret (acc ++ all_refs rest, pre ++ List.map (set_cb_refs []) rest).
Proof.
  revert pre acc. induction rest as [|cb rest IH]; intros pre acc.
  - simpl. rewrite !app_nil_r. reflexivity.
  - simpl. rewrite arr_at_middle. simpl.
    destruct (cb_refs cb) as [|r rs] eqn:Er; simpl.
    + rewrite app_cons_assoc, <- length_snoc_Z with (x := cb).
      rewrite IH. rewrite <- app_assoc. simpl.
      rewrite set_cb_refs_nil_id by exact Er. reflexivity.
    + rewrite arr_store_middle.
      rewrite app_cons_assoc, <- length_snoc_Z with (x := set_cb_refs [] cb).
      rewrite IH. rewrite <- !app_assoc. reflexivity.
Qed.

Lemma execute_reset_spec (rest pre : list rizz__gfx_cmdbuffer) :
  execute_reset (length rest) (Z.of_nat (length pre)) (pre ++ rest)
  = Ret (pre ++ List.map cb_reset rest).
Proof.
  revert pre. induction rest as [|cb rest IH]; intros pre.
  - simpl. reflexivity.
  - simpl. rewrite arr_at_middle. simpl. rewrite arr_store_middle.
    fold (cb_reset cb).
    rewrite app_cons_assoc, <- length_snoc_Z with (x := cb_reset cb).
    rewrite IH. rewrite <- app_assoc. reflexivity.
Qed.

Lemma execute_dispatch_refs sbs cmds refs d :
  execute_dispatch sbs cmds refs = Ret d -> List.map fst d = refs.
Proof.
  revert d. induction refs as [|r refs IH]; intros d E; simpl in E.
  - injection E as <-. reflexivity.
  - apply bind_Ret in E as (call & _ & E). apply bind_Ret in E as (rest & Er & E).
    injection E as <-. simpl. f_equal. apply IH. exact Er.
Qed.

Lemma execute_dispatch_returns sbs cmds refs :
  forallb (fun r => is_Ret (execute_ref sbs cmds r)) refs = true ->
  exists d, execute_dispatch sbs cmds refs = Ret d.
Proof.
  induction refs as [|r refs IH]; simpl; intros H.
  - eauto.
  - apply andb_true_iff in H as [Hr H]. destruct (IH H) as [d ->].
    destruct (execute_ref sbs cmds r); [|discriminate]. simpl. eauto.
Qed.

(** The decoders read the arena of the recording buffer only: clearing the
    reference lists does not change what a reference decodes to. *)
Lemma execute_ref_gathered sbs cmds r :
  execute_ref sbs (List.map (set_cb_refs []) cmds) r = execute_ref sbs cmds r.
Proof.
  unfold execute_ref, arr_at. destruct (ref_cmdbuffer_idx r <? 0); [reflexivity|].
  rewrite list_lookup_fmap.
  destruct (cmds !! Z.to_nat (ref_cmdbuffer_idx r)) as [cb|]; reflexivity.
Qed.

(** ** The sort *)

Lemma sort_insert_perm x l : sort_insert x l ≡ₚ x :: l.
Proof.
  induction l as [|y l IH]; simpl; [reflexivity|].
  destruct (SORT_CMP y x <? 0); [|reflexivity].
  rewrite IH. apply Permutation_swap.
Qed.

Lemma rizz__gfx_tim_sort_perm l : rizz__gfx_tim_sort l ≡ₚ l.
Proof.
  induction l as [|x l IH]; simpl; [reflexivity|].
  rewrite sort_insert_perm. rewrite IH. reflexivity.
Qed.

Lemma SORT_CMP_neg x y : (SORT_CMP x y <? 0) = true <-> ref_key x < ref_key y.
Proof.
  unfold SORT_CMP. destruct (Z.ltb_spec (ref_key x) (ref_key y)); simpl; split;
    intros; try lia; try reflexivity; discriminate.
Qed.

Lemma sort_insert_sorted x l :
  StronglySorted key_le l -> StronglySorted key_le (sort_insert x l).
Proof.
  induction 1 as [|y l Hl IH Hy]; simpl.
  - repeat constructor.
  - destruct (SORT_CMP y x <? 0) eqn:E.
    + apply SORT_CMP_neg in E. constructor; [exact IH|].
      rewrite sort_insert_perm. constructor; [unfold key_le; lia | exact Hy].
    + assert (Hxy : ref_key x <= ref_key y).
      { destruct (Z.le_gt_cases (ref_key x) (ref_key y)) as [H|H]; [exact H|].
        apply SORT_CMP_neg in H. congruence. }
      constructor; [constructor; assumption|].
      constructor; [exact Hxy|].
      eapply Forall_impl; [exact Hy|]. unfold key_le. intros z Hz. lia.
Qed.

Lemma rizz__gfx_tim_sort_sorted l : StronglySorted key_le (rizz__gfx_tim_sort l).
Proof.
  induction l as [|x l IH]; simpl; [constructor | apply sort_insert_sorted, IH].
Qed.

Lemma StronglySorted_lookup_lt {A} (R : A -> A -> Prop) (l : list A) (i j : nat) (a b : A) :
  StronglySorted R l -> (i < j)%nat -> l !! i = Some a -> l !! j = Some b -> R a b.
Proof.
  intros Hs. revert i j. induction Hs as [|x l Hl IH Hx]; intros i j Hij Ha Hb.
  - inversion Ha.
  - destruct j as [|j]; [lia|]. destruct i as [|i]; simpl in *.
    + injection Ha as <-. rewrite Forall_forall in Hx. apply Hx.
      eapply list_elem_of_lookup_2. exact Hb.
    + eapply IH; [|exact Ha|exact Hb]. lia.
Qed.

Lemma key_order_mono a b : ref_key a <= ref_key b -> key_order a <= key_order b.
Proof.
  unfold key_order. intros H. rewrite !Z.shiftr_div_pow2 by lia.
  apply Z.div_le_mono; [lia | exact H].
Qed.

(** The key of a recorded reference holds the order of the running stage
    in its upper half. *)
Lemma sort_key_order (stage_order cmd_idx : Z) :
  0 <= stage_order < 65536 -> 0 <= cmd_idx < 65536 ->
  Z.shiftr (sort_key stage_order cmd_idx) 16 = stage_order.
Proof.
  intros Ho Hc. unfold sort_key, u32.
  rewrite (Z.mod_small stage_order) by lia.
  rewrite Z.shiftl_mul_pow2 by lia. change (2 ^ 16) with 65536.
  rewrite (Z.mod_small (stage_order * 65536)) by lia.
  rewrite (Z.mod_small cmd_idx) by lia.
  rewrite Z.shiftr_lor. rewrite !Z.shiftr_div_pow2 by lia. change (2 ^ 16) with 65536.
  rewrite Z.div_mul by lia. rewrite Z.div_small by lia. apply Z.lor_0_r.
Qed.

(** ** Execution order and draining *)

Lemma execute_command_buffer_spec (sbs : list rizz__gfx_stream_buffer)
      (job_num_threads : Z) (cmds : list rizz__gfx_cmdbuffer) :
  Z.of_nat (length cmds) = job_num_threads ->
  Z.of_nat (length (all_refs cmds)) <= INT_MAX ->
  all_idle cmds = true ->
  replay_completes sbs cmds = true ->
  exists dispatched,
    rizz__gfx_execute_command_buffer sbs 0 job_num_threads cmds
    = Ret (Z.of_nat (length (all_refs cmds)), dispatched,
           List.map cb_reset (List.map (set_cb_refs []) cmds))
    /\ List.map fst dispatched = rizz__gfx_tim_sort (all_refs cmds).
Proof.
  intros Hn Hmax Hidle Hreplay. unfold rizz__gfx_execute_command_buffer.
  cbn [sx_assert Z.eqb bind]. rewrite <- Hn, Nat2Z.id.
  pose proof (execute_count_spec cmds [] 0 Hidle (Z.le_refl 0) Hmax) as Ec.
  cbn [length app] in Ec. change (Z.of_nat 0) with 0 in Ec. rewrite Z.add_0_l in Ec.
  rewrite Ec. cbn [bind].
  destruct (Z.eqb_spec (Z.of_nat (length (all_refs cmds))) 0) as [Hz|Hnz]; cbn [negb bind].
  - assert (Hnil : all_refs cmds = []) by (apply length_zero_iff_nil; lia).
    assert (Hclr : List.map (set_cb_refs []) cmds = cmds).
    { clear -Hnil. induction cmds as [|cb cmds IH]; [reflexivity|].
      rewrite all_refs_cons in Hnil. apply app_eq_nil in Hnil as [H1 H2].
      simpl. rewrite (set_cb_refs_nil_id _ H1), (IH H2). reflexivity. }
    pose proof (execute_reset_spec cmds []) as Er. cbn [length app] in Er. change (Z.of_nat 0) with 0 in Er.
    rewrite Er. cbn [bind].
    exists []. rewrite Hclr, Hnil. split; reflexivity.
  - pose proof (execute_gather_spec cmds [] []) as Eg.
    cbn [length app] in Eg. change (Z.of_nat 0) with 0 in Eg. rewrite Eg. cbn [bind].
    destruct (execute_dispatch_returns sbs (List.map (set_cb_refs []) cmds)
                (rizz__gfx_tim_sort (all_refs cmds))) as [d Ed].
    { unfold replay_completes in Hreplay. rewrite forallb_forall in Hreplay |- *.
      intros r Hr. rewrite execute_ref_gathered. apply Hreplay.
      apply list_elem_of_In. rewrite <- (rizz__gfx_tim_sort_perm (all_refs cmds)).
      apply list_elem_of_In. exact Hr. }
    rewrite Ed. cbn [bind].
    pose proof (execute_reset_spec (List.map (set_cb_refs []) cmds) []) as Er.
    cbn [length app] in Er. change (Z.of_nat 0) with 0 in Er. rewrite length_map in Er. rewrite Er. cbn [bind].
    exists d. split; [reflexivity|]. eapply execute_dispatch_refs. exact Ed.
Qed.

(** C1: take any set of per-thread command buffers, one per job thread and
    all outside begin_stage..end_stage, holding any references (fewer than
    2^31, each one decodable).  The executor, run on the main thread, returns
    their number and dispatches every pending reference exactly once (the
    dispatched sequence is a permutation of the recorded ones) in
    non-decreasing order of the 32-bit sort key; a reference whose key has a
    lower stage order in its upper 16 bits is dispatched strictly before any
    reference with a higher one; and the key built at record time holds the
    order of the running stage there. *)
Theorem execute_command_buffer_order (sbs : list rizz__gfx_stream_buffer)
        (job_num_threads : Z) (cmds : list rizz__gfx_cmdbuffer) :
  Z.of_nat (length cmds) = job_num_threads ->
  Z.of_nat (length (all_refs cmds)) <= INT_MAX ->
  all_idle cmds = true ->
  replay_completes sbs cmds = true ->
  exists dispatched cmds',
    rizz__gfx_execute_command_buffer sbs 0 job_num_threads cmds
    = Ret (Z.of_nat (length (all_refs cmds)), dispatched, cmds')
    /\ List.map fst dispatched ≡ₚ all_refs cmds
    /\ StronglySorted key_le (List.map fst dispatched)
    /\ (forall (i j : nat) a b,
          List.map fst dispatched !! i = Some a ->
          List.map fst dispatched !! j = Some b ->
          key_order a < key_order b -> (i < j)%nat)
    /\ (forall stage_order cmd_idx,
          0 <= stage_order < 65536 -> 0 <= cmd_idx < 65536 ->
          Z.shiftr (sort_key stage_order cmd_idx) 16 = stage_order).
Proof.
  intros Hn Hmax Hidle Hreplay.
  destruct (execute_command_buffer_spec sbs _ cmds Hn Hmax Hidle Hreplay) as (d & E & Hd).
  exists d, (List.map cb_reset (List.map (set_cb_refs []) cmds)).
  split; [exact E|]. rewrite Hd.
  split; [apply rizz__gfx_tim_sort_perm|].
  split; [apply rizz__gfx_tim_sort_sorted|].
  split; [|exact sort_key_order].
  intros i j a b Ha Hb Hab.
  destruct (Nat.lt_ge_cases i j) as [Hlt|Hge]; [exact Hlt|exfalso].
  destruct (Nat.eq_dec i j) as [->|Hne].
  - rewrite Ha in Hb. injection Hb as <-. lia.
  - assert (Hba : key_le b a).
    { eapply (StronglySorted_lookup_lt key_le _ j i);
        [apply rizz__gfx_tim_sort_sorted | lia | exact Hb | exact Ha]. }
    apply key_order_mono in Hba. lia.
Qed.

Lemma validate_stage_deps_Ret (g g' : rizz__gfx) :
  rizz__gfx_validate_stage_deps g = Ret g' -> g' = set_stage_lk false g.
Proof.
  unfold rizz__gfx_validate_stage_deps. intros E.
  apply bind_Ret in E as (lk & _ & E). apply bind_Ret in E as (u & _ & E).
  injection E as <-. reflexivity.
Qed.

Lemma drained_after_execute (cmds : list rizz__gfx_cmdbuffer) :
  forallb cb_drained (List.map cb_reset (List.map (set_cb_refs []) cmds)) = true.
Proof.
  induction cmds as [|cb cmds IH]; [reflexivity|]. simpl. rewrite IH. reflexivity.
Qed.

(** C9: let the final execution start on the main thread from a state
    that passes the stage-dependency validation, with one buffer per job
    thread in each set, every buffer outside begin_stage..end_stage and every
    pending reference decodable.  Then it returns, having run the executor
    over the render set and then over the feed set, and every command buffer
    of both sets (none is added or removed) holds no pending reference, an
    arena with zero elements and command index 0. *)
Theorem execute_command_buffers_final_drains (g : rizz__gfx) (job_num_threads : Z) :
  is_Ret (rizz__gfx_validate_stage_deps g) = true ->
  Z.of_nat (length (cmd_buffers_render g)) = job_num_threads ->
  Z.of_nat (length (cmd_buffers_feed g)) = job_num_threads ->
  Z.of_nat (length (all_refs (cmd_buffers_render g))) <= INT_MAX ->
  Z.of_nat (length (all_refs (cmd_buffers_feed g))) <= INT_MAX ->
  all_idle (cmd_buffers_render g) = true ->
  all_idle (cmd_buffers_feed g) = true ->
  replay_completes (stream_buffs g) (cmd_buffers_render g) = true ->
  replay_completes (stream_buffs g) (cmd_buffers_feed g) = true ->
  exists dispatched g',
    rizz__gfx_execute_command_buffers_final g 0 job_num_threads = Ret (dispatched, g')
    /\ List.map fst dispatched
       = rizz__gfx_tim_sort (all_refs (cmd_buffers_render g))
         ++ rizz__gfx_tim_sort (all_refs (cmd_buffers_feed g))
    /\ length (cmd_buffers_render g') = length (cmd_buffers_render g)
    /\ length (cmd_buffers_feed g') = length (cmd_buffers_feed g)
    /\ forallb cb_drained (cmd_buffers_render g') = true
    /\ forallb cb_drained (cmd_buffers_feed g') = true
    /\ all_refs (cmd_buffers_render g') = []
    /\ all_refs (cmd_buffers_feed g') = [].
Proof.
  intros Hval Hnr Hnf Hmr Hmf Hir Hif Hrr Hrf.
  unfold rizz__gfx_execute_command_buffers_final.
  destruct (rizz__gfx_validate_stage_deps g) as [g1|] eqn:Ev; [|discriminate].
  apply validate_stage_deps_Ret in Ev. subst g1. cbn [bind].
  destruct (execute_command_buffer_spec (stream_buffs g) _ _ Hnr Hmr Hir Hrr)
    as (d1 & E1 & Hd1).
  destruct (execute_command_buffer_spec (stream_buffs g) _ _ Hnf Hmf Hif Hrf)
    as (d2 & E2 & Hd2).
  change (stream_buffs (set_stage_lk false g)) with (stream_buffs g).
  change (cmd_buffers_render (set_stage_lk false g)) with (cmd_buffers_render g).
  rewrite E1. cbn [bind].
  match goal with
  | |- context [rizz__gfx_execute_command_buffer (stream_buffs ?x) _ _ (cmd_buffers_feed ?x)] =>
      change (stream_buffs x) with (stream_buffs g);
      change (cmd_buffers_feed x) with (cmd_buffers_feed g)
  end.
  rewrite E2. cbn [bind].
  eexists. eexists. split; [reflexivity|]. cbn.
  assert (Hnil : forall cmds, all_refs (List.map cb_reset (List.map (set_cb_refs []) cmds)) = []).
  { induction cmds as [|cb cmds IH]; [reflexivity | exact IH]. }
  rewrite map_app, Hd1, Hd2, !length_map, !drained_after_execute, !Hnil.
  repeat split; reflexivity.
Qed.

(** ** Streaming-buffer appends *)

Lemma stream_buffer_index_range sbs i0 buf :
  stream_buffer_index sbs i0 buf = -1 \/ i0 <= stream_buffer_index sbs i0 buf.
Proof.
  revert i0. induction sbs as [|sb sbs IH]; intros i0; simpl; [auto|].
  destruct (sb_buf sb =? buf); [right; lia|].
  destruct (IH (i0 + 1)) as [H|H]; [auto | right; lia].
Qed.

Lemma stream_buffer_index_ext sbs sbs' i0 buf :
  List.map sb_buf sbs = List.map sb_buf sbs' ->
  stream_buffer_index sbs i0 buf = stream_buffer_index sbs' i0 buf.
Proof.
  revert sbs' i0. induction sbs as [|sb sbs IH]; intros [|sb' sbs'] i0 E;
    simpl in E; try discriminate; [reflexivity|].
  injection E as E1 E2. simpl. rewrite E1. destruct (sb_buf sb' =? buf); [reflexivity|].
  apply IH. exact E2.
Qed.

Lemma stream_buffer_entry_inv g buf sb :
  stream_buffer_entry g buf = Some sb ->
  (stream_buffer_index (stream_buffs g) 0 buf =? -1) = false
  /\ 0 <= stream_buffer_index (stream_buffs g) 0 buf
  /\ stream_buffs g !! Z.to_nat (stream_buffer_index (stream_buffs g) 0 buf) = Some sb.
Proof.
  unfold stream_buffer_entry. cbv zeta.
  destruct (Z.eqb_spec (stream_buffer_index (stream_buffs g) 0 buf) (-1)) as [|Hne];
    [discriminate|].
  intros H. split; [reflexivity|]. split; [|exact H].
  destruct (stream_buffer_index_range (stream_buffs g) 0 buf) as [E|E]; [contradiction|exact E].
Qed.

Lemma stream_buffs_store_feed_cb g tid cb :
  stream_buffs (store_feed_cb g tid cb) = stream_buffs g.
Proof. reflexivity. Qed.

(** One append that returns: it got the offset before the add, and the
    tracker moved on by the requested size, within the capacity. *)
Lemma rizz__cb_append_buffer_Ret g sg tid frame buf data n sb r g' sg' :
  stream_buffer_entry g buf = Some sb ->
  0 <= sb_offset sb <= sb_size sb ->
  n + sb_size sb <= INT_MAX ->
  rizz__cb_append_buffer g sg tid frame buf data n = Ret (r, g', sg') ->
  r = sb_offset sb /\ 0 <= n /\ sb_offset sb + n <= sb_size sb
  /\ stream_buffer_entry g' buf
     = Some (mk_stream_buffer (sb_buf sb) (sb_offset sb + n) (sb_size sb)).
Proof.
  intros Hsb Hwf Hfit E. apply stream_buffer_entry_inv in Hsb as (Hne & Hi & Hsb).
  unfold rizz__cb_append_buffer in E.
  set (index := stream_buffer_index (stream_buffs g) 0 buf) in *.
  rewrite Hne in E. cbn [negb sx_assert bind] in E.
  rewrite (proj2 (arr_at_Ret _ _ sb)) in E by (split; assumption). cbn [bind] in E.
  apply bind_Ret in E as (u & Ha & E). apply sx_assert_Ret, Z.leb_le in Ha.
  unfold sx_atomic_fetch_add in E.
  apply bind_Ret in E as (cb & _ & E). apply bind_Ret in E as (u' & _ & E).
  destruct (rizz__cb_alloc_params_buff cb _) as [offset cb1] in E.
  apply bind_Ret in E as (bytes & Hread & E).
  apply bind_Ret in E as (buffers & _ & E). injection E as <- <- <-.
  assert (Hn : 0 <= n).
  { unfold user_read in Hread. destruct (Z.ltb_spec n 0); [discriminate | lia]. }
  rewrite i32_small in Ha |- * by (unfold INT_MAX in *; lia).
  split; [reflexivity|]. split; [exact Hn|]. split; [exact Ha|].
  unfold stream_buffer_entry. rewrite stream_buffs_store_feed_cb. cbn [stream_buffs set_stream_buffs].
  assert (Hmap : List.map sb_buf
                   (arr_store (stream_buffs g) index
                      (mk_stream_buffer (sb_buf sb) (sb_offset sb + n) (sb_size sb)))
                 = List.map sb_buf (stream_buffs g)).
  { unfold arr_store. destruct (Z.ltb_spec index 0); [reflexivity|].
    change (@List.map) with (@fmap list _). rewrite list_fmap_insert. cbn [sb_buf].
    apply list_insert_id. rewrite list_lookup_fmap, Hsb. reflexivity. }
  rewrite (stream_buffer_index_ext _ _ 0 buf Hmap). fold index. rewrite Hne.
  eapply arr_store_lookup_eq; eassumption.
Qed.

(** One append past the capacity: the assertion fires. *)
Lemma rizz__cb_append_buffer_overflow g sg tid frame buf data n sb :
  stream_buffer_entry g buf = Some sb ->
  0 <= sb_offset sb <= sb_size sb ->
  n + sb_size sb <= INT_MAX ->
  sb_size sb < sb_offset sb + n ->
  rizz__cb_append_buffer g sg tid frame buf data n = Err (AssertFailed []).
Proof.
  intros Hsb Hwf Hfit Hover. apply stream_buffer_entry_inv in Hsb as (Hne & Hi & Hsb).
  unfold rizz__cb_append_buffer.
  set (index := stream_buffer_index (stream_buffs g) 0 buf) in *.
  rewrite Hne. cbn [negb sx_assert bind].
  rewrite (proj2 (arr_at_Ret _ _ sb)) by (split; assumption). cbn [bind].
  rewrite i32_small by (unfold INT_MAX in *; lia).
  destruct (Z.leb_spec (sb_offset sb + n) (sb_size sb)); [lia|]. reflexivity.
Qed.

Lemma sizes_fit_cons size c calls :
  sizes_fit size (c :: calls) = true <->
  ac_size c + size <= INT_MAX /\ sizes_fit size calls = true.
Proof. unfold sizes_fit. simpl. rewrite andb_true_iff, Z.leb_le. reflexivity. Qed.

Lemma append_all_spec frame buf calls :
  forall g sg sb offs g' sg',
    stream_buffer_entry g buf = Some sb ->
    0 <= sb_offset sb <= sb_size sb ->
    sizes_fit (sb_size sb) calls = true ->
    append_all g sg frame buf calls = Ret (offs, g', sg') ->
    offs = offsets_from (sb_offset sb) calls
    /\ Forall (fun c => 0 <= ac_size c) calls
    /\ sb_offset sb + total_size calls <= sb_size sb
    /\ stream_buffer_entry g' buf
       = Some (mk_stream_buffer (sb_buf sb) (sb_offset sb + total_size calls) (sb_size sb)).
Proof.
  induction calls as [|c calls IH]; intros g sg sb offs g' sg' Hsb Hwf Hfit E; simpl in E.
  - injection E as <- <- <-. simpl. rewrite Z.add_0_r.
    split; [reflexivity|]. split; [constructor|]. split; [lia|].
    rewrite Hsb. destruct sb; reflexivity.
  - apply sizes_fit_cons in Hfit as [Hc Hfit].
    apply bind_Ret in E as ([[off g1] sg1] & E1 & E).
    apply bind_Ret in E as ([[offs1 g2] sg2] & E2 & E). injection E as <- <- <-.
    destruct (rizz__cb_append_buffer_Ret _ _ _ _ _ _ _ _ _ _ _ Hsb Hwf Hc E1)
      as (-> & Hn & Hle & Hsb1).
    destruct (IH _ _ _ _ _ _ Hsb1 ltac:(simpl; lia) Hfit E2) as (-> & Hall & Htot & Hsb2).
    simpl in *. split; [reflexivity|]. split; [constructor; assumption|].
    split; [lia|]. rewrite Hsb2. do 2 f_equal. lia.
Qed.

Lemma offsets_from_length calls :
  forall start, length (offsets_from start calls) = length calls.
Proof. induction calls as [|c calls IH]; intros start; simpl; [|rewrite IH]; reflexivity. Qed.

Lemma offsets_from_lookup calls :
  forall start (i : nat) c off,
    calls !! i = Some c -> offsets_from start calls !! i = Some off ->
    off = start + total_size (take i calls).
Proof.
  induction calls as [|c0 calls IH]; intros start i c off Hc Ho; [inversion Hc|].
  destruct i as [|i]; simpl in *.
  - injection Ho as <-. lia.
  - rewrite (IH _ _ _ _ Hc Ho). lia.
Qed.

Lemma total_size_nonneg calls :
  Forall (fun c => 0 <= ac_size c) calls -> 0 <= total_size calls.
Proof. induction 1; simpl; lia. Qed.

Lemma total_size_take_nonneg calls (i : nat) :
  Forall (fun c => 0 <= ac_size c) calls -> 0 <= total_size (take i calls).
Proof. intros H. apply total_size_nonneg. apply Forall_take. exact H. Qed.

Lemma total_size_take_S calls (i : nat) c :
  calls !! i = Some c -> total_size (take (S i) calls) = total_size (take i calls) + ac_size c.
Proof.
  revert i. induction calls as [|c0 calls IH]; intros i H; [inversion H|].
  destruct i as [|i]; simpl in *.
  - injection H as <-. simpl. lia.
  - rewrite (IH _ H). lia.
Qed.

Lemma total_size_take_mono calls (i j : nat) :
  Forall (fun c => 0 <= ac_size c) calls -> (i <= j)%nat ->
  total_size (take i calls) <= total_size (take j calls).
Proof.
  intros Hall. revert i j. induction Hall as [|c calls Hc Hall IH]; intros i j Hij.
  - rewrite !take_nil. lia.
  - destruct i as [|i]; destruct j as [|j]; simpl; try lia.
    + pose proof (total_size_take_nonneg calls j Hall). lia.
    + specialize (IH i j ltac:(lia)). lia.
Qed.

Lemma total_size_take_le calls (i : nat) :
  Forall (fun c => 0 <= ac_size c) calls ->
  total_size (take i calls) <= total_size calls.
Proof.
  intros Hall. rewrite <- (firstn_all calls) at 2.
  destruct (Nat.le_ge_cases i (length calls)).
  - apply total_size_take_mono; assumption.
  - rewrite take_ge by lia. rewrite firstn_all. lia.
Qed.

(** ** Deferred destruction: the loops that keep what is not yet due *)

Lemma last_app_cons {A} (pre : list A) (x : A) (rest : list A) :
  last (pre ++ x :: rest) = Some (List.last rest x).
Proof.
  revert x. induction rest as [|y rest IH] using rev_ind; intros x.
  - rewrite last_snoc. reflexivity.
  - rewrite app_comm_cons, app_assoc, last_snoc.
    rewrite List.last_last. reflexivity.
Qed.

(** Popping the element in the middle of [pre ++ x :: rest]: the prefix
    stays, the rest is permuted. *)
Lemma sx_array_pop_middle {A} (pre rest : list A) (x : A) :
  exists rest', sx_array_pop (pre ++ x :: rest) (Z.of_nat (length pre)) = pre ++ rest'
                /\ rest' ≡ₚ rest.
Proof.
  unfold sx_array_pop. rewrite last_app_cons, arr_store_middle.
  destruct rest as [|y rest] using rev_ind.
  - exists []. split; [|reflexivity]. simpl.
    rewrite length_app. simpl. rewrite Nat.add_sub.
    rewrite take_app_length, app_nil_r. reflexivity.
  - clear IHrest. exists (y :: rest). split.
    + rewrite List.last_last.
      replace (length (pre ++ x :: rest ++ [y]) - 1)%nat with (length (pre ++ y :: rest)).
      2:{ rewrite !length_app. simpl. rewrite length_app. simpl. lia. }
      replace (pre ++ y :: rest ++ [y]) with ((pre ++ y :: rest) ++ [y]).
      2:{ rewrite <- app_assoc. reflexivity. }
      apply take_app_length.
    + apply Permutation_cons_append.
Qed.

Lemma filter_perm {A} (f : A -> bool) (l l' : list A) :
  l ≡ₚ l' -> List.filter f l ≡ₚ List.filter f l'.
Proof.
  induction 1 as [|x l l' _ IH|x y l|l l' l'' _ IH1 _ IH2]; simpl.
  - reflexivity.
  - destruct (f x); [constructor|]; exact IH.
  - destruct (f x), (f y); try reflexivity. apply Permutation_swap.
  - etransitivity; eassumption.
Qed.

Section CollectLoop.

Context {St : Type}.
Variable body : Z -> St -> result (bool * St).
(** Whether a handle is due, and what destroying it does to the state. *)
Variable due : Z -> bool.
Variable kill : Z -> St -> St.
(** What the loop relies on, for the handles still queued. *)
Variable Inv : list Z -> St -> Prop.

Hypothesis Inv_perm : forall l l' s, l ≡ₚ l' -> Inv l s -> Inv l' s.
Hypothesis body_spec : forall l h s,
  Inv l s -> h ∈ l -> body h s = Ret (due h, if due h then kill h s else s).
Hypothesis Inv_kill : forall l h s, Inv (h :: l) s -> due h = true -> Inv l (kill h s).

Lemma collect_loop_spec (n : nat) :
  forall kept rest s,
    length rest = n -> Inv (kept ++ rest) s ->
    exists kept' killed,
      collect_loop body n (Z.of_nat (length kept))
                   (Z.of_nat (length kept) + Z.of_nat n) (kept ++ rest) s
      = Ret (kept ++ kept', fold_left (fun s h => kill h s) killed s)
      /\ kept' ≡ₚ List.filter (fun h => negb (due h)) rest
      /\ killed ≡ₚ List.filter due rest
      /\ Inv (kept ++ kept') (fold_left (fun s h => kill h s) killed s).
Proof.
  induction n as [|n IH]; intros kept rest s Hlen HInv.
  - destruct rest; [|discriminate]. exists [], []. rewrite app_nil_r in *.
    cbn [collect_loop fold_left List.filter].
    rewrite (proj2 (Z.ltb_ge _ _)) by lia.
    repeat split; [reflexivity | reflexivity | exact HInv].
  - destruct rest as [|h rest]; [discriminate|]. injection Hlen as Hlen.
    cbn [collect_loop].
    destruct (Z.ltb_spec (Z.of_nat (length kept)) (Z.of_nat (length kept) + Z.of_nat (S n)));
      [|lia].
    rewrite arr_at_middle. cbn [bind].
    rewrite (body_spec (kept ++ h :: rest) h s HInv)
      by (apply elem_of_app; right; left).
    cbn [bind]. destruct (due h) eqn:Edue.
    + destruct (sx_array_pop_middle kept rest h) as (rest' & -> & Hperm).
      assert (HInv' : Inv (kept ++ rest') (kill h s)).
      { apply (Inv_kill _ h); [|exact Edue].
        eapply Inv_perm; [|exact HInv].
        rewrite Hperm. symmetry. apply Permutation_middle. }
      destruct (IH kept rest' (kill h s)) as (kept' & killed & E & Hk & Hd & HI);
        [rewrite Hperm; exact Hlen | exact HInv' |].
      replace (Z.of_nat (length kept) + Z.of_nat (S n) - 1)
        with (Z.of_nat (length kept) + Z.of_nat n) by lia.
      exists kept', (h :: killed). split; [exact E|]. simpl. rewrite Edue. simpl.
      split; [rewrite Hk; apply filter_perm, Hperm|].
      split; [constructor; rewrite Hd; apply filter_perm, Hperm | exact HI].
    + destruct (IH (kept ++ [h]) rest s) as (kept' & killed & E & Hk & Hd & HI);
        [exact Hlen | rewrite <- app_assoc; exact HInv |].
      rewrite length_app in E. simpl in E.
      replace (Z.of_nat (length kept + 1)) with (Z.of_nat (length kept) + 1) in E by lia.
      replace (Z.of_nat (length kept) + 1 + Z.of_nat n)
        with (Z.of_nat (length kept) + Z.of_nat (S n)) in E by lia.
      rewrite <- !app_assoc in E. simpl in E.
      exists (h :: kept'), killed. split; [exact E|]. simpl. rewrite Edue. simpl.
      split; [constructor; exact Hk|]. split; [exact Hd|].
      rewrite <- app_assoc in HI. exact HI.
Qed.

End CollectLoop.

Lemma _sg_lookup_pool_remove_ne (slots : list sg_slot) (h h' : Z) :
  h <> h' -> _sg_lookup (pool_remove slots h) h' = _sg_lookup slots h'.
Proof.
  intros Hne. unfold _sg_lookup, pool_remove. destruct (h' =? 0); [reflexivity|].
  induction slots as [|s slots IH]; simpl; [reflexivity|].
  destruct (Z.eqb_spec (slot_id s) h) as [E|E]; simpl.
  - destruct (Z.eqb_spec (slot_id s) h') as [E'|_]; [congruence | exact IH].
  - destruct (slot_id s =? h'); [reflexivity | exact IH].
Qed.

Lemma collect_loop_preserves {St} (body : Z -> St -> result (bool * St)) (P : St -> Prop) :
  (forall h s b s', P s -> body h s = Ret (b, s') -> P s') ->
  forall fuel i c q s q' s',
    P s -> collect_loop body fuel i c q s = Ret (q', s') -> P s'.
Proof.
  intros HP fuel. induction fuel as [|fuel IH]; intros i c q s q' s' Hs E; simpl in E.
  - destruct (i <? c); [discriminate|]. injection E as <- <-. exact Hs.
  - destruct (i <? c); [|injection E as <- <-; exact Hs].
    apply bind_Ret in E as (h & _ & E). apply bind_Ret in E as ([b s1] & Hb & E).
    apply HP in Hb; [|exact Hs]. destruct b; eapply IH; eassumption.
Qed.

Section PoolQueue.

Variable pool : sg_state -> list sg_slot.
Variable destroy : sg_state -> Z -> sg_state.
Variable call : Z -> sg_call.
Hypothesis pool_destroy : forall sg h, pool (destroy sg h) = pool_remove (pool sg) h.
Hypothesis calls_destroy : forall sg h, sg_calls (destroy sg h) = sg_calls sg ++ [call h].
Variable frame : Z.
Variable slots0 : list sg_slot.

Let Inv (l : list Z) (sg : sg_state) : Prop :=
  NoDup l
  /\ forall h, h ∈ l ->
       _sg_lookup (pool sg) h = _sg_lookup slots0 h /\ is_Some (_sg_lookup slots0 h).

Lemma fold_destroy_calls (killed : list Z) (sg : sg_state) :
  sg_calls (fold_left (fun s h => destroy s h) killed sg)
  = sg_calls sg ++ List.map call killed.
Proof.
  revert sg. induction killed as [|h killed IH]; intros sg; simpl.
  - rewrite app_nil_r. reflexivity.
  - rewrite IH, calls_destroy, <- app_assoc. reflexivity.
Qed.

(** The loop over a queue of distinct, live handles: it returns; the
    handles that are not due stay queued and keep their slots; the due ones
    are destroyed, each once. *)
Lemma pool_queue_loop (queue : list Z) (sg : sg_state) :
  NoDup queue ->
  pool sg = slots0 ->
  (forall h, h ∈ queue -> is_Some (_sg_lookup slots0 h)) ->
  exists queue' killed sg',
    collect_loop (pool_body pool destroy frame) (queue_fuel queue) 0
                 (queue_count queue) queue sg = Ret (queue', sg')
    /\ queue' ≡ₚ List.filter (fun h => negb (due_at slots0 frame h)) queue
    /\ killed ≡ₚ List.filter (due_at slots0 frame) queue
    /\ sg_calls sg' = sg_calls sg ++ List.map call killed
    /\ forall h, h ∈ queue' -> _sg_lookup (pool sg') h = _sg_lookup slots0 h.
Proof.
  intros Hnd Hpool Hlive.
  destruct (collect_loop_spec (pool_body pool destroy frame) (due_at slots0 frame)
              (fun h s => destroy s h) Inv) with (n := length queue) (kept := @nil Z)
              (rest := queue) (s := sg)
    as (kept' & killed & E & Hk & Hd & HI).
  - intros l l' s Hp [H1 H2]. split; [rewrite <- Hp; exact H1|].
    intros h Hh. apply H2. rewrite Hp. exact Hh.
  - intros l h s [_ H2] Hh. destruct (H2 h Hh) as [Hl [slot Hs]].
    unfold pool_body, due_at. rewrite Hl, Hs.
    destruct (slot_used_frame slot + 1 <? frame); reflexivity.
  - intros l h s [H1 H2] _. apply NoDup_cons in H1 as [Hnin H1]. split; [exact H1|].
    intros h' Hh'. destruct (H2 h' ltac:(right; exact Hh')) as [Hl Hs].
    split; [|exact Hs]. rewrite pool_destroy, _sg_lookup_pool_remove_ne; [exact Hl|].
    intros ->. contradiction.
  - reflexivity.
  - split; [exact Hnd|]. intros h Hh. rewrite Hpool. auto.
  - exists kept', killed, (fold_left (fun s h => destroy s h) killed sg).
    split; [exact E|]. split; [exact Hk|]. split; [exact Hd|].
    split; [apply fold_destroy_calls|].
    intros h Hh. apply (proj2 HI h Hh).
Qed.

End PoolQueue.

(** The images queue inside [rizz__gfx_collect_garbage]: a queued image
    whose last-used frame is at least [frame - 1] is still queued and still
    holds its slot afterwards; one used earlier has left the queue and
    [sg_destroy_image] was called on it. *)
Lemma collect_garbage_image_queue (g : rizz__gfx) (sg : sg_state) (frame : Z)
      (g' : rizz__gfx) (sg' : sg_state) :
  rizz__gfx_collect_garbage g sg frame = Ret (g', sg') ->
  NoDup (destroy_images g) ->
  (forall h, h ∈ destroy_images g -> is_Some (_sg_lookup (sg_images sg) h)) ->
  forall h slot,
    h ∈ destroy_images g -> _sg_lookup (sg_images sg) h = Some slot ->
    if slot_used_frame slot + 1 <? frame
    then ~ h ∈ destroy_images g' /\ Sg_destroy_image h ∈ sg_calls sg'
    else h ∈ destroy_images g' /\ _sg_lookup (sg_images sg') h = Some slot.
Proof.
  intros E Hnd Hlive h slot Hh Hslot. unfold rizz__gfx_collect_garbage in E.
  apply bind_Ret in E as ([q1 [sbs sg1]] & E1 & E).
  apply bind_Ret in E as ([q2 [ps sg2]] & E2 & E).
  apply bind_Ret in E as ([q3 sg3] & E3 & E).
  apply bind_Ret in E as ([q4 sg4] & E4 & E).
  apply bind_Ret in E as ([q5 sg5] & E5 & E). injection E as <- <-.
  cbn [destroy_images set_destroy_images set_destroy_passes set_destroy_shaders
       set_destroy_pips set_pips set_destroy_buffers set_stream_buffs] in *.
  assert (H1 : sg_images sg1 = sg_images sg).
  { apply (collect_loop_preserves _ (fun s => sg_images (snd s) = sg_images sg))
      in E1; [exact E1| |reflexivity].
    intros x [sb s] b [sb' s'] Hs Hb. simpl in *. unfold collect_buffer in Hb.
    destruct (_sg_lookup (sg_buffers s) x) as [sl|]; [|discriminate].
    destruct (slot_used_frame sl + 1 <? frame); injection Hb as <- <- <-; exact Hs. }
  assert (H2 : sg_images sg2 = sg_images sg).
  { apply (collect_loop_preserves _ (fun s => sg_images (snd s) = sg_images sg))
      in E2; [exact E2| |exact H1].
    intros x [sb s] b [sb' s'] Hs Hb. simpl in *. unfold collect_pipeline in Hb.
    destruct (_sg_lookup (sg_pipelines s) x) as [sl|]; [|discriminate].
    destruct (slot_used_frame sl + 1 <? frame); injection Hb as <- <- <-; exact Hs. }
  assert (H3 : sg_images sg3 = sg_images sg).
  { apply (collect_loop_preserves _ (fun s => sg_images s = sg_images sg))
      in E3; [exact E3| |exact H2].
    intros x s b s' Hs Hb. unfold collect_shader in Hb.
    destruct (_sg_lookup (sg_pipelines s) x) as [sl|];
      [destruct (slot_used_frame sl + 1 <? frame)|]; injection Hb as <- <-; exact Hs. }
  assert (H4 : sg_images sg4 = sg_images sg).
  { apply (collect_loop_preserves _ (fun s => sg_images s = sg_images sg))
      in E4; [exact E4| |exact H3].
    intros x s b s' Hs Hb. unfold collect_pass in Hb.
    destruct (_sg_lookup (sg_passes s) x) as [sl|]; [|discriminate].
    destruct (slot_used_frame sl + 1 <? frame); injection Hb as <- <-; exact Hs. }
  destruct (pool_queue_loop sg_images sg_destroy_image Sg_destroy_image
              (fun _ _ => eq_refl) (fun _ _ => eq_refl) frame (sg_images sg)
              (destroy_images g) sg4 Hnd H4 Hlive)
    as (q' & killed & sg'' & E' & Hq & Hk & Hcalls & Hkeep).
  change (pool_body sg_images sg_destroy_image frame) with (collect_image frame) in E'.
  rewrite E5 in E'. injection E' as <- <-.
  assert (Hdue : due_at (sg_images sg) frame h = (slot_used_frame slot + 1 <? frame)).
  { unfold due_at. rewrite Hslot. reflexivity. }
  destruct (slot_used_frame slot + 1 <? frame) eqn:Ed.
  - split.
    + rewrite Hq. intros Hin. apply list_elem_of_In, filter_In in Hin as [_ Hin].
      rewrite Hdue in Hin. discriminate.
    + rewrite Hcalls. apply elem_of_app. right. apply list_elem_of_fmap.
      exists h. split; [reflexivity|]. rewrite Hk. apply list_elem_of_In, filter_In.
      split; [apply list_elem_of_In; exact Hh | exact Hdue].
  - assert (Hin : h ∈ q5).
    { rewrite Hq. apply list_elem_of_In, filter_In.
      split; [apply list_elem_of_In; exact Hh | rewrite Hdue; reflexivity]. }
    split; [exact Hin|]. rewrite (Hkeep h Hin). exact Hslot.
Qed.

(** The same for the passes queue. *)
Lemma collect_garbage_pass_queue (g : rizz__gfx) (sg : sg_state) (frame : Z)
      (g' : rizz__gfx) (sg' : sg_state) :
  rizz__gfx_collect_garbage g sg frame = Ret (g', sg') ->
  NoDup (destroy_passes g) ->
  (forall h, h ∈ destroy_passes g -> is_Some (_sg_lookup (sg_passes sg) h)) ->
  forall h slot,
    h ∈ destroy_passes g -> _sg_lookup (sg_passes sg) h = Some slot ->
    if slot_used_frame slot + 1 <? frame
    then ~ h ∈ destroy_passes g' /\ Sg_destroy_pass h ∈ sg_calls sg'
    else h ∈ destroy_passes g' /\ _sg_lookup (sg_passes sg') h = Some slot.
Proof.
  intros E Hnd Hlive h slot Hh Hslot. unfold rizz__gfx_collect_garbage in E.
  apply bind_Ret in E as ([q1 [sbs sg1]] & E1 & E).
  apply bind_Ret in E as ([q2 [ps sg2]] & E2 & E).
  apply bind_Ret in E as ([q3 sg3] & E3 & E).
  apply bind_Ret in E as ([q4 sg4] & E4 & E).
  apply bind_Ret in E as ([q5 sg5] & E5 & E). injection E as <- <-.
  cbn [destroy_passes set_destroy_images set_destroy_passes set_destroy_shaders
       set_destroy_pips set_pips set_destroy_buffers set_stream_buffs] in *.
  assert (H1 : sg_passes sg1 = sg_passes sg).
  { apply (collect_loop_preserves _ (fun s => sg_passes (snd s) = sg_passes sg))
      in E1; [exact E1| |reflexivity].
    intros x [sb s] b [sb' s'] Hs Hb. simpl in *. unfold collect_buffer in Hb.
    destruct (_sg_lookup (sg_buffers s) x) as [sl|]; [|discriminate].
    destruct (slot_used_frame sl + 1 <? frame); injection Hb as <- <- <-; exact Hs. }
  assert (H2 : sg_passes sg2 = sg_passes sg).
  { apply (collect_loop_preserves _ (fun s => sg_passes (snd s) = sg_passes sg))
      in E2; [exact E2| |exact H1].
    intros x [sb s] b [sb' s'] Hs Hb. simpl in *. unfold collect_pipeline in Hb.
    destruct (_sg_lookup (sg_pipelines s) x) as [sl|]; [|discriminate].
    destruct (slot_used_frame sl + 1 <? frame); injection Hb as <- <- <-; exact Hs. }
  assert (H3 : sg_passes sg3 = sg_passes sg).
  { apply (collect_loop_preserves _ (fun s => sg_passes s = sg_passes sg))
      in E3; [exact E3| |exact H2].
    intros x s b s' Hs Hb. unfold collect_shader in Hb.
    destruct (_sg_lookup (sg_pipelines s) x) as [sl|];
      [destruct (slot_used_frame sl + 1 <? frame)|]; injection Hb as <- <-; exact Hs. }
  destruct (pool_queue_loop sg_passes sg_destroy_pass Sg_destroy_pass
              (fun _ _ => eq_refl) (fun _ _ => eq_refl) frame (sg_passes sg)
              (destroy_passes g) sg3 Hnd H3 Hlive)
    as (q' & killed & sg'' & E' & Hq & Hk & Hcalls & Hkeep).
  change (pool_body sg_passes sg_destroy_pass frame) with (collect_pass frame) in E'.
  rewrite E4 in E'. injection E' as <- <-.
  (* the images loop leaves the passes alone *)
  assert (H5 : sg_passes sg5 = sg_passes sg4
               /\ forall c, c ∈ sg_calls sg4 -> c ∈ sg_calls sg5).
  { apply (collect_loop_preserves _
             (fun s => sg_passes s = sg_passes sg4
                       /\ forall c, c ∈ sg_calls sg4 -> c ∈ sg_calls s))
      in E5; [exact E5| |split; [reflexivity | auto]].
    intros x s b s' [Hs Hc] Hb. unfold collect_image in Hb.
    destruct (_sg_lookup (sg_images s) x) as [sl|]; [|discriminate].
    destruct (slot_used_frame sl + 1 <? frame); injection Hb as <- <-.
    - split; [exact Hs|]. intros c Hin. simpl. apply elem_of_app. left. auto.
    - split; [exact Hs | exact Hc]. }
  destruct H5 as [H5 H5c].
  assert (Hdue : due_at (sg_passes sg) frame h = (slot_used_frame slot + 1 <? frame)).
  { unfold due_at. rewrite Hslot. reflexivity. }
  destruct (slot_used_frame slot + 1 <? frame) eqn:Ed.
  - split.
    + rewrite Hq. intros Hin. apply list_elem_of_In, filter_In in Hin as [_ Hin].
      rewrite Hdue in Hin. discriminate.
    + apply H5c. rewrite Hcalls. apply elem_of_app. right. apply list_elem_of_fmap.
      exists h. split; [reflexivity|]. rewrite Hk. apply list_elem_of_In, filter_In.
      split; [apply list_elem_of_In; exact Hh | exact Hdue].
  - assert (Hin : h ∈ q4).
    { rewrite Hq. apply list_elem_of_In, filter_In.
      split; [apply list_elem_of_In; exact Hh | rewrite Hdue; reflexivity]. }
    split; [exact Hin|]. rewrite H5, (Hkeep h Hin). exact Hslot.
Qed.


Section PoolQueueAux.

Context {X : Type}.
Variable pool : sg_state -> list sg_slot.
Variable destroy : sg_state -> Z -> sg_state.
Variable call : Z -> sg_call.
Variable aux : sg_slot -> Z -> X -> X.
Hypothesis pool_destroy : forall sg h, pool (destroy sg h) = pool_remove (pool sg) h.
Hypothesis calls_destroy : forall sg h, sg_calls (destroy sg h) = sg_calls sg ++ [call h].
Variable frame : Z.
Variable slots0 : list sg_slot.

Let InvA (l : list Z) (s : X * sg_state) : Prop :=
  NoDup l
  /\ forall h, h ∈ l ->
       _sg_lookup (pool (snd s)) h = _sg_lookup slots0 h
       /\ is_Some (_sg_lookup slots0 h).

Lemma fold_kill_aux_calls (killed : list Z) (s : X * sg_state) :
  (forall h, h ∈ killed -> is_Some (_sg_lookup slots0 h)) ->
  InvA killed s ->
  sg_calls (snd (fold_left (fun s h => kill_aux pool destroy aux h s) killed s))
  = sg_calls (snd s) ++ List.map call killed.
Proof.
  revert s. induction killed as [|h killed IH]; intros s Hlive [Hnd HI]; simpl.
  - rewrite app_nil_r. reflexivity.
  - apply NoDup_cons in Hnd as [Hnin Hnd].
    destruct (HI h ltac:(left)) as [Hl [slot Hs]].
    assert (Ek : kill_aux pool destroy aux h s = (aux slot h (fst s), destroy (snd s) h)).
    { unfold kill_aux. rewrite Hl, Hs. reflexivity. }
    rewrite Ek, IH.
    + simpl. rewrite calls_destroy, <- app_assoc. reflexivity.
    + intros h' Hh'. apply Hlive. right. exact Hh'.
    + split; [exact Hnd|]. intros h' Hh'. simpl.
      destruct (HI h' ltac:(right; exact Hh')) as [Hl' Hs'].
      split; [|exact Hs']. rewrite pool_destroy, _sg_lookup_pool_remove_ne; [exact Hl'|].
      intros ->. contradiction.
Qed.

(** The loop with a shadow table, over a queue of distinct, live handles. *)
Lemma pool_queue_aux_loop (queue : list Z) (x : X) (sg : sg_state) :
  NoDup queue ->
  pool sg = slots0 ->
  (forall h, h ∈ queue -> is_Some (_sg_lookup slots0 h)) ->
  exists queue' killed x' sg',
    collect_loop (pool_body_aux pool destroy aux frame) (queue_fuel queue) 0
                 (queue_count queue) queue (x, sg) = Ret (queue', (x', sg'))
    /\ queue' ≡ₚ List.filter (fun h => negb (due_at slots0 frame h)) queue
    /\ killed ≡ₚ List.filter (due_at slots0 frame) queue
    /\ sg_calls sg' = sg_calls sg ++ List.map call killed
    /\ forall h, h ∈ queue' -> _sg_lookup (pool sg') h = _sg_lookup slots0 h.
Proof.
  intros Hnd Hpool Hlive.
  destruct (collect_loop_spec (pool_body_aux pool destroy aux frame) (due_at slots0 frame)
              (kill_aux pool destroy aux) InvA) with (n := length queue) (kept := @nil Z)
              (rest := queue) (s := (x, sg))
    as (kept' & killed & E & Hk & Hd & HI).
  - intros l l' s Hp [H1 H2]. split; [rewrite <- Hp; exact H1|].
    intros h Hh. apply H2. rewrite Hp. exact Hh.
  - intros l h [x0 s] [_ H2] Hh. destruct (H2 h Hh) as [Hl [slot Hs]]. simpl in Hl.
    unfold pool_body_aux, kill_aux, due_at. simpl. rewrite Hl, Hs.
    destruct (slot_used_frame slot + 1 <? frame); reflexivity.
  - intros l h [x0 s] [H1 H2] _. apply NoDup_cons in H1 as [Hnin H1]. split; [exact H1|].
    intros h' Hh'. destruct (H2 h' ltac:(right; exact Hh')) as [Hl Hs].
    destruct (H2 h ltac:(left)) as [Hl0 [slot Hs0]]. simpl in *.
    split; [|exact Hs]. unfold kill_aux. simpl. rewrite Hl0, Hs0. simpl.
    rewrite pool_destroy, _sg_lookup_pool_remove_ne; [exact Hl|].
    intros ->. contradiction.
  - reflexivity.
  - split; [exact Hnd|]. intros h Hh. simpl. rewrite Hpool. auto.
  - simpl in E.
    destruct (fold_left (fun s h => kill_aux pool destroy aux h s) killed (x, sg))
      as [x' sg'] eqn:Ef.
    exists kept', killed, x', sg'. split; [exact E|]. split; [exact Hk|].
    split; [exact Hd|]. split.
    + assert (Hk' : forall h, h ∈ killed -> h ∈ queue).
      { intros h Hh. rewrite Hd in Hh. apply list_elem_of_In, filter_In in Hh as [Hh _].
        apply list_elem_of_In. exact Hh. }
      pose proof (fold_kill_aux_calls killed (x, sg)) as Hc. rewrite Ef in Hc. simpl in Hc.
      apply Hc; [intros h Hh; apply Hlive, Hk', Hh|].
      split.
      * rewrite Hd. apply NoDup_ListNoDup, List.NoDup_filter, NoDup_ListNoDup. exact Hnd.
      * intros h Hh. simpl. rewrite Hpool. split; [reflexivity | apply Hlive, Hk', Hh].
    + intros h Hh. apply (proj2 HI h Hh).
Qed.

End PoolQueueAux.

(** Destroying or keeping handles of the other kinds leaves a pool and the
    calls made so far in place. *)
Ltac body_keeps :=
  let x := fresh "x" in
  let s := fresh "s" in
  let b := fresh "b" in
  let s' := fresh "s'" in
  let Hs := fresh "Hs" in
  let Hb := fresh "Hb" in
  intros x s b s' Hs Hb;
  repeat match goal with p : (_ * _)%type |- _ => destruct p end;
  cbn [fst snd] in *;
  unfold collect_buffer, collect_pipeline, collect_shader, collect_pass, collect_image in Hb;
  repeat match type of Hb with
         | context [match ?e with _ => _ end] => destruct e
         end;
  try discriminate;
  inversion Hb; subst; cbn;
  destruct Hs as [? ?];
  (split;
   [assumption
   | first [assumption
           | let c := fresh "c" in
             let Hc := fresh "Hc" in
             intros c Hc; apply elem_of_app; left; auto]]).

Ltac loop_keeps P E H0 :=
  let HP := fresh "HP" in
  match type of E with
  | collect_loop ?body _ _ _ _ _ = _ =>
      assert (HP : forall h s b s', P s -> body h s = Ret (b, s') -> P s') by body_keeps;
      refine (collect_loop_preserves body P HP _ _ _ _ _ _ _ _ E); exact H0
  end.

Lemma kept_in_refl proj sg : kept_in proj sg sg.
Proof. split; [reflexivity | auto]. Qed.

(** The buffers queue inside [rizz__gfx_collect_garbage]. *)
Lemma collect_garbage_buffer_queue (g : rizz__gfx) (sg : sg_state) (frame : Z)
      (g' : rizz__gfx) (sg' : sg_state) :
  rizz__gfx_collect_garbage g sg frame = Ret (g', sg') ->
  NoDup (destroy_buffers g) ->
  (forall h, h ∈ destroy_buffers g -> is_Some (_sg_lookup (sg_buffers sg) h)) ->
  forall h slot,
    h ∈ destroy_buffers g -> _sg_lookup (sg_buffers sg) h = Some slot ->
    if slot_used_frame slot + 1 <? frame
    then ~ h ∈ destroy_buffers g' /\ Sg_destroy_buffer h ∈ sg_calls sg'
    else h ∈ destroy_buffers g' /\ _sg_lookup (sg_buffers sg') h = Some slot.
Proof.
  intros E Hnd Hlive h slot Hh Hslot. unfold rizz__gfx_collect_garbage in E.
  apply bind_Ret in E as ([q1 [sbs sg1]] & E1 & E).
  apply bind_Ret in E as ([q2 [ps sg2]] & E2 & E).
  apply bind_Ret in E as ([q3 sg3] & E3 & E).
  apply bind_Ret in E as ([q4 sg4] & E4 & E).
  apply bind_Ret in E as ([q5 sg5] & E5 & E). injection E as <- <-.
  cbn [destroy_buffers set_destroy_images set_destroy_passes set_destroy_shaders
       set_destroy_pips set_pips set_destroy_buffers set_stream_buffs] in *.
  destruct (pool_queue_aux_loop sg_buffers sg_destroy_buffer Sg_destroy_buffer
              (fun buf buf_id sbs =>
                 if sg_usage_eqb (slot_usage buf) SG_USAGE_STREAM
                 then shadow_remove sb_buf sbs buf_id else sbs)
              (fun _ _ => eq_refl) (fun _ _ => eq_refl) frame (sg_buffers sg)
              (destroy_buffers g) (stream_buffs g) sg Hnd eq_refl Hlive)
    as (q' & killed & x' & sg'' & E' & Hq & Hk & Hcalls & Hkeep).
  change (pool_body_aux sg_buffers sg_destroy_buffer _ frame) with (collect_buffer frame) in E'.
  rewrite E1 in E'. injection E' as <- <- <-.
  assert (K2 : kept_in sg_buffers sg1 sg2).
  { loop_keeps (fun s : list Z * sg_state => kept_in sg_buffers sg1 (snd s)) E2 (kept_in_refl sg_buffers sg1). }
  assert (K3 : kept_in sg_buffers sg1 sg3).
  { loop_keeps (fun s => kept_in sg_buffers sg1 s) E3 K2. }
  assert (K4 : kept_in sg_buffers sg1 sg4).
  { loop_keeps (fun s => kept_in sg_buffers sg1 s) E4 K3. }
  assert (K5 : kept_in sg_buffers sg1 sg5).
  { loop_keeps (fun s => kept_in sg_buffers sg1 s) E5 K4. }
  destruct K5 as [K5 K5c].
  assert (Hdue : due_at (sg_buffers sg) frame h = (slot_used_frame slot + 1 <? frame)).
  { unfold due_at. rewrite Hslot. reflexivity. }
  destruct (slot_used_frame slot + 1 <? frame) eqn:Ed.
  - split.
    + rewrite Hq. intros Hin. apply list_elem_of_In, filter_In in Hin as [_ Hin].
      rewrite Hdue in Hin. discriminate.
    + apply K5c. rewrite Hcalls. apply elem_of_app. right. apply list_elem_of_fmap.
      exists h. split; [reflexivity|]. rewrite Hk. apply list_elem_of_In, filter_In.
      split; [apply list_elem_of_In; exact Hh | exact Hdue].
  - assert (Hin : h ∈ q1).
    { rewrite Hq. apply list_elem_of_In, filter_In.
      split; [apply list_elem_of_In; exact Hh | rewrite Hdue; reflexivity]. }
    split; [exact Hin|]. rewrite K5, (Hkeep h Hin). exact Hslot.
Qed.

(** The pipelines queue inside [rizz__gfx_collect_garbage]. *)
Lemma collect_garbage_pipeline_queue (g : rizz__gfx) (sg : sg_state) (frame : Z)
      (g' : rizz__gfx) (sg' : sg_state) :
  rizz__gfx_collect_garbage g sg frame = Ret (g', sg') ->
  NoDup (destroy_pips g) ->
  (forall h, h ∈ destroy_pips g -> is_Some (_sg_lookup (sg_pipelines sg) h)) ->
  forall h slot,
    h ∈ destroy_pips g -> _sg_lookup (sg_pipelines sg) h = Some slot ->
    if slot_used_frame slot + 1 <? frame
    then ~ h ∈ destroy_pips g' /\ Sg_destroy_pipeline h ∈ sg_calls sg'
    else h ∈ destroy_pips g' /\ _sg_lookup (sg_pipelines sg') h = Some slot.
Proof.
  intros E Hnd Hlive h slot Hh Hslot. unfold rizz__gfx_collect_garbage in E.
  apply bind_Ret in E as ([q1 [sbs sg1]] & E1 & E).
  apply bind_Ret in E as ([q2 [ps sg2]] & E2 & E).
  apply bind_Ret in E as ([q3 sg3] & E3 & E).
  apply bind_Ret in E as ([q4 sg4] & E4 & E).
  apply bind_Ret in E as ([q5 sg5] & E5 & E). injection E as <- <-.
  cbn [destroy_pips pips set_destroy_images set_destroy_passes set_destroy_shaders
       set_destroy_pips set_pips set_destroy_buffers set_stream_buffs] in *.
  assert (K1 : kept_in sg_pipelines sg sg1).
  { loop_keeps (fun s : list rizz__gfx_stream_buffer * sg_state =>
                  kept_in sg_pipelines sg (snd s)) E1 (kept_in_refl sg_pipelines sg). }
  destruct K1 as [K1 _].
  destruct (pool_queue_aux_loop sg_pipelines sg_destroy_pipeline Sg_destroy_pipeline
              (fun _ pip_id ps => shadow_remove (fun p => p) ps pip_id)
              (fun _ _ => eq_refl) (fun _ _ => eq_refl) frame (sg_pipelines sg)
              (destroy_pips g) (pips g) sg1 Hnd K1 Hlive)
    as (q' & killed & x' & sg'' & E' & Hq & Hk & Hcalls & Hkeep).
  change (pool_body_aux sg_pipelines sg_destroy_pipeline _ frame)
    with (collect_pipeline frame) in E'.
  rewrite E2 in E'. injection E' as <- <- <-.
  assert (K3 : kept_in sg_pipelines sg2 sg3).
  { loop_keeps (fun s => kept_in sg_pipelines sg2 s) E3 (kept_in_refl sg_pipelines sg2). }
  assert (K4 : kept_in sg_pipelines sg2 sg4).
  { loop_keeps (fun s => kept_in sg_pipelines sg2 s) E4 K3. }
  assert (K5 : kept_in sg_pipelines sg2 sg5).
  { loop_keeps (fun s => kept_in sg_pipelines sg2 s) E5 K4. }
  destruct K5 as [K5 K5c].
  assert (Hdue : due_at (sg_pipelines sg) frame h = (slot_used_frame slot + 1 <? frame)).
  { unfold due_at. rewrite Hslot. reflexivity. }
  destruct (slot_used_frame slot + 1 <? frame) eqn:Ed.
  - split.
    + rewrite Hq. intros Hin. apply list_elem_of_In, filter_In in Hin as [_ Hin].
      rewrite Hdue in Hin. discriminate.
    + apply K5c. rewrite Hcalls. apply elem_of_app. right. apply list_elem_of_fmap.
      exists h. split; [reflexivity|]. rewrite Hk. apply list_elem_of_In, filter_In.
      split; [apply list_elem_of_In; exact Hh | exact Hdue].
  - assert (Hin : h ∈ q2).
    { rewrite Hq. apply list_elem_of_In, filter_In.
      split; [apply list_elem_of_In; exact Hh | rewrite Hdue; reflexivity]. }
    split; [exact Hin|]. rewrite K5, (Hkeep h Hin). exact Hslot.
Qed.

Lemma grace_period_of_test (frame : Z) queue' pool' calls' call h slot :
  (if slot_used_frame slot + 1 <? frame
   then ~ h ∈ queue' /\ call h ∈ calls'
   else h ∈ queue' /\ _sg_lookup pool' h = Some slot) ->
  grace_period frame queue' pool' calls' call h slot.
Proof.
  intros H. split; intros Hf; destruct (Z.ltb_spec (slot_used_frame slot + 1) frame);
    first [exact H | lia].
Qed.

(** By frames, for the buffers, pipelines, passes and images queues: after
    a collection that returns, a handle queued with last-used frame [F] is
    still queued and alive when [frame <= F + 1], and destroyed and out of the
    queue when [F + 2 <= frame]. *)
Corollary grace_period_of_sound_queues (g : rizz__gfx) (sg : sg_state) (frame : Z)
          (g' : rizz__gfx) (sg' : sg_state) :
  rizz__gfx_collect_garbage g sg frame = Ret (g', sg') ->
  (NoDup (destroy_buffers g) ->
   (forall x, x ∈ destroy_buffers g -> is_Some (_sg_lookup (sg_buffers sg) x)) ->
   forall h slot, h ∈ destroy_buffers g -> _sg_lookup (sg_buffers sg) h = Some slot ->
     grace_period frame (destroy_buffers g') (sg_buffers sg') (sg_calls sg')
                  Sg_destroy_buffer h slot)
  /\ (NoDup (destroy_pips g) ->
      (forall x, x ∈ destroy_pips g -> is_Some (_sg_lookup (sg_pipelines sg) x)) ->
      forall h slot, h ∈ destroy_pips g -> _sg_lookup (sg_pipelines sg) h = Some slot ->
        grace_period frame (destroy_pips g') (sg_pipelines sg') (sg_calls sg')
                     Sg_destroy_pipeline h slot)
  /\ (NoDup (destroy_passes g) ->
      (forall x, x ∈ destroy_passes g -> is_Some (_sg_lookup (sg_passes sg) x)) ->
      forall h slot, h ∈ destroy_passes g -> _sg_lookup (sg_passes sg) h = Some slot ->
        grace_period frame (destroy_passes g') (sg_passes sg') (sg_calls sg')
                     Sg_destroy_pass h slot)
  /\ (NoDup (destroy_images g) ->
      (forall x, x ∈ destroy_images g -> is_Some (_sg_lookup (sg_images sg) x)) ->
      forall h slot, h ∈ destroy_images g -> _sg_lookup (sg_images sg) h = Some slot ->
        grace_period frame (destroy_images g') (sg_images sg') (sg_calls sg')
                     Sg_destroy_image h slot).
Proof.
  intros E. split; [| split; [| split]];
    intros Hnd Hlive h slot Hh Hslot; apply grace_period_of_test.
  - exact (collect_garbage_buffer_queue g sg frame g' sg' E Hnd Hlive h slot Hh Hslot).
  - exact (collect_garbage_pipeline_queue g sg frame g' sg' E Hnd Hlive h slot Hh Hslot).
  - exact (collect_garbage_pass_queue g sg frame g' sg' E Hnd Hlive h slot Hh Hslot).
  - exact (collect_garbage_image_queue g sg frame g' sg' E Hnd Hlive h slot Hh Hslot).
Qed.

(** ** Deferred destruction: the shader queue *)

Lemma sx_array_pop_length {A} (a : list A) (i : Z) :
  a <> [] -> length (sx_array_pop a i) = (length a - 1)%nat.
Proof.
  intros Hne. unfold sx_array_pop. destruct (last a) as [x|] eqn:El.
  - rewrite length_take, arr_store_length. lia.
  - apply last_None in El. contradiction.
Qed.

Lemma sx_array_pop_elem {A} (a : list A) (i : Z) (x : A) :
  x ∈ sx_array_pop a i -> x ∈ a.
Proof.
  unfold sx_array_pop. destruct (last a) as [y|] eqn:El; [|auto].
  intros Hx. apply list_elem_of_lookup in Hx as [j Hj].
  apply lookup_take_Some in Hj as [Hj _]. revert Hj.
  apply (arr_store_pointwise (fun _ z => z ∈ a)).
  - intros k s Hk. eapply list_elem_of_lookup_2. exact Hk.
  - intros _. apply last_Some in El as [l' ->]. apply elem_of_app. right. left.
Qed.

(** The shaders loop pops every handle it looks at: whatever the frame,
    the queue comes out empty; and a handle for which no pipeline has the
    same id is dropped without being destroyed. *)
Lemma collect_shaders_empties_queue (frame : Z) (queue : list Z) (sg : sg_state) :
  (exists sg', collect_loop (collect_shader frame) (queue_fuel queue) 0
                            (queue_count queue) queue sg = Ret ([], sg'))
  /\ ((forall h, h ∈ queue -> _sg_lookup (sg_pipelines sg) h = None) ->
      collect_loop (collect_shader frame) (queue_fuel queue) 0
                   (queue_count queue) queue sg = Ret ([], sg)).
Proof.
  unfold queue_fuel, queue_count.
  remember (length queue) as n eqn:Hn. revert queue sg Hn.
  induction n as [|n IH]; intros queue sg Hn.
  - destruct queue; [|discriminate]. simpl. split; [eexists|intros _]; reflexivity.
  - destruct queue as [|h queue']; [discriminate|].
    set (queue := h :: queue') in *.
    assert (Hpop : length (sx_array_pop queue 0) = n).
    { rewrite sx_array_pop_length by discriminate. rewrite <- Hn. lia. }
    assert (Hstep :
               collect_loop (collect_shader frame) (S n) 0 (Z.of_nat (S n)) queue sg
               = let* '(popped, s) := collect_shader frame h sg in
                 collect_loop (collect_shader frame) n 0 (Z.of_nat n)
                              (sx_array_pop queue 0) s).
    { cbn [collect_loop]. destruct (Z.ltb_spec 0 (Z.of_nat (S n))); [|lia].
      change (arr_at queue 0) with (Ret (A:=Z) h). cbn [bind].
      replace (Z.of_nat (S n) - 1) with (Z.of_nat n) by lia.
      unfold collect_shader.
      destruct (_sg_lookup (sg_pipelines sg) h) as [shd|]; cbn [bind]; [|reflexivity].
      destruct (slot_used_frame shd + 1 <? frame); reflexivity. }
    rewrite Hstep. split.
    + unfold collect_shader.
      destruct (_sg_lookup (sg_pipelines sg) h) as [shd|]; cbn [bind];
        [destruct (slot_used_frame shd + 1 <? frame); cbn [bind]|];
        apply (IH _ _ (eq_sym Hpop)).
    + intros Hnone. unfold collect_shader.
      rewrite (Hnone h) by left. cbn [bind].
      apply (IH _ _ (eq_sym Hpop)). intros h' Hh'. apply Hnone.
      eapply sx_array_pop_elem. exact Hh'.
Qed.

(** C4 (what the code does): the shaders 7 and 12 and the pass 8, all last
    used at frame 10, are queued for destruction at frame 10.  The collection
    of frame 11 keeps the pass queued and alive, but empties the shader queue:
    shader 7 is dropped without being destroyed (and never is, not even by the
    forced collection at shutdown), and shader 12 is destroyed at once,
    because the pipeline with the same id was last used at frame 3.  The
    collection of frame 12 destroys the pass. *)
Theorem collect_garbage_drops_queued_shader :
  scenario_deferred_destroy
  = Ret [ ([7; 12], [8], []);
          ([],      [8], [Sg_destroy_shader 12]);
          ([],      [],  [Sg_destroy_shader 12; Sg_destroy_pass 8]);
          ([],      [],  [Sg_destroy_shader 12; Sg_destroy_pass 8]) ].
Proof. vm_compute. reflexivity. Qed.

(** ** Image update: record and replay *)

(** C8 (what the code does): the arena block of an image update covers the
    image handle and the descriptor only, so the pixel bytes are copied past
    it.  Recorded alone, the update replays with the bytes it was given;
    with a second update recorded after it, the parameters of the second
    take the place of the first's bytes, and the backend receives
    1 2 3 4 6 0 0 0 for image 5 instead of 1 2 3 4 5 6 7 8. *)
Theorem update_image_bytes_overwritten :
  present_and_commit (scenario_update_image false)
  = Ret [(5, Some (8, pixels_a))]
  /\ present_and_commit (scenario_update_image true)
     = Ret [(5, Some (8, [1; 2; 3; 4; 6; 0; 0; 0])); (6, Some (8, pixels_b))]
  /\ [1; 2; 3; 4; 6; 0; 0; 0] <> pixels_a.
Proof. split; [|split]; [vm_compute; reflexivity | vm_compute; reflexivity | discriminate]. Qed.

(** Where the bytes of the update recorded alone lie: the arena has 1616
    elements when the stage is ended, the block of the update begins at 72
    and ends there, and the eight pixel bytes were stored at 1612, the last
    four of them past the arena's elements.  The memory of the model keeps
    them; in C this store overruns the array. *)
Lemma update_image_copy_past_arena :
  exists g sg cb,
    scenario_update_image false = Ret (g, sg)
    /\ feed_cb g 0 = Ret cb
    /\ arena_count (cb_params_buff cb) = 1616
    /\ mem_read (arena_mem (cb_params_buff cb)) 1612 8 = Ret pixels_a
    /\ 1616 < 1612 + 8.
Proof.
  eexists _, _, _. split; [vm_compute; reflexivity|].
  split; [vm_compute; reflexivity|].
  split; [reflexivity|]. split; [vm_compute; reflexivity | lia].
Qed.
(** ** Registration, link by link *)

Lemma same_but_links_refl s : same_but_links s s.
Proof. unfold same_but_links; tauto. Qed.

Lemma same_but_links_prev s0 s v : same_but_links s0 s -> same_but_links s0 (set_stage_prev v s).
Proof. unfold same_but_links; simpl; tauto. Qed.

Lemma same_but_links_child s0 s v : same_but_links s0 s -> same_but_links s0 (set_stage_child v s).
Proof. unfold same_but_links; simpl; tauto. Qed.

Lemma arr_store_related {A} (R : A -> A -> Prop) (a0 a : list A) (i : Z) (x y : A) :
  (forall (j : nat) s0, a0 !! j = Some s0 -> exists s, a !! j = Some s /\ R s0 s) ->
  0 <= i -> a !! Z.to_nat i = Some y ->
  (forall s0, R s0 y -> R s0 x) ->
  forall (j : nat) s0, a0 !! j = Some s0 -> exists s, arr_store a i x !! j = Some s /\ R s0 s.
Proof.
  intros Ha Hi Hy HR j s0 Hj. destruct (Ha j s0 Hj) as (s & Hs & Hrel).
  destruct (Nat.eq_dec (Z.to_nat i) j) as [<-|Hne].
  - exists x. split; [eapply arr_store_lookup_eq; eauto|].
    apply HR. rewrite Hy in Hs. injection Hs as ->. exact Hrel.
  - exists s. split; [rewrite arr_store_lookup_ne by assumption; exact Hs | exact Hrel].
Qed.

Section StageCover.

Variable sx_hash_fnv32_str : string -> Z.

(** On a table with the invariant, linking a new child (the handle one past
    the table) under a registered parent completes; the stages keep
    everything but [prev] and [child], and the parent's [child] is the new
    handle. *)
Lemma rizz__stage_add_child_returns (st : list rizz__gfx_stage) (parent : Z) :
  wf_stages st = true ->
  0 < parent <= Z.of_nat (length st) ->
  exists st',
    rizz__stage_add_child st parent (Z.of_nat (length st) + 1) = Ret st'
    /\ length st' = length st
    /\ (forall (j : nat) s0, st !! j = Some s0 ->
          exists s, st' !! j = Some s /\ same_but_links s0 s)
    /\ exists p, st' !! Z.to_nat (parent - 1) = Some p
                 /\ stage_child p = Z.of_nat (length st) + 1.
Proof.
  intros Hwf Hp. apply wf_stages_spec in Hwf as [Hmax Hwf]. unfold MAX_STAGES in Hmax.
  set (count := Z.of_nat (length st)) in *.
  unfold rizz__stage_add_child.
  rewrite sx_assert_true by (apply negb_true_iff, Z.eqb_neq; lia). cbn [bind].
  rewrite sx_assert_true by (apply negb_true_iff, Z.eqb_neq; lia). cbn [bind].
  rewrite (rizz_to_index_small parent) by lia.
  rewrite (rizz_to_index_small (count + 1)) by lia.
  replace (count + 1 - 1) with count by lia.
  destruct (lookup_lt_is_Some_2 st (Z.to_nat (parent - 1))) as [p Hpl]; [lia|].
  rewrite (proj2 (arr_at_Ret _ _ p)) by (split; [lia | exact Hpl]). cbn [bind].
  pose proof (Hwf _ _ Hpl) as Wp. apply wf_stage_spec in Wp as (_ & Wc & _).
  fold count in Wc.
  assert (Htail : forall st1,
             length st1 = length st ->
             (forall (j : nat) s0, st !! j = Some s0 ->
                exists s, st1 !! j = Some s /\ same_but_links s0 s) ->
             exists st',
               (let* _parent := arr_at st1 (parent - 1) in
                Ret (arr_store st1 (parent - 1) (set_stage_child (count + 1) _parent)))
               = Ret st'
               /\ length st' = length st
               /\ (forall (j : nat) s0, st !! j = Some s0 ->
                     exists s, st' !! j = Some s /\ same_but_links s0 s)
               /\ exists p, st' !! Z.to_nat (parent - 1) = Some p
                            /\ stage_child p = count + 1).
  { intros st1 Hlen1 Hrel1.
    destruct (lookup_lt_is_Some_2 st1 (Z.to_nat (parent - 1))) as [p1 Hp1]; [lia|].
    rewrite (proj2 (arr_at_Ret _ _ p1)) by (split; [lia | exact Hp1]). cbn [bind].
    eexists. split; [reflexivity|]. split; [rewrite arr_store_length; exact Hlen1|]. split.
    - apply (arr_store_related same_but_links st st1 _ _ p1); [exact Hrel1 | lia | exact Hp1 |].
      intros s0. apply same_but_links_child.
    - eexists. split; [eapply arr_store_lookup_eq; [lia | exact Hp1] | reflexivity]. }
  destruct (Z.eqb_spec (stage_child p) 0) as [E0|Hn0]; cbn [negb bind].
  - apply Htail; [reflexivity|].
    intros j s0 Hj. exists s0. split; [exact Hj | apply same_but_links_refl].
  - rewrite (rizz_to_index_small (stage_child p)) by lia.
    destruct (lookup_lt_is_Some_2 st (Z.to_nat (stage_child p - 1))) as [fc Hfc]; [lia|].
    rewrite (proj2 (arr_at_Ret _ _ fc)) by (split; [lia | exact Hfc]). cbn [bind].
    rewrite (lookup_ge_None_2 (arr_store st _ _) (Z.to_nat count))
      by (rewrite arr_store_length; unfold count; lia).
    apply Htail; [apply arr_store_length|].
    apply (arr_store_related same_but_links st st _ _ fc); [| lia | exact Hfc |].
    + intros j s0 Hj. exists s0. split; [exact Hj | apply same_but_links_refl].
    + intros s0. apply same_but_links_prev.
Qed.

(** A registration on a table with the invariant completes, unless the
    table is full or the parent handle is not in it. *)
Lemma rizz__stage_register_returns (st : list rizz__gfx_stage) (name : string) (parent : Z) :
  wf_stages st = true ->
  0 <= parent <= Z.of_nat (length st) ->
  Z.of_nat (length st) < MAX_STAGES ->
  exists st1,
    rizz__stage_register sx_hash_fnv32_str st name parent
    = Ret (Z.of_nat (length st) + 1,
           st1 ++ [new_stage sx_hash_fnv32_str name parent (Z.of_nat (length st))])
    /\ length st1 = length st
    /\ (forall (j : nat) s0, st !! j = Some s0 ->
          exists s, st1 !! j = Some s /\ same_but_links s0 s)
    /\ (parent = 0 -> st1 = st)
    /\ (parent <> 0 -> exists p, st1 !! Z.to_nat (parent - 1) = Some p
                                 /\ stage_child p = Z.of_nat (length st) + 1).
Proof.
  intros Hwf Hp Hmax. pose proof Hwf as Hwf0.
  apply wf_stages_spec in Hwf0 as [_ Hwf0]. unfold MAX_STAGES in Hmax.
  set (count := Z.of_nat (length st)) in *.
  assert (Hu : u32 count = count) by (unfold u32; apply Z.mod_small; lia).
  assert (Hid : rizz_to_id count = count + 1).
  { unfold rizz_to_id. rewrite Hu. unfold u32. apply Z.mod_small. lia. }
  assert (Hidx : rizz_to_index (count + 1) = count)
    by (rewrite rizz_to_index_small by lia; lia).
  unfold rizz__stage_register. fold count. rewrite Hu, Hid, Hidx.
  rewrite sx_assert_true
    by (apply orb_true_iff; right; apply Z.leb_le; lia). cbn [bind].
  rewrite sx_assert_true by (apply Z.ltb_lt; unfold MAX_STAGES; lia). cbn [bind].
  destruct (Z.eqb_spec parent 0) as [->|Hnz]; cbn [negb bind].
  - rewrite sx_assert_true by reflexivity. cbn [bind].
    exists st. split.
    + unfold new_stage, set_stage_order. cbn.
      pose proof (land_id_mask_range count) as Hr.
      unfold u16. rewrite (Z.mod_small (Z.land count STAGE_ORDER_ID_MASK)) by lia.
      rewrite (Z.mod_small (Z.land count STAGE_ORDER_ID_MASK)) by lia. reflexivity.
    + split; [reflexivity|]. split; [|split; [reflexivity | congruence]].
      intros j s0 Hj. exists s0. split; [exact Hj | apply same_but_links_refl].
  - destruct (rizz__stage_add_child_returns st parent Hwf) as (st1 & E1 & Hlen1 & Hrel1 & Hch);
      [lia|].
    fold count in E1, Hch. rewrite E1. cbn [bind].
    rewrite (rizz_to_index_small parent) by lia.
    destruct Hch as (p1 & Hp1 & Hc1).
    rewrite (proj2 (arr_at_Ret _ _ p1)) by (split; [lia | exact Hp1]). cbn [bind].
    assert (Ho : 0 <= stage_order p1 < 65536).
    { destruct (lookup_lt_is_Some_2 st (Z.to_nat (parent - 1))) as [p0 Hp0]; [lia|].
      destruct (Hrel1 _ _ Hp0) as (p1' & Hp1' & Hr). rewrite Hp1 in Hp1'. injection Hp1' as <-.
      destruct Hr as (_ & _ & _ & _ & _ & -> & _).
      pose proof (Hwf0 _ _ Hp0) as W. apply wf_stage_spec in W. lia. }
    destruct (register_order_value (stage_order p1) count Ho) as (Hpd & Hd & Hord).
    rewrite Hd. rewrite sx_assert_true by reflexivity. cbn [bind].
    exists st1. split.
    + unfold new_stage, set_stage_order. cbn [stage_name stage_name_hash stage_state
        stage_parent stage_child stage_next stage_prev stage_enabled stage_single_enabled].
      rewrite <- Hd. rewrite Hord. reflexivity.
    + split; [exact Hlen1|]. split; [exact Hrel1|]. split; [congruence|].
      intros _. exists p1. split; [exact Hp1 | exact Hc1].
Qed.

(** What a registration that returned has done. *)
Lemma rizz__stage_register_links (st : list rizz__gfx_stage) (name : string)
      (parent h : Z) (st' : list rizz__gfx_stage) :
  wf_stages st = true ->
  0 <= parent ->
  rizz__stage_register sx_hash_fnv32_str st name parent = Ret (h, st') ->
  Z.of_nat (length st) < MAX_STAGES /\ parent <= Z.of_nat (length st)
  /\ h = Z.of_nat (length st) + 1
  /\ exists st1,
       st' = st1 ++ [new_stage sx_hash_fnv32_str name parent (Z.of_nat (length st))]
       /\ length st1 = length st
       /\ (forall (j : nat) s0, st !! j = Some s0 ->
             exists s, st1 !! j = Some s /\ same_but_links s0 s)
       /\ (parent = 0 -> st1 = st)
       /\ (parent <> 0 -> exists p, st1 !! Z.to_nat (parent - 1) = Some p
                                    /\ stage_child p = Z.of_nat (length st) + 1).
Proof.
  intros Hwf Hp E.
  destruct (rizz__stage_register_inv _ _ _ _ _ _ Hwf Hp E) as (Hmax & _ & Hple & _).
  destruct (rizz__stage_register_returns st name parent Hwf) as (st1 & E1 & H1); [lia | exact Hmax|].
  rewrite E1 in E. injection E as <- <-.
  split; [exact Hmax|]. split; [exact Hple|]. split; [reflexivity|].
  exists st1. split; [reflexivity | exact H1].
Qed.

Lemma same_but_links_trans s0 s1 s2 :
  same_but_links s0 s1 -> same_but_links s1 s2 -> same_but_links s0 s2.
Proof.
  unfold same_but_links.
  intros (A1 & A2 & A3 & A4 & A5 & A6 & A7 & A8) (B1 & B2 & B3 & B4 & B5 & B6 & B7 & B8).
  repeat split; congruence.
Qed.

Lemma land_id_mask_small (c : Z) : 0 <= c < 1024 -> Z.land c STAGE_ORDER_ID_MASK = c.
Proof.
  intros H. change STAGE_ORDER_ID_MASK with (Z.ones 10).
  rewrite Z.land_ones by lia. apply Z.mod_small. change (2 ^ 10) with 1024. lia.
Qed.

Lemma parents_before_cons i name parent reqs :
  parents_before i ((name, parent) :: reqs) = true <->
  0 <= parent <= i /\ parents_before (i + 1) reqs = true.
Proof. simpl. rewrite !andb_true_iff, !Z.leb_le. tauto. Qed.

(** The invariant of tables that only registration has touched: no stage
    has a sibling link, and the order key of a stage is its index. *)
Lemma register_all_spec (reqs : list (string * Z)) :
  forall st : list rizz__gfx_stage,
    wf_stages st = true ->
    built_by_register st ->
    parents_before (Z.of_nat (length st)) reqs = true ->
    Z.of_nat (length st + length reqs) <= MAX_STAGES ->
    exists st',
      register_all sx_hash_fnv32_str st reqs
      = Ret (List.map (fun i => Z.of_nat i + 1) (seq (length st) (length reqs)), st')
      /\ length st' = (length st + length reqs)%nat
      /\ wf_stages st' = true
      /\ built_by_register st'
      /\ (forall (j : nat) s0, st !! j = Some s0 ->
            exists s, st' !! j = Some s /\ same_but_links s0 s)
      /\ (forall (k : nat) name parent, reqs !! k = Some (name, parent) ->
            exists s, st' !! (length st + k)%nat = Some s
                      /\ stage_name s = sx_strcpy 32 name
                      /\ stage_name_hash s = u32 (sx_hash_fnv32_str name)
                      /\ stage_parent s = parent
                      /\ stage_state s = STAGE_STATE_NONE
                      /\ stage_enabled s = true /\ stage_single_enabled s = true).
Proof.
  induction reqs as [|[name parent] reqs IH]; intros st Hwf Hb Hpar Hmax.
  - exists st. cbn. rewrite Nat.add_0_r.
    split; [reflexivity|]. split; [reflexivity|]. split; [exact Hwf|]. split; [exact Hb|].
    split.
    + intros j s0 Hj. exists s0. split; [exact Hj | apply same_but_links_refl].
    + intros k name parent Hk. rewrite lookup_nil in Hk. discriminate.
  - apply parents_before_cons in Hpar as [Hp Hpar]. cbn [length] in Hmax.
    unfold MAX_STAGES in Hmax.
    destruct (rizz__stage_register_returns st name parent Hwf Hp)
      as (st1 & E1 & Hlen1 & Hrel1 & _); [unfold MAX_STAGES; lia|].
    assert (Hwf1 : wf_stages
                     (st1 ++ [new_stage sx_hash_fnv32_str name parent (Z.of_nat (length st))])
                   = true).
    { eapply rizz__stage_register_wf; [exact Hwf | | exact E1]. lia. }
    set (st2 := st1 ++ [new_stage sx_hash_fnv32_str name parent (Z.of_nat (length st))]) in *.
    assert (Hlen2 : length st2 = S (length st))
      by (unfold st2; rewrite length_app; simpl; lia).
    assert (Hb2 : built_by_register st2).
    { intros j s Hj. unfold st2 in Hj. apply lookup_app_Some in Hj as [Hj|[Hge Hj]].
      - destruct (lookup_lt_is_Some_2 st j) as [s0 Hs0];
          [apply lookup_lt_Some in Hj; lia|].
        destruct (Hrel1 _ _ Hs0) as (s' & Hs' & Hr). rewrite Hj in Hs'. injection Hs' as <-.
        destruct Hr as (_ & _ & _ & _ & -> & -> & _). exact (Hb _ _ Hs0).
      - destruct (j - length st1)%nat as [|k] eqn:Ek; simpl in Hj; [|inversion Hj].
        injection Hj as <-. cbn. split; [reflexivity|].
        rewrite land_id_mask_small by lia. lia. }
    destruct (IH st2 Hwf1 Hb2) as (st' & E & Hlen & Hwf' & Hb' & Hrel & Hnew).
    { rewrite Hlen2. replace (Z.of_nat (S (length st))) with (Z.of_nat (length st) + 1) by lia.
      exact Hpar. }
    { rewrite Hlen2. unfold MAX_STAGES. lia. }
    exists st'. cbn [register_all]. rewrite E1. cbn [bind]. fold st2. rewrite E. cbn [bind].
    split.
    { rewrite Hlen2. cbn [length seq List.map]. reflexivity. }
    split; [rewrite Hlen, Hlen2; cbn [length]; lia|].
    split; [exact Hwf'|]. split; [exact Hb'|]. split.
    + intros j s0 Hj. destruct (Hrel1 _ _ Hj) as (s1 & Hs1 & Hr1).
      destruct (Hrel j s1) as (s2 & Hs2 & Hr2).
      { unfold st2. rewrite lookup_app_l by (apply lookup_lt_Some in Hs1; exact Hs1).
        exact Hs1. }
      exists s2. split; [exact Hs2 | eapply same_but_links_trans; eauto].
    + intros [|k] name' parent' Hk; cbn in Hk.
      * injection Hk as <- <-.
        destruct (Hrel (length st) (new_stage sx_hash_fnv32_str name parent
                                             (Z.of_nat (length st))))
          as (s2 & Hs2 & Hr2).
        { unfold st2. rewrite lookup_app_r by lia. rewrite Hlen1, Nat.sub_diag. reflexivity. }
        exists s2. rewrite Nat.add_0_r. split; [exact Hs2|].
        destruct Hr2 as (-> & -> & -> & -> & _ & _ & -> & ->). cbn. tauto.
      * destruct (Hnew k name' parent' Hk) as (s & Hs & H).
        exists s. split; [|exact H].
        rewrite Hlen2 in Hs. replace (length st + S k)%nat with (S (length st) + k)%nat by lia.
        exact Hs.
Qed.

Lemma disable_children_single (fuel : nat) (st : list rizz__gfx_stage) (c : Z)
      (x : rizz__gfx_stage) :
  c <> 0 -> arr_at st (rizz_to_index c) = Ret x -> stage_next x = 0 ->
  disable_children (S fuel) st c
  = Ret (arr_store st (rizz_to_index c) (set_stage_enabled false x)).
Proof.
  intros Hc Hx Hn. cbn [disable_children].
  destruct (Z.eqb_spec c 0) as [|_]; [contradiction|].
  rewrite Hx. cbn [bind]. apply arr_at_Ret in Hx as [Hi Hx].
  rewrite (proj2 (arr_at_Ret _ _ (set_stage_enabled false x)))
    by (split; [exact Hi | eapply arr_store_lookup_eq; eauto]).
  cbn [bind]. simpl stage_next. rewrite Hn. destruct fuel; reflexivity.
Qed.

(** X1: Stages registered one after the other, from the empty table: the
    handles are 1, 2, ... in call order; no stage gets a sibling link, even
    when its parent already had a child; the order key of a stage is its
    index, so that a stage sorts after its parent. *)
Theorem register_all_links_and_order (reqs : list (string * Z)) :
  parents_before 0 reqs = true ->
  Z.of_nat (length reqs) <= MAX_STAGES ->
  exists st,
    register_all sx_hash_fnv32_str [] reqs
    = Ret (List.map (fun i => Z.of_nat i + 1) (seq 0 (length reqs)), st)
    /\ length st = length reqs
    /\ forall (j : nat) s, st !! j = Some s ->
         stage_next s = 0
         /\ stage_order s = Z.of_nat j
         /\ (exists name, reqs !! j = Some (name, stage_parent s)
                          /\ stage_name s = sx_strcpy 32 name)
         /\ (stage_parent s <> 0 ->
             exists p, st !! Z.to_nat (stage_parent s - 1) = Some p
                       /\ stage_order p < stage_order s).
Proof.
  intros Hpar Hmax.
  destruct (register_all_spec reqs []) as (st & E & Hlen & Hwf & Hb & _ & Hnew);
    [reflexivity | intros j s Hj; rewrite lookup_nil in Hj; discriminate
     | exact Hpar | exact Hmax |].
  cbn [length Nat.add] in *.
  exists st. split; [exact E|]. split; [exact Hlen|].
  intros j s Hj. destruct (Hb _ _ Hj) as [Hn Ho]. split; [exact Hn|]. split; [exact Ho|].
  pose proof (lookup_lt_Some _ _ _ Hj) as Hlt. rewrite Hlen in Hlt.
  destruct (lookup_lt_is_Some_2 reqs j Hlt) as [[name parent] Hr].
  destruct (Hnew _ _ _ Hr) as (s' & Hs' & Hname & _ & Hp & _).
  rewrite Hj in Hs'. injection Hs' as <-. split.
  - exists name. rewrite Hp. split; [exact Hr | exact Hname].
  - intros Hnz. apply wf_stages_spec in Hwf as [_ Hwf].
    pose proof (Hwf _ _ Hj) as W. apply wf_stage_spec in W as (_ & _ & W & _).
    destruct (lookup_lt_is_Some_2 st (Z.to_nat (stage_parent s - 1))) as [p Hpl]; [lia|].
    exists p. split; [exact Hpl|]. destruct (Hb _ _ Hpl) as [_ Hop]. lia.
Qed.

(** X2: Two stages registered under the same parent, then the parent
    disabled: the cascade reaches the child registered last only, because
    the sibling link of the second registration was stored outside the
    table.  The first child stays enabled. *)
Theorem disable_reaches_only_the_last_child (g : rizz__gfx) (parent : Z)
        (name1 name2 : string) :
  wf_stages (stages g) = true ->
  stage_lk g = false ->
  0 < parent <= Z.of_nat (length (stages g)) ->
  Z.of_nat (length (stages g)) + 2 <= MAX_STAGES ->
  exists c1 c2 g1 g2 g3,
    stage_register sx_hash_fnv32_str g name1 parent = Ret (c1, g1)
    /\ stage_register sx_hash_fnv32_str g1 name2 parent = Ret (c2, g2)
    /\ rizz__stage_disable g2 parent = Ret g3
    /\ rizz__stage_isenabled g3 parent = Ret (false, g3)
    /\ rizz__stage_isenabled g3 c2 = Ret (false, g3)
    /\ rizz__stage_isenabled g3 c1 = Ret (true, g3).
Proof.
  intros Hwf Hlk Hp Hmax. unfold MAX_STAGES in Hmax.
  set (count := Z.of_nat (length (stages g))) in *.
  (* first child *)
  destruct (rizz__stage_register_returns (stages g) name1 parent Hwf)
    as (sa & E1 & Hla & _ & _ & _); [lia | unfold MAX_STAGES; lia|].
  fold count in E1.
  set (n1 := new_stage sx_hash_fnv32_str name1 parent count) in *.
  assert (Hwf1 : wf_stages (sa ++ [n1]) = true)
    by (eapply rizz__stage_register_wf; [exact Hwf | | exact E1]; lia).
  assert (Hl1 : Z.of_nat (length (sa ++ [n1])) = count + 1)
    by (rewrite length_app; simpl; unfold count; lia).
  (* second child *)
  destruct (rizz__stage_register_returns (sa ++ [n1]) name2 parent Hwf1)
    as (sb & E2 & Hlb & Hrelb & _ & Hchb); [lia | unfold MAX_STAGES; lia|].
  rewrite Hl1 in E2, Hchb.
  set (n2 := new_stage sx_hash_fnv32_str name2 parent (count + 1)) in *.
  destruct Hchb as (pp & Hpp & Hcpp); [lia|].
  assert (Hlbz : Z.of_nat (length sb) = count + 1) by lia.
  destruct (Hrelb (length sa) n1) as (k1 & Hk1 & Hr1).
  { rewrite lookup_app_r by lia. rewrite Nat.sub_diag. reflexivity. }
  set (T2 := sb ++ [n2]).
  assert (HT2p : T2 !! Z.to_nat (parent - 1) = Some pp)
    by (unfold T2; rewrite lookup_app_l by lia; exact Hpp).
  assert (HT2c : T2 !! Z.to_nat (count + 1) = Some n2).
  { unfold T2. rewrite lookup_app_r by lia.
    replace (Z.to_nat (count + 1) - length sb)%nat with O by lia. reflexivity. }
  assert (HT2k : T2 !! Z.to_nat count = Some k1).
  { unfold T2. rewrite lookup_app_l by lia.
    replace (Z.to_nat count) with (length sa) by (unfold count; lia). exact Hk1. }
  set (st3 := arr_store T2 (parent - 1)
                        (set_stage_single_enabled false (set_stage_enabled false pp))).
  set (st5 := arr_store st3 (count + 1) (set_stage_enabled false n2)).
  assert (H3c : arr_at st3 (rizz_to_index (count + 2)) = Ret n2).
  { rewrite rizz_to_index_small by lia. replace (count + 2 - 1) with (count + 1) by lia.
    apply arr_at_Ret. split; [lia|]. unfold st3.
    rewrite arr_store_lookup_ne by lia. exact HT2c. }
  assert (Ed : rizz__stage_disable (set_stages T2 g) parent
               = Ret (set_stage_lk false (set_stages st5 (set_stages T2 g)))).
  { unfold rizz__stage_disable.
    rewrite sx_assert_true by (apply negb_true_iff, Z.eqb_neq; lia). cbn [bind].
    replace (stage_lk (set_stages T2 g)) with false by (symmetry; exact Hlk).
    cbn [bind sx_lock]. rewrite rizz_to_index_small by lia.
    replace (stages (set_stages T2 g)) with T2 by reflexivity.
    rewrite (proj2 (arr_at_Ret _ _ pp)) by (split; [lia | exact HT2p]). cbn [bind].
    fold st3. rewrite Hcpp. replace (count + 1 + 1) with (count + 2) by lia.
    rewrite (disable_children_single _ st3 (count + 2) n2); [| lia | exact H3c | reflexivity].
    cbn [bind]. rewrite rizz_to_index_small by lia.
    replace (count + 2 - 1) with (count + 1) by lia. reflexivity. }
  exists (count + 1), (count + 1 + 1), (set_stages (sa ++ [n1]) g), (set_stages T2 g),
         (set_stage_lk false (set_stages st5 (set_stages T2 g))).
  assert (Hq : forall h s,
             0 < h <= count + 2 -> st5 !! Z.to_nat (h - 1) = Some s ->
             rizz__stage_isenabled (set_stage_lk false (set_stages st5 (set_stages T2 g))) h
             = Ret (stage_enabled s, set_stage_lk false (set_stages st5 (set_stages T2 g)))).
  { intros h s Hh Hs. unfold rizz__stage_isenabled.
    rewrite sx_assert_true by (apply negb_true_iff, Z.eqb_neq; lia). cbn [bind].
    cbn [stage_lk set_stage_lk sx_lock bind]. rewrite rizz_to_index_small by lia.
    replace (stages (set_stage_lk false (set_stages st5 (set_stages T2 g)))) with st5
      by reflexivity.
    rewrite (proj2 (arr_at_Ret _ _ s)) by (split; [lia | exact Hs]). reflexivity. }
  split.
  { unfold stage_register. rewrite E1. reflexivity. }
  split.
  { unfold stage_register. replace (stages (set_stages (sa ++ [n1]) g)) with (sa ++ [n1])
      by reflexivity.
    rewrite E2. reflexivity. }
  split; [exact Ed|]. split; [|split].
  - rewrite (Hq parent (set_stage_single_enabled false (set_stage_enabled false pp))).
    + reflexivity.
    + lia.
    + unfold st5. rewrite arr_store_lookup_ne by lia.
      unfold st3. eapply arr_store_lookup_eq; [lia | exact HT2p].
  - rewrite (Hq (count + 1 + 1) (set_stage_enabled false n2)).
    + reflexivity.
    + lia.
    + unfold st5. replace (count + 1 + 1 - 1) with (count + 1) by lia.
      eapply arr_store_lookup_eq; [lia|]. unfold st3.
      rewrite arr_store_lookup_ne by lia. exact HT2c.
  - rewrite (Hq (count + 1) k1).
    + destruct Hr1 as (_ & _ & _ & _ & _ & _ & -> & _). reflexivity.
    + lia.
    + unfold st5, st3. replace (count + 1 - 1) with count by lia.
      rewrite !arr_store_lookup_ne by lia. exact HT2k.
Qed.

Lemma find_scan_first (rest : list rizz__gfx_stage) (h : Z) :
  forall (k : nat) (i : Z),
    first_match rest h k = true -> find_scan rest i h = Some (i + Z.of_nat k).
Proof.
  unfold first_match. induction rest as [|x rest IH]; intros k i H.
  - rewrite lookup_nil, andb_false_r in H. discriminate.
  - cbn [find_scan]. destruct k as [|k].
    + cbn in H. rewrite H. f_equal. lia.
    + cbn in H. apply andb_true_iff in H as [H1 H2]. apply andb_true_iff in H1 as [Hx H1].
      apply negb_true_iff in Hx. rewrite Hx.
      rewrite (IH k (i + 1)) by (apply andb_true_iff; split; assumption). f_equal. lia.
Qed.

Lemma find_after_register (g : rizz__gfx) (name : string) (parent h : Z)
      (g' : rizz__gfx) :
  wf_stages (stages g) = true ->
  stage_lk g = false ->
  0 <= parent ->
  forallb (fun s => negb (stage_name_hash s =? u32 (sx_hash_fnv32_str name)))
          (stages g) = true ->
  stage_register sx_hash_fnv32_str g name parent = Ret (h, g') ->
  rizz__stage_find sx_hash_fnv32_str g' name = Ret (h, set_stage_lk true g')
  /\ stage_lk g' = false.
Proof.
  intros Hwf Hlk Hp Hfresh E. unfold stage_register in E.
  apply bind_Ret in E as ([h' st'] & E & E'). injection E' as <- <-.
  destruct (rizz__stage_register_links _ _ _ _ _ Hwf Hp E)
    as (Hmax & _ & -> & st1 & -> & Hlen & Hrel & _).
  unfold MAX_STAGES in Hmax. split; [|exact Hlk].
  unfold rizz__stage_find.
  replace (stage_lk (set_stages _ g)) with false by (symmetry; exact Hlk).
  cbn [sx_lock bind].
  match goal with |- context [find_scan (stages (set_stages ?T g))] =>
    replace (stages (set_stages T g)) with T by reflexivity end.
  rewrite (find_scan_first _ _ (length st1) 0).
  - rewrite Z.add_0_l, Hlen. unfold rizz_to_id, u32.
    rewrite (Z.mod_small (Z.of_nat _)) by lia. rewrite Z.mod_small by lia. reflexivity.
  - unfold first_match. rewrite take_app_length.
    rewrite lookup_app_r by lia. rewrite Nat.sub_diag. cbn [lookup list_lookup].
    apply andb_true_iff. split; [|apply Z.eqb_eq; reflexivity].
    apply forallb_forall. intros s Hin. apply list_elem_of_In in Hin.
    apply list_elem_of_lookup_1 in Hin as [j Hs].
    destruct (lookup_lt_is_Some_2 (stages g) j) as [s0 Hs0];
      [apply lookup_lt_Some in Hs; lia|].
    destruct (Hrel _ _ Hs0) as (s' & Hs' & Hr). rewrite Hs in Hs'. injection Hs' as <-.
    destruct Hr as (_ & -> & _).
    rewrite forallb_forall in Hfresh.
    exact (Hfresh s0 (proj1 (list_elem_of_In _ _) (list_elem_of_lookup_2 _ _ _ Hs0))).
Qed.

(** X3: A stage registered under a name that was not in the table: the
    registration returns a handle, and [rizz__stage_find] then finds the
    name under that handle; it returns from inside its loop, so the stage
    lock is still held after it. *)
Theorem stage_find_after_register (g : rizz__gfx) (name : string) (parent : Z) :
  wf_stages (stages g) = true ->
  stage_lk g = false ->
  0 <= parent <= Z.of_nat (length (stages g)) ->
  Z.of_nat (length (stages g)) < MAX_STAGES ->
  forallb (fun s => negb (stage_name_hash s =? u32 (sx_hash_fnv32_str name)))
          (stages g) = true ->
  exists h g',
    stage_register sx_hash_fnv32_str g name parent = Ret (h, g')
    /\ stage_lk g' = false
    /\ rizz__stage_find sx_hash_fnv32_str g' name = Ret (h, set_stage_lk true g').
Proof.
  intros Hwf Hlk Hp Hmax Hfresh.
  destruct (rizz__stage_register_returns (stages g) name parent Hwf Hp Hmax)
    as (st1 & E & _).
  assert (Er : stage_register sx_hash_fnv32_str g name parent
               = Ret (Z.of_nat (length (stages g)) + 1,
                      set_stages (st1 ++ [new_stage sx_hash_fnv32_str name parent
                                            (Z.of_nat (length (stages g)))]) g))
    by (unfold stage_register; rewrite E; reflexivity).
  destruct (find_after_register g name parent _ _ Hwf Hlk (proj1 Hp) Hfresh Er) as [Hf Hl].
  eexists _, _. split; [exact Er|]. split; [exact Hl | exact Hf].
Qed.

(** X4: When some stage has the hash of the name, [rizz__stage_find] returns
    the handle of the first such stage and leaves the stage lock held: every
    stage call that follows spins on the lock. *)
Theorem stage_find_found_keeps_lock (g : rizz__gfx) (name : string) (k : nat) :
  stage_lk g = false ->
  first_match (stages g) (u32 (sx_hash_fnv32_str name)) k = true ->
  let g' := set_stage_lk true g in
  rizz__stage_find sx_hash_fnv32_str g name = Ret (rizz_to_id (Z.of_nat k), g')
  /\ (forall name', rizz__stage_find sx_hash_fnv32_str g' name' = Err Deadlock)
  /\ (forall tid stage, rizz__cb_begin_stage g' tid stage = Err Deadlock)
  /\ rizz__gfx_validate_stage_deps g' = Err Deadlock
  /\ (forall stage, stage <> 0 ->
        rizz__stage_enable g' stage = Err Deadlock
        /\ rizz__stage_disable g' stage = Err Deadlock
        /\ rizz__stage_isenabled g' stage = Err Deadlock).
Proof.
  intros Hlk Hk g'. split; [|split; [|split; [|split]]].
  - unfold rizz__stage_find. rewrite Hlk. cbn [sx_lock bind].
    rewrite (find_scan_first _ _ k 0 Hk). rewrite Z.add_0_l. reflexivity.
  - reflexivity.
  - reflexivity.
  - reflexivity.
  - intros stage Hs.
    unfold rizz__stage_enable, rizz__stage_disable, rizz__stage_isenabled.
    rewrite sx_assert_true by (apply negb_true_iff, Z.eqb_neq; exact Hs).
    repeat split; reflexivity.
Qed.

(** X5: The handle that [rizz__stage_find] returns for a name that is not in
    the table is no stage: as a parent it fails the first assertion of
    [rizz__stage_register], and the other stage calls index the table with
    it at -2. *)
Theorem stage_find_not_found_handle_is_no_stage (g : rizz__gfx) (name name' : string)
        (tid : Z) :
  stage_lk g = false ->
  Z.of_nat (length (stages g)) <= MAX_STAGES ->
  forallb (fun s => negb (stage_name_hash s =? u32 (sx_hash_fnv32_str name)))
          (stages g) = true ->
  exists h,
    rizz__stage_find sx_hash_fnv32_str g name = Ret (h, g)
    /\ rizz_to_index h = -2
    /\ stage_register sx_hash_fnv32_str g name' h = Err (AssertFailed [])
    /\ rizz__stage_enable g h = Err OutOfBounds
    /\ rizz__stage_disable g h = Err OutOfBounds
    /\ rizz__stage_isenabled g h = Err OutOfBounds
    /\ rizz__cb_begin_stage g tid h = Err OutOfBounds.
Proof.
  intros Hlk Hmax Hfresh. unfold MAX_STAGES in Hmax. exists 4294967295.
  assert (Hi : rizz_to_index 4294967295 = -2) by reflexivity.
  split; [|split; [exact Hi|split; [|split; [|split; [|split]]]]].
  - unfold rizz__stage_find. rewrite Hlk. cbn [sx_lock bind].
    rewrite find_scan_None.
    + change (u32 (-1)) with 4294967295. unfold sx_unlock. rewrite <- Hlk at 1.
      rewrite set_stage_lk_same. reflexivity.
    + intros s Hs. rewrite forallb_forall in Hfresh.
      specialize (Hfresh s (proj1 (list_elem_of_In _ _) Hs)).
      apply negb_true_iff, Z.eqb_neq in Hfresh. exact Hfresh.
  - unfold stage_register, rizz__stage_register.
    assert (Hu : u32 (Z.of_nat (length (stages g))) = Z.of_nat (length (stages g)))
      by (unfold u32; apply Z.mod_small; lia).
    rewrite Hu.
    replace ((4294967295 =? 0) || (4294967295 <=? Z.of_nat (length (stages g)))) with false.
    + reflexivity.
    + symmetry. apply orb_false_iff. split; [reflexivity | apply Z.leb_gt; lia].
  - unfold rizz__stage_enable. rewrite Hlk, Hi. reflexivity.
  - unfold rizz__stage_disable. rewrite Hlk, Hi. reflexivity.
  - unfold rizz__stage_isenabled. rewrite Hlk, Hi. reflexivity.
  - unfold rizz__cb_begin_stage. rewrite Hlk. cbn [sx_lock bind].
    replace (stages (set_stage_lk true g)) with (stages g) by reflexivity.
    rewrite Hi. reflexivity.
Qed.

End StageCover.

Lemma register_all_links_and_order_witness :
  exists st,
    register_all sample_hash [] [("shadow", 0); ("opaque", 1); ("transparent", 1)]
    = Ret ([1; 2; 3], st)
    /\ length st = 3%nat
    /\ forall (j : nat) s, st !! j = Some s -> stage_next s = 0 /\ stage_order s = Z.of_nat j.
Proof.
  destruct (register_all_links_and_order sample_hash
              [("shadow", 0); ("opaque", 1); ("transparent", 1)])
    as (st & E & Hlen & H).
  - reflexivity.
  - simpl. unfold MAX_STAGES. lia.
  - exists st. split; [exact E|]. split; [exact Hlen|].
    intros j s Hj. destruct (H j s Hj) as (H1 & H2 & _). split; assumption.
Defined.

Lemma disable_reaches_only_the_last_child_witness :
  exists c1 c2 g1 g2 g3,
    stage_register sample_hash (gfx_of scenario_two_stages) "water" 1 = Ret (c1, g1)
    /\ stage_register sample_hash g1 "sky" 1 = Ret (c2, g2)
    /\ rizz__stage_disable g2 1 = Ret g3
    /\ rizz__stage_isenabled g3 1 = Ret (false, g3)
    /\ rizz__stage_isenabled g3 c2 = Ret (false, g3)
    /\ rizz__stage_isenabled g3 c1 = Ret (true, g3).
Proof.
  apply (disable_reaches_only_the_last_child sample_hash (gfx_of scenario_two_stages) 1
           "water" "sky").
  - vm_compute. reflexivity.
  - reflexivity.
  - simpl. lia.
  - simpl. unfold MAX_STAGES. lia.
Defined.

Lemma stage_find_after_register_witness :
  exists h g',
    stage_register sample_hash gfx_one_thread "opaque" 0 = Ret (h, g')
    /\ stage_lk g' = false
    /\ rizz__stage_find sample_hash g' "opaque" = Ret (h, set_stage_lk true g').
Proof.
  apply (stage_find_after_register sample_hash gfx_one_thread "opaque" 0).
  - reflexivity.
  - reflexivity.
  - cbn. lia.
  - reflexivity.
  - reflexivity.
Defined.

Lemma stage_find_found_keeps_lock_witness :
  let g := gfx_of scenario_two_stages in
  rizz__stage_find sample_hash g "opaque" = Ret (2, set_stage_lk true g)
  /\ rizz__stage_enable (set_stage_lk true g) 1 = Err Deadlock.
Proof.
  intros g.
  destruct (stage_find_found_keeps_lock sample_hash g "opaque" 1) as (E & _ & _ & _ & H).
  - reflexivity.
  - vm_compute. reflexivity.
  - split; [exact E|]. apply (H 1). discriminate.
Defined.

Lemma stage_find_not_found_handle_is_no_stage_witness :
  let g := gfx_of scenario_two_stages in
  exists h,
    rizz__stage_find sample_hash g "transparent" = Ret (h, g)
    /\ rizz_to_index h = -2
    /\ stage_register sample_hash g "glass" h = Err (AssertFailed [])
    /\ rizz__stage_enable g h = Err OutOfBounds
    /\ rizz__stage_disable g h = Err OutOfBounds
    /\ rizz__stage_isenabled g h = Err OutOfBounds
    /\ rizz__cb_begin_stage g 0 h = Err OutOfBounds.
Proof.
  intros g.
  apply (stage_find_not_found_handle_is_no_stage sample_hash g "transparent" "glass" 0).
  - reflexivity.
  - simpl. unfold MAX_STAGES. lia.
  - vm_compute. reflexivity.
Defined.
(** ** Raw memory: what a store leaves in place and a load reads back *)

Lemma length_le_bytes (n : nat) (v : Z) : length (le_bytes n v) = n.
Proof. revert v. induction n as [|n IH]; intros v; simpl; [reflexivity | rewrite IH; reflexivity]. Qed.

Lemma le_value_le_bytes (n : nat) (v : Z) : le_value (le_bytes n v) = v mod 256 ^ Z.of_nat n.
Proof.
  revert v. induction n as [|n IH]; intros v.
  - simpl. rewrite Z.mod_1_r. reflexivity.
  - cbn [le_bytes le_value]. rewrite IH.
    replace (Z.of_nat (S n)) with (1 + Z.of_nat n) by lia.
    rewrite Z.pow_add_r by lia. change (256 ^ 1) with 256.
    rewrite Z.rem_mul_r by lia. lia.
Qed.

Lemma i32_mod (v : Z) : i32 (v mod 4294967296) = i32 v.
Proof.
  unfold i32. f_equal. rewrite Z.add_mod_idemp_l by lia. reflexivity.
Qed.

Lemma i32_le4 (v : Z) : -2147483648 <= v <= INT_MAX -> i32 (le_value (le_bytes 4 v)) = v.
Proof.
  intros H. rewrite le_value_le_bytes. change (256 ^ Z.of_nat 4) with 4294967296.
  rewrite i32_mod. apply i32_small. exact H.
Qed.

Lemma u32_le4 (v : Z) : 0 <= v < 4294967296 -> u32 (le_value (le_bytes 4 v)) = v.
Proof.
  intros H. rewrite le_value_le_bytes. change (256 ^ Z.of_nat 4) with 4294967296.
  unfold u32. rewrite Z.mod_mod by lia. apply Z.mod_small. exact H.
Qed.

Lemma mem_write_length (mem : list Z) (off : Z) (bs : list Z) :
  length (mem_write mem off bs) = Nat.max (length mem) (Z.to_nat off + length bs).
Proof.
  unfold mem_write. rewrite !length_app, length_take, length_drop, length_app, length_replicate.
  lia.
Qed.

Lemma mem_write_lookup_outside (mem : list Z) (off : Z) (bs : list Z) (i : nat) :
  (i < Z.to_nat off \/ Z.to_nat off + length bs <= i)%nat -> (i < length mem)%nat ->
  mem_write mem off bs !! i = mem !! i.
Proof.
  intros Hout Hi. unfold mem_write.
  set (m := mem ++ replicate _ 0).
  assert (Hm : m !! i = mem !! i) by (unfold m; apply lookup_app_l; exact Hi).
  assert (Hlm : (Z.to_nat off + length bs <= length m)%nat)
    by (unfold m; rewrite length_app, length_replicate; lia).
  destruct Hout as [Hlt|Hge].
  - rewrite lookup_app_l by (rewrite length_take; lia).
    rewrite lookup_take_lt by exact Hlt. exact Hm.
  - rewrite lookup_app_r by (rewrite length_take; lia).
    rewrite lookup_app_r by (rewrite length_take; lia).
    rewrite lookup_drop, length_take. rewrite <- Hm. f_equal. lia.
Qed.

Lemma mem_write_lookup_inside (mem : list Z) (off : Z) (bs : list Z) (i : nat) :
  (i < length bs)%nat -> mem_write mem off bs !! (Z.to_nat off + i)%nat = bs !! i.
Proof.
  intros Hi. unfold mem_write.
  set (m := mem ++ replicate _ 0).
  assert (Hlm : (Z.to_nat off + length bs <= length m)%nat)
    by (unfold m; rewrite length_app, length_replicate; lia).
  rewrite lookup_app_r by (rewrite length_take; lia).
  rewrite length_take. rewrite lookup_app_l by lia. f_equal. lia.
Qed.

Lemma take_drop_ext {A} (x y : list A) (off n : nat) :
  (forall i, (off <= i < off + n)%nat -> x !! i = y !! i) ->
  take n (drop off x) = take n (drop off y).
Proof.
  intros H. apply list_eq. intros i.
  destruct (Nat.lt_ge_cases i n) as [Hlt|Hge].
  - rewrite !lookup_take_lt by exact Hlt. rewrite !lookup_drop. apply H. lia.
  - rewrite !lookup_take_ge by exact Hge. reflexivity.
Qed.

Lemma mem_read_Ret (mem : list Z) (off n : Z) (r : list Z) :
  mem_read mem off n = Ret r <->
  0 <= off /\ 0 <= n /\ off + n <= Z.of_nat (length mem)
  /\ r = take (Z.to_nat n) (drop (Z.to_nat off) mem).
Proof.
  unfold mem_read.
  destruct (Z.ltb_spec off 0); cbn [orb].
  { split; [discriminate | lia]. }
  destruct (Z.ltb_spec n 0); cbn [orb].
  { split; [discriminate | lia]. }
  destruct (Z.ltb_spec (Z.of_nat (length mem)) (off + n)).
  { split; [discriminate | lia]. }
  split; [intros E; injection E as <-; repeat split; lia | intros (_ & _ & _ & ->); reflexivity].
Qed.

(** A load of what was just stored. *)
Lemma mem_read_write_same (mem : list Z) (off : Z) (bs : list Z) :
  0 <= off -> mem_read (mem_write mem off bs) off (Z.of_nat (length bs)) = Ret bs.
Proof.
  intros Hoff. apply mem_read_Ret. rewrite mem_write_length.
  split; [lia|]. split; [lia|]. split; [lia|].
  rewrite Nat2Z.id. apply list_eq. intros i.
  destruct (Nat.lt_ge_cases i (length bs)) as [Hlt|Hge].
  - rewrite lookup_take_lt by exact Hlt. rewrite lookup_drop.
    symmetry. apply mem_write_lookup_inside. exact Hlt.
  - rewrite lookup_take_ge by exact Hge. apply lookup_ge_None_2. exact Hge.
Qed.

(** A store leaves every load that does not overlap it as it was. *)
Lemma mem_read_write_disjoint (mem : list Z) (off' : Z) (bs : list Z) (off n : Z)
      (r : list Z) :
  0 <= off' ->
  off + n <= off' \/ off' + Z.of_nat (length bs) <= off ->
  mem_read mem off n = Ret r ->
  mem_read (mem_write mem off' bs) off n = Ret r.
Proof.
  intros Hoff' Hd E. apply mem_read_Ret in E as (Hoff & Hn & Hlen & ->).
  apply mem_read_Ret. rewrite mem_write_length.
  split; [lia|]. split; [lia|]. split; [lia|].
  apply take_drop_ext. intros i Hi. symmetry. apply mem_write_lookup_outside; lia.
Qed.

(** A store at or past [k] leaves the first [k] bytes as they were. *)
Lemma take_mem_write (mem : list Z) (off : Z) (bs : list Z) (k : nat) :
  (k <= Z.to_nat off)%nat -> (k <= length mem)%nat ->
  take k (mem_write mem off bs) = take k mem.
Proof.
  intros Hk Hl. apply list_eq. intros i.
  destruct (Nat.lt_ge_cases i k) as [Hlt|Hge].
  - rewrite !lookup_take_lt by exact Hlt. apply mem_write_lookup_outside; lia.
  - rewrite !lookup_take_ge by exact Hge. reflexivity.
Qed.

(** A load below [k] only depends on the first [k] bytes. *)
Lemma mem_read_take (mem mem' : list Z) (k : nat) (off n : Z) (r : list Z) :
  take k mem' = take k mem -> (k <= length mem')%nat ->
  off + n <= Z.of_nat k ->
  mem_read mem off n = Ret r -> mem_read mem' off n = Ret r.
Proof.
  intros Ht Hk Hle E. apply mem_read_Ret in E as (Hoff & Hn & Hlen & ->).
  apply mem_read_Ret. split; [lia|]. split; [lia|]. split; [lia|].
  apply take_drop_ext. intros i Hi.
  rewrite <- (lookup_take_lt mem k i) by lia.
  rewrite <- (lookup_take_lt mem' k i) by lia. rewrite Ht. reflexivity.
Qed.
(** ** Recording into a command buffer *)

Lemma cb_ok_spec (cb : rizz__gfx_cmdbuffer) :
  cb_ok cb = true <->
  0 <= cb_cmd_idx cb < 65536 /\ 0 <= cb_stage_order cb < 65536
  /\ 0 <= arena_count (cb_params_buff cb)
          <= Z.of_nat (length (arena_mem (cb_params_buff cb))).
Proof.
  unfold cb_ok. rewrite !andb_true_iff, !Z.leb_le, !Z.ltb_lt. tauto.
Qed.

Lemma is_int_spec (v : Z) : is_int v = true <-> -2147483648 <= v <= INT_MAX.
Proof. unfold is_int. rewrite andb_true_iff, !Z.leb_le. tauto. Qed.

Lemma feed_cb_store_eq (g : rizz__gfx) (tid : Z) (cb0 cb : rizz__gfx_cmdbuffer) :
  feed_cb g tid = Ret cb0 -> feed_cb (store_feed_cb g tid cb) tid = Ret cb.
Proof.
  unfold feed_cb, store_feed_cb. intros H. apply arr_at_Ret in H as [Hi H].
  apply arr_at_Ret. split; [exact Hi|]. cbn [cmd_buffers_feed set_cmd_buffers_feed].
  eapply arr_store_lookup_eq; eauto.
Qed.

Lemma feed_cb_store_ne (g : rizz__gfx) (tid t : Z) (cb : rizz__gfx_cmdbuffer) :
  0 <= tid -> t <> tid -> feed_cb (store_feed_cb g tid cb) t = feed_cb g t.
Proof.
  unfold feed_cb, store_feed_cb, arr_at. intros Hi Hne.
  cbn [cmd_buffers_feed set_cmd_buffers_feed].
  destruct (Z.ltb_spec t 0); [reflexivity|].
  rewrite arr_store_lookup_ne by lia. reflexivity.
Qed.

Lemma store_feed_cb_twice (g : rizz__gfx) (tid : Z) (a b : rizz__gfx_cmdbuffer) :
  store_feed_cb (store_feed_cb g tid a) tid b = store_feed_cb g tid b.
Proof.
  unfold store_feed_cb, arr_store. cbn. destruct (tid <? 0); [reflexivity|].
  rewrite list_insert_insert_eq. reflexivity.
Qed.

Lemma sx_assert_false (c : bool) : c = false -> sx_assert c = Err (AssertFailed []).
Proof. intros ->. reflexivity. Qed.

Lemma cb_assert_recording_ok (cb : rizz__gfx_cmdbuffer) :
  cb_running_stage cb <> 0 -> cb_cmd_idx cb < UINT16_MAX ->
  cb_assert_recording cb = Ret tt.
Proof.
  intros Hr Hi. unfold cb_assert_recording.
  rewrite sx_assert_true by (apply negb_true_iff, Z.eqb_neq; exact Hr). cbn [bind].
  apply sx_assert_true, Z.ltb_lt. exact Hi.
Qed.

Lemma cb_assert_recording_Ret (cb : rizz__gfx_cmdbuffer) (u : unit) :
  cb_assert_recording cb = Ret u -> cb_running_stage cb <> 0 /\ cb_cmd_idx cb < UINT16_MAX.
Proof.
  unfold cb_assert_recording. intros E. apply bind_Ret in E as (u1 & E1 & E2).
  apply sx_assert_Ret in E1, E2. apply negb_true_iff, Z.eqb_neq in E1.
  apply Z.ltb_lt in E2. auto.
Qed.

(** [sx_align_mask(v, 7)] rounds up to the next multiple of 8. *)
Lemma sx_align_mask_8 (v : Z) :
  sx_align_mask v (SX_CONFIG_ALLOCATOR_NATURAL_ALIGNMENT - 1) = 8 * ((v + 7) / 8).
Proof.
  unfold sx_align_mask. change (SX_CONFIG_ALLOCATOR_NATURAL_ALIGNMENT - 1) with (Z.ones 3).
  rewrite <- Z.ldiff_land, Z.ldiff_ones_r by lia.
  rewrite Z.shiftl_mul_pow2, Z.shiftr_div_pow2 by lia.
  change (Z.ones 3) with 7. change (2 ^ 3) with 8. lia.
Qed.

Lemma sx_align_mask_bounds (v : Z) :
  let a := sx_align_mask v (SX_CONFIG_ALLOCATOR_NATURAL_ALIGNMENT - 1) in
  v <= a < v + 8 /\ a mod 8 = 0.
Proof.
  cbv zeta. rewrite sx_align_mask_8.
  pose proof (Z.div_mod (v + 7) 8 ltac:(lia)) as H.
  pose proof (Z.mod_pos_bound (v + 7) 8 ltac:(lia)) as Hb.
  split; [lia|]. rewrite Z.mul_comm. apply Z.mod_mul. lia.
Qed.

(** The arena after an allocation, and a store into the new block. *)
Lemma alloc_params_buff_spec (cb : rizz__gfx_cmdbuffer) (size : Z) :
  0 <= arena_count (cb_params_buff cb)
       <= Z.of_nat (length (arena_mem (cb_params_buff cb))) ->
  0 <= size ->
  let a := sx_align_mask size (SX_CONFIG_ALLOCATOR_NATURAL_ALIGNMENT - 1) in
  exists mem,
    rizz__cb_alloc_params_buff cb size
    = (arena_count (cb_params_buff cb),
       set_cb_params_buff (mk_arena mem (arena_count (cb_params_buff cb) + a)) cb)
    /\ arena_count (cb_params_buff cb) + a <= Z.of_nat (length mem)
    /\ take (Z.to_nat (arena_count (cb_params_buff cb))) mem
       = take (Z.to_nat (arena_count (cb_params_buff cb))) (arena_mem (cb_params_buff cb)).
Proof.
  intros Hc Hs a. destruct (sx_align_mask_bounds size) as [Ha _]. fold a in Ha.
  unfold rizz__cb_alloc_params_buff, sx_array_add. fold a.
  eexists. split; [reflexivity|]. split.
  - rewrite length_app, length_replicate. lia.
  - rewrite take_app_le by lia. reflexivity.
Qed.

Lemma mem_read_write_same' (mem : list Z) (off : Z) (bs : list Z) (n : Z) :
  0 <= off -> n = Z.of_nat (length bs) -> mem_read (mem_write mem off bs) off n = Ret bs.
Proof. intros H ->. apply mem_read_write_same. exact H. Qed.

(** A load of a field that a recording call stored: the stores made after
    it lie elsewhere. *)
Ltac read_back :=
  first
    [ apply mem_read_write_same';
      [lia | rewrite ?length_le_bytes; cbn [length bool_bytes]; lia]
    | apply mem_read_write_disjoint;
      [lia | rewrite ?length_le_bytes; cbn [length bool_bytes]; lia | read_back] ].

Ltac cb_fields :=
  cbn [cb_refs cb_cmd_idx cb_running_stage cb_stage_order cb_index cb_params_buff
       arena_mem arena_count cb_mem_write cb_push_ref set_cb_params_buff set_cb_refs
       set_cb_cmd_idx set_cb_running_stage set_cb_stage_order].

Lemma u16_succ (i : Z) : 0 <= i < 65535 -> u16 (i + 1) = i + 1.
Proof. intros H. unfold u16. apply Z.mod_small. lia. Qed.

Lemma rizz__cb_draw_spec (g : rizz__gfx) (tid : Z) (cb : rizz__gfx_cmdbuffer)
      (b n i : Z) :
  feed_cb g tid = Ret cb -> cb_ok cb = true ->
  cb_running_stage cb <> 0 -> cb_cmd_idx cb < UINT16_MAX ->
  is_int b = true -> is_int n = true -> is_int i = true ->
  exists cb',
    rizz__cb_draw g tid b n i = Ret (store_feed_cb g tid cb')
    /\ cb_recorded GFX_COMMAND_DRAW 16 cb cb'
    /\ rizz__cb_run_draw (arena_mem (cb_params_buff cb')) (arena_count (cb_params_buff cb))
       = Ret (Sg_draw b n i, arena_count (cb_params_buff cb) + 12).
Proof.
  intros Hf Hok Hr Hi Hb Hn Hii. apply cb_ok_spec in Hok as (Hidx & Hord & Hc).
  apply is_int_spec in Hb, Hn, Hii. unfold UINT16_MAX in Hi.
  unfold rizz__cb_draw. rewrite Hf. cbn [bind].
  rewrite cb_assert_recording_ok by assumption. cbn [bind].
  destruct (alloc_params_buff_spec cb (sizeof_int * 3) Hc ltac:(unfold sizeof_int; lia))
    as (mem & -> & Hlen & Htake).
  change (sx_align_mask (sizeof_int * 3) (SX_CONFIG_ALLOCATOR_NATURAL_ALIGNMENT - 1))
    with 16 in *.
  set (off := arena_count (cb_params_buff cb)) in *.
  eexists. split; [reflexivity|]. split.
  - unfold cb_recorded. cb_fields. fold off.
    rewrite u16_succ by lia.
    repeat split; try reflexivity.
    + rewrite !mem_write_length. lia.
    + rewrite !take_mem_write by (rewrite ?mem_write_length; lia). exact Htake.
  - cb_fields. unfold rizz__cb_run_draw.
    match goal with |- context [mem_read ?m off 4] =>
      assert (R1 : mem_read m off 4 = Ret (le_bytes 4 b)) by read_back;
      assert (R2 : mem_read m (off + 4) 4 = Ret (le_bytes 4 n)) by read_back;
      assert (R3 : mem_read m (off + 8) 4 = Ret (le_bytes 4 i)) by read_back
    end.
    rewrite R1, R2, R3. cbn [bind]. rewrite !i32_le4 by assumption. reflexivity.
Qed.

Lemma rizz__cb_dispatch_spec (g : rizz__gfx) (tid : Z) (cb : rizz__gfx_cmdbuffer)
      (b n i : Z) :
  feed_cb g tid = Ret cb -> cb_ok cb = true ->
  cb_running_stage cb <> 0 -> cb_cmd_idx cb < UINT16_MAX ->
  is_int b = true -> is_int n = true -> is_int i = true ->
  exists cb',
    rizz__cb_dispatch g tid b n i = Ret (store_feed_cb g tid cb')
    /\ cb_recorded GFX_COMMAND_DISPATCH 16 cb cb'
    /\ rizz__cb_run_dispatch (arena_mem (cb_params_buff cb')) (arena_count (cb_params_buff cb))
       = Ret (Sg_dispatch b n i, arena_count (cb_params_buff cb) + 12).
Proof.
  intros Hf Hok Hr Hi Hb Hn Hii. apply cb_ok_spec in Hok as (Hidx & Hord & Hc).
  apply is_int_spec in Hb, Hn, Hii. unfold UINT16_MAX in Hi.
  unfold rizz__cb_dispatch. rewrite Hf. cbn [bind].
  rewrite cb_assert_recording_ok by assumption. cbn [bind].
  destruct (alloc_params_buff_spec cb (sizeof_int * 3) Hc ltac:(unfold sizeof_int; lia))
    as (mem & -> & Hlen & Htake).
  change (sx_align_mask (sizeof_int * 3) (SX_CONFIG_ALLOCATOR_NATURAL_ALIGNMENT - 1))
    with 16 in *.
  set (off := arena_count (cb_params_buff cb)) in *.
  eexists. split; [reflexivity|]. split.
  - unfold cb_recorded. cb_fields. fold off.
    rewrite u16_succ by lia.
    repeat split; try reflexivity.
    + rewrite !mem_write_length. lia.
    + rewrite !take_mem_write by (rewrite ?mem_write_length; lia). exact Htake.
  - cb_fields. unfold rizz__cb_run_dispatch.
    match goal with |- context [mem_read ?m off 4] =>
      assert (R1 : mem_read m off 4 = Ret (le_bytes 4 b)) by read_back;
      assert (R2 : mem_read m (off + 4) 4 = Ret (le_bytes 4 n)) by read_back;
      assert (R3 : mem_read m (off + 8) 4 = Ret (le_bytes 4 i)) by read_back
    end.
    rewrite R1, R2, R3. cbn [bind]. rewrite !i32_le4 by assumption. reflexivity.
Qed.

Lemma rizz__cb_apply_viewport_spec (g : rizz__gfx) (tid : Z) (cb : rizz__gfx_cmdbuffer)
      (x y w h : Z) (o : bool) :
  feed_cb g tid = Ret cb -> cb_ok cb = true ->
  cb_running_stage cb <> 0 -> cb_cmd_idx cb < UINT16_MAX ->
  is_int x = true -> is_int y = true -> is_int w = true -> is_int h = true ->
  exists cb',
    rizz__cb_apply_viewport g tid x y w h o = Ret (store_feed_cb g tid cb')
    /\ cb_recorded GFX_COMMAND_APPLY_VIEWPORT 24 cb cb'
    /\ rizz__cb_run_apply_viewport (arena_mem (cb_params_buff cb')) (arena_count (cb_params_buff cb))
       = Ret (Sg_apply_viewport x y w h o, arena_count (cb_params_buff cb) + 17).
Proof.
  intros Hf Hok Hr Hi Hx Hy Hw Hh. apply cb_ok_spec in Hok as (Hidx & Hord & Hc).
  apply is_int_spec in Hx, Hy, Hw, Hh. unfold UINT16_MAX in Hi.
  unfold rizz__cb_apply_viewport. rewrite Hf. cbn [bind].
  rewrite cb_assert_recording_ok by assumption. cbn [bind].
  destruct (alloc_params_buff_spec cb (sizeof_int * 4 + sizeof_bool) Hc
              ltac:(unfold sizeof_int, sizeof_bool; lia))
    as (mem & -> & Hlen & Htake).
  change (sx_align_mask (sizeof_int * 4 + sizeof_bool)
                        (SX_CONFIG_ALLOCATOR_NATURAL_ALIGNMENT - 1)) with 24 in *.
  set (off := arena_count (cb_params_buff cb)) in *.
  eexists. split; [reflexivity|]. split.
  - unfold cb_recorded. cb_fields. fold off.
    rewrite u16_succ by lia.
    repeat split; try reflexivity.
    + rewrite !mem_write_length. lia.
    + rewrite !take_mem_write by (rewrite ?mem_write_length; lia). exact Htake.
  - cb_fields. unfold rizz__cb_run_apply_viewport.
    match goal with |- context [mem_read ?m off 4] =>
      assert (R1 : mem_read m off 4 = Ret (le_bytes 4 x)) by read_back;
      assert (R2 : mem_read m (off + 4) 4 = Ret (le_bytes 4 y)) by read_back;
      assert (R3 : mem_read m (off + 8) 4 = Ret (le_bytes 4 w)) by read_back;
      assert (R4 : mem_read m (off + 12) 4 = Ret (le_bytes 4 h)) by read_back;
      assert (R5 : mem_read m (off + 16) 1 = Ret (bool_bytes o)) by read_back
    end.
    rewrite R1, R2, R3, R4, R5. cbn [bind]. rewrite !i32_le4 by assumption.
    destruct o; reflexivity.
Qed.

Lemma rizz__cb_apply_scissor_rect_spec (g : rizz__gfx) (tid : Z) (cb : rizz__gfx_cmdbuffer)
      (x y w h : Z) (o : bool) :
  feed_cb g tid = Ret cb -> cb_ok cb = true ->
  cb_running_stage cb <> 0 -> cb_cmd_idx cb < UINT16_MAX ->
  is_int x = true -> is_int y = true -> is_int w = true -> is_int h = true ->
  exists cb',
    rizz__cb_apply_scissor_rect g tid x y w h o = Ret (store_feed_cb g tid cb')
    /\ cb_recorded GFX_COMMAND_APPLY_SCISSOR_RECT 24 cb cb'
    /\ rizz__cb_run_apply_scissor_rect (arena_mem (cb_params_buff cb')) (arena_count (cb_params_buff cb))
       = Ret (Sg_apply_scissor_rect x y w h o, arena_count (cb_params_buff cb) + 17).
Proof.
  intros Hf Hok Hr Hi Hx Hy Hw Hh. apply cb_ok_spec in Hok as (Hidx & Hord & Hc).
  apply is_int_spec in Hx, Hy, Hw, Hh. unfold UINT16_MAX in Hi.
  unfold rizz__cb_apply_scissor_rect. rewrite Hf. cbn [bind].
  rewrite cb_assert_recording_ok by assumption. cbn [bind].
  destruct (alloc_params_buff_spec cb (sizeof_int * 4 + sizeof_bool) Hc
              ltac:(unfold sizeof_int, sizeof_bool; lia))
    as (mem & -> & Hlen & Htake).
  change (sx_align_mask (sizeof_int * 4 + sizeof_bool)
                        (SX_CONFIG_ALLOCATOR_NATURAL_ALIGNMENT - 1)) with 24 in *.
  set (off := arena_count (cb_params_buff cb)) in *.
  eexists. split; [reflexivity|]. split.
  - unfold cb_recorded. cb_fields. fold off.
    rewrite u16_succ by lia.
    repeat split; try reflexivity.
    + rewrite !mem_write_length. lia.
    + rewrite !take_mem_write by (rewrite ?mem_write_length; lia). exact Htake.
  - cb_fields. unfold rizz__cb_run_apply_scissor_rect.
    match goal with |- context [mem_read ?m off 4] =>
      assert (R1 : mem_read m off 4 = Ret (le_bytes 4 x)) by read_back;
      assert (R2 : mem_read m (off + 4) 4 = Ret (le_bytes 4 y)) by read_back;
      assert (R3 : mem_read m (off + 8) 4 = Ret (le_bytes 4 w)) by read_back;
      assert (R4 : mem_read m (off + 12) 4 = Ret (le_bytes 4 h)) by read_back;
      assert (R5 : mem_read m (off + 16) 1 = Ret (bool_bytes o)) by read_back
    end.
    rewrite R1, R2, R3, R4, R5. cbn [bind]. rewrite !i32_le4 by assumption.
    destruct o; reflexivity.
Qed.

Lemma rizz__cb_end_pass_spec (g : rizz__gfx) (tid : Z) (cb : rizz__gfx_cmdbuffer) :
  feed_cb g tid = Ret cb -> cb_ok cb = true ->
  cb_running_stage cb <> 0 -> cb_cmd_idx cb < UINT16_MAX ->
  exists cb',
    rizz__cb_end_pass g tid = Ret (store_feed_cb g tid cb')
    /\ cb_recorded GFX_COMMAND_END_PASS 0 cb cb'.
Proof.
  intros Hf Hok Hr Hi. apply cb_ok_spec in Hok as (Hidx & Hord & Hc).
  unfold UINT16_MAX in Hi.
  unfold rizz__cb_end_pass. rewrite Hf. cbn [bind].
  rewrite cb_assert_recording_ok by assumption. cbn [bind].
  eexists. split; [reflexivity|].
  unfold cb_recorded. cb_fields. rewrite u16_succ by lia.
  repeat split; try reflexivity; lia.
Qed.

Lemma user_read_all (data : list Z) (n : Z) :
  n = Z.of_nat (length data) -> user_read data n = Ret data.
Proof.
  intros ->. unfold user_read.
  destruct (Z.ltb_spec (Z.of_nat (length data)) 0); [lia|].
  rewrite Z.ltb_irrefl. cbn [orb]. rewrite Nat2Z.id, firstn_all. reflexivity.
Qed.

Lemma rizz__cb_apply_uniforms_spec (g : rizz__gfx) (tid : Z) (cb : rizz__gfx_cmdbuffer)
      (stage ub_index : Z) (data : list Z) (num_bytes : Z) :
  feed_cb g tid = Ret cb -> cb_ok cb = true ->
  cb_running_stage cb <> 0 -> cb_cmd_idx cb < UINT16_MAX ->
  is_int stage = true -> is_int ub_index = true ->
  num_bytes = Z.of_nat (length data) -> num_bytes <= INT_MAX - 12 ->
  exists cb',
    rizz__cb_apply_uniforms g tid stage ub_index data num_bytes
    = Ret (store_feed_cb g tid cb')
    /\ cb_recorded GFX_COMMAND_APPLY_UNIFORMS
                   (sx_align_mask (12 + num_bytes) (SX_CONFIG_ALLOCATOR_NATURAL_ALIGNMENT - 1))
                   cb cb'
    /\ rizz__cb_run_apply_uniforms (arena_mem (cb_params_buff cb'))
                                   (arena_count (cb_params_buff cb))
       = Ret (Sg_apply_uniforms stage ub_index data num_bytes,
              arena_count (cb_params_buff cb) + 12 + num_bytes).
Proof.
  intros Hf Hok Hr Hi Hs Hu Hn Hmax. apply cb_ok_spec in Hok as (Hidx & Hord & Hc).
  apply is_int_spec in Hs, Hu. unfold UINT16_MAX in Hi. unfold INT_MAX in *.
  assert (Hn0 : 0 <= num_bytes) by lia.
  unfold rizz__cb_apply_uniforms. rewrite Hf. cbn [bind].
  rewrite cb_assert_recording_ok by assumption. cbn [bind].
  replace (i32 (sizeof_sg_shader_stage + sizeof_int * 2 + num_bytes)) with (12 + num_bytes)
    by (symmetry; unfold sizeof_sg_shader_stage, sizeof_int;
        replace (4 + 4 * 2 + num_bytes) with (12 + num_bytes) by lia;
        apply i32_small; unfold INT_MAX; lia).
  destruct (alloc_params_buff_spec cb (12 + num_bytes) Hc ltac:(lia))
    as (mem & -> & Hlen & Htake).
  destruct (sx_align_mask_bounds (12 + num_bytes)) as [Ha _]. cbv zeta in Ha.
  set (a := sx_align_mask (12 + num_bytes) (SX_CONFIG_ALLOCATOR_NATURAL_ALIGNMENT - 1)) in *.
  set (off := arena_count (cb_params_buff cb)) in *.
  rewrite (user_read_all data num_bytes Hn). cbn [bind].
  eexists. split; [reflexivity|]. split.
  - unfold cb_recorded. cb_fields. fold off.
    rewrite u16_succ by lia.
    repeat split; try reflexivity.
    + rewrite !mem_write_length. lia.
    + rewrite !take_mem_write by (rewrite ?mem_write_length; lia). exact Htake.
  - cb_fields. unfold rizz__cb_run_apply_uniforms.
    match goal with |- context [mem_read ?m off 4] =>
      assert (R1 : mem_read m off 4 = Ret (le_bytes 4 stage)) by read_back;
      assert (R2 : mem_read m (off + 4) 4 = Ret (le_bytes 4 ub_index)) by read_back;
      assert (R3 : mem_read m (off + 8) 4 = Ret (le_bytes 4 num_bytes)) by read_back;
      assert (R4 : mem_read m (off + 12) num_bytes = Ret data) by read_back
    end.
    rewrite R1, R2, R3. cbn [bind]. rewrite !i32_le4 by (unfold INT_MAX; lia).
    rewrite R4. reflexivity.
Qed.

Lemma rizz__cb_update_buffer_spec (g : rizz__gfx) (sg : sg_state) (tid frame : Z)
      (cb : rizz__gfx_cmdbuffer) (buf : Z) (data : list Z) (data_size : Z)
      (slot : sg_slot) :
  feed_cb g tid = Ret cb -> cb_ok cb = true ->
  cb_running_stage cb <> 0 -> cb_cmd_idx cb < UINT16_MAX ->
  0 <= buf < 4294967296 ->
  data_size = Z.of_nat (length data) -> data_size <= INT_MAX - 8 ->
  _sg_lookup (sg_buffers sg) buf = Some slot ->
  exists cb',
    rizz__cb_update_buffer g sg tid frame buf data data_size
    = Ret (store_feed_cb g tid cb',
           set_sg_buffers (pool_set_used_frame (sg_buffers sg) buf frame) sg)
    /\ cb_recorded GFX_COMMAND_UPDATE_BUFFER
                   (sx_align_mask (8 + data_size) (SX_CONFIG_ALLOCATOR_NATURAL_ALIGNMENT - 1))
                   cb cb'
    /\ rizz__cb_run_update_buffer (arena_mem (cb_params_buff cb'))
                                  (arena_count (cb_params_buff cb))
       = Ret (Sg_update_buffer buf data data_size,
              arena_count (cb_params_buff cb) + 8 + data_size).
Proof.
  intros Hf Hok Hr Hi Hb Hn Hmax Hslot. apply cb_ok_spec in Hok as (Hidx & Hord & Hc).
  unfold UINT16_MAX in Hi. unfold INT_MAX in *.
  assert (Hn0 : 0 <= data_size) by lia.
  unfold rizz__cb_update_buffer. rewrite Hf. cbn [bind].
  rewrite cb_assert_recording_ok by assumption. cbn [bind].
  replace (i32 (sizeof_sg_buffer + data_size + sizeof_int)) with (8 + data_size)
    by (symmetry; unfold sizeof_sg_buffer, sizeof_int;
        replace (4 + data_size + 4) with (8 + data_size) by lia;
        apply i32_small; unfold INT_MAX; lia).
  destruct (alloc_params_buff_spec cb (8 + data_size) Hc ltac:(lia))
    as (mem & -> & Hlen & Htake).
  destruct (sx_align_mask_bounds (8 + data_size)) as [Ha _]. cbv zeta in Ha.
  set (a := sx_align_mask (8 + data_size) (SX_CONFIG_ALLOCATOR_NATURAL_ALIGNMENT - 1)) in *.
  set (off := arena_count (cb_params_buff cb)) in *.
  rewrite (user_read_all data data_size Hn). cbn [bind].
  unfold stamp_used_frame. rewrite Hslot. cbn [bind].
  eexists. split; [reflexivity|]. split.
  - unfold cb_recorded. cb_fields. fold off.
    rewrite u16_succ by lia.
    repeat split; try reflexivity.
    + rewrite !mem_write_length. lia.
    + rewrite !take_mem_write by (rewrite ?mem_write_length; lia). exact Htake.
  - cb_fields. unfold rizz__cb_run_update_buffer.
    match goal with |- context [mem_read ?m off 4] =>
      assert (R1 : mem_read m off 4 = Ret (le_bytes 4 buf)) by read_back;
      assert (R2 : mem_read m (off + 4) 4 = Ret (le_bytes 4 data_size)) by read_back;
      assert (R3 : mem_read m (off + 8) data_size = Ret data) by read_back
    end.
    rewrite R1, R2. cbn [bind]. rewrite u32_le4 by lia.
    rewrite !i32_le4 by (unfold INT_MAX; lia). rewrite R3. reflexivity.
Qed.

Lemma cb_extends_refl (cb : rizz__gfx_cmdbuffer) :
  arena_count (cb_params_buff cb) <= Z.of_nat (length (arena_mem (cb_params_buff cb))) ->
  cb_extends cb cb.
Proof. intros H. unfold cb_extends. repeat split; try reflexivity; lia. Qed.

Lemma cb_extends_trans (a b c : rizz__gfx_cmdbuffer) :
  0 <= arena_count (cb_params_buff a) ->
  cb_extends a b -> cb_extends b c -> cb_extends a c.
Proof.
  intros H0 (A1 & A2 & A3 & A4 & A5 & A6) (B1 & B2 & B3 & B4 & B5 & B6).
  unfold cb_extends. repeat split; try congruence; try lia.
  rewrite <- A6.
  set (ka := Z.to_nat (arena_count (cb_params_buff a))).
  set (kb := Z.to_nat (arena_count (cb_params_buff b))) in *.
  assert (Hm : Nat.min ka kb = ka) by (unfold ka, kb; lia).
  rewrite <- Hm. rewrite <- !take_take. rewrite B6. reflexivity.
Qed.

Lemma cb_recorded_extends c size cb cb' :
  0 <= size -> cb_recorded c size cb cb' -> cb_extends cb cb'.
Proof.
  intros Hs (_ & _ & R3 & R4 & R5 & R6 & R7 & R8).
  unfold cb_extends. repeat split; try assumption; lia.
Qed.

(** A decoder reads below the pointer it returns: its result only depends
    on the bytes up to there. *)
Lemma run_frame_call_stable (c : rizz__gfx_command) (mem mem' : list Z) (k : nat)
      (off : Z) (r : sg_frame_call) (e : Z) :
  take k mem' = take k mem -> (k <= length mem')%nat ->
  run_frame_call c mem off = Some (Ret (r, e)) -> e <= Z.of_nat k ->
  run_frame_call c mem' off = Some (Ret (r, e)).
Proof.
  intros Ht Hk E He.
  assert (Hread : forall o n bs, mem_read mem o n = Ret bs -> o + n <= e ->
                                 mem_read mem' o n = Ret bs).
  { intros o n bs Hr Hle. revert Hr.
    apply (mem_read_take mem mem' k); [exact Ht | exact Hk | lia]. }
  destruct c; cbn [run_frame_call] in *; try discriminate; injection E as E; f_equal.
  - unfold rizz__cb_run_apply_viewport in *.
    apply bind_Ret in E as (b1 & R1 & E). apply bind_Ret in E as (b2 & R2 & E).
    apply bind_Ret in E as (b3 & R3 & E). apply bind_Ret in E as (b4 & R4 & E).
    apply bind_Ret in E as (b5 & R5 & E). injection E as <- <-.
    rewrite (Hread _ _ _ R1) by lia.
    rewrite (Hread _ _ _ R2) by lia.
    rewrite (Hread _ _ _ R3) by lia.
    rewrite (Hread _ _ _ R4) by lia.
    rewrite (Hread _ _ _ R5) by lia. reflexivity.
  - unfold rizz__cb_run_apply_scissor_rect in *.
    apply bind_Ret in E as (b1 & R1 & E). apply bind_Ret in E as (b2 & R2 & E).
    apply bind_Ret in E as (b3 & R3 & E). apply bind_Ret in E as (b4 & R4 & E).
    apply bind_Ret in E as (b5 & R5 & E). injection E as <- <-.
    rewrite (Hread _ _ _ R1) by lia.
    rewrite (Hread _ _ _ R2) by lia.
    rewrite (Hread _ _ _ R3) by lia.
    rewrite (Hread _ _ _ R4) by lia.
    rewrite (Hread _ _ _ R5) by lia. reflexivity.
  - unfold rizz__cb_run_apply_uniforms in *.
    apply bind_Ret in E as (b1 & R1 & E). apply bind_Ret in E as (b2 & R2 & E).
    apply bind_Ret in E as (b3 & R3 & E). apply bind_Ret in E as (b4 & R4 & E).
    injection E as <- <-.
    pose proof (proj1 (mem_read_Ret _ _ _ _) R4) as (_ & Hn & _).
    rewrite (Hread _ _ _ R1) by lia.
    rewrite (Hread _ _ _ R2) by lia.
    rewrite (Hread _ _ _ R3) by lia. cbn [bind].
    rewrite (Hread _ _ _ R4) by lia. reflexivity.
  - unfold rizz__cb_run_draw in *.
    apply bind_Ret in E as (b1 & R1 & E). apply bind_Ret in E as (b2 & R2 & E).
    apply bind_Ret in E as (b3 & R3 & E). injection E as <- <-.
    rewrite (Hread _ _ _ R1) by lia.
    rewrite (Hread _ _ _ R2) by lia.
    rewrite (Hread _ _ _ R3) by lia. reflexivity.
  - unfold rizz__cb_run_dispatch in *.
    apply bind_Ret in E as (b1 & R1 & E). apply bind_Ret in E as (b2 & R2 & E).
    apply bind_Ret in E as (b3 & R3 & E). injection E as <- <-.
    rewrite (Hread _ _ _ R1) by lia.
    rewrite (Hread _ _ _ R2) by lia.
    rewrite (Hread _ _ _ R3) by lia. reflexivity.
  - unfold rizz__cb_run_end_pass. congruence.
  - unfold rizz__cb_run_update_buffer in *.
    apply bind_Ret in E as (b1 & R1 & E). apply bind_Ret in E as (b2 & R2 & E).
    apply bind_Ret in E as (b3 & R3 & E). injection E as <- <-.
    pose proof (proj1 (mem_read_Ret _ _ _ _) R3) as (_ & Hn & _).
    rewrite (Hread _ _ _ R1) by lia.
    rewrite (Hread _ _ _ R2) by lia. cbn [bind].
    rewrite (Hread _ _ _ R3) by lia. reflexivity.
Qed.

Lemma recording_prologue {A} (g : rizz__gfx) (tid : Z) (cb : rizz__gfx_cmdbuffer)
      (k : rizz__gfx_cmdbuffer -> result A) (r : A) :
  feed_cb g tid = Ret cb ->
  (let* cb := feed_cb g tid in let* _ := cb_assert_recording cb in k cb) = Ret r ->
  cb_running_stage cb <> 0 /\ cb_cmd_idx cb < UINT16_MAX.
Proof.
  intros Hf E. rewrite Hf in E. cbn [bind] in E.
  apply bind_Ret in E as (u & E & _). eapply cb_assert_recording_Ret. exact E.
Qed.

(** One staged call that returned: what it recorded decodes to the call. *)
Lemma staged_call_spec (g : rizz__gfx) (sg : sg_state) (tid frame : Z) (c : sg_frame_call)
      (cb : rizz__gfx_cmdbuffer) (g' : rizz__gfx) (sg' : sg_state) :
  feed_cb g tid = Ret cb -> cb_ok cb = true -> call_fits c = true ->
  staged_call g sg tid frame c = Ret (g', sg') ->
  exists cb' size e,
    g' = store_feed_cb g tid cb'
    /\ 0 <= size
    /\ cb_cmd_idx cb < UINT16_MAX
    /\ cb_recorded (command_of c) size cb cb'
    /\ run_frame_call (command_of c) (arena_mem (cb_params_buff cb'))
                      (arena_count (cb_params_buff cb)) = Some (Ret (c, e))
    /\ e <= arena_count (cb_params_buff cb) + size.
Proof.
  intros Hf Hok Hfit E.
  destruct c; cbn [staged_call call_fits command_of run_frame_call] in *.
  - apply bind_Ret in E as (g1 & E1 & E). injection E as <- <-.
    destruct (recording_prologue g tid cb _ _ Hf E1) as [Hr Hi].
    rewrite !andb_true_iff in Hfit. destruct Hfit as (((Hx & Hy) & Hw) & Hh).
    destruct (rizz__cb_apply_viewport_spec g tid cb x y width height origin_top_left)
      as (cb' & E' & Hrec & Hrun); try assumption.
    rewrite E' in E1. injection E1 as <-.
    exists cb', 24, (arena_count (cb_params_buff cb) + 17).
    rewrite Hrun.
    split; [reflexivity|]. split; [lia|]. split; [exact Hi|]. split; [exact Hrec|].
    split; [reflexivity | lia].
  - apply bind_Ret in E as (g1 & E1 & E). injection E as <- <-.
    destruct (recording_prologue g tid cb _ _ Hf E1) as [Hr Hi].
    rewrite !andb_true_iff in Hfit. destruct Hfit as (((Hx & Hy) & Hw) & Hh).
    destruct (rizz__cb_apply_scissor_rect_spec g tid cb x y width height origin_top_left)
      as (cb' & E' & Hrec & Hrun); try assumption.
    rewrite E' in E1. injection E1 as <-.
    exists cb', 24, (arena_count (cb_params_buff cb) + 17).
    rewrite Hrun.
    split; [reflexivity|]. split; [lia|]. split; [exact Hi|]. split; [exact Hrec|].
    split; [reflexivity | lia].
  - apply bind_Ret in E as (g1 & E1 & E). injection E as <- <-.
    destruct (recording_prologue g tid cb _ _ Hf E1) as [Hr Hi].
    rewrite !andb_true_iff in Hfit. destruct Hfit as (((Hs & Hu) & Hn) & Hm).
    apply Z.eqb_eq in Hn. apply Z.leb_le in Hm.
    destruct (rizz__cb_apply_uniforms_spec g tid cb stage ub_index data num_bytes)
      as (cb' & E' & Hrec & Hrun); try assumption.
    rewrite E' in E1. injection E1 as <-.
    destruct (sx_align_mask_bounds (12 + num_bytes)) as [Ha _]. cbv zeta in Ha.
    eexists cb', _, _. rewrite Hrun.
    split; [reflexivity|]. split; [|split; [exact Hi|split; [exact Hrec|split; [reflexivity|]]]];
      lia.
  - apply bind_Ret in E as (g1 & E1 & E). injection E as <- <-.
    destruct (recording_prologue g tid cb _ _ Hf E1) as [Hr Hi].
    rewrite !andb_true_iff in Hfit. destruct Hfit as ((Hx & Hy) & Hw).
    destruct (rizz__cb_draw_spec g tid cb base_element num_elements num_instances)
      as (cb' & E' & Hrec & Hrun); try assumption.
    rewrite E' in E1. injection E1 as <-.
    exists cb', 16, (arena_count (cb_params_buff cb) + 12).
    rewrite Hrun.
    split; [reflexivity|]. split; [lia|]. split; [exact Hi|]. split; [exact Hrec|].
    split; [reflexivity | lia].
  - apply bind_Ret in E as (g1 & E1 & E). injection E as <- <-.
    destruct (recording_prologue g tid cb _ _ Hf E1) as [Hr Hi].
    rewrite !andb_true_iff in Hfit. destruct Hfit as ((Hx & Hy) & Hw).
    destruct (rizz__cb_dispatch_spec g tid cb thread_group_x thread_group_y thread_group_z)
      as (cb' & E' & Hrec & Hrun); try assumption.
    rewrite E' in E1. injection E1 as <-.
    exists cb', 16, (arena_count (cb_params_buff cb) + 12).
    rewrite Hrun.
    split; [reflexivity|]. split; [lia|]. split; [exact Hi|]. split; [exact Hrec|].
    split; [reflexivity | lia].
  - apply bind_Ret in E as (g1 & E1 & E). injection E as <- <-.
    destruct (recording_prologue g tid cb _ _ Hf E1) as [Hr Hi].
    destruct (rizz__cb_end_pass_spec g tid cb) as (cb' & E' & Hrec); try assumption.
    rewrite E' in E1. injection E1 as <-.
    exists cb', 0, (arena_count (cb_params_buff cb)).
    split; [reflexivity|]. split; [lia|]. split; [exact Hi|]. split; [exact Hrec|].
    split; [reflexivity | lia].
  - destruct (recording_prologue g tid cb _ _ Hf E) as [Hr Hi].
    rewrite !andb_true_iff in Hfit. destruct Hfit as (((Hb0 & Hb1) & Hn) & Hm).
    apply Z.leb_le in Hb0. apply Z.ltb_lt in Hb1. apply Z.eqb_eq in Hn. apply Z.leb_le in Hm.
    assert (Hs : exists slot, _sg_lookup (sg_buffers sg) buf = Some slot).
    { destruct (_sg_lookup (sg_buffers sg) buf) as [slot|] eqn:El; [eauto|].
      exfalso. unfold rizz__cb_update_buffer in E. rewrite Hf in E. cbn [bind] in E.
      apply bind_Ret in E as (u0 & Eu & E).
      destruct (rizz__cb_alloc_params_buff cb _) as [o c1].
      apply bind_Ret in E as (d0 & Ed & E). apply bind_Ret in E as (bs & Es & E).
      unfold stamp_used_frame in Es. rewrite El in Es. discriminate. }
    destruct Hs as [slot Hslot].
    destruct (rizz__cb_update_buffer_spec g sg tid frame cb buf data data_size slot)
      as (cb' & E' & Hrec & Hrun); try assumption; try lia.
    rewrite E' in E. injection E as <- <-.
    destruct (sx_align_mask_bounds (8 + data_size)) as [Ha _]. cbv zeta in Ha.
    eexists cb', _, _. rewrite Hrun.
    split; [reflexivity|]. split; [|split; [exact Hi|split; [exact Hrec|split; [reflexivity|]]]];
      lia.
Qed.

Lemma staged_calls_spec (tid frame : Z) (calls : list sg_frame_call) :
  forall (g : rizz__gfx) (sg : sg_state) (cb : rizz__gfx_cmdbuffer)
         (g' : rizz__gfx) (sg' : sg_state),
    feed_cb g tid = Ret cb -> cb_ok cb = true ->
    forallb call_fits calls = true ->
    staged_calls g sg tid frame calls = Ret (g', sg') ->
    exists cb' refs,
      feed_cb g' tid = Ret cb'
      /\ cb_ok cb' = true
      /\ cb_extends cb cb'
      /\ cb_refs cb' = cb_refs cb ++ refs
      /\ length refs = length calls
      /\ cb_cmd_idx cb' = cb_cmd_idx cb + Z.of_nat (length calls)
      /\ (forall (k : nat) c r, calls !! k = Some c -> refs !! k = Some r ->
            ref_cmd r = command_of c
            /\ ref_cmdbuffer_idx r = cb_index cb
            /\ ref_key r = sort_key (cb_stage_order cb) (cb_cmd_idx cb + Z.of_nat k)
            /\ exists e, run_frame_call (ref_cmd r) (arena_mem (cb_params_buff cb'))
                                        (ref_params_offset r) = Some (Ret (c, e)))
      /\ (forall t, t <> tid -> feed_cb g' t = feed_cb g t)
      /\ stages g' = stages g.
Proof.
  induction calls as [|c calls IH]; intros g sg cb g' sg' Hf Hok Hfit E.
  - cbn in E. injection E as <- <-. exists cb, [].
    pose proof (proj1 (cb_ok_spec cb) Hok) as (_ & _ & Hc).
    rewrite app_nil_r, Z.add_0_r.
    split; [exact Hf|]. split; [exact Hok|]. split; [apply cb_extends_refl; lia|].
    split; [reflexivity|]. split; [reflexivity|]. split; [reflexivity|].
    split; [|split; [reflexivity | reflexivity]].
    intros k c r Hk. rewrite lookup_nil in Hk. discriminate.
  - cbn [forallb] in Hfit. apply andb_true_iff in Hfit as [Hfc Hfit].
    cbn [staged_calls] in E. apply bind_Ret in E as ([g1 sg1] & E1 & E).
    destruct (staged_call_spec _ _ _ _ _ _ _ _ Hf Hok Hfc E1)
      as (cb1 & size & e & -> & Hsz & Hi & Hrec & Hrun & He).
    pose proof (proj1 (cb_ok_spec cb) Hok) as (Hidx & Hord & Hc).
    pose proof Hrec as (R1 & R2 & R3 & R4 & R5 & R6 & R7 & R8).
    unfold UINT16_MAX in Hi.
    assert (Hf1 : feed_cb (store_feed_cb g tid cb1) tid = Ret cb1)
      by (eapply feed_cb_store_eq; exact Hf).
    assert (Hok1 : cb_ok cb1 = true).
    { apply cb_ok_spec. rewrite R2, R4, R6. lia. }
    destruct (IH _ _ _ _ _ Hf1 Hok1 Hfit E)
      as (cb' & refs & Hf' & Hok' & Hext & Hrefs & Hlen & Hidx' & Hk & Hother & Hst).
    pose proof Hext as (X1 & X2 & X3 & X4 & X5 & X6).
    exists cb', (mk_ref (sort_key (cb_stage_order cb) (cb_cmd_idx cb)) (cb_index cb)
                        (command_of c) (arena_count (cb_params_buff cb)) :: refs).
    split; [exact Hf'|]. split; [exact Hok'|]. split.
    { eapply cb_extends_trans; [lia | eapply cb_recorded_extends; eauto | exact Hext]. }
    split; [rewrite Hrefs, R1, <- app_assoc; reflexivity|].
    split; [cbn [length]; rewrite Hlen; reflexivity|].
    split; [rewrite Hidx', R2; cbn [length]; lia|].
    split; [|split].
    + intros [|k] c' r Hc' Hr'; cbn in Hc', Hr'.
      * injection Hc' as <-. injection Hr' as <-. cbn [ref_cmd ref_cmdbuffer_idx ref_key
          ref_params_offset].
        rewrite Z.add_0_r. split; [reflexivity|]. split; [reflexivity|].
        split; [reflexivity|]. exists e.
        apply (run_frame_call_stable _ (arena_mem (cb_params_buff cb1)) _
                 (Z.to_nat (arena_count (cb_params_buff cb1)))); [exact X6 | lia | exact Hrun | lia].
      * destruct (Hk k c' r Hc' Hr') as (K1 & K2 & K3 & K4).
        split; [exact K1|]. split; [rewrite K2; exact R5|]. split; [|exact K4].
        rewrite K3, R4, R2. f_equal. lia.
    + intros t Ht. rewrite Hother by exact Ht. apply feed_cb_store_ne; [|exact Ht].
      unfold feed_cb in Hf. apply arr_at_Ret in Hf. tauto.
    + rewrite Hst. reflexivity.
Qed.
(** ** The life of a stage within a frame *)

Lemma rizz__cb_record_begin_stage_spec (g : rizz__gfx) (tid : Z) (cb : rizz__gfx_cmdbuffer)
      (name : string) :
  feed_cb g tid = Ret cb -> cb_ok cb = true ->
  cb_running_stage cb <> 0 -> cb_cmd_idx cb < UINT16_MAX ->
  exists cb',
    rizz__cb_record_begin_stage g tid name 32 = Ret (store_feed_cb g tid cb')
    /\ cb_recorded GFX_COMMAND_STAGE_PUSH 32 cb cb'.
Proof.
  intros Hf Hok Hr Hi. apply cb_ok_spec in Hok as (Hidx & Hord & Hc).
  unfold UINT16_MAX in Hi.
  unfold rizz__cb_record_begin_stage. cbn [bind sx_assert Z.eqb Pos.eqb].
  rewrite Hf. cbn [bind].
  rewrite cb_assert_recording_ok by assumption. cbn [bind].
  destruct (alloc_params_buff_spec cb 32 Hc ltac:(lia)) as (mem & -> & Hlen & Htake).
  change (sx_align_mask 32 (SX_CONFIG_ALLOCATOR_NATURAL_ALIGNMENT - 1)) with 32 in *.
  set (off := arena_count (cb_params_buff cb)) in *.
  eexists. split; [reflexivity|].
  unfold cb_recorded. cb_fields. fold off. rewrite u16_succ by lia.
  repeat split; try reflexivity.
  - rewrite !mem_write_length. lia.
  - rewrite !take_mem_write by (rewrite ?mem_write_length; lia). exact Htake.
Qed.

Lemma rizz__cb_begin_profile_sample_spec (g : rizz__gfx) (tid : Z)
      (cb : rizz__gfx_cmdbuffer) (name : string) (hash_cache : Z) :
  feed_cb g tid = Ret cb -> cb_ok cb = true ->
  cb_running_stage cb <> 0 -> cb_cmd_idx cb < UINT16_MAX ->
  exists cb',
    rizz__cb_begin_profile_sample g tid name hash_cache = Ret (store_feed_cb g tid cb')
    /\ cb_recorded GFX_COMMAND_BEGIN_PROFILE 40 cb cb'.
Proof.
  intros Hf Hok Hr Hi. apply cb_ok_spec in Hok as (Hidx & Hord & Hc).
  unfold UINT16_MAX in Hi.
  unfold rizz__cb_begin_profile_sample. rewrite Hf. cbn [bind].
  rewrite cb_assert_recording_ok by assumption. cbn [bind].
  destruct (alloc_params_buff_spec cb (32 + sizeof_ptr) Hc ltac:(unfold sizeof_ptr; lia))
    as (mem & -> & Hlen & Htake).
  change (sx_align_mask (32 + sizeof_ptr) (SX_CONFIG_ALLOCATOR_NATURAL_ALIGNMENT - 1))
    with 40 in *.
  set (off := arena_count (cb_params_buff cb)) in *.
  eexists. split; [reflexivity|].
  unfold cb_recorded. cb_fields. fold off. rewrite u16_succ by lia.
  repeat split; try reflexivity.
  - rewrite !mem_write_length. lia.
  - rewrite !take_mem_write by (rewrite ?mem_write_length; lia). exact Htake.
Qed.

Lemma rizz__cb_end_profile_sample_spec (g : rizz__gfx) (tid : Z) (cb : rizz__gfx_cmdbuffer) :
  feed_cb g tid = Ret cb -> cb_ok cb = true ->
  cb_running_stage cb <> 0 -> cb_cmd_idx cb < UINT16_MAX ->
  exists cb',
    rizz__cb_end_profile_sample g tid = Ret (store_feed_cb g tid cb')
    /\ cb_recorded GFX_COMMAND_END_PROFILE 0 cb cb'.
Proof.
  intros Hf Hok Hr Hi. apply cb_ok_spec in Hok as (Hidx & Hord & Hc).
  unfold UINT16_MAX in Hi.
  unfold rizz__cb_end_profile_sample. rewrite Hf. cbn [bind].
  rewrite cb_assert_recording_ok by assumption. cbn [bind].
  eexists. split; [reflexivity|].
  unfold cb_recorded. cb_fields. rewrite u16_succ by lia.
  repeat split; try reflexivity; lia.
Qed.

Lemma rizz__cb_record_end_stage_spec (g : rizz__gfx) (tid : Z) (cb : rizz__gfx_cmdbuffer) :
  feed_cb g tid = Ret cb -> cb_ok cb = true ->
  cb_running_stage cb <> 0 -> cb_cmd_idx cb < UINT16_MAX ->
  exists cb',
    rizz__cb_record_end_stage g tid = Ret (store_feed_cb g tid cb')
    /\ cb_recorded GFX_COMMAND_STAGE_POP 0 cb cb'.
Proof.
  intros Hf Hok Hr Hi. apply cb_ok_spec in Hok as (Hidx & Hord & Hc).
  unfold UINT16_MAX in Hi.
  unfold rizz__cb_record_end_stage. rewrite Hf. cbn [bind].
  rewrite cb_assert_recording_ok by assumption. cbn [bind].
  eexists. split; [reflexivity|].
  unfold cb_recorded. cb_fields. rewrite u16_succ by lia.
  repeat split; try reflexivity; lia.
Qed.

Lemma cb_recorded_ok c size cb cb' :
  cb_ok cb = true -> cb_cmd_idx cb < UINT16_MAX -> 0 <= size ->
  cb_recorded c size cb cb' -> cb_ok cb' = true.
Proof.
  intros Hok Hi Hs (R1 & R2 & R3 & R4 & R5 & R6 & R7 & R8).
  apply cb_ok_spec in Hok as (Hidx & Hord & Hc). unfold UINT16_MAX in Hi.
  apply cb_ok_spec. rewrite R2, R4, R6. lia.
Qed.

Lemma arr_at_store_eq {A} (a : list A) (i : Z) (x y : A) :
  arr_at a i = Ret y -> arr_at (arr_store a i x) i = Ret x.
Proof.
  intros H. apply arr_at_Ret in H as [Hi H]. apply arr_at_Ret.
  split; [exact Hi | eapply arr_store_lookup_eq; eauto].
Qed.

Lemma arr_store_twice {A} (a : list A) (i : Z) (x y : A) :
  arr_store (arr_store a i x) i y = arr_store a i y.
Proof.
  unfold arr_store. destruct (i <? 0); [reflexivity|]. apply list_insert_insert_eq.
Qed.

Lemma unlock_after_store (g : rizz__gfx) (st : list rizz__gfx_stage) (tid : Z)
      (cb : rizz__gfx_cmdbuffer) (lk : bool) :
  stage_lk g = false ->
  set_stage_lk (sx_unlock lk) (store_feed_cb (set_stages st (set_stage_lk true g)) tid cb)
  = store_feed_cb (set_stages st g) tid cb.
Proof. intros H. destruct g. cbn in *. subst. reflexivity. Qed.

(** [rizz__cb_begin_stage] on an enabled stage that has not been begun. *)
Lemma rizz__cb_begin_stage_enabled (g : rizz__gfx) (tid stage : Z)
      (_stage : rizz__gfx_stage) (cb : rizz__gfx_cmdbuffer) :
  stage_lk g = false ->
  arr_at (stages g) (rizz_to_index stage) = Ret _stage ->
  stage_state _stage = STAGE_STATE_NONE ->
  stage_enabled _stage = true ->
  feed_cb g tid = Ret cb -> cb_ok cb = true ->
  stage <> 0 -> cb_cmd_idx cb + 1 < UINT16_MAX ->
  0 <= stage_order _stage < 65536 ->
  exists cb',
    rizz__cb_begin_stage g tid stage
    = Ret (true,
           store_feed_cb
             (set_stages (arr_store (stages g) (rizz_to_index stage)
                                    (set_stage_state STAGE_STATE_SUBMITTING _stage)) g)
             tid cb')
    /\ cb_running_stage cb' = stage
    /\ cb_stage_order cb' = stage_order _stage
    /\ cb_index cb' = cb_index cb
    /\ cb_cmd_idx cb' = cb_cmd_idx cb + 2
    /\ cb_ok cb' = true
    /\ arena_count (cb_params_buff cb') = arena_count (cb_params_buff cb) + 72
    /\ cb_refs cb'
       = cb_refs cb
         ++ [mk_ref (sort_key (stage_order _stage) (cb_cmd_idx cb)) (cb_index cb)
                    GFX_COMMAND_STAGE_PUSH (arena_count (cb_params_buff cb));
             mk_ref (sort_key (stage_order _stage) (cb_cmd_idx cb + 1)) (cb_index cb)
                    GFX_COMMAND_BEGIN_PROFILE (arena_count (cb_params_buff cb) + 32)].
Proof.
  intros Hlk Harr Hst Hen Hf Hok Hs Hi Hord.
  pose proof (proj1 (cb_ok_spec cb) Hok) as (Hidx & _ & Hc). unfold UINT16_MAX in Hi.
  unfold rizz__cb_begin_stage. rewrite Hlk. cbn [sx_lock bind].
  replace (stages (set_stage_lk true g)) with (stages g) by reflexivity.
  rewrite Harr. cbn [bind]. rewrite Hst. cbn [stage_state_eqb sx_assert bind].
  rewrite Hen. cbn [negb].
  set (st' := arr_store (stages g) (rizz_to_index stage) _).
  replace (feed_cb (set_stages st' (set_stage_lk true g)) tid) with (feed_cb g tid)
    by reflexivity.
  rewrite Hf. cbn [bind].
  set (cbA := set_cb_stage_order (stage_order _stage) (set_cb_running_stage stage cb)).
  rewrite (unlock_after_store g st' tid cbA true Hlk).
  set (G1 := set_stages st' g).
  assert (HfG : feed_cb G1 tid = Ret cb) by exact Hf.
  assert (HokA : cb_ok cbA = true) by (apply cb_ok_spec; unfold cbA; cb_fields; lia).
  destruct (rizz__cb_record_begin_stage_spec (store_feed_cb G1 tid cbA) tid cbA
              (stage_name _stage))
    as (cbB & EB & RB);
    [eapply feed_cb_store_eq; exact HfG | exact HokA | exact Hs
     | unfold UINT16_MAX, cbA; cb_fields; lia |].
  rewrite EB. cbn [bind]. rewrite store_feed_cb_twice.
  assert (HokB : cb_ok cbB = true).
  { eapply cb_recorded_ok; [exact HokA | | | exact RB]; [unfold UINT16_MAX, cbA; cb_fields|];
      lia. }
  pose proof RB as (B1 & B2 & B3 & B4 & B5 & B6 & B7 & B8).
  unfold cbA in B1, B2, B3, B4, B5, B6. cbn [cb_refs cb_cmd_idx cb_running_stage
    cb_stage_order cb_index cb_params_buff set_cb_stage_order set_cb_running_stage] in *.
  destruct (rizz__cb_begin_profile_sample_spec (store_feed_cb G1 tid cbB) tid cbB
              (stage_prof_name (stage_name _stage)) 0)
    as (cbC & EC & RC);
    [eapply feed_cb_store_eq; exact HfG | exact HokB | rewrite B3; exact Hs
     | unfold UINT16_MAX; rewrite B2; lia |].
  rewrite EC. cbn [bind]. rewrite store_feed_cb_twice.
  pose proof RC as (C1 & C2 & C3 & C4 & C5 & C6 & C7 & C8).
  exists cbC. split; [reflexivity|].
  split; [congruence|]. split; [congruence|]. split; [congruence|].
  split; [rewrite C2, B2; lia|]. split.
  { eapply cb_recorded_ok; [exact HokB | | | exact RC]; [unfold UINT16_MAX; rewrite B2|];
      lia. }
  split; [rewrite C6, B6; lia|].
  rewrite C1, B1, <- app_assoc. cbn [app]. rewrite B4, B2, B5, B6. reflexivity.
Qed.

Lemma unlock_after_stages (g : rizz__gfx) (st : list rizz__gfx_stage) (tid : Z)
      (cb : rizz__gfx_cmdbuffer) (lk : bool) :
  stage_lk g = false ->
  set_stage_lk (sx_unlock lk) (set_stages st (store_feed_cb g tid cb))
  = store_feed_cb (set_stages st g) tid cb.
Proof. intros H. destruct g. cbn in *. subst. reflexivity. Qed.

(** [rizz__cb_end_stage] for the thread that is inside a stage. *)
Lemma rizz__cb_end_stage_spec (g : rizz__gfx) (tid : Z) (cb : rizz__gfx_cmdbuffer)
      (_stage : rizz__gfx_stage) :
  stage_lk g = false ->
  feed_cb g tid = Ret cb -> cb_ok cb = true ->
  cb_running_stage cb <> 0 -> cb_cmd_idx cb + 1 < UINT16_MAX ->
  arr_at (stages g) (rizz_to_index (cb_running_stage cb)) = Ret _stage ->
  stage_state _stage = STAGE_STATE_SUBMITTING ->
  exists cb',
    rizz__cb_end_stage g tid
    = Ret (store_feed_cb
             (set_stages (arr_store (stages g) (rizz_to_index (cb_running_stage cb))
                                    (set_stage_state STAGE_STATE_DONE _stage)) g)
             tid cb')
    /\ cb_running_stage cb' = 0
    /\ cb_stage_order cb' = cb_stage_order cb
    /\ cb_index cb' = cb_index cb
    /\ cb_cmd_idx cb' = cb_cmd_idx cb + 2
    /\ cb_ok cb' = true
    /\ arena_count (cb_params_buff cb') = arena_count (cb_params_buff cb)
    /\ cb_refs cb'
       = cb_refs cb
         ++ [mk_ref (sort_key (cb_stage_order cb) (cb_cmd_idx cb)) (cb_index cb)
                    GFX_COMMAND_END_PROFILE (arena_count (cb_params_buff cb));
             mk_ref (sort_key (cb_stage_order cb) (cb_cmd_idx cb + 1)) (cb_index cb)
                    GFX_COMMAND_STAGE_POP (arena_count (cb_params_buff cb))].
Proof.
  intros Hlk Hf Hok Hr Hi Harr Hst.
  pose proof (proj1 (cb_ok_spec cb) Hok) as (Hidx & _ & Hc). unfold UINT16_MAX in Hi.
  unfold rizz__cb_end_stage. rewrite Hf. cbn [bind].
  rewrite sx_assert_true by (apply negb_true_iff, Z.eqb_neq; exact Hr). cbn [bind].
  destruct (rizz__cb_end_profile_sample_spec g tid cb Hf Hok Hr) as (cbA & EA & RA);
    [unfold UINT16_MAX; lia|].
  rewrite EA. cbn [bind].
  replace (stage_lk (store_feed_cb g tid cbA)) with false by (symmetry; exact Hlk).
  cbn [sx_lock bind].
  rewrite (feed_cb_store_eq g tid cb cbA Hf). cbn [bind].
  pose proof RA as (A1 & A2 & A3 & A4 & A5 & A6 & A7 & A8).
  replace (stages (store_feed_cb g tid cbA)) with (stages g) by reflexivity.
  rewrite A3, Harr. cbn [bind]. rewrite Hst. cbn [stage_state_eqb sx_assert bind].
  rewrite (unlock_after_stages g _ tid cbA true Hlk).
  set (G1 := set_stages _ g).
  assert (HfG : feed_cb G1 tid = Ret cb) by exact Hf.
  assert (HokA : cb_ok cbA = true).
  { eapply cb_recorded_ok; [exact Hok | | | exact RA]; [unfold UINT16_MAX|]; lia. }
  destruct (rizz__cb_record_end_stage_spec (store_feed_cb G1 tid cbA) tid cbA)
    as (cbB & EB & RB);
    [eapply feed_cb_store_eq; exact HfG | exact HokA | rewrite A3; exact Hr
     | unfold UINT16_MAX; rewrite A2; lia |].
  rewrite EB. cbn [bind]. rewrite store_feed_cb_twice.
  rewrite (feed_cb_store_eq G1 tid cb cbB HfG). cbn [bind]. rewrite store_feed_cb_twice.
  pose proof RB as (B1 & B2 & B3 & B4 & B5 & B6 & B7 & B8).
  assert (HokB : cb_ok cbB = true).
  { eapply cb_recorded_ok; [exact HokA | | | exact RB]; [unfold UINT16_MAX; rewrite A2|];
      lia. }
  eexists. split; [reflexivity|]. cb_fields.
  split; [reflexivity|]. split; [congruence|]. split; [congruence|].
  split; [rewrite B2, A2; lia|]. split.
  { apply cb_ok_spec in HokB. apply cb_ok_spec. cb_fields. exact HokB. }
  split; [rewrite B6, A6; lia|].
  rewrite B1, A1, <- app_assoc. cbn [app]. rewrite A4, A2, A5, A6.
  rewrite Z.add_0_r. reflexivity.
Qed.

Lemma set_stage_state_twice a b s :
  set_stage_state a (set_stage_state b s) = set_stage_state a s.
Proof. reflexivity. Qed.

Lemma begin_end_stage_spec (g : rizz__gfx) (tid stage : Z)
        (_stage : rizz__gfx_stage) (cb : rizz__gfx_cmdbuffer) :
  stage_lk g = false ->
  arr_at (stages g) (rizz_to_index stage) = Ret _stage ->
  stage_state _stage = STAGE_STATE_NONE ->
  stage_enabled _stage = true ->
  feed_cb g tid = Ret cb -> cb_ok cb = true ->
  stage <> 0 -> cb_cmd_idx cb + 3 < UINT16_MAX ->
  0 <= stage_order _stage < 65536 ->
  exists g1 g2 cb2,
    rizz__cb_begin_stage g tid stage = Ret (true, g1)
    /\ arr_at (stages g1) (rizz_to_index stage)
       = Ret (set_stage_state STAGE_STATE_SUBMITTING _stage)
    /\ rizz__cb_end_stage g1 tid = Ret g2
    /\ stage_lk g2 = false
    /\ stages g2 = arr_store (stages g) (rizz_to_index stage)
                             (set_stage_state STAGE_STATE_DONE _stage)
    /\ feed_cb g2 tid = Ret cb2
    /\ cb_running_stage cb2 = 0
    /\ cb_cmd_idx cb2 = cb_cmd_idx cb + 4
    /\ cb_refs cb2
       = cb_refs cb
         ++ [mk_ref (sort_key (stage_order _stage) (cb_cmd_idx cb)) (cb_index cb)
                    GFX_COMMAND_STAGE_PUSH (arena_count (cb_params_buff cb));
             mk_ref (sort_key (stage_order _stage) (cb_cmd_idx cb + 1)) (cb_index cb)
                    GFX_COMMAND_BEGIN_PROFILE (arena_count (cb_params_buff cb) + 32);
             mk_ref (sort_key (stage_order _stage) (cb_cmd_idx cb + 2)) (cb_index cb)
                    GFX_COMMAND_END_PROFILE (arena_count (cb_params_buff cb) + 72);
             mk_ref (sort_key (stage_order _stage) (cb_cmd_idx cb + 3)) (cb_index cb)
                    GFX_COMMAND_STAGE_POP (arena_count (cb_params_buff cb) + 72)]
    /\ (forall t, t <> tid -> feed_cb g2 t = feed_cb g t).
Proof.
  intros Hlk Harr Hst Hen Hf Hok Hs Hi Hord. unfold UINT16_MAX in Hi.
  destruct (rizz__cb_begin_stage_enabled g tid stage _stage cb)
    as (cb1 & E1 & P1 & P2 & P3 & P4 & P5 & P6 & P7); try assumption;
    [unfold UINT16_MAX; lia|].
  set (st1 := arr_store (stages g) (rizz_to_index stage)
                        (set_stage_state STAGE_STATE_SUBMITTING _stage)) in *.
  set (g1 := store_feed_cb (set_stages st1 g) tid cb1) in *.
  assert (Hf1 : feed_cb g1 tid = Ret cb1)
    by (unfold g1; eapply feed_cb_store_eq; exact Hf).
  assert (Harr1 : arr_at (stages g1) (rizz_to_index stage)
                  = Ret (set_stage_state STAGE_STATE_SUBMITTING _stage))
    by (eapply arr_at_store_eq; exact Harr).
  destruct (rizz__cb_end_stage_spec g1 tid cb1
              (set_stage_state STAGE_STATE_SUBMITTING _stage))
    as (cb2 & E2 & Q1 & Q2 & Q3 & Q4 & Q5 & Q6 & Q7);
    [exact Hlk | exact Hf1 | exact P5 | rewrite P1; exact Hs
     | unfold UINT16_MAX; rewrite P4; lia | rewrite P1; exact Harr1 | reflexivity |].
  rewrite P1 in E2.
  eexists g1, _, cb2. split; [exact E1|]. split; [exact Harr1|]. split; [exact E2|].
  split; [exact Hlk|]. split.
  { change (arr_store st1 (rizz_to_index stage)
              (set_stage_state STAGE_STATE_DONE
                 (set_stage_state STAGE_STATE_SUBMITTING _stage))
            = arr_store (stages g) (rizz_to_index stage)
                        (set_stage_state STAGE_STATE_DONE _stage)).
    unfold st1. apply arr_store_twice. }
  split.
  { eapply feed_cb_store_eq. exact Hf1. }
  split; [exact Q1|]. split; [rewrite Q4, P4; lia|]. split.
  { rewrite Q7, P7, <- app_assoc. cbn [app]. rewrite P2, P4, P3, P6.
    replace (cb_cmd_idx cb + 2 + 1) with (cb_cmd_idx cb + 3) by lia. reflexivity. }
  intros t Ht.
  assert (H0 : 0 <= tid) by (unfold feed_cb in Hf; apply arr_at_Ret in Hf; tauto).
  rewrite feed_cb_store_ne by assumption.
  change (feed_cb g1 t = feed_cb g t). unfold g1.
  rewrite feed_cb_store_ne by assumption. reflexivity.
Qed.

(** X7: A stage begun and ended by one thread: the stage goes from NONE to DONE,
    the thread is outside any stage again, and its buffer holds four more
    references, in this order and with increasing keys under the order of
    the stage: stage push, begin profile, end profile, stage pop. *)
Theorem begin_end_stage_records (g : rizz__gfx) (tid stage : Z)
        (_stage : rizz__gfx_stage) (cb : rizz__gfx_cmdbuffer) :
  stage_lk g = false ->
  arr_at (stages g) (rizz_to_index stage) = Ret _stage ->
  stage_state _stage = STAGE_STATE_NONE ->
  stage_enabled _stage = true ->
  feed_cb g tid = Ret cb -> cb_ok cb = true ->
  stage <> 0 -> cb_cmd_idx cb + 3 < UINT16_MAX ->
  0 <= stage_order _stage < 65536 ->
  exists g1 g2 cb2,
    rizz__cb_begin_stage g tid stage = Ret (true, g1)
    /\ arr_at (stages g1) (rizz_to_index stage)
       = Ret (set_stage_state STAGE_STATE_SUBMITTING _stage)
    /\ rizz__cb_end_stage g1 tid = Ret g2
    /\ stage_lk g2 = false
    /\ stages g2 = arr_store (stages g) (rizz_to_index stage)
                             (set_stage_state STAGE_STATE_DONE _stage)
    /\ feed_cb g2 tid = Ret cb2
    /\ cb_running_stage cb2 = 0
    /\ cb_cmd_idx cb2 = cb_cmd_idx cb + 4
    /\ cb_refs cb2
       = cb_refs cb
         ++ [mk_ref (sort_key (stage_order _stage) (cb_cmd_idx cb)) (cb_index cb)
                    GFX_COMMAND_STAGE_PUSH (arena_count (cb_params_buff cb));
             mk_ref (sort_key (stage_order _stage) (cb_cmd_idx cb + 1)) (cb_index cb)
                    GFX_COMMAND_BEGIN_PROFILE (arena_count (cb_params_buff cb) + 32);
             mk_ref (sort_key (stage_order _stage) (cb_cmd_idx cb + 2)) (cb_index cb)
                    GFX_COMMAND_END_PROFILE (arena_count (cb_params_buff cb) + 72);
             mk_ref (sort_key (stage_order _stage) (cb_cmd_idx cb + 3)) (cb_index cb)
                    GFX_COMMAND_STAGE_POP (arena_count (cb_params_buff cb) + 72)]
    /\ (forall t, t <> tid -> feed_cb g2 t = feed_cb g t).
Proof. exact (begin_end_stage_spec g tid stage _stage cb). Qed.

Lemma begin_stage_not_none (g : rizz__gfx) (t stage : Z) (s : rizz__gfx_stage) :
  stage_lk g = false ->
  arr_at (stages g) (rizz_to_index stage) = Ret s ->
  stage_state s <> STAGE_STATE_NONE ->
  rizz__cb_begin_stage g t stage = Err (AssertFailed [])
  /\ rizz__imm_begin_stage g t stage = Err (AssertFailed []).
Proof.
  intros Hlk Harr Hs.
  unfold rizz__cb_begin_stage, rizz__imm_begin_stage. rewrite Hlk. cbn [sx_lock bind].
  replace (stages (set_stage_lk true g)) with (stages g) by reflexivity.
  rewrite Harr. cbn [bind].
  destruct (stage_state s); [contradiction | split; reflexivity | split; reflexivity].
Qed.

(** X8: A stage is begun once per frame: after a [begin_stage] that returned
    true, and still after the [end_stage] that follows, beginning that stage
    again fails the assertion on its state, from any thread, in deferred and
    in immediate mode. *)
Theorem begin_stage_once_per_frame (g : rizz__gfx) (tid stage : Z)
        (_stage : rizz__gfx_stage) (cb : rizz__gfx_cmdbuffer) :
  stage_lk g = false ->
  arr_at (stages g) (rizz_to_index stage) = Ret _stage ->
  stage_state _stage = STAGE_STATE_NONE ->
  stage_enabled _stage = true ->
  feed_cb g tid = Ret cb -> cb_ok cb = true ->
  stage <> 0 -> cb_cmd_idx cb + 3 < UINT16_MAX ->
  0 <= stage_order _stage < 65536 ->
  exists g1 g2,
    rizz__cb_begin_stage g tid stage = Ret (true, g1)
    /\ rizz__cb_end_stage g1 tid = Ret g2
    /\ forall t,
         rizz__cb_begin_stage g1 t stage = Err (AssertFailed [])
         /\ rizz__imm_begin_stage g1 t stage = Err (AssertFailed [])
         /\ rizz__cb_begin_stage g2 t stage = Err (AssertFailed [])
         /\ rizz__imm_begin_stage g2 t stage = Err (AssertFailed []).
Proof.
  intros Hlk Harr Hst Hen Hf Hok Hs Hi Hord.
  destruct (begin_end_stage_spec g tid stage _stage cb)
    as (g1 & g2 & cb2 & E1 & A1 & E2 & L2 & S2 & _); try assumption.
  assert (L1 : stage_lk g1 = false).
  { destruct (rizz__cb_begin_stage_enabled g tid stage _stage cb)
      as (cb1 & E1' & _); try assumption; [unfold UINT16_MAX in *; lia|].
    rewrite E1' in E1. injection E1 as <-. exact Hlk. }
  exists g1, g2. split; [exact E1|]. split; [exact E2|]. intros t.
  destruct (begin_stage_not_none g1 t stage _ L1 A1) as [B1 B2]; [discriminate|].
  destruct (begin_stage_not_none g2 t stage (set_stage_state STAGE_STATE_DONE _stage) L2)
    as [B3 B4]; [rewrite S2; eapply arr_at_store_eq; exact Harr | discriminate |].
  auto.
Qed.

(** X9: Immediate mode.  [rizz__imm_begin_stage] records its profile sample
    through the deferred recorder, so on an enabled stage it fails the
    recording assertion unless the calling thread is inside a deferred stage;
    and where it does return, the stage is left SUBMITTING by
    [rizz__imm_end_stage]: it never becomes DONE, and beginning it again
    fails. *)
Theorem imm_begin_stage_needs_a_deferred_stage (g : rizz__gfx) (tid stage : Z)
        (_stage : rizz__gfx_stage) (cb : rizz__gfx_cmdbuffer) :
  stage_lk g = false ->
  arr_at (stages g) (rizz_to_index stage) = Ret _stage ->
  stage_state _stage = STAGE_STATE_NONE ->
  stage_enabled _stage = true ->
  feed_cb g tid = Ret cb ->
  (cb_running_stage cb = 0 ->
   rizz__imm_begin_stage g tid stage = Err (AssertFailed []))
  /\ (cb_running_stage cb <> 0 -> cb_ok cb = true -> cb_cmd_idx cb + 1 < UINT16_MAX ->
      exists g1 g2,
        rizz__imm_begin_stage g tid stage = Ret (true, g1)
        /\ rizz__imm_end_stage g1 tid = Ret g2
        /\ arr_at (stages g2) (rizz_to_index stage)
           = Ret (set_stage_state STAGE_STATE_SUBMITTING _stage)
        /\ forall t, rizz__imm_begin_stage g2 t stage = Err (AssertFailed [])).
Proof.
  intros Hlk Harr Hst Hen Hf.
  assert (Hpre :
             rizz__imm_begin_stage g tid stage
             = let* g' := rizz__cb_begin_profile_sample
                            (set_stages (arr_store (stages g) (rizz_to_index stage)
                                           (set_stage_state STAGE_STATE_SUBMITTING _stage)) g)
                            tid (stage_prof_name (stage_name _stage)) 0 in
               Ret (true, g')).
  { unfold rizz__imm_begin_stage. rewrite Hlk. cbn [sx_lock bind].
    replace (stages (set_stage_lk true g)) with (stages g) by reflexivity.
    rewrite Harr. cbn [bind]. rewrite Hst. cbn [stage_state_eqb sx_assert bind].
    rewrite Hen. cbn [negb]. f_equal. f_equal.
    destruct g. cbn in *. subst. reflexivity. }
  rewrite Hpre. set (G1 := set_stages _ g).
  assert (HfG : feed_cb G1 tid = Ret cb) by exact Hf.
  split.
  - intros Hr. unfold rizz__cb_begin_profile_sample. rewrite HfG. cbn [bind].
    unfold cb_assert_recording. rewrite Hr. reflexivity.
  - intros Hr Hok Hi. unfold UINT16_MAX in Hi.
    destruct (rizz__cb_begin_profile_sample_spec G1 tid cb
                (stage_prof_name (stage_name _stage)) 0 HfG Hok Hr)
      as (cbA & EA & RA); [unfold UINT16_MAX; lia|].
    rewrite EA. cbn [bind].
    pose proof RA as (A1 & A2 & A3 & A4 & A5 & A6 & A7 & A8).
    assert (HokA : cb_ok cbA = true).
    { eapply cb_recorded_ok; [exact Hok | | | exact RA]; [unfold UINT16_MAX|]; lia. }
    destruct (rizz__cb_end_profile_sample_spec (store_feed_cb G1 tid cbA) tid cbA)
      as (cbB & EB & RB);
      [eapply feed_cb_store_eq; exact HfG | exact HokA | rewrite A3; exact Hr
       | unfold UINT16_MAX; rewrite A2; lia |].
    eexists _, _. split; [reflexivity|]. split; [exact EB|].
    assert (H2 : arr_at (stages (store_feed_cb (store_feed_cb G1 tid cbA) tid cbB))
                        (rizz_to_index stage)
                 = Ret (set_stage_state STAGE_STATE_SUBMITTING _stage)).
    { change (arr_at (arr_store (stages g) (rizz_to_index stage)
                                (set_stage_state STAGE_STATE_SUBMITTING _stage))
                     (rizz_to_index stage)
              = Ret (set_stage_state STAGE_STATE_SUBMITTING _stage)).
      eapply arr_at_store_eq. exact Harr. }
    split; [exact H2|]. intros t.
    apply (begin_stage_not_none (store_feed_cb (store_feed_cb G1 tid cbA) tid cbB)
             t stage _ Hlk H2). discriminate.
Qed.

Lemma execute_count_open (rest : list rizz__gfx_cmdbuffer) :
  forall (pre : list rizz__gfx_cmdbuffer) (acc : Z),
    all_idle rest = false ->
    execute_count (length rest) (Z.of_nat (length pre)) (pre ++ rest) acc
    = Err (AssertFailed []).
Proof.
  induction rest as [|cb rest IH]; intros pre acc H; [discriminate|].
  cbn [length execute_count]. rewrite arr_at_middle. cbn [bind].
  cbn [all_idle forallb] in H.
  destruct (Z.eqb_spec (cb_running_stage cb) 0) as [E0|Hn]; cbn [sx_assert bind].
  - cbn [andb] in H. rewrite app_cons_assoc.
    replace (Z.of_nat (length pre) + 1) with (Z.of_nat (length (pre ++ [cb])))
      by (rewrite length_app; cbn [length]; lia).
    apply IH. exact H.
  - reflexivity.
Qed.

Lemma validate_stages_outcome (stages rest : list rizz__gfx_stage) :
  (forall s, s ∈ rest -> stage_parent s <> 0 ->
             exists p, arr_at stages (rizz_to_index (stage_parent s)) = Ret p) ->
  validate_stages stages rest = Ret tt
  \/ exists logged, validate_stages stages rest = Err (AssertFailed logged).
Proof.
  induction rest as [|s rest IH]; intros Hp; [left; reflexivity|].
  cbn [validate_stages]. unfold validate_stage.
  assert (IH' := IH (fun x Hx => Hp x (list_elem_of_further _ _ _ Hx))).
  destruct (stage_state_eqb (stage_state s) STAGE_STATE_DONE); cbn [andb bind]; [|exact IH'].
  destruct (Z.eqb_spec (stage_parent s) 0) as [E0|Hn]; cbn [negb bind]; [exact IH'|].
  destruct (Hp s (list_elem_of_here _ _) Hn) as [p ->]. cbn [bind].
  destruct (stage_state_eqb (stage_state p) STAGE_STATE_DONE); cbn [negb bind]; [exact IH'|].
  right. eexists. reflexivity.
Qed.

(** X10: Presenting and committing while a thread is still inside a stage:
    the executor finds the running stage and fails its assertion (unless the
    stage validation before it has failed already). *)
Theorem commit_inside_a_stage_asserts (g : rizz__gfx) (job_num_threads : Z) :
  stage_lk g = false ->
  parents_in_table (stages g) = true ->
  Z.of_nat (length (cmd_buffers_feed g)) = job_num_threads ->
  all_idle (cmd_buffers_feed g) = false ->
  exists g',
    rizz__gfx_swap_command_buffers g 0 = Ret g'
    /\ is_assert_failure (rizz__gfx_commit g' 0 job_num_threads)
    /\ ((forall s, s ∈ stages g -> stage_state s <> STAGE_STATE_DONE) ->
        rizz__gfx_commit g' 0 job_num_threads = Err (AssertFailed [])).
Proof.
  intros Hlk Hpar Hlen Hopen. eexists. split; [reflexivity|].
  unfold rizz__gfx_commit. cbn [sx_assert Z.eqb bind].
  unfold rizz__gfx_validate_stage_deps.
  cbn [stage_lk set_cmd_buffers_render set_cmd_buffers_feed stages]. rewrite Hlk.
  cbn [sx_lock bind].
  assert (Hex : rizz__gfx_execute_command_buffer
                  (stream_buffs g) 0 job_num_threads (cmd_buffers_feed g)
                = Err (AssertFailed [])).
  { unfold rizz__gfx_execute_command_buffer. cbn [sx_assert Z.eqb bind].
    rewrite <- Hlen, Nat2Z.id.
    pose proof (execute_count_open (cmd_buffers_feed g) [] 0 Hopen) as Hc.
    cbn [length app] in Hc. change (Z.of_nat 0) with 0 in Hc. rewrite Hc. reflexivity. }
  split.
  - destruct (validate_stages_outcome (stages g) (stages g)
                (parents_in_table_spec _ Hpar)) as [->|[logged ->]]; cbn [bind].
    + match goal with |- context [rizz__gfx_execute_command_buffer ?a 0 _ ?b] =>
        change a with (stream_buffs g); change b with (cmd_buffers_feed g) end.
      rewrite Hex. exact I.
    + exact I.
  - intros Hnone. rewrite validate_stages_ok.
    + cbn [bind].
      match goal with |- context [rizz__gfx_execute_command_buffer ?a 0 _ ?b] =>
        change a with (stream_buffs g); change b with (cmd_buffers_feed g) end.
      rewrite Hex. reflexivity.
    + apply parents_in_table_spec. exact Hpar.
    + intros s p Hs (Hd & _). exact (Hnone s Hs Hd).
Qed.

(** ** Concrete runs *)

Lemma begin_end_stage_records_witness :
  let g := gfx_of scenario_two_stages in
  exists g1 g2 cb2,
    rizz__cb_begin_stage g 0 1 = Ret (true, g1)
    /\ rizz__cb_end_stage g1 0 = Ret g2
    /\ feed_cb g2 0 = Ret cb2
    /\ List.map ref_cmd (cb_refs cb2)
       = [GFX_COMMAND_STAGE_PUSH; GFX_COMMAND_BEGIN_PROFILE;
          GFX_COMMAND_END_PROFILE; GFX_COMMAND_STAGE_POP].
Proof.
  intros g.
  assert (H : exists s cb,
             arr_at (stages g) (rizz_to_index 1) = Ret s
             /\ stage_state s = STAGE_STATE_NONE /\ stage_enabled s = true
             /\ feed_cb g 0 = Ret cb /\ cb_ok cb = true
             /\ cb_cmd_idx cb = 0 /\ stage_order s = 0 /\ cb_refs cb = [])
    by (vm_compute; do 2 eexists; repeat split; reflexivity).
  destruct H as (s & cb & Hs & Hst & Hen & Hf & Hok & Hi & Ho & Hr).
  destruct (begin_end_stage_records g 0 1 s cb)
    as (g1 & g2 & cb2 & E1 & _ & E2 & _ & _ & F2 & _ & _ & R2 & _);
    [reflexivity | exact Hs | exact Hst | exact Hen | exact Hf | exact Hok
     | discriminate | rewrite Hi; reflexivity | rewrite Ho; lia |].
  exists g1, g2, cb2. split; [exact E1|]. split; [exact E2|]. split; [exact F2|].
  rewrite R2, Hr. reflexivity.
Defined.

Lemma begin_stage_once_per_frame_witness :
  let g := gfx_of scenario_two_stages in
  exists g1 g2,
    rizz__cb_begin_stage g 1 2 = Ret (true, g1)
    /\ rizz__cb_end_stage g1 1 = Ret g2
    /\ rizz__cb_begin_stage g1 0 2 = Err (AssertFailed [])
    /\ rizz__cb_begin_stage g2 1 2 = Err (AssertFailed []).
Proof.
  intros g.
  assert (H : exists s cb,
             arr_at (stages g) (rizz_to_index 2) = Ret s
             /\ stage_state s = STAGE_STATE_NONE /\ stage_enabled s = true
             /\ feed_cb g 1 = Ret cb /\ cb_ok cb = true
             /\ cb_cmd_idx cb = 0 /\ stage_order s = 1)
    by (vm_compute; do 2 eexists; repeat split; reflexivity).
  destruct H as (s & cb & Hs & Hst & Hen & Hf & Hok & Hi & Ho).
  destruct (begin_stage_once_per_frame g 1 2 s cb) as (g1 & g2 & E1 & E2 & R);
    [reflexivity | exact Hs | exact Hst | exact Hen | exact Hf | exact Hok
     | discriminate | rewrite Hi; reflexivity | rewrite Ho; lia |].
  exists g1, g2. split; [exact E1|]. split; [exact E2|].
  split; [exact (proj1 (R 0)) | exact (proj1 (proj2 (proj2 (R 1))))].
Defined.

Lemma imm_begin_stage_needs_a_deferred_stage_witness :
  let g := gfx_of (let* g := scenario_two_stages in
                   let* '(_, g) := rizz__cb_begin_stage g 0 1 in Ret g) in
  rizz__imm_begin_stage g 1 2 = Err (AssertFailed [])
  /\ exists g1 g2,
       rizz__imm_begin_stage g 0 2 = Ret (true, g1)
       /\ rizz__imm_end_stage g1 0 = Ret g2
       /\ rizz__imm_begin_stage g2 0 2 = Err (AssertFailed []).
Proof.
  intros g.
  assert (H : exists s cb0 cb1,
             arr_at (stages g) (rizz_to_index 2) = Ret s
             /\ stage_state s = STAGE_STATE_NONE /\ stage_enabled s = true
             /\ feed_cb g 0 = Ret cb0 /\ feed_cb g 1 = Ret cb1
             /\ cb_running_stage cb1 = 0 /\ cb_running_stage cb0 = 1
             /\ cb_ok cb0 = true /\ cb_cmd_idx cb0 = 2)
    by (vm_compute; do 3 eexists; repeat split; reflexivity).
  destruct H as (s & cb0 & cb1 & Hs & Hst & Hen & Hf0 & Hf1 & Hr1 & Hr0 & Hok & Hi).
  split.
  - apply (imm_begin_stage_needs_a_deferred_stage g 1 2 s cb1);
      [reflexivity | exact Hs | exact Hst | exact Hen | exact Hf1 | exact Hr1].
  - destruct (imm_begin_stage_needs_a_deferred_stage g 0 2 s cb0) as [_ R];
      [reflexivity | exact Hs | exact Hst | exact Hen | exact Hf0 |].
    destruct R as (g1 & g2 & E1 & E2 & _ & R);
      [rewrite Hr0; discriminate | exact Hok | rewrite Hi; reflexivity |].
    exists g1, g2. split; [exact E1|]. split; [exact E2|]. exact (R 0).
Defined.

Lemma commit_inside_a_stage_asserts_witness :
  let g := fst scenario_stream_buffer in
  exists g',
    rizz__gfx_swap_command_buffers g 0 = Ret g'
    /\ rizz__gfx_commit g' 0 2 = Err (AssertFailed []).
Proof.
  intros g.
  destruct (commit_inside_a_stage_asserts g 2) as (g' & E & _ & R);
    [reflexivity | vm_compute; reflexivity | reflexivity | vm_compute; reflexivity |].
  exists g'. split; [exact E|]. apply R.
  assert (Hall : Forall (fun s => stage_state s <> STAGE_STATE_DONE) (stages g))
    by (vm_compute; repeat constructor; discriminate).
  intros s Hs. apply list_elem_of_In in Hs.
  exact (proj1 (List.Forall_forall _ _) Hall s Hs).
Defined.

(** ** Stream-buffer appends: record and replay *)

Lemma user_read_take (data : list Z) (n : Z) :
  0 <= n <= Z.of_nat (length data) -> user_read data n = Ret (take (Z.to_nat n) data).
Proof.
  intros H. unfold user_read.
  destruct (Z.ltb_spec n 0); [lia|]. destruct (Z.ltb_spec (Z.of_nat (length data)) n); [lia|].
  reflexivity.
Qed.

Lemma _sg_lookup_set_used_frame_ne (pool : list sg_slot) (id frame id' : Z) :
  id' <> id ->
  _sg_lookup (pool_set_used_frame pool id frame) id' = _sg_lookup pool id'.
Proof.
  intros Hne. unfold _sg_lookup. destruct (id' =? 0); [reflexivity|].
  induction pool as [|s pool IH]; [reflexivity|]. cbn [pool_set_used_frame].
  destruct (Z.eqb_spec (slot_id s) id) as [E|E]; cbn [List.find slot_id].
  - destruct (Z.eqb_spec (slot_id s) id') as [E'|_]; [congruence | reflexivity].
  - destruct (slot_id s =? id'); [reflexivity | exact IH].
Qed.

Lemma stream_buffer_index_found (sbs : list rizz__gfx_stream_buffer) (i0 buf : Z) :
  0 <= i0 -> stream_buffer_index sbs i0 buf <> -1 ->
  exists sb, sbs !! Z.to_nat (stream_buffer_index sbs i0 buf - i0) = Some sb
             /\ sb_buf sb = buf.
Proof.
  revert i0. induction sbs as [|x sbs IH]; intros i0 H0 Hne; cbn [stream_buffer_index] in *.
  - contradiction.
  - destruct (Z.eqb_spec (sb_buf x) buf) as [E|E].
    + exists x. rewrite Z.sub_diag. split; [reflexivity | exact E].
    + destruct (IH (i0 + 1) ltac:(lia) Hne) as (sb & Hsb & Hb). exists sb. split; [|exact Hb].
      destruct (stream_buffer_index_range sbs (i0 + 1) buf) as [Hr|Hr]; [contradiction|].
      replace (Z.to_nat (stream_buffer_index sbs (i0 + 1) buf - i0))
        with (S (Z.to_nat (stream_buffer_index sbs (i0 + 1) buf - (i0 + 1)))) by lia.
      exact Hsb.
Qed.

(** One append that is within the capacity: what it returns, what it
    records, and what the decoder reads back from the arena. *)
Lemma rizz__cb_append_buffer_spec (g : rizz__gfx) (sg : sg_state) (tid frame : Z)
      (cb : rizz__gfx_cmdbuffer) (buf : Z) (data : list Z) (n : Z)
      (sb : rizz__gfx_stream_buffer) (slot : sg_slot) :
  stream_buffer_entry g buf = Some sb ->
  0 <= sb_offset sb -> sb_offset sb + n <= sb_size sb -> sb_size sb <= INT_MAX ->
  Z.of_nat (length (stream_buffs g)) <= INT_MAX ->
  feed_cb g tid = Ret cb -> cb_ok cb = true ->
  cb_running_stage cb <> 0 -> cb_cmd_idx cb < UINT16_MAX ->
  0 <= buf < 4294967296 ->
  n = Z.of_nat (length data) -> n <= INT_MAX - 16 ->
  _sg_lookup (sg_buffers sg) buf = Some slot ->
  let index := stream_buffer_index (stream_buffs g) 0 buf in
  let sbs' := arr_store (stream_buffs g) index
                (mk_stream_buffer (sb_buf sb) (sb_offset sb + n) (sb_size sb)) in
  exists cb',
    rizz__cb_append_buffer g sg tid frame buf data n
    = Ret (sb_offset sb, store_feed_cb (set_stream_buffs sbs' g) tid cb',
           set_sg_buffers (pool_set_used_frame (sg_buffers sg) buf frame) sg)
    /\ cb_recorded GFX_COMMAND_APPEND_BUFFER
                   (sx_align_mask (16 + n) (SX_CONFIG_ALLOCATOR_NATURAL_ALIGNMENT - 1))
                   cb cb'
    /\ 0 <= index < Z.of_nat (length (stream_buffs g))
    /\ stream_buffs g !! Z.to_nat index = Some sb
    /\ sb_buf sb = buf
    /\ forall sbs,
         rizz__cb_run_append_buffer sbs (arena_mem (cb_params_buff cb'))
                                    (arena_count (cb_params_buff cb))
         = (let* _ := sx_assert (index <? Z.of_nat (length sbs)) in
            let* _ := sx_assert (negb (Nat.eqb (length sbs) 0)) in
            let* sbuff := arr_at sbs index in
            let* _ := sx_assert (sb_buf sbuff =? buf) in
            Ret (Sg_map_buffer buf (sb_offset sb) data)).
Proof.
  intros Hsb Ho Hfit Hsz Hlen Hf Hok Hr Hi Hb Hn Hmax Hslot index sbs'.
  apply stream_buffer_entry_inv in Hsb as (Hne & Hi0 & Hsb). fold index in Hne, Hi0, Hsb.
  apply cb_ok_spec in Hok as (Hidx & Hord & Hc).
  unfold UINT16_MAX in Hi. unfold INT_MAX in *.
  assert (Hn0 : 0 <= n) by lia.
  assert (Hilt : index < Z.of_nat (length (stream_buffs g))).
  { apply lookup_lt_Some in Hsb. lia. }
  unfold rizz__cb_append_buffer. fold index.
  rewrite Hne. cbn [negb sx_assert bind].
  rewrite (proj2 (arr_at_Ret _ _ sb)) by (split; assumption). cbn [bind].
  rewrite (i32_small (sb_offset sb + n)) by (unfold INT_MAX; lia).
  destruct (Z.leb_spec (sb_offset sb + n) (sb_size sb)) as [_|]; [|lia]. cbn [bind].
  unfold sx_atomic_fetch_add. rewrite (i32_small (sb_offset sb + n)) by (unfold INT_MAX; lia).
  fold sbs'.
  replace (feed_cb (set_stream_buffs sbs' g) tid) with (feed_cb g tid) by reflexivity.
  rewrite Hf. cbn [bind].
  rewrite cb_assert_recording_ok by assumption. cbn [bind].
  replace (i32 (n + sizeof_int * 3 + sizeof_sg_buffer)) with (16 + n)
    by (symmetry; unfold sizeof_sg_buffer, sizeof_int;
        replace (n + 4 * 3 + 4) with (16 + n) by lia;
        apply i32_small; unfold INT_MAX; lia).
  destruct (alloc_params_buff_spec cb (16 + n) Hc ltac:(lia))
    as (mem & -> & Hlenm & Htake).
  destruct (sx_align_mask_bounds (16 + n)) as [Ha _]. cbv zeta in Ha.
  set (a := sx_align_mask (16 + n) (SX_CONFIG_ALLOCATOR_NATURAL_ALIGNMENT - 1)) in *.
  set (off := arena_count (cb_params_buff cb)) in *.
  rewrite (user_read_all data n Hn). cbn [bind].
  unfold stamp_used_frame. rewrite Hslot. cbn [bind].
  assert (Hbuf : sb_buf sb = buf).
  { destruct (stream_buffer_index_found (stream_buffs g) 0 buf) as (sb0 & Hsb0 & Hb0);
      [lia | fold index; apply Z.eqb_neq; exact Hne|].
    fold index in Hsb0. rewrite Z.sub_0_r, Hsb in Hsb0. injection Hsb0 as <-. exact Hb0. }
  eexists. split; [reflexivity|]. split.
  { unfold cb_recorded. cb_fields. fold off.
    rewrite u16_succ by lia.
    repeat split; try reflexivity.
    + rewrite !mem_write_length. lia.
    + rewrite !take_mem_write by (rewrite ?mem_write_length; lia). exact Htake. }
  split; [lia|]. split; [exact Hsb|]. split; [exact Hbuf|].
  intros sbs. cb_fields. unfold rizz__cb_run_append_buffer.
  match goal with |- context [mem_read ?m off 4] =>
    assert (R1 : mem_read m off 4 = Ret (le_bytes 4 index)) by read_back;
    assert (R2 : mem_read m (off + 4) 4 = Ret (le_bytes 4 buf)) by read_back;
    assert (R3 : mem_read m (off + 8) 4 = Ret (le_bytes 4 (sb_offset sb))) by read_back;
    assert (R4 : mem_read m (off + 12) 4 = Ret (le_bytes 4 n)) by read_back;
    assert (R5 : mem_read m (off + 16) n = Ret data) by read_back
  end.
  rewrite R1, R2, R3, R4. cbn [bind]. rewrite u32_le4 by lia.
  rewrite !i32_le4 by (unfold INT_MAX; lia). rewrite R5.
  destruct (sx_assert (index <? Z.of_nat (length sbs))); [|reflexivity]. cbn [bind].
  destruct (sx_assert (negb (Nat.eqb (length sbs) 0))); [|reflexivity]. cbn [bind].
  destruct (arr_at sbs index); [|reflexivity]. cbn [bind].
  destruct (sx_assert _); reflexivity.
Qed.

Lemma arr_store_same_buf (sbs : list rizz__gfx_stream_buffer) (i : Z)
      (sb : rizz__gfx_stream_buffer) (off : Z) :
  sbs !! Z.to_nat i = Some sb ->
  List.map sb_buf (arr_store sbs i (mk_stream_buffer (sb_buf sb) off (sb_size sb)))
  = List.map sb_buf sbs.
Proof.
  intros Hsb. unfold arr_store. destruct (Z.ltb_spec i 0); [reflexivity|].
  change (@List.map) with (@fmap list _). rewrite list_fmap_insert. cbn [sb_buf].
  apply list_insert_id. rewrite list_lookup_fmap, Hsb. reflexivity.
Qed.

Lemma shadow_index_stream (l : list rizz__gfx_stream_buffer) (i0 id : Z) :
  0 <= i0 ->
  shadow_index sb_buf l i0 id
  = if stream_buffer_index l i0 id =? -1 then None
    else Some (stream_buffer_index l i0 id).
Proof.
  revert i0. induction l as [|x l IH]; intros i0 H0; [reflexivity|].
  cbn [shadow_index stream_buffer_index]. destruct (sb_buf x =? id).
  - destruct (Z.eqb_spec i0 (-1)); [lia | reflexivity].
  - apply IH. lia.
Qed.

Lemma same_buf_lookup (sbs sbs' : list rizz__gfx_stream_buffer) (i : nat)
      (sb : rizz__gfx_stream_buffer) :
  List.map sb_buf sbs' = List.map sb_buf sbs -> sbs !! i = Some sb ->
  exists e, sbs' !! i = Some e /\ sb_buf e = sb_buf sb.
Proof.
  intros Hm Hsb.
  assert (H : (sb_buf <$> sbs') !! i = Some (sb_buf sb)).
  { change (@fmap list _) with (@List.map). rewrite Hm.
    change (@List.map) with (@fmap list _). rewrite list_lookup_fmap, Hsb. reflexivity. }
  rewrite list_lookup_fmap in H. destruct (sbs' !! i) as [e|]; [|discriminate].
  exists e. split; [reflexivity|]. cbn in H. congruence.
Qed.

(** The checks of [rizz__cb_run_append_buffer] on the recorded index. *)
Lemma replay_guard_ok (index buf : Z) (c : sg_call)
      (sbs : list rizz__gfx_stream_buffer) (e : rizz__gfx_stream_buffer) :
  0 <= index -> sbs !! Z.to_nat index = Some e -> sb_buf e = buf ->
  (let* _ := sx_assert (index <? Z.of_nat (length sbs)) in
   let* _ := sx_assert (negb (Nat.eqb (length sbs) 0)) in
   let* sbuff := arr_at sbs index in
   let* _ := sx_assert (sb_buf sbuff =? buf) in
   Ret c) = Ret c.
Proof.
  intros Hi He Hb. pose proof (lookup_lt_Some _ _ _ He) as Hlt.
  rewrite sx_assert_true by (apply Z.ltb_lt; lia). cbn [bind].
  rewrite sx_assert_true by (apply negb_true_iff, Nat.eqb_neq; lia). cbn [bind].
  rewrite (proj2 (arr_at_Ret _ _ e)) by (split; assumption). cbn [bind].
  rewrite sx_assert_true by (apply Z.eqb_eq; exact Hb). reflexivity.
Qed.

Lemma replay_guard_short (index buf : Z) (c : sg_call)
      (sbs : list rizz__gfx_stream_buffer) :
  Z.of_nat (length sbs) <= index ->
  (let* _ := sx_assert (index <? Z.of_nat (length sbs)) in
   let* _ := sx_assert (negb (Nat.eqb (length sbs) 0)) in
   let* sbuff := arr_at sbs index in
   let* _ := sx_assert (sb_buf sbuff =? buf) in
   Ret c) = Err (AssertFailed []).
Proof.
  intros H. rewrite sx_assert_false by (apply Z.ltb_ge; exact H). reflexivity.
Qed.

(** X13: An append and its replay.  An append within the capacity returns the
    tracker offset from before, moves the tracker on by the size, and records
    one reference; the executor's step on that reference, against any
    tracker with the same buffers in the same places (whatever their
    offsets), maps exactly the appended bytes into the buffer at the
    returned offset. *)
Theorem append_buffer_replay (g : rizz__gfx) (sg : sg_state) (tid frame : Z)
        (cb : rizz__gfx_cmdbuffer) (buf : Z) (data : list Z) (n : Z)
        (sb : rizz__gfx_stream_buffer) (slot : sg_slot) :
  stream_buffer_entry g buf = Some sb ->
  0 <= sb_offset sb -> sb_offset sb + n <= sb_size sb -> sb_size sb <= INT_MAX ->
  Z.of_nat (length (stream_buffs g)) <= INT_MAX ->
  feed_cb g tid = Ret cb -> cb_ok cb = true -> cb_index cb = tid ->
  cb_running_stage cb <> 0 -> cb_cmd_idx cb < UINT16_MAX ->
  0 <= buf < 4294967296 ->
  n = Z.of_nat (length data) -> n <= INT_MAX - 16 ->
  _sg_lookup (sg_buffers sg) buf = Some slot ->
  exists g' sg' cb' ref,
    rizz__cb_append_buffer g sg tid frame buf data n = Ret (sb_offset sb, g', sg')
    /\ stream_buffer_entry g' buf
       = Some (mk_stream_buffer (sb_buf sb) (sb_offset sb + n) (sb_size sb))
    /\ List.map sb_buf (stream_buffs g') = List.map sb_buf (stream_buffs g)
    /\ feed_cb g' tid = Ret cb'
    /\ cb_refs cb' = cb_refs cb ++ [ref]
    /\ ref_cmd ref = GFX_COMMAND_APPEND_BUFFER
    /\ ref_key ref = sort_key (cb_stage_order cb) (cb_cmd_idx cb)
    /\ forall sbs,
         List.map sb_buf sbs = List.map sb_buf (stream_buffs g) ->
         execute_ref sbs (cmd_buffers_feed g') ref
         = Ret (Sg_map_buffer buf (sb_offset sb) data).
Proof.
  intros Hsb Ho Hfit Hsz Hlen Hf Hok Hidx Hr Hi Hb Hn Hmax Hslot.
  destruct (rizz__cb_append_buffer_spec g sg tid frame cb buf data n sb slot)
    as (cb' & E & Hrec & Hin & Hlook & Hbuf & Hrun); try assumption.
  cbv zeta in E, Hin, Hlook, Hrun.
  set (index := stream_buffer_index (stream_buffs g) 0 buf) in *.
  destruct Hrec as (Hrefs & _ & _ & _ & Hidx' & _).
  eexists _, _, cb', _. split; [exact E|]. split.
  { unfold stream_buffer_entry. rewrite stream_buffs_store_feed_cb.
    cbn [stream_buffs set_stream_buffs].
    rewrite (stream_buffer_index_ext _ _ 0 buf (arr_store_same_buf _ index sb _ Hlook)).
    fold index. destruct (Z.eqb_spec index (-1)); [lia|].
    eapply arr_store_lookup_eq; [lia | exact Hlook]. }
  split; [exact (arr_store_same_buf _ index sb _ Hlook)|].
  split; [eapply feed_cb_store_eq; exact Hf|].
  split; [exact Hrefs|]. split; [reflexivity|]. split; [reflexivity|].
  intros sbs Hm. unfold execute_ref. cbn [ref_cmdbuffer_idx ref_cmd ref_params_offset].
  rewrite Hidx.
  change (arr_at (cmd_buffers_feed (store_feed_cb ?G tid cb')) tid)
    with (feed_cb (store_feed_cb G tid cb') tid).
  erewrite feed_cb_store_eq by exact Hf. cbn [bind k_run_cbs]. rewrite Hrun.
  destruct (same_buf_lookup _ _ _ _ Hm Hlook) as (e & He & Hbe).
  apply (replay_guard_ok index buf _ sbs e); [lia | exact He | congruence].
Qed.

(** ** A collected stream buffer and the appends still to replay *)

Lemma collect_single_stream_buffer (frame other : Z)
      (sbs : list rizz__gfx_stream_buffer) (sg : sg_state) (slot : sg_slot) :
  _sg_lookup (sg_buffers sg) other = Some slot ->
  slot_usage slot = SG_USAGE_STREAM ->
  slot_used_frame slot + 1 < frame ->
  collect_loop (collect_buffer frame) (queue_fuel [other]) 0 (queue_count [other])
               [other] (sbs, sg)
  = Ret ([], (shadow_remove sb_buf sbs other, sg_destroy_buffer sg other)).
Proof.
  intros Hl Hu Hd. cbn [queue_fuel queue_count length collect_loop].
  change (0 <? Z.of_nat 1) with true. cbv iota.
  change (arr_at [other] 0) with (Ret (A := Z) other). cbn [bind].
  unfold collect_buffer. rewrite Hl, Hu.
  destruct (Z.ltb_spec (slot_used_frame slot + 1) frame); [|lia].
  cbn [sg_usage_eqb bind]. reflexivity.
Qed.

Lemma collect_garbage_single_stream_buffer (g : rizz__gfx) (sg : sg_state)
      (frame other : Z) (slot : sg_slot) :
  destroy_buffers g = [other] -> destroy_pips g = [] -> destroy_shaders g = [] ->
  destroy_passes g = [] -> destroy_images g = [] ->
  _sg_lookup (sg_buffers sg) other = Some slot ->
  slot_usage slot = SG_USAGE_STREAM ->
  slot_used_frame slot + 1 < frame ->
  exists g2,
    rizz__gfx_collect_garbage g sg frame = Ret (g2, sg_destroy_buffer sg other)
    /\ stream_buffs g2 = shadow_remove sb_buf (stream_buffs g) other
    /\ cmd_buffers_feed g2 = cmd_buffers_feed g
    /\ destroy_buffers g2 = [].
Proof.
  intros Hb Hp Hs Hpa Hi Hl Hu Hd.
  destruct g as [st feed render lk ps sbs db ds dp dpa di].
  cbn in Hb, Hp, Hs, Hpa, Hi. subst db dp ds dpa di.
  unfold rizz__gfx_collect_garbage.
  cbn [destroy_buffers stream_buffs].
  rewrite (collect_single_stream_buffer frame other sbs sg slot Hl Hu Hd).
  cbn. eexists. split; [reflexivity|]. repeat split; reflexivity.
Qed.

Lemma sx_array_pop_lookup {A} (a : list A) (ii : Z) (j : nat) :
  Z.to_nat ii <> j \/ ii < 0 -> (j < length a - 1)%nat ->
  sx_array_pop a ii !! j = a !! j.
Proof.
  intros Hne Hj. unfold sx_array_pop. destruct (last a) as [x|]; [|reflexivity].
  rewrite lookup_take_lt by lia. unfold arr_store.
  destruct (Z.ltb_spec ii 0); [reflexivity|].
  apply list_lookup_insert_ne. lia.
Qed.

Lemma sx_array_pop_moved {A} (a : list A) (ii : Z) (x : A) :
  0 <= ii -> (Z.to_nat ii < length a - 1)%nat -> last a = Some x ->
  sx_array_pop a ii !! Z.to_nat ii = Some x.
Proof.
  intros Hi Hlt Hl. unfold sx_array_pop. rewrite Hl.
  rewrite lookup_take_lt by lia. unfold arr_store.
  destruct (Z.ltb_spec ii 0); [lia|]. apply list_lookup_insert_eq. lia.
Qed.

Lemma _sg_lookup_set_used_frame_eq (pool : list sg_slot) (id frame : Z) (slot : sg_slot) :
  _sg_lookup pool id = Some slot ->
  _sg_lookup (pool_set_used_frame pool id frame) id
  = Some (mk_slot (slot_id slot) frame (slot_usage slot)).
Proof.
  unfold _sg_lookup. destruct (id =? 0); [discriminate|].
  induction pool as [|s pool IH]; [discriminate|]. cbn [pool_set_used_frame List.find].
  destruct (Z.eqb_spec (slot_id s) id) as [E|E]; cbn [List.find slot_id].
  - intros [= <-]. rewrite (proj2 (Z.eqb_eq _ _) E). reflexivity.
  - destruct (Z.eqb_spec (slot_id s) id); [contradiction|]. exact IH.
Qed.

Lemma stream_buffer_index_present (l : list rizz__gfx_stream_buffer) (i0 buf : Z)
      (j : nat) (e : rizz__gfx_stream_buffer) :
  0 <= i0 -> l !! j = Some e -> sb_buf e = buf -> stream_buffer_index l i0 buf <> -1.
Proof.
  revert i0 j. induction l as [|x l IH]; intros i0 j H0 He Hb; [discriminate|].
  cbn [stream_buffer_index]. destruct (Z.eqb_spec (sb_buf x) buf) as [_|Hx]; [lia|].
  destruct j as [|j]; [injection He as ->; contradiction|].
  apply (IH (i0 + 1) j); [lia | exact He | exact Hb].
Qed.

(** X14: A stream buffer collected between an append and its replay.  Thread
    [tid] appends to [buf] while another stream buffer [other] waits in the
    destroy queue; the append replays as recorded.  But once
    [rizz__gfx_collect_garbage] has destroyed [other], whose removal from the
    tracker moves the last tracker entry into its place, the recorded
    tracker index of [buf] is stale when [buf] was that last entry: [buf]
    is alive and tracked, and the replay fails its assertion.  When [buf]
    was not the last entry the replay is as before. *)
Theorem append_replay_after_collect (g : rizz__gfx) (sg : sg_state) (tid frame : Z)
        (cb : rizz__gfx_cmdbuffer) (buf : Z) (data : list Z) (n : Z)
        (sb : rizz__gfx_stream_buffer) (slot : sg_slot)
        (other frame' : Z) (slot' : sg_slot) :
  stream_buffer_entry g buf = Some sb ->
  0 <= sb_offset sb -> sb_offset sb + n <= sb_size sb -> sb_size sb <= INT_MAX ->
  Z.of_nat (length (stream_buffs g)) <= INT_MAX ->
  feed_cb g tid = Ret cb -> cb_ok cb = true -> cb_index cb = tid ->
  cb_running_stage cb <> 0 -> cb_cmd_idx cb < UINT16_MAX ->
  0 <= buf < 4294967296 ->
  n = Z.of_nat (length data) -> n <= INT_MAX - 16 ->
  _sg_lookup (sg_buffers sg) buf = Some slot ->
  other <> buf ->
  stream_buffer_index (stream_buffs g) 0 other <> -1 ->
  destroy_buffers g = [other] -> destroy_pips g = [] -> destroy_shaders g = [] ->
  destroy_passes g = [] -> destroy_images g = [] ->
  _sg_lookup (sg_buffers sg) other = Some slot' ->
  slot_usage slot' = SG_USAGE_STREAM ->
  slot_used_frame slot' + 1 < frame' ->
  exists g1 sg1 g2 sg2 ref,
    rizz__cb_append_buffer g sg tid frame buf data n = Ret (sb_offset sb, g1, sg1)
    /\ (exists cb', feed_cb g1 tid = Ret cb' /\ last (cb_refs cb') = Some ref)
    /\ execute_ref (stream_buffs g1) (cmd_buffers_feed g1) ref
       = Ret (Sg_map_buffer buf (sb_offset sb) data)
    /\ rizz__gfx_collect_garbage g1 sg1 frame' = Ret (g2, sg2)
    /\ _sg_lookup (sg_buffers sg2) buf <> None
    /\ stream_buffer_index (stream_buffs g2) 0 buf <> -1
    /\ cmd_buffers_feed g2 = cmd_buffers_feed g1
    /\ (stream_buffer_index (stream_buffs g) 0 buf
        = Z.of_nat (length (stream_buffs g)) - 1 ->
        execute_ref (stream_buffs g2) (cmd_buffers_feed g2) ref = Err (AssertFailed []))
    /\ (stream_buffer_index (stream_buffs g) 0 buf
        < Z.of_nat (length (stream_buffs g)) - 1 ->
        execute_ref (stream_buffs g2) (cmd_buffers_feed g2) ref
        = Ret (Sg_map_buffer buf (sb_offset sb) data)).
Proof.
  intros Hsb Ho Hfit Hsz Hlen Hf Hok Hidx Hr Hi Hb Hn Hmax Hslot
         Hne Hio Hdb Hdp Hds Hdpa Hdi Hslot' Hu Hdue.
  destruct (rizz__cb_append_buffer_spec g sg tid frame cb buf data n sb slot)
    as (cb' & E & Hrec & Hin & Hlook & Hbuf & Hrun); try assumption.
  cbv zeta in E, Hin, Hlook, Hrun.
  set (index := stream_buffer_index (stream_buffs g) 0 buf) in *.
  set (io := stream_buffer_index (stream_buffs g) 0 other) in *.
  set (sbs1 := arr_store (stream_buffs g) index
                 (mk_stream_buffer (sb_buf sb) (sb_offset sb + n) (sb_size sb))) in *.
  set (g1 := store_feed_cb (set_stream_buffs sbs1 g) tid cb') in *.
  set (sg1 := set_sg_buffers (pool_set_used_frame (sg_buffers sg) buf frame) sg) in *.
  destruct Hrec as (Hrefs & _).
  assert (Hm : List.map sb_buf sbs1 = List.map sb_buf (stream_buffs g))
    by (apply arr_store_same_buf; exact Hlook).
  assert (Hlen1 : length sbs1 = length (stream_buffs g))
    by (unfold sbs1; apply arr_store_length).
  (* the entry of [other] *)
  destruct (stream_buffer_index_found (stream_buffs g) 0 other ltac:(lia) Hio)
    as (sbo & Hsbo & Hbo).
  fold io in Hsbo. rewrite Z.sub_0_r in Hsbo.
  assert (Hio0 : 0 <= io).
  { destruct (stream_buffer_index_range (stream_buffs g) 0 other) as [H|H];
      [contradiction | exact H]. }
  pose proof (lookup_lt_Some _ _ _ Hsbo) as Hiolt.
  assert (Hioidx : io <> index).
  { intros Heq. rewrite Heq, Hlook in Hsbo. injection Hsbo as <-. congruence. }
  (* the collection *)
  destruct (collect_garbage_single_stream_buffer g1 sg1 frame' other slot')
    as (g2 & Ec & Hsbs2 & Hfeed2 & _); try assumption.
  { unfold sg1. cbn [sg_buffers set_sg_buffers].
    rewrite _sg_lookup_set_used_frame_ne by exact Hne. exact Hslot'. }
  replace (stream_buffs g1) with sbs1 in Hsbs2 by reflexivity.
  assert (Hrem : stream_buffs g2 = sx_array_pop sbs1 io).
  { rewrite Hsbs2. unfold shadow_remove. rewrite shadow_index_stream by lia.
    rewrite (stream_buffer_index_ext _ _ 0 other Hm). fold io.
    destruct (Z.eqb_spec io (-1)); [contradiction | reflexivity]. }
  assert (Hlook1 : sbs1 !! Z.to_nat index
                   = Some (mk_stream_buffer (sb_buf sb) (sb_offset sb + n) (sb_size sb)))
    by (eapply arr_store_lookup_eq; [lia | exact Hlook]).
  assert (Hexec : forall sbs,
             execute_ref sbs (cmd_buffers_feed g1)
                         (mk_ref (sort_key (cb_stage_order cb) (cb_cmd_idx cb)) (cb_index cb)
                                 GFX_COMMAND_APPEND_BUFFER (arena_count (cb_params_buff cb)))
             = rizz__cb_run_append_buffer sbs (arena_mem (cb_params_buff cb'))
                                          (arena_count (cb_params_buff cb))).
  { intros sbs. unfold execute_ref. cbn [ref_cmdbuffer_idx ref_cmd ref_params_offset].
    rewrite Hidx.
    change (arr_at (cmd_buffers_feed g1) tid) with (feed_cb g1 tid).
    unfold g1. erewrite feed_cb_store_eq by exact Hf. reflexivity. }
  exists g1, sg1, g2, (sg_destroy_buffer sg1 other),
    (mk_ref (sort_key (cb_stage_order cb) (cb_cmd_idx cb)) (cb_index cb)
            GFX_COMMAND_APPEND_BUFFER (arena_count (cb_params_buff cb))).
  split; [exact E|]. split.
  { exists cb'. split; [unfold g1; eapply feed_cb_store_eq; exact Hf|].
    rewrite Hrefs. apply last_snoc. }
  split.
  { rewrite Hexec, Hrun.
    apply (replay_guard_ok index buf _ _ _ ltac:(lia) Hlook1). exact Hbuf. }
  split; [exact Ec|]. split.
  { unfold sg1. cbn [sg_destroy_buffer sg_buffers set_sg_buffers].
    rewrite _sg_lookup_pool_remove_ne by exact Hne.
    rewrite (_sg_lookup_set_used_frame_eq _ _ _ _ Hslot). discriminate. }
  assert (Hlast : exists x, last sbs1 = Some x)
    by (destruct sbs1; [cbn in Hlen1; lia | apply last_is_Some; eauto]).
  destruct Hlast as [lastx Hlast].
  split.
  { rewrite Hrem.
    destruct (Z.eq_dec index (Z.of_nat (length (stream_buffs g)) - 1)) as [Hl|Hl].
    - (* [buf] was last: it sits where [other] was *)
      apply (stream_buffer_index_present _ 0 buf (Z.to_nat io) lastx); [lia| |].
      + apply sx_array_pop_moved; [exact Hio0 | lia | exact Hlast].
      + rewrite last_lookup in Hlast.
        replace (Nat.pred (length sbs1)) with (Z.to_nat index) in Hlast by lia.
        rewrite Hlook1 in Hlast. injection Hlast as <-. exact Hbuf.
    - eapply (stream_buffer_index_present _ 0 buf (Z.to_nat index)); [lia | |].
      + rewrite sx_array_pop_lookup by lia. exact Hlook1.
      + exact Hbuf. }
  split; [exact Hfeed2|]. split.
  - intros Hl. rewrite Hfeed2, Hexec, Hrun, Hrem.
    apply replay_guard_short. rewrite sx_array_pop_length by (intros ->; discriminate). lia.
  - intros Hl. rewrite Hfeed2, Hexec, Hrun, Hrem.
    eapply (replay_guard_ok index buf); [lia | |].
    + rewrite sx_array_pop_lookup by lia. exact Hlook1.
    + exact Hbuf.
Qed.

Lemma append_buffer_replay_witness :
  let g := fst scenario_stream_buffer in
  let sg := snd scenario_stream_buffer in
  exists g' sg' cb' ref,
    rizz__cb_append_buffer g sg 0 1 9 [7; 8; 9] 3 = Ret (0, g', sg')
    /\ feed_cb g' 0 = Ret cb'
    /\ last (cb_refs cb') = Some ref
    /\ execute_ref (stream_buffs g') (cmd_buffers_feed g') ref
       = Ret (Sg_map_buffer 9 0 [7; 8; 9]).
Proof.
  intros g sg.
  assert (H : exists sb cb slot,
             stream_buffer_entry g 9 = Some sb /\ sb_offset sb = 0 /\ sb_size sb = 256
             /\ feed_cb g 0 = Ret cb /\ cb_ok cb = true /\ cb_index cb = 0
             /\ cb_running_stage cb = 2 /\ cb_cmd_idx cb = 2
             /\ _sg_lookup (sg_buffers sg) 9 = Some slot)
    by (vm_compute; do 3 eexists; repeat split; reflexivity).
  destruct H as (sb & cb & slot & Hsb & Ho & Hs & Hf & Hok & Hix & Hr & Hi & Hl).
  destruct (append_buffer_replay g sg 0 1 cb 9 [7; 8; 9] 3 sb slot)
    as (g' & sg' & cb' & ref & E & _ & Hm & Hf' & Hrefs & _ & _ & Hrun);
    [exact Hsb | rewrite Ho; lia | rewrite Ho, Hs; lia | rewrite Hs; unfold INT_MAX; lia
     | vm_compute; discriminate | exact Hf | exact Hok | exact Hix
     | rewrite Hr; discriminate | rewrite Hi; reflexivity | lia | reflexivity
     | unfold INT_MAX; lia | exact Hl |].
  rewrite Ho in E. exists g', sg', cb', ref.
  split; [exact E|]. split; [exact Hf'|]. split; [rewrite Hrefs; apply last_snoc|].
  rewrite Ho in Hrun. apply Hrun. exact Hm.
Defined.

Lemma append_replay_after_collect_witness :
  let g := fst scenario_two_stream_buffers in
  let sg := snd scenario_two_stream_buffers in
  exists g1 sg1 g2 sg2 ref,
    rizz__cb_append_buffer g sg 0 1 10 [7; 8; 9] 3 = Ret (0, g1, sg1)
    /\ execute_ref (stream_buffs g1) (cmd_buffers_feed g1) ref
       = Ret (Sg_map_buffer 10 0 [7; 8; 9])
    /\ rizz__gfx_collect_garbage g1 sg1 2 = Ret (g2, sg2)
    /\ execute_ref (stream_buffs g2) (cmd_buffers_feed g2) ref = Err (AssertFailed []).
Proof.
  intros g sg.
  assert (H : exists sb cb slot slot',
             stream_buffer_entry g 10 = Some sb /\ sb_offset sb = 0 /\ sb_size sb = 128
             /\ feed_cb g 0 = Ret cb /\ cb_ok cb = true /\ cb_index cb = 0
             /\ cb_running_stage cb = 2 /\ cb_cmd_idx cb = 2
             /\ _sg_lookup (sg_buffers sg) 10 = Some slot
             /\ _sg_lookup (sg_buffers sg) 9 = Some slot'
             /\ slot_usage slot' = SG_USAGE_STREAM /\ slot_used_frame slot' = 0)
    by (vm_compute; do 4 eexists; repeat split; reflexivity).
  destruct H as (sb & cb & slot & slot' & Hsb & Ho & Hs & Hf & Hok & Hix & Hr & Hi & Hl
                 & Hl' & Hu & Hfr).
  destruct (append_replay_after_collect g sg 0 1 cb 10 [7; 8; 9] 3 sb slot 9 2 slot')
    as (g1 & sg1 & g2 & sg2 & ref & E & _ & R1 & Ec & _ & _ & _ & Hstale & _);
    [exact Hsb | rewrite Ho; lia | rewrite Ho, Hs; lia | rewrite Hs; unfold INT_MAX; lia
     | vm_compute; discriminate | exact Hf | exact Hok | exact Hix
     | rewrite Hr; discriminate | rewrite Hi; reflexivity | lia | reflexivity
     | unfold INT_MAX; lia | exact Hl | discriminate | vm_compute; discriminate
     | reflexivity | reflexivity | reflexivity | reflexivity | reflexivity
     | exact Hl' | exact Hu | rewrite Hfr; lia |].
  rewrite Ho in E, R1. exists g1, sg1, g2, sg2, ref.
  split; [exact E|]. split; [exact R1|]. split; [exact Ec|].
  apply Hstale. vm_compute. reflexivity.
Defined.

(** ** Staged calls: they return, and replay as made *)

Lemma _sg_lookup_set_used_frame_live (pool : list sg_slot) (id frame id' : Z) :
  _sg_lookup pool id' <> None ->
  _sg_lookup (pool_set_used_frame pool id frame) id' <> None.
Proof.
  intros H. destruct (Z.eq_dec id' id) as [->|Hne].
  - destruct (_sg_lookup pool id) as [slot|] eqn:E; [|contradiction].
    rewrite (_sg_lookup_set_used_frame_eq _ _ _ _ E). discriminate.
  - rewrite _sg_lookup_set_used_frame_ne by exact Hne. exact H.
Qed.

Lemma buffers_live_set_used_frame (sg : sg_state) (id frame : Z)
      (calls : list sg_frame_call) :
  buffers_live sg calls = true ->
  buffers_live (set_sg_buffers (pool_set_used_frame (sg_buffers sg) id frame) sg) calls
  = true.
Proof.
  unfold buffers_live. rewrite !forallb_forall. intros H c Hc. specialize (H c Hc).
  destruct c; try reflexivity. cbn [sg_buffers set_sg_buffers].
  pose proof (_sg_lookup_set_used_frame_live (sg_buffers sg) id frame buf) as Hl.
  destruct (_sg_lookup (sg_buffers sg) buf); [|discriminate].
  destruct (_sg_lookup (pool_set_used_frame _ _ _) buf); [reflexivity|].
  exfalso. apply Hl; [discriminate | reflexivity].
Qed.

(** One staged call inside a stage returns. *)
Lemma staged_call_returns (g : rizz__gfx) (sg : sg_state) (tid frame : Z)
      (c : sg_frame_call) (cb : rizz__gfx_cmdbuffer) :
  feed_cb g tid = Ret cb -> cb_ok cb = true ->
  cb_running_stage cb <> 0 -> cb_cmd_idx cb < UINT16_MAX ->
  call_fits c = true -> buffers_live sg [c] = true ->
  exists g' sg',
    staged_call g sg tid frame c = Ret (g', sg')
    /\ forall calls, buffers_live sg calls = true -> buffers_live sg' calls = true.
Proof.
  intros Hf Hok Hr Hi Hfit Hlive.
  destruct c; cbn [staged_call call_fits] in *.
  - rewrite !andb_true_iff in Hfit. destruct Hfit as (((Hx & Hy) & Hw) & Hh).
    destruct (rizz__cb_apply_viewport_spec g tid cb x y width height origin_top_left)
      as (cb' & E & _); try assumption.
    rewrite E. cbn [bind]. eexists _, _. split; [reflexivity | auto].
  - rewrite !andb_true_iff in Hfit. destruct Hfit as (((Hx & Hy) & Hw) & Hh).
    destruct (rizz__cb_apply_scissor_rect_spec g tid cb x y width height origin_top_left)
      as (cb' & E & _); try assumption.
    rewrite E. cbn [bind]. eexists _, _. split; [reflexivity | auto].
  - rewrite !andb_true_iff in Hfit. destruct Hfit as (((Hs & Hu) & Hn) & Hm).
    apply Z.eqb_eq in Hn. apply Z.leb_le in Hm.
    destruct (rizz__cb_apply_uniforms_spec g tid cb stage ub_index data num_bytes)
      as (cb' & E & _); try assumption.
    rewrite E. cbn [bind]. eexists _, _. split; [reflexivity | auto].
  - rewrite !andb_true_iff in Hfit. destruct Hfit as ((Ha & Hb) & Hc).
    destruct (rizz__cb_draw_spec g tid cb base_element num_elements num_instances)
      as (cb' & E & _); try assumption.
    rewrite E. cbn [bind]. eexists _, _. split; [reflexivity | auto].
  - rewrite !andb_true_iff in Hfit. destruct Hfit as ((Ha & Hb) & Hc).
    destruct (rizz__cb_dispatch_spec g tid cb thread_group_x thread_group_y thread_group_z)
      as (cb' & E & _); try assumption.
    rewrite E. cbn [bind]. eexists _, _. split; [reflexivity | auto].
  - destruct (rizz__cb_end_pass_spec g tid cb) as (cb' & E & _); try assumption.
    rewrite E. cbn [bind]. eexists _, _. split; [reflexivity | auto].
  - rewrite !andb_true_iff in Hfit. destruct Hfit as (((Hb0 & Hb1) & Hn) & Hm).
    apply Z.leb_le in Hb0. apply Z.ltb_lt in Hb1. apply Z.eqb_eq in Hn. apply Z.leb_le in Hm.
    cbn [buffers_live forallb] in Hlive.
    destruct (_sg_lookup (sg_buffers sg) buf) as [slot|] eqn:Hslot; [|discriminate].
    destruct (rizz__cb_update_buffer_spec g sg tid frame cb buf data data_size slot)
      as (cb' & E & _); try assumption; [lia|].
    rewrite E. eexists _, _. split; [reflexivity|].
    intros calls. apply buffers_live_set_used_frame.
Qed.

Lemma staged_calls_returns (tid frame : Z) (calls : list sg_frame_call) :
  forall (g : rizz__gfx) (sg : sg_state) (cb : rizz__gfx_cmdbuffer),
    feed_cb g tid = Ret cb -> cb_ok cb = true ->
    cb_running_stage cb <> 0 ->
    cb_cmd_idx cb + Z.of_nat (length calls) <= UINT16_MAX ->
    forallb call_fits calls = true -> buffers_live sg calls = true ->
    exists g' sg', staged_calls g sg tid frame calls = Ret (g', sg').
Proof.
  induction calls as [|c calls IH]; intros g sg cb Hf Hok Hr Hi Hfit Hlive.
  - eexists _, _. reflexivity.
  - cbn [forallb] in Hfit. apply andb_true_iff in Hfit as [Hfc Hfit].
    assert (Hlc : buffers_live sg [c] = true /\ buffers_live sg calls = true).
    { unfold buffers_live in *. cbn [forallb] in *.
      apply andb_true_iff in Hlive as [H1 H2]. rewrite H1, H2. auto. }
    destruct Hlc as [Hlc Hlcs]. cbn [length] in Hi.
    destruct (staged_call_returns g sg tid frame c cb Hf Hok Hr ltac:(lia) Hfc Hlc)
      as (g1 & sg1 & E1 & Hkeep).
    destruct (staged_call_spec _ _ _ _ _ _ _ _ Hf Hok Hfc E1)
      as (cb1 & size & e & -> & Hsz & Hi1 & Hrec & _).
    pose proof Hrec as (_ & R2 & R3 & _).
    destruct (IH (store_feed_cb g tid cb1) sg1 cb1) as (g' & sg' & E);
      [eapply feed_cb_store_eq; exact Hf
      | eapply cb_recorded_ok; eauto
      | rewrite R3; exact Hr
      | rewrite R2; lia
      | exact Hfit
      | apply Hkeep; exact Hlcs |].
    exists g', sg'. cbn [staged_calls]. rewrite E1. cbn [bind]. exact E.
Qed.

(** X6: Plain staged calls made by one thread inside a stage, with room for
    their command indices: the calls return; each adds one reference, under
    the stage's order and the next command index, and decoding that
    reference from the arena as it is after the last call yields the very
    call, parameters and data included.  The other threads' buffers and the
    stage table are not touched. *)
Theorem staged_calls_replay (tid frame : Z) (calls : list sg_frame_call)
        (g : rizz__gfx) (sg : sg_state) (cb : rizz__gfx_cmdbuffer) :
  feed_cb g tid = Ret cb -> cb_ok cb = true ->
  cb_running_stage cb <> 0 ->
  cb_cmd_idx cb + Z.of_nat (length calls) <= UINT16_MAX ->
  forallb call_fits calls = true ->
  buffers_live sg calls = true ->
  exists g' sg' cb' refs,
    staged_calls g sg tid frame calls = Ret (g', sg')
    /\ feed_cb g' tid = Ret cb'
    /\ cb_refs cb' = cb_refs cb ++ refs
    /\ length refs = length calls
    /\ (forall (k : nat) c r, calls !! k = Some c -> refs !! k = Some r ->
          ref_cmd r = command_of c
          /\ ref_cmdbuffer_idx r = cb_index cb
          /\ ref_key r = sort_key (cb_stage_order cb) (cb_cmd_idx cb + Z.of_nat k)
          /\ exists e, run_frame_call (ref_cmd r) (arena_mem (cb_params_buff cb'))
                                      (ref_params_offset r) = Some (Ret (c, e)))
    /\ (forall t, t <> tid -> feed_cb g' t = feed_cb g t)
    /\ stages g' = stages g.
Proof.
  intros Hf Hok Hr Hi Hfit Hlive.
  destruct (staged_calls_returns tid frame calls g sg cb Hf Hok Hr Hi Hfit Hlive)
    as (g' & sg' & E).
  destruct (staged_calls_spec tid frame calls g sg cb g' sg' Hf Hok Hfit E)
    as (cb' & refs & H1 & _ & _ & H2 & H3 & _ & H4 & H5 & H6).
  exists g', sg', cb', refs. tauto.
Qed.

Lemma staged_calls_replay_witness :
  let g := fst scenario_stream_buffer in
  let sg := snd scenario_stream_buffer in
  let calls := [Sg_apply_viewport 0 0 640 480 true;
                Sg_update_buffer 9 [1; 2; 3] 3;
                Sg_draw 0 3 1] in
  exists g' sg' cb' refs,
    staged_calls g sg 0 1 calls = Ret (g', sg')
    /\ feed_cb g' 0 = Ret cb'
    /\ length refs = 3%nat
    /\ forall (k : nat) c r, calls !! k = Some c -> refs !! k = Some r ->
         exists e, run_frame_call (ref_cmd r) (arena_mem (cb_params_buff cb'))
                                  (ref_params_offset r) = Some (Ret (c, e)).
Proof.
  intros g sg calls.
  assert (Hf : exists cb, feed_cb g 0 = Ret cb /\ cb_ok cb = true
                          /\ cb_running_stage cb = 2 /\ cb_cmd_idx cb = 2)
    by (vm_compute; eexists; repeat split; reflexivity).
  destruct Hf as (cb & Hf & Hok & Hr & Hi).
  destruct (staged_calls_replay 0 1 calls g sg cb)
    as (g' & sg' & cb' & refs & E & H1 & _ & H3 & H4 & _);
    [exact Hf | exact Hok | rewrite Hr; discriminate | rewrite Hi; vm_compute; discriminate
     | vm_compute; reflexivity | vm_compute; reflexivity |].
  exists g', sg', cb', refs. split; [exact E|]. split; [exact H1|]. split; [exact H3|].
  intros k c r Hc Hr'. destruct (H4 k c r Hc Hr') as (_ & _ & _ & He). exact He.
Defined.

(** ** Streaming-buffer appends: the buffer's own entry *)

Lemma tracked_at_index (sbs : list rizz__gfx_stream_buffer) (buf : Z) :
  forall (k : nat) (i0 : Z),
    tracked_at sbs buf k = true -> stream_buffer_index sbs i0 buf = i0 + Z.of_nat k.
Proof.
  induction sbs as [|x sbs IH]; intros k i0 H; unfold tracked_at in H;
    apply andb_true_iff in H as [Hbefore Hat].
  - rewrite lookup_nil in Hat. discriminate.
  - cbn [stream_buffer_index]. destruct k as [|k].
    + cbn in Hat. rewrite Hat. lia.
    + cbn [take forallb] in Hbefore. apply andb_true_iff in Hbefore as [Hx Hbefore].
      apply negb_true_iff in Hx. rewrite Hx.
      rewrite (IH k (i0 + 1)); [lia|].
      unfold tracked_at. rewrite Hbefore. exact Hat.
Qed.

Lemma tracked_at_entry (g : rizz__gfx) (buf : Z) (k : nat) (sb : rizz__gfx_stream_buffer) :
  stream_buffs g !! k = Some sb -> tracked_at (stream_buffs g) buf k = true ->
  sb_buf sb = buf /\ stream_buffer_entry g buf = Some sb.
Proof.
  intros Hk Ht. split.
  - unfold tracked_at in Ht. apply andb_true_iff in Ht as [_ Ht].
    rewrite Hk in Ht. apply Z.eqb_eq. exact Ht.
  - unfold stream_buffer_entry. rewrite (tracked_at_index _ _ k 0 Ht).
    destruct (Z.eqb_spec (0 + Z.of_nat k) (-1)); [lia|].
    replace (Z.to_nat (0 + Z.of_nat k)) with k by lia. exact Hk.
Qed.

(** The search of the code finds no other entry than that one. *)
Lemma stream_buffer_index_tracked (sbs : list rizz__gfx_stream_buffer) (buf : Z) :
  forall i0 : Z,
    0 <= i0 -> stream_buffer_index sbs i0 buf <> -1 ->
    tracked_at sbs buf (Z.to_nat (stream_buffer_index sbs i0 buf - i0)) = true.
Proof.
  induction sbs as [|x sbs IH]; intros i0 H0 Hne; cbn [stream_buffer_index] in *.
  - contradiction.
  - destruct (Z.eqb_spec (sb_buf x) buf) as [E|E].
    + rewrite Z.sub_diag. unfold tracked_at. cbn. apply Z.eqb_eq. exact E.
    + specialize (IH (i0 + 1) ltac:(lia) Hne).
      destruct (stream_buffer_index_range sbs (i0 + 1) buf) as [Hr|Hr]; [contradiction|].
      replace (Z.to_nat (stream_buffer_index sbs (i0 + 1) buf - i0))
        with (S (Z.to_nat (stream_buffer_index sbs (i0 + 1) buf - (i0 + 1)))) by lia.
      unfold tracked_at in *. cbn [take forallb lookup list_lookup].
      rewrite (proj2 (Z.eqb_neq _ _) E). exact IH.
Qed.

Lemma stream_buffer_entry_tracked (g : rizz__gfx) (buf : Z) (sb : rizz__gfx_stream_buffer) :
  stream_buffer_entry g buf = Some sb ->
  exists k, stream_buffs g !! k = Some sb /\ tracked_at (stream_buffs g) buf k = true.
Proof.
  intros H. apply stream_buffer_entry_inv in H as (Hne & H0 & Hk).
  exists (Z.to_nat (stream_buffer_index (stream_buffs g) 0 buf)). split; [exact Hk|].
  pose proof (stream_buffer_index_tracked (stream_buffs g) buf 0 ltac:(lia)) as Ht.
  rewrite Z.sub_0_r in Ht. apply Ht. apply Z.eqb_neq. exact Hne.
Qed.

Lemma tracked_at_insert (sbs : list rizz__gfx_stream_buffer) (buf : Z) (k : nat)
      (e : rizz__gfx_stream_buffer) :
  tracked_at sbs buf k = true -> sb_buf e = buf ->
  tracked_at (<[k := e]> sbs) buf k = true.
Proof.
  unfold tracked_at. intros H He. apply andb_true_iff in H as [Hb Hat].
  rewrite take_insert_ge by lia. rewrite Hb. cbn [andb].
  destruct (sbs !! k) as [x|] eqn:Hx; [|discriminate].
  rewrite list_lookup_insert_eq by (eapply lookup_lt_Some; exact Hx).
  apply Z.eqb_eq. exact He.
Qed.

(** One append that returns: the tracker after it. *)
Lemma rizz__cb_append_buffer_tracker g sg tid frame buf data n (k : nat) sb r g' sg' :
  stream_buffs g !! k = Some sb -> tracked_at (stream_buffs g) buf k = true ->
  0 <= sb_offset sb <= sb_size sb ->
  n + sb_size sb <= INT_MAX ->
  rizz__cb_append_buffer g sg tid frame buf data n = Ret (r, g', sg') ->
  stream_buffs g'
  = <[k := mk_stream_buffer buf (sb_offset sb + n) (sb_size sb)]> (stream_buffs g).
Proof.
  intros Hk Ht Hwf Hfit E.
  destruct (tracked_at_entry g buf k sb Hk Ht) as [Hb Hsb].
  pose proof (tracked_at_index _ _ k 0 Ht) as Hidx. rewrite Z.add_0_l in Hidx.
  unfold rizz__cb_append_buffer in E. rewrite Hidx in E.
  destruct (Z.eqb_spec (Z.of_nat k) (-1)); [lia|]. cbn [negb sx_assert bind] in E.
  rewrite (proj2 (arr_at_Ret _ _ sb)) in E by (split; [lia | rewrite Nat2Z.id; exact Hk]).
  cbn [bind] in E.
  apply bind_Ret in E as (u & Ha & E). apply sx_assert_Ret, Z.leb_le in Ha.
  unfold sx_atomic_fetch_add in E.
  apply bind_Ret in E as (cb & _ & E). apply bind_Ret in E as (u' & _ & E).
  destruct (rizz__cb_alloc_params_buff cb _) as [offset cb1] in E.
  apply bind_Ret in E as (bytes & Hread & E).
  apply bind_Ret in E as (buffers & _ & E). injection E as <- <- <-.
  assert (Hn : 0 <= n).
  { unfold user_read in Hread. destruct (Z.ltb_spec n 0); [discriminate | lia]. }
  rewrite i32_small by (unfold INT_MAX in *; lia).
  rewrite stream_buffs_store_feed_cb. cbn [stream_buffs set_stream_buffs].
  unfold arr_store. destruct (Z.ltb_spec (Z.of_nat k) 0); [lia|].
  rewrite Nat2Z.id, Hb. reflexivity.
Qed.

(** A sequence of appends that returns: only the buffer's own entry moved. *)
Lemma append_all_tracker frame buf (k : nat) calls :
  forall g sg sb offs g' sg',
    stream_buffs g !! k = Some sb -> tracked_at (stream_buffs g) buf k = true ->
    0 <= sb_offset sb <= sb_size sb ->
    sizes_fit (sb_size sb) calls = true ->
    append_all g sg frame buf calls = Ret (offs, g', sg') ->
    stream_buffs g'
    = <[k := mk_stream_buffer buf (sb_offset sb + total_size calls) (sb_size sb)]>
        (stream_buffs g).
Proof.
  induction calls as [|c calls IH]; intros g sg sb offs g' sg' Hk Ht Hwf Hfit E; simpl in E.
  - injection E as <- <- <-. simpl. rewrite Z.add_0_r. symmetry. apply list_insert_id.
    rewrite Hk. destruct (tracked_at_entry g buf k sb Hk Ht) as [<- _].
    destruct sb; reflexivity.
  - apply sizes_fit_cons in Hfit as [Hc Hfit].
    apply bind_Ret in E as ([[off g1] sg1] & E1 & E).
    apply bind_Ret in E as ([[offs1 g2] sg2] & E2 & E). injection E as <- <- <-.
    destruct (tracked_at_entry g buf k sb Hk Ht) as [Hb Hsb].
    destruct (rizz__cb_append_buffer_Ret _ _ _ _ _ _ _ _ _ _ _ Hsb Hwf Hc E1)
      as (_ & Hn & Hle & _).
    pose proof (rizz__cb_append_buffer_tracker _ _ _ _ _ _ _ _ _ _ _ _ Hk Ht Hwf Hc E1) as H1.
    assert (Hlt : (k < length (stream_buffs g))%nat) by (eapply lookup_lt_Some; exact Hk).
    rewrite (IH g1 sg1 (mk_stream_buffer buf (sb_offset sb + ac_size c) (sb_size sb))
                offs1 g2 sg2); cbn [sb_offset sb_size].
    + rewrite H1, list_insert_insert_eq. simpl. do 2 f_equal. lia.
    + rewrite H1. apply list_lookup_insert_eq. exact Hlt.
    + rewrite H1. apply tracked_at_insert; [exact Ht | reflexivity].
    + lia.
    + exact Hfit.
    + exact E2.
Qed.

(** One append with room in the buffer, made inside a stage: it returns. *)
Lemma rizz__cb_append_buffer_returns g sg tid frame buf data n (k : nat) sb cb :
  stream_buffs g !! k = Some sb -> tracked_at (stream_buffs g) buf k = true ->
  0 <= sb_offset sb -> sb_offset sb + n <= sb_size sb -> n + sb_size sb <= INT_MAX ->
  0 <= n <= Z.of_nat (length data) ->
  feed_cb g tid = Ret cb ->
  cb_running_stage cb <> 0 -> 0 <= cb_cmd_idx cb < UINT16_MAX ->
  _sg_lookup (sg_buffers sg) buf <> None ->
  exists cb',
    rizz__cb_append_buffer g sg tid frame buf data n
    = Ret (sb_offset sb,
           store_feed_cb
             (set_stream_buffs
                (<[k := mk_stream_buffer buf (sb_offset sb + n) (sb_size sb)]> (stream_buffs g))
                g) tid cb',
           set_sg_buffers (pool_set_used_frame (sg_buffers sg) buf frame) sg)
    /\ cb_running_stage cb' = cb_running_stage cb
    /\ cb_cmd_idx cb' = cb_cmd_idx cb + 1.
Proof.
  intros Hk Ht Ho Hroom Hfit Hn Hf Hr Hi Hslot.
  destruct (tracked_at_entry g buf k sb Hk Ht) as [Hb Hsb].
  pose proof (tracked_at_index _ _ k 0 Ht) as Hidx. rewrite Z.add_0_l in Hidx.
  unfold rizz__cb_append_buffer. rewrite Hidx.
  destruct (Z.eqb_spec (Z.of_nat k) (-1)); [lia|]. cbn [negb sx_assert bind].
  rewrite (proj2 (arr_at_Ret _ _ sb)) by (split; [lia | rewrite Nat2Z.id; exact Hk]).
  cbn [bind].
  rewrite (i32_small (sb_offset sb + n)) by (unfold INT_MAX in *; lia).
  destruct (Z.leb_spec (sb_offset sb + n) (sb_size sb)) as [_|]; [|lia]. cbn [bind].
  unfold sx_atomic_fetch_add. rewrite (i32_small (sb_offset sb + n)) by (unfold INT_MAX in *; lia).
  match goal with |- context [feed_cb (set_stream_buffs ?S g) tid] =>
    replace (feed_cb (set_stream_buffs S g) tid) with (feed_cb g tid) by reflexivity end.
  rewrite Hf. cbn [bind].
  rewrite cb_assert_recording_ok by (assumption || lia). cbn [bind].
  destruct (rizz__cb_alloc_params_buff cb _) as [offset cb1] eqn:Ea.
  rewrite user_read_take by exact Hn. cbn [bind].
  unfold stamp_used_frame.
  destruct (_sg_lookup (sg_buffers sg) buf) as [slot|]; [|contradiction]. cbn [bind].
  assert (Hcb1 : cb_running_stage cb1 = cb_running_stage cb /\ cb_cmd_idx cb1 = cb_cmd_idx cb).
  { unfold rizz__cb_alloc_params_buff in Ea.
    destruct (sx_array_add _ _) as [o a] in Ea. injection Ea as _ <-. split; reflexivity. }
  destruct Hcb1 as [Hr1 Hi1].
  eexists. split.
  - unfold arr_store. destruct (Z.ltb_spec (Z.of_nat k) 0); [lia|].
    rewrite Nat2Z.id, Hb. reflexivity.
  - unfold cb_mem_write, cb_push_ref.
    cbn [cb_running_stage cb_cmd_idx set_cb_params_buff set_cb_cmd_idx set_cb_refs].
    rewrite Hr1, Hi1. split; [reflexivity|].
    unfold u16. apply Z.mod_small. unfold UINT16_MAX in Hi. lia.
Qed.

(** Threads inside a stage with command indices left for [n] more calls. *)
Lemma append_all_returns frame buf (k : nat) calls :
  forall g sg sb,
    stream_buffs g !! k = Some sb -> tracked_at (stream_buffs g) buf k = true ->
    0 <= sb_offset sb -> sb_offset sb + total_size calls <= sb_size sb ->
    sizes_fit (sb_size sb) calls = true ->
    _sg_lookup (sg_buffers sg) buf <> None ->
    (forall c, c ∈ calls ->
       0 <= ac_size c <= Z.of_nat (length (ac_data c))
       /\ exists cb, feed_cb g (ac_thread c) = Ret cb
                     /\ cb_running_stage cb <> 0
                     /\ 0 <= cb_cmd_idx cb
                     /\ cb_cmd_idx cb + Z.of_nat (length calls) <= UINT16_MAX) ->
    exists offs g' sg', append_all g sg frame buf calls = Ret (offs, g', sg').
Proof.
  induction calls as [|c calls IH]; intros g sg sb Hk Ht Ho Hroom Hfit Hslot Hready.
  - eexists _, _, _. reflexivity.
  - apply sizes_fit_cons in Hfit as [Hc Hfit]. cbn [total_size fold_right] in Hroom.
    fold (total_size calls) in Hroom.
    assert (Hpos : forall c', c' ∈ calls -> 0 <= ac_size c')
      by (intros c' Hc'; destruct (Hready c' (list_elem_of_further _ _ _ Hc')) as [? _]; lia).
    assert (Htot : 0 <= total_size calls).
    { clear -Hpos. induction calls as [|x l IHl]; [cbn; lia|].
      cbn [total_size fold_right]. fold (total_size l).
      pose proof (Hpos x (list_elem_of_here _ _)).
      pose proof (IHl (fun c' Hc' => Hpos c' (list_elem_of_further _ _ _ Hc'))). lia. }
    destruct (Hready c (list_elem_of_here _ _)) as (Hn & cb & Hf & Hr & Hi0 & Hi).
    cbn [length] in Hi.
    destruct (rizz__cb_append_buffer_returns g sg (ac_thread c) frame buf (ac_data c)
                (ac_size c) k sb cb Hk Ht Ho ltac:(lia) Hc Hn Hf Hr
                ltac:(unfold UINT16_MAX in *; lia) Hslot)
      as (cb' & E1 & Hr' & Hi').
    set (g1 := store_feed_cb _ (ac_thread c) cb') in E1.
    set (sg1 := set_sg_buffers _ sg) in E1.
    assert (Hlt : (k < length (stream_buffs g))%nat) by (eapply lookup_lt_Some; exact Hk).
    assert (H0 : 0 <= ac_thread c)
      by (unfold feed_cb in Hf; apply arr_at_Ret in Hf; tauto).
    destruct (IH g1 sg1 (mk_stream_buffer buf (sb_offset sb + ac_size c) (sb_size sb)))
      as (offs & g' & sg' & E2); cbn [sb_offset sb_size].
    + apply list_lookup_insert_eq. exact Hlt.
    + apply tracked_at_insert; [exact Ht | reflexivity].
    + lia.
    + lia.
    + exact Hfit.
    + unfold sg1. cbn [sg_buffers set_sg_buffers].
      apply _sg_lookup_set_used_frame_live. exact Hslot.
    + intros c' Hc'.
      destruct (Hready c' (list_elem_of_further _ _ _ Hc')) as (Hn' & cb0 & Hf0 & Hr0 & Hi00 & Hi0').
      split; [exact Hn'|]. cbn [length] in Hi0'.
      destruct (Z.eq_dec (ac_thread c') (ac_thread c)) as [Et|Et].
      * exists cb'. rewrite Et. split; [eapply feed_cb_store_eq; exact Hf|].
        rewrite Et, Hf in Hf0. injection Hf0 as <-.
        rewrite Hr', Hi'. repeat split; [exact Hr | lia | lia].
      * exists cb0. split.
        { unfold g1. rewrite feed_cb_store_ne by assumption. exact Hf0. }
        repeat split; [exact Hr0 | exact Hi00 | lia].
    + exists (sb_offset sb :: offs), g', sg'.
      cbn [append_all]. rewrite E1. cbn [bind]. rewrite E2. reflexivity.
Qed.

Lemma appends_ready_spec (g : rizz__gfx) (sg : sg_state) (buf : Z)
      (calls : list append_call) :
  appends_ready g sg buf calls = true ->
  _sg_lookup (sg_buffers sg) buf <> None
  /\ forall c, c ∈ calls ->
       0 <= ac_size c <= Z.of_nat (length (ac_data c))
       /\ exists cb, feed_cb g (ac_thread c) = Ret cb
                     /\ cb_running_stage cb <> 0
                     /\ 0 <= cb_cmd_idx cb
                     /\ cb_cmd_idx cb + Z.of_nat (length calls) <= UINT16_MAX.
Proof.
  unfold appends_ready. intros H. apply andb_true_iff in H as [Hs Hall]. split.
  - destruct (_sg_lookup (sg_buffers sg) buf); [discriminate | discriminate].
  - intros c Hc. rewrite forallb_forall in Hall.
    specialize (Hall c (proj1 (list_elem_of_In _ _) Hc)).
    rewrite !andb_true_iff in Hall. destruct Hall as [[H0 Hl] Hcb].
    apply Z.leb_le in H0, Hl. split; [lia|].
    destruct (feed_cb g (ac_thread c)) as [cb|]; [|discriminate].
    rewrite !andb_true_iff in Hcb. destruct Hcb as [[Hr Hi0] Hi].
    apply negb_true_iff, Z.eqb_neq in Hr. apply Z.leb_le in Hi0, Hi.
    exists cb. auto.
Qed.

(** C3: take the buffer [buf] whose tracker entry [sb] is at index [k]
    (the first entry for [buf]; offset within capacity) and any sequence of
    appends to it, by any threads, whose sizes do not overflow [int].  The
    search of the code finds that entry and no other.  When the calls have
    room in the buffer and are made inside stages, the sequence returns.
    When it returns, every call returned the offset of the buffer's entry as
    it was before its own add (the start offset plus the sizes of the calls
    before it), the byte ranges of any two calls are disjoint and lie inside
    the buffer's capacity, and the tracker has changed in the buffer's entry
    alone, which ends at the start offset plus the sum of the requested
    sizes.  A further append returns, when it returns, the offset reached so
    far; and if its size would carry the offset past the buffer's capacity,
    it ends in the assertion. *)
Theorem append_buffer_ranges (g : rizz__gfx) (sg : sg_state) (frame_index buf : Z)
        (k : nat) (sb : rizz__gfx_stream_buffer)
        (calls : list append_call) (c : append_call) :
  stream_buffs g !! k = Some sb ->
  tracked_at (stream_buffs g) buf k = true ->
  0 <= sb_offset sb <= sb_size sb ->
  sizes_fit (sb_size sb) (calls ++ [c]) = true ->
  sb_buf sb = buf
  /\ stream_buffer_entry g buf = Some sb
  /\ (appends_ready g sg buf calls = true ->
      sb_offset sb + total_size calls <= sb_size sb ->
      exists offs g' sg', append_all g sg frame_index buf calls = Ret (offs, g', sg'))
  /\ forall offs g' sg',
       append_all g sg frame_index buf calls = Ret (offs, g', sg') ->
       offs = offsets_from (sb_offset sb) calls
       /\ (forall (i : nat) ci oi, calls !! i = Some ci -> offs !! i = Some oi ->
             oi = sb_offset sb + total_size (take i calls)
             /\ 0 <= ac_size ci /\ sb_offset sb <= oi /\ oi + ac_size ci <= sb_size sb)
       /\ (forall (i j : nat) ci oi oj, (i < j)%nat ->
             calls !! i = Some ci -> offs !! i = Some oi -> offs !! j = Some oj ->
             oi + ac_size ci <= oj)
       /\ stream_buffs g'
          = <[k := mk_stream_buffer buf (sb_offset sb + total_size calls) (sb_size sb)]>
              (stream_buffs g)
       /\ stream_buffer_entry g' buf
          = Some (mk_stream_buffer buf (sb_offset sb + total_size calls) (sb_size sb))
       /\ (forall r g'' sg'',
             rizz__cb_append_buffer g' sg' (ac_thread c) frame_index buf (ac_data c) (ac_size c)
             = Ret (r, g'', sg'') ->
             r = sb_offset sb + total_size calls)
       /\ (sb_size sb < sb_offset sb + total_size calls + ac_size c ->
           rizz__cb_append_buffer g' sg' (ac_thread c) frame_index buf (ac_data c) (ac_size c)
           = Err (AssertFailed [])).
Proof.
  intros Hk Ht Hwf Hfit.
  destruct (tracked_at_entry g buf k sb Hk Ht) as [Hb Hsb].
  assert (Hfit' : sizes_fit (sb_size sb) calls = true /\ ac_size c + sb_size sb <= INT_MAX).
  { unfold sizes_fit in *. rewrite forallb_app in Hfit. simpl in Hfit.
    apply andb_true_iff in Hfit as [H1 H2]. rewrite andb_true_r in H2.
    apply Z.leb_le in H2. auto. }
  destruct Hfit' as [Hfit1 Hfitc].
  split; [exact Hb|]. split; [exact Hsb|]. split.
  { intros Hready Hroom. apply appends_ready_spec in Hready as [Hslot Hready].
    apply (append_all_returns frame_index buf k calls g sg sb Hk Ht); tauto. }
  intros offs g' sg' E.
  destruct (append_all_spec _ _ _ _ _ _ _ _ _ Hsb Hwf Hfit1 E) as (-> & Hall & Htot & Hsb').
  rewrite Hb in Hsb'.
  pose proof (append_all_tracker _ _ _ _ _ _ _ _ _ _ Hk Ht Hwf Hfit1 E) as Htr.
  assert (Hoff : forall (i : nat) ci oi, calls !! i = Some ci ->
                   offsets_from (sb_offset sb) calls !! i = Some oi ->
                   oi = sb_offset sb + total_size (take i calls)
                   /\ 0 <= ac_size ci /\ sb_offset sb <= oi
                   /\ oi + ac_size ci <= sb_size sb).
  { intros i ci oi Hci Hoi.
    pose proof (offsets_from_lookup _ _ _ _ _ Hci Hoi) as ->.
    pose proof (total_size_take_nonneg calls i Hall).
    pose proof (total_size_take_S _ _ _ Hci).
    pose proof (total_size_take_le calls (S i) Hall).
    rewrite Forall_forall in Hall.
    pose proof (Hall ci (list_elem_of_lookup_2 _ _ _ Hci)).
    repeat split; lia. }
  split; [reflexivity|]. split; [exact Hoff|].
  split; [|split; [exact Htr|split; [exact Hsb'|split]]].
  - intros i j ci oi oj Hij Hci Hoi Hoj.
    destruct (lookup_lt_is_Some_2 calls j) as [cj Hcj].
    { apply lookup_lt_Some in Hoj. rewrite offsets_from_length in Hoj. exact Hoj. }
    destruct (Hoff _ _ _ Hci Hoi) as (-> & _).
    destruct (Hoff _ _ _ Hcj Hoj) as (-> & _).
    pose proof (total_size_take_S _ _ _ Hci).
    pose proof (total_size_take_mono calls (S i) j Hall ltac:(lia)). lia.
  - intros r g'' sg'' Er.
    destruct (rizz__cb_append_buffer_Ret _ _ _ _ _ _ _ _ _ _ _ Hsb'
                ltac:(simpl; pose proof (total_size_nonneg _ Hall); lia) Hfitc Er) as (-> & _).
    reflexivity.
  - intros Hover.
    apply (rizz__cb_append_buffer_overflow _ _ _ _ _ _ _ _ Hsb'
             ltac:(simpl; pose proof (total_size_nonneg _ Hall); lia) Hfitc).
    simpl. lia.
Qed.
(** ** A whole frame *)

Lemma sort_key_value (stage_order cmd_idx : Z) :
  0 <= stage_order < 65536 -> 0 <= cmd_idx < 65536 ->
  sort_key stage_order cmd_idx = stage_order * 65536 + cmd_idx.
Proof.
  intros Ho Hi. set (x := sort_key stage_order cmd_idx).
  assert (Hhi : x / 65536 = stage_order).
  { rewrite <- (sort_key_order stage_order cmd_idx Ho Hi). fold x.
    rewrite Z.shiftr_div_pow2 by lia. reflexivity. }
  assert (Hlo : x mod 65536 = cmd_idx).
  { change 65536 with (2 ^ 16). rewrite <- Z.land_ones by lia.
    unfold x, sort_key. rewrite Z.land_lor_distr_l.
    unfold u32. rewrite (Z.mod_small stage_order) by lia.
    rewrite Z.shiftl_mul_pow2 by lia. change (2 ^ 16) with 65536.
    rewrite (Z.mod_small (stage_order * 65536)) by lia.
    rewrite (Z.mod_small cmd_idx) by lia.
    rewrite !Z.land_ones by lia. change (2 ^ 16) with 65536.
    rewrite Z.mod_mul by lia. rewrite Z.mod_small by lia. reflexivity. }
  rewrite (Z.div_mod x 65536) by lia. rewrite Hhi, Hlo. lia.
Qed.

(** A list in strictly increasing key order has one sorted arrangement. *)
Lemma sorted_perm_unique (l : list rizz__gfx_cmdbuffer_ref) :
  forall l', StronglySorted key_lt l -> StronglySorted key_le l' -> l' ≡ₚ l -> l' = l.
Proof.
  induction l as [|x l IH]; intros l' Hl Hl' Hp.
  - apply Permutation_nil_r in Hp. exact Hp.
  - destruct l' as [|y l'].
    { apply Permutation_nil_cons in Hp. contradiction. }
    apply StronglySorted_inv in Hl as [Hl Hx]. apply StronglySorted_inv in Hl' as [Hl' Hy].
    rewrite Forall_forall in Hx, Hy.
    assert (Hyx : y = x).
    { assert (Hyin : y ∈ x :: l) by (rewrite <- Hp; apply list_elem_of_here).
      assert (Hxin : x ∈ y :: l') by (rewrite Hp; apply list_elem_of_here).
      apply elem_of_cons in Hyin as [E|Hyin]; [exact E|].
      apply elem_of_cons in Hxin as [E|Hxin]; [symmetry; exact E|].
      exfalso. specialize (Hx y Hyin). specialize (Hy x Hxin).
      unfold key_lt in Hx. unfold key_le in Hy. lia. }
    subst y. f_equal. apply IH; [exact Hl | exact Hl'|].
    eapply Permutation_cons_inv. exact Hp.
Qed.

Lemma rizz__gfx_tim_sort_sorted_id (l : list rizz__gfx_cmdbuffer_ref) :
  StronglySorted key_lt l -> rizz__gfx_tim_sort l = l.
Proof.
  intros H. apply sorted_perm_unique;
    [exact H | apply rizz__gfx_tim_sort_sorted | apply rizz__gfx_tim_sort_perm].
Qed.

Lemma cb_drained_spec (cb : rizz__gfx_cmdbuffer) :
  cb_drained cb = true <->
  cb_refs cb = [] /\ arena_count (cb_params_buff cb) = 0 /\ cb_cmd_idx cb = 0.
Proof.
  unfold cb_drained. rewrite !andb_true_iff, Nat.eqb_eq, !Z.eqb_eq.
  destruct (cb_refs cb); cbn [length]; split; intros H; intuition (try discriminate; lia).
Qed.

Lemma all_refs_drained (cmds : list rizz__gfx_cmdbuffer) :
  forallb cb_drained cmds = true -> all_refs cmds = [].
Proof.
  induction cmds as [|cb cmds IH]; intros H; [reflexivity|].
  cbn [forallb] in H. apply andb_true_iff in H as [Hd H].
  rewrite all_refs_cons, (IH H). apply cb_drained_spec in Hd as (-> & _). reflexivity.
Qed.

Lemma all_refs_app (a b : list rizz__gfx_cmdbuffer) :
  all_refs (a ++ b) = all_refs a ++ all_refs b.
Proof. unfold all_refs. apply flat_map_app. Qed.

Lemma split_at_lookup {A} (l : list A) (i : nat) (x : A) :
  l !! i = Some x -> exists pre post, l = pre ++ x :: post /\ length pre = i.
Proof.
  intros H. exists (take i l), (drop (S i) l). split.
  - symmetry. apply take_drop_middle. exact H.
  - apply length_take_le. apply lookup_lt_Some in H. lia.
Qed.

Lemma forallb_app_iff {A} (f : A -> bool) (a b : list A) :
  forallb f (a ++ b) = true <-> forallb f a = true /\ forallb f b = true.
Proof. rewrite forallb_app, andb_true_iff. reflexivity. Qed.

Lemma store_stages_norm (g : rizz__gfx) (X Y : list rizz__gfx_stage) (tid : Z)
      (a b : rizz__gfx_cmdbuffer) :
  store_feed_cb (set_stages X (store_feed_cb (set_stages Y g) tid a)) tid b
  = store_feed_cb (set_stages X g) tid b.
Proof.
  destruct g. unfold store_feed_cb. cbn. rewrite arr_store_twice. reflexivity.
Qed.

Lemma validate_stages_quiet (stages rest : list rizz__gfx_stage) :
  (forall s, s ∈ rest -> stage_state s <> STAGE_STATE_DONE \/ stage_parent s = 0) ->
  validate_stages stages rest = Ret tt.
Proof.
  induction rest as [|s rest IH]; intros H; [reflexivity|].
  cbn [validate_stages]. rewrite IH by (intros x Hx; apply H; apply list_elem_of_further; exact Hx).
  assert (E : validate_stage stages s = Ret tt).
  { unfold validate_stage. destruct (H s (list_elem_of_here _ _)) as [Hs|Hp].
    - apply stage_state_eqb_false in Hs. rewrite Hs. reflexivity.
    - rewrite Hp. cbn. rewrite andb_false_r. reflexivity. }
  rewrite E. reflexivity.
Qed.

Lemma set_none_id (s : rizz__gfx_stage) :
  stage_state s = STAGE_STATE_NONE -> set_stage_state STAGE_STATE_NONE s = s.
Proof. destruct s. cbn. intros ->. reflexivity. Qed.

Lemma stages_reset (st : list rizz__gfx_stage) (i : Z) (s : rizz__gfx_stage)
      (v : rizz__gfx_stage_state) :
  forallb (fun s => stage_state_eqb (stage_state s) STAGE_STATE_NONE) st = true ->
  arr_at st i = Ret s ->
  List.map (set_stage_state STAGE_STATE_NONE) (arr_store st i (set_stage_state v s)) = st.
Proof.
  intros Hall Hs. apply arr_at_Ret in Hs as [Hi Hs].
  assert (Hn : forall x, x ∈ st -> stage_state x = STAGE_STATE_NONE).
  { intros x Hx. rewrite forallb_forall in Hall.
    apply stage_state_eqb_spec, Hall, list_elem_of_In, Hx. }
  unfold arr_store. destruct (Z.ltb_spec i 0); [lia|].
  change (@List.map) with (@fmap list _). rewrite list_fmap_insert.
  assert (Hid : set_stage_state STAGE_STATE_NONE <$> st = st).
  { clear Hs Hall. induction st as [|x st IH]; [reflexivity|]. rewrite fmap_cons.
    rewrite set_none_id by (apply Hn; apply list_elem_of_here).
    f_equal. apply IH.
    intros y Hy. apply Hn. apply list_elem_of_further. exact Hy. }
  rewrite Hid. apply list_insert_id. rewrite Hs. f_equal. symmetry.
  change (set_stage_state STAGE_STATE_NONE s = s). apply set_none_id.
  apply Hn. eapply list_elem_of_lookup_2. exact Hs.
Qed.

Lemma all_idle_reset (cmds : list rizz__gfx_cmdbuffer) :
  all_idle (List.map cb_reset (List.map (set_cb_refs []) cmds)) = all_idle cmds.
Proof.
  unfold all_idle. induction cmds as [|cb cmds IH]; [reflexivity|].
  cbn [List.map forallb]. rewrite IH. reflexivity.
Qed.

Lemma cb_ok_reset (cmds : list rizz__gfx_cmdbuffer) :
  forallb cb_ok cmds = true ->
  forallb cb_ok (List.map cb_reset (List.map (set_cb_refs []) cmds)) = true.
Proof.
  induction cmds as [|cb cmds IH]; intros H; [reflexivity|].
  cbn [forallb List.map] in *. apply andb_true_iff in H as [Hc H].
  rewrite (IH H), andb_true_r.
  apply cb_ok_spec in Hc as (_ & Ho & _). apply cb_ok_spec.
  unfold cb_reset, sx_array_clear. cb_fields. lia.
Qed.

Lemma execute_drained (sbs : list rizz__gfx_stream_buffer) (n : Z)
      (cmds : list rizz__gfx_cmdbuffer) :
  Z.of_nat (length cmds) = n ->
  forallb cb_drained cmds = true -> all_idle cmds = true ->
  rizz__gfx_execute_command_buffer sbs 0 n cmds
  = Ret (0, [], List.map cb_reset (List.map (set_cb_refs []) cmds)).
Proof.
  intros Hlen Hd Hidle. pose proof (all_refs_drained cmds Hd) as Hr.
  destruct (execute_command_buffer_spec sbs n cmds Hlen) as (d & E & Hfst).
  - rewrite Hr. cbn. unfold INT_MAX. lia.
  - exact Hidle.
  - unfold replay_completes. rewrite Hr. reflexivity.
  - rewrite Hr in E, Hfst. cbn in Hfst. destruct d; [|discriminate]. exact E.
Qed.

Lemma frame_start_spec (g : rizz__gfx) (n : Z) :
  frame_start g n = true <->
  stage_lk g = false
  /\ Z.of_nat (length (cmd_buffers_feed g)) = n
  /\ Z.of_nat (length (cmd_buffers_render g)) = n
  /\ forallb cb_drained (cmd_buffers_feed g) = true
  /\ forallb cb_drained (cmd_buffers_render g) = true
  /\ all_idle (cmd_buffers_feed g) = true
  /\ all_idle (cmd_buffers_render g) = true
  /\ forallb cb_ok (cmd_buffers_feed g) = true
  /\ forallb cb_ok (cmd_buffers_render g) = true
  /\ forallb (fun s => stage_state_eqb (stage_state s) STAGE_STATE_NONE) (stages g) = true.
Proof.
  unfold frame_start. rewrite !andb_true_iff, negb_true_iff, !Z.eqb_eq. tauto.
Qed.

Lemma validate_stage_deps_quiet (g : rizz__gfx) :
  stage_lk g = false ->
  (forall s, s ∈ stages g -> stage_state s <> STAGE_STATE_DONE \/ stage_parent s = 0) ->
  rizz__gfx_validate_stage_deps g = Ret g.
Proof.
  intros Hlk H. unfold rizz__gfx_validate_stage_deps. rewrite Hlk. cbn [sx_lock bind].
  rewrite validate_stages_quiet by exact H. cbn [bind]. unfold sx_unlock.
  rewrite <- Hlk. rewrite set_stage_lk_same. reflexivity.
Qed.

Lemma forallb_lookup {A} (f : A -> bool) (l : list A) (i : nat) (x : A) :
  forallb f l = true -> l !! i = Some x -> f x = true.
Proof.
  intros H Hx. rewrite forallb_forall in H. apply H.
  apply list_elem_of_In. eapply list_elem_of_lookup_2. exact Hx.
Qed.

Lemma drained_reset_id (cmds : list rizz__gfx_cmdbuffer) :
  forallb cb_drained cmds = true ->
  List.map cb_reset (List.map (set_cb_refs []) cmds) = cmds.
Proof.
  induction cmds as [|cb cmds IH]; intros H; [reflexivity|].
  cbn [forallb] in H. apply andb_true_iff in H as [Hd H].
  cbn [List.map]. rewrite (IH H). f_equal.
  apply cb_drained_spec in Hd as (Hr & Hc & Hi).
  destruct cb as [[mem count] refs running index order idx].
  cbn in Hr, Hc, Hi. subst. reflexivity.
Qed.

(** One stage begun and ended by one thread at the start of a frame: the
    state after, the four references of that thread, and what the executor
    makes of the feed set. *)
Lemma one_stage_recorded (g : rizz__gfx) (n tid stage : Z)
      (_stage : rizz__gfx_stage) (cb : rizz__gfx_cmdbuffer) :
  frame_start g n = true ->
  arr_at (stages g) (rizz_to_index stage) = Ret _stage ->
  stage_enabled _stage = true ->
  stage_parent _stage = 0 ->
  stage <> 0 ->
  0 <= stage_order _stage < 65536 ->
  feed_cb g tid = Ret cb ->
  cb_index cb = tid ->
  exists g1 cb2 pre post,
    rizz__cb_begin_stage g tid stage = Ret (true, g1)
    /\ rizz__cb_end_stage g1 tid
       = Ret (store_feed_cb
                (set_stages (arr_store (stages g) (rizz_to_index stage)
                                       (set_stage_state STAGE_STATE_DONE _stage)) g)
                tid cb2)
    /\ cmd_buffers_feed g = pre ++ cb :: post
    /\ arr_store (cmd_buffers_feed g) tid cb2 = pre ++ cb2 :: post
    /\ cb_ok cb2 = true
    /\ all_idle (pre ++ cb2 :: post) = true
    /\ forallb cb_ok (pre ++ cb2 :: post) = true
    /\ (forall s, s ∈ arr_store (stages g) (rizz_to_index stage)
                                (set_stage_state STAGE_STATE_DONE _stage) ->
                  stage_state s <> STAGE_STATE_DONE \/ stage_parent s = 0)
    /\ forall sbs, exists d,
         rizz__gfx_execute_command_buffer sbs 0 n (pre ++ cb2 :: post)
         = Ret (4, d, List.map cb_reset (List.map (set_cb_refs []) (pre ++ cb2 :: post)))
         /\ List.map (fun x => ref_cmd (fst x)) d
            = [GFX_COMMAND_STAGE_PUSH; GFX_COMMAND_BEGIN_PROFILE;
               GFX_COMMAND_END_PROFILE; GFX_COMMAND_STAGE_POP].
Proof.
  intros Hfs Harr Hen Hpar Hs Hord Hf Hidx.
  apply frame_start_spec in Hfs
    as (Hlk & Hlf & Hlr & Hdf & Hdr & Hif & Hir & Hokf & Hokr & Hnone).
  pose proof Hf as Hf0. unfold feed_cb in Hf0. apply arr_at_Ret in Hf0 as [Ht Hcb].
  pose proof (forallb_lookup _ _ _ _ Hdf Hcb) as Hd.
  apply cb_drained_spec in Hd as (Hrefs & Hcount & Hcmd).
  pose proof (forallb_lookup _ _ _ _ Hokf Hcb) as Hok.
  assert (Hst : stage_state _stage = STAGE_STATE_NONE).
  { apply arr_at_Ret in Harr as [_ Harr'].
    apply stage_state_eqb_spec. exact (forallb_lookup _ _ _ _ Hnone Harr'). }
  destruct (rizz__cb_begin_stage_enabled g tid stage _stage cb)
    as (cb1 & E1 & P1 & P2 & P3 & P4 & P5 & P6 & P7); try assumption;
    [unfold UINT16_MAX; lia|].
  set (st1 := arr_store (stages g) (rizz_to_index stage)
                        (set_stage_state STAGE_STATE_SUBMITTING _stage)) in *.
  set (g1 := store_feed_cb (set_stages st1 g) tid cb1) in *.
  assert (Hf1 : feed_cb g1 tid = Ret cb1)
    by (unfold g1; eapply feed_cb_store_eq; exact Hf).
  assert (Harr1 : arr_at (stages g1) (rizz_to_index stage)
                  = Ret (set_stage_state STAGE_STATE_SUBMITTING _stage))
    by (eapply arr_at_store_eq; exact Harr).
  destruct (rizz__cb_end_stage_spec g1 tid cb1
              (set_stage_state STAGE_STATE_SUBMITTING _stage))
    as (cb2 & E2 & Q1 & Q2 & Q3 & Q4 & Q5 & Q6 & Q7);
    [exact Hlk | exact Hf1 | exact P5 | rewrite P1; exact Hs
     | unfold UINT16_MAX; rewrite P4; lia | rewrite P1; exact Harr1 | reflexivity |].
  rewrite P1 in E2.
  set (st2 := arr_store (stages g) (rizz_to_index stage)
                        (set_stage_state STAGE_STATE_DONE _stage)).
  assert (Hg2 : store_feed_cb
                  (set_stages (arr_store (stages g1) (rizz_to_index stage)
                                 (set_stage_state STAGE_STATE_DONE
                                    (set_stage_state STAGE_STATE_SUBMITTING _stage))) g1)
                  tid cb2
                = store_feed_cb (set_stages st2 g) tid cb2).
  { unfold g1. rewrite store_stages_norm. f_equal. f_equal.
    change (arr_store st1 (rizz_to_index stage)
              (set_stage_state STAGE_STATE_DONE _stage) = st2).
    unfold st1, st2. apply arr_store_twice. }
  rewrite Hg2 in E2.
  apply split_at_lookup in Hcb as (pre & post & Hfeed & Hpre).
  assert (Htid : tid = Z.of_nat (length pre)) by lia.
  rewrite Hfeed in Hdf, Hif, Hokf, Hlf.
  apply forallb_app_iff in Hdf as [Hdpre Hdpost]. cbn [forallb] in Hdpost.
  apply andb_true_iff in Hdpost as [_ Hdpost].
  assert (Hrefs2 : all_refs (pre ++ cb2 :: post) = cb_refs cb2).
  { rewrite all_refs_app, all_refs_cons, (all_refs_drained pre Hdpre),
      (all_refs_drained post Hdpost), app_nil_r. reflexivity. }
  assert (Hidle2 : all_idle (pre ++ cb2 :: post) = true).
  { unfold all_idle in Hif |- *. apply forallb_app_iff in Hif as [Hipre Hipost].
    cbn [forallb] in Hipost. apply andb_true_iff in Hipost as [_ Hipost].
    apply forallb_app_iff. split; [exact Hipre|]. cbn [forallb].
    rewrite Q1, Hipost. reflexivity. }
  assert (Hall : cb_refs cb2
                 = [mk_ref (sort_key (stage_order _stage) 0) tid GFX_COMMAND_STAGE_PUSH 0;
                    mk_ref (sort_key (stage_order _stage) 1) tid GFX_COMMAND_BEGIN_PROFILE 32;
                    mk_ref (sort_key (stage_order _stage) 2) tid GFX_COMMAND_END_PROFILE 72;
                    mk_ref (sort_key (stage_order _stage) 3) tid GFX_COMMAND_STAGE_POP 72]).
  { rewrite Q7, P7, Hrefs, P2, P3, P4, P6, Hcount, Hcmd, Hidx. reflexivity. }
  assert (Hsorted : rizz__gfx_tim_sort (cb_refs cb2) = cb_refs cb2).
  { apply rizz__gfx_tim_sort_sorted_id. rewrite Hall.
    repeat (apply SSorted_cons; [|repeat constructor; unfold key_lt; cbn [ref_key];
                                  rewrite !sort_key_value by lia; lia]).
    apply SSorted_nil. }
  exists g1, cb2, pre, post.
  split; [exact E1|]. split; [exact E2|]. split; [exact Hfeed|].
  split; [rewrite Hfeed, Htid; apply arr_store_middle|].
  split; [exact Q5|]. split; [exact Hidle2|]. split.
  { apply forallb_app_iff in Hokf as [Hokpre Hokpost]. cbn [forallb] in Hokpost.
    apply andb_true_iff in Hokpost as [_ Hokpost].
    apply forallb_app_iff. split; [exact Hokpre|]. cbn [forallb].
    rewrite Q5, Hokpost. reflexivity. }
  split.
  { intros s Hin. apply list_elem_of_lookup_1 in Hin as [j Hj]. revert j s Hj.
    apply arr_store_pointwise.
    - intros j s Hj. left.
      assert (Hn : stage_state s = STAGE_STATE_NONE)
        by (apply stage_state_eqb_spec; exact (forallb_lookup _ _ _ _ Hnone Hj)).
      rewrite Hn. discriminate.
    - intros _. right. destruct _stage. exact Hpar. }
  intros sbs.
  destruct (execute_command_buffer_spec sbs n (pre ++ cb2 :: post)) as (d & Ed & Hd).
  { rewrite <- Hlf, !length_app. reflexivity. }
  { rewrite Hrefs2, Hall. cbn. unfold INT_MAX. lia. }
  { exact Hidle2. }
  { unfold replay_completes. rewrite Hrefs2, Hall. unfold execute_ref.
    cbn [forallb ref_cmdbuffer_idx ref_cmd]. rewrite Htid, arr_at_middle. reflexivity. }
  rewrite Hrefs2, Hsorted in Hd. exists d. split.
  - rewrite Ed, Hrefs2, Hall. reflexivity.
  - rewrite <- (List.map_map fst ref_cmd), Hd, Hall. reflexivity.
Qed.

(** X11: A whole frame with one stage.  From a frame start (lock free, both
    buffer sets drained, every stage NONE) one thread begins and ends an
    enabled root stage, and [rizz__gfx_execute_command_buffers_final] runs:
    the four recorded commands are dispatched in recording order, every
    stage is NONE again with the table otherwise as it was, and the state is
    a frame start again, so the next frame can begin the stage anew. *)
Theorem frame_of_one_stage (g : rizz__gfx) (n tid stage : Z)
        (_stage : rizz__gfx_stage) (cb : rizz__gfx_cmdbuffer) :
  frame_start g n = true ->
  arr_at (stages g) (rizz_to_index stage) = Ret _stage ->
  stage_enabled _stage = true ->
  stage_parent _stage = 0 ->
  stage <> 0 ->
  0 <= stage_order _stage < 65536 ->
  feed_cb g tid = Ret cb ->
  cb_index cb = tid ->
  exists g1 g2 dispatched g3,
    rizz__cb_begin_stage g tid stage = Ret (true, g1)
    /\ rizz__cb_end_stage g1 tid = Ret g2
    /\ rizz__gfx_execute_command_buffers_final g2 0 n = Ret (dispatched, g3)
    /\ List.map (fun d => ref_cmd (fst d)) dispatched
       = [GFX_COMMAND_STAGE_PUSH; GFX_COMMAND_BEGIN_PROFILE;
          GFX_COMMAND_END_PROFILE; GFX_COMMAND_STAGE_POP]
    /\ stages g3 = stages g
    /\ frame_start g3 n = true.
Proof.
  intros Hfs Harr Hen Hpar Hs Hord Hf Hidx.
  destruct (one_stage_recorded g n tid stage _stage cb Hfs Harr Hen Hpar Hs Hord Hf Hidx)
    as (g1 & cb2 & pre & post & E1 & E2 & Hfeed & Hfeed2 & Hok2 & Hidle2 & Hoks2
        & Hquiet & Hexec).
  apply frame_start_spec in Hfs
    as (Hlk & Hlf & Hlr & Hdf & Hdr & Hif & Hir & Hokf & Hokr & Hnone).
  set (st2 := arr_store (stages g) (rizz_to_index stage)
                        (set_stage_state STAGE_STATE_DONE _stage)) in *.
  set (g2 := store_feed_cb (set_stages st2 g) tid cb2) in *.
  assert (Hval : rizz__gfx_validate_stage_deps g2 = Ret g2).
  { apply validate_stage_deps_quiet; [unfold g2; destruct g; exact Hlk|].
    replace (stages g2) with st2 by (unfold g2; destruct g; reflexivity). exact Hquiet. }
  destruct (Hexec (stream_buffs g)) as (d & Ed & Hd).
  assert (Hreset : List.map (set_stage_state STAGE_STATE_NONE) st2 = stages g)
    by (apply stages_reset; assumption).
  eexists g1, g2, d, _. split; [exact E1|]. split; [exact E2|]. split.
  { unfold rizz__gfx_execute_command_buffers_final. rewrite Hval. cbn [bind].
    replace (cmd_buffers_render g2) with (cmd_buffers_render g)
      by (unfold g2; destruct g; reflexivity).
    rewrite (execute_drained _ n _ Hlr Hdr Hir). cbn [bind].
    match goal with
    | |- context [rizz__gfx_execute_command_buffer ?a 0 n ?b] =>
        replace a with (stream_buffs g) by (unfold g2; destruct g; reflexivity);
        replace b with (pre ++ cb2 :: post)
          by (rewrite <- Hfeed2; unfold g2; destruct g; reflexivity)
    end.
    rewrite Ed. cbn [bind app]. reflexivity. }
  split; [exact Hd|]. split.
  { rewrite <- Hreset. unfold g2, st2. destruct g. reflexivity. }
  apply frame_start_spec.
  match goal with
  | |- stage_lk ?G = _ /\ _ =>
      replace (stage_lk G) with (stage_lk g) by (unfold g2; destruct g; reflexivity);
      replace (cmd_buffers_feed G)
        with (List.map cb_reset (List.map (set_cb_refs []) (pre ++ cb2 :: post)))
        by (unfold g2; destruct g; reflexivity);
      replace (cmd_buffers_render G)
        with (List.map cb_reset (List.map (set_cb_refs []) (cmd_buffers_render g)))
        by (unfold g2; destruct g; reflexivity);
      replace (stages G) with (List.map (set_stage_state STAGE_STATE_NONE) st2)
        by (unfold g2, st2; destruct g; reflexivity)
  end.
  rewrite Hreset, !length_map, !drained_after_execute, !all_idle_reset, Hidle2, Hir.
  rewrite (cb_ok_reset _ Hokr), (cb_ok_reset _ Hoks2).
  repeat split; try assumption.
  rewrite <- Hlf, Hfeed, !length_app. reflexivity.
Qed.

(** X12: Present and commit.  After the same recording, [rizz__gfx_commit]
    without a present before it dispatches nothing, reports no GPU commit
    and leaves the state as it is (the commands sit in the feed set); after
    [rizz__gfx_swap_command_buffers] it dispatches the four commands in
    recording order and reports the GPU commit.  The drained render set of
    before is the feed set then.  The commit does not reset the stage: it
    stays DONE, and beginning it again fails the state assertion until
    [rizz__gfx_execute_command_buffers_final] has run. *)
Theorem present_then_commit (g : rizz__gfx) (n tid stage : Z)
        (_stage : rizz__gfx_stage) (cb : rizz__gfx_cmdbuffer) :
  frame_start g n = true ->
  arr_at (stages g) (rizz_to_index stage) = Ret _stage ->
  stage_enabled _stage = true ->
  stage_parent _stage = 0 ->
  stage <> 0 ->
  0 <= stage_order _stage < 65536 ->
  feed_cb g tid = Ret cb ->
  cb_index cb = tid ->
  exists g1 g2 g3 dispatched g4,
    rizz__cb_begin_stage g tid stage = Ret (true, g1)
    /\ rizz__cb_end_stage g1 tid = Ret g2
    /\ rizz__gfx_commit g2 0 n = Ret ([], false, g2)
    /\ rizz__gfx_swap_command_buffers g2 0 = Ret g3
    /\ rizz__gfx_commit g3 0 n = Ret (dispatched, true, g4)
    /\ List.map (fun d => ref_cmd (fst d)) dispatched
       = [GFX_COMMAND_STAGE_PUSH; GFX_COMMAND_BEGIN_PROFILE;
          GFX_COMMAND_END_PROFILE; GFX_COMMAND_STAGE_POP]
    /\ cmd_buffers_feed g4 = cmd_buffers_render g
    /\ forallb cb_drained (cmd_buffers_render g4) = true
    /\ arr_at (stages g4) (rizz_to_index stage)
       = Ret (set_stage_state STAGE_STATE_DONE _stage)
    /\ forall t, rizz__cb_begin_stage g4 t stage = Err (AssertFailed []).
Proof.
  intros Hfs Harr Hen Hpar Hs Hord Hf Hidx.
  destruct (one_stage_recorded g n tid stage _stage cb Hfs Harr Hen Hpar Hs Hord Hf Hidx)
    as (g1 & cb2 & pre & post & E1 & E2 & Hfeed & Hfeed2 & Hok2 & Hidle2 & Hoks2
        & Hquiet & Hexec).
  apply frame_start_spec in Hfs
    as (Hlk & Hlf & Hlr & Hdf & Hdr & Hif & Hir & Hokf & Hokr & Hnone).
  set (st2 := arr_store (stages g) (rizz_to_index stage)
                        (set_stage_state STAGE_STATE_DONE _stage)) in *.
  set (g2 := store_feed_cb (set_stages st2 g) tid cb2) in *.
  set (g3 := set_cmd_buffers_render (cmd_buffers_feed g2)
               (set_cmd_buffers_feed (cmd_buffers_render g2) g2)).
  assert (Hval2 : rizz__gfx_validate_stage_deps g2 = Ret g2).
  { apply validate_stage_deps_quiet; [unfold g2; destruct g; exact Hlk|].
    replace (stages g2) with st2 by (unfold g2; destruct g; reflexivity). exact Hquiet. }
  assert (Hval3 : rizz__gfx_validate_stage_deps g3 = Ret g3).
  { apply validate_stage_deps_quiet; [unfold g3, g2; destruct g; exact Hlk|].
    replace (stages g3) with st2 by (unfold g3, g2; destruct g; reflexivity). exact Hquiet. }
  destruct (Hexec (stream_buffs g)) as (d & Ed & Hd).
  assert (Harr4 : arr_at st2 (rizz_to_index stage)
                  = Ret (set_stage_state STAGE_STATE_DONE _stage))
    by (eapply arr_at_store_eq; exact Harr).
  eexists g1, g2, g3, d, _.
  split; [exact E1|]. split; [exact E2|]. split.
  { unfold rizz__gfx_commit. cbn [sx_assert Z.eqb bind]. rewrite Hval2. cbn [bind].
    replace (cmd_buffers_render g2) with (cmd_buffers_render g)
      by (unfold g2; destruct g; reflexivity).
    rewrite (execute_drained _ n _ Hlr Hdr Hir). cbn [bind].
    rewrite (drained_reset_id _ Hdr). unfold g2. destruct g. reflexivity. }
  split; [reflexivity|]. split.
  { unfold rizz__gfx_commit. cbn [sx_assert Z.eqb bind]. rewrite Hval3. cbn [bind].
    match goal with
    | |- context [rizz__gfx_execute_command_buffer ?a 0 n ?b] =>
        replace a with (stream_buffs g) by (unfold g3, g2; destruct g; reflexivity);
        replace b with (pre ++ cb2 :: post)
          by (rewrite <- Hfeed2; unfold g3, g2; destruct g; reflexivity)
    end.
    rewrite Ed. cbn [bind]. reflexivity. }
  split; [exact Hd|]. split; [unfold g3, g2; destruct g; reflexivity|].
  split.
  { replace (cmd_buffers_render _)
      with (List.map cb_reset (List.map (set_cb_refs []) (pre ++ cb2 :: post)))
      by (unfold g3, g2; destruct g; reflexivity).
    apply drained_after_execute. }
  split.
  { replace (stages _) with st2 by (unfold g3, g2; destruct g; reflexivity). exact Harr4. }
  intros t. eapply begin_stage_not_none.
  - unfold g3, g2. destruct g. exact Hlk.
  - replace (stages _) with st2 by (unfold g3, g2; destruct g; reflexivity). exact Harr4.
  - destruct _stage. discriminate.
Qed.

Lemma frame_of_one_stage_witness :
  let g := gfx_of scenario_two_stages in
  exists g1 g2 dispatched g3,
    rizz__cb_begin_stage g 0 1 = Ret (true, g1)
    /\ rizz__cb_end_stage g1 0 = Ret g2
    /\ rizz__gfx_execute_command_buffers_final g2 0 2 = Ret (dispatched, g3)
    /\ length dispatched = 4%nat
    /\ stages g3 = stages g.
Proof.
  intros g.
  assert (H : exists s cb,
             arr_at (stages g) (rizz_to_index 1) = Ret s
             /\ stage_enabled s = true /\ stage_parent s = 0 /\ stage_order s = 0
             /\ feed_cb g 0 = Ret cb /\ cb_index cb = 0)
    by (vm_compute; do 2 eexists; repeat split; reflexivity).
  destruct H as (s & cb & Hs & Hen & Hp & Ho & Hf & Hi).
  destruct (frame_of_one_stage g 2 0 1 s cb)
    as (g1 & g2 & d & g3 & E1 & E2 & E3 & Hd & Hst & _);
    [vm_compute; reflexivity | exact Hs | exact Hen | exact Hp | discriminate
     | rewrite Ho; lia | exact Hf | exact Hi |].
  exists g1, g2, d, g3. split; [exact E1|]. split; [exact E2|]. split; [exact E3|].
  split; [|exact Hst].
  rewrite <- (length_map (fun x => ref_cmd (fst x))), Hd. reflexivity.
Defined.

Lemma present_then_commit_witness :
  let g := gfx_of scenario_two_stages in
  exists g1 g2 g3 dispatched g4,
    rizz__cb_begin_stage g 0 1 = Ret (true, g1)
    /\ rizz__cb_end_stage g1 0 = Ret g2
    /\ rizz__gfx_commit g2 0 2 = Ret ([], false, g2)
    /\ rizz__gfx_swap_command_buffers g2 0 = Ret g3
    /\ rizz__gfx_commit g3 0 2 = Ret (dispatched, true, g4)
    /\ length dispatched = 4%nat
    /\ rizz__cb_begin_stage g4 0 1 = Err (AssertFailed []).
Proof.
  intros g.
  assert (H : exists s cb,
             arr_at (stages g) (rizz_to_index 1) = Ret s
             /\ stage_enabled s = true /\ stage_parent s = 0 /\ stage_order s = 0
             /\ feed_cb g 0 = Ret cb /\ cb_index cb = 0)
    by (vm_compute; do 2 eexists; repeat split; reflexivity).
  destruct H as (s & cb & Hs & Hen & Hp & Ho & Hf & Hi).
  destruct (present_then_commit g 2 0 1 s cb)
    as (g1 & g2 & g3 & d & g4 & E1 & E2 & E3 & E4 & E5 & Hd & _ & _ & _ & Hb);
    [vm_compute; reflexivity | exact Hs | exact Hen | exact Hp | discriminate
     | rewrite Ho; lia | exact Hf | exact Hi |].
  exists g1, g2, g3, d, g4. split; [exact E1|]. split; [exact E2|]. split; [exact E3|].
  split; [exact E4|]. split; [exact E5|]. split; [|exact (Hb 0)].
  rewrite <- (length_map (fun x => ref_cmd (fst x))), Hd. reflexivity.
Defined.

(** ** The checker texture *)

Lemma index_div_mod (size x y : Z) :
  0 <= x < size -> (x + y * size) / size = y /\ (x + y * size) mod size = x.
Proof.
  intros H. split.
  - rewrite Z.div_add by lia. rewrite Z.div_small by lia. lia.
  - rewrite Z.mod_add by lia. apply Z.mod_small. lia.
Qed.

Lemma index_of_div_mod (size k : Z) :
  0 < size -> k = k mod size + (k / size) * size.
Proof. intros H. pose proof (Z.div_mod k size ltac:(lia)). lia. Qed.

(** The successor in row-major order. *)
Lemma succ_row_major (T i : Z) :
  0 < T -> 0 <= i ->
  (i mod T = T - 1 -> (i + 1) mod T = 0 /\ (i + 1) / T = i / T + 1)
  /\ (i mod T <> T - 1 -> (i + 1) mod T = i mod T + 1 /\ (i + 1) / T = i / T).
Proof.
  intros HT Hi. pose proof (Z.div_mod i T ltac:(lia)) as Hd.
  pose proof (Z.mod_pos_bound i T HT) as Hb.
  split; intros Hr.
  - destruct (index_div_mod T 0 (i / T + 1) ltac:(lia)) as [H1 H2].
    replace (0 + (i / T + 1) * T) with (i + 1) in H1, H2 by lia. auto.
  - destruct (index_div_mod T (i mod T + 1) (i / T) ltac:(lia)) as [H1 H2].
    replace (i mod T + 1 + i / T * T) with (i + 1) in H1, H2 by lia. auto.
Qed.

Lemma checker_poss_spec (cs size T : Z) :
  0 < cs -> 0 < T -> size = T * cs ->
  forall (n : nat) (i0 : Z), 0 <= i0 ->
    length (checker_poss n cs size ((i0 mod T) * cs) ((i0 / T) * cs)) = n
    /\ forall k : nat, (k < n)%nat ->
         checker_poss n cs size ((i0 mod T) * cs) ((i0 / T) * cs) !! k
         = Some (((i0 + Z.of_nat k) mod T) * cs, ((i0 + Z.of_nat k) / T) * cs).
Proof.
  intros Hcs HT Hsize n. induction n as [|n IH]; intros i0 Hi0.
  - split; [reflexivity | intros k Hk; lia].
  - cbn [checker_poss].
    pose proof (Z.mod_pos_bound i0 T HT) as Hb.
    destruct (succ_row_major T i0 HT Hi0) as [Hlast Hmid].
    destruct (Z.leb_spec size (i0 mod T * cs + cs)) as [Hge|Hlt].
    + assert (Hr : i0 mod T = T - 1) by nia.
      destruct (Hlast Hr) as [Hm Hd].
      destruct (IH (i0 + 1) ltac:(lia)) as [IHl IHk]. rewrite Hm, Hd in IHl, IHk.
      replace (0 * cs) with 0 in IHl, IHk by lia.
      replace ((i0 / T + 1) * cs) with (i0 / T * cs + cs) in IHl, IHk by lia.
      split; [cbn [length]; rewrite IHl; reflexivity|].
      intros [|k] Hk.
      * cbn. rewrite Z.add_0_r. reflexivity.
      * cbn [lookup list_lookup]. rewrite IHk by lia.
        replace (i0 + 1 + Z.of_nat k) with (i0 + Z.of_nat (S k)) by lia. reflexivity.
    + assert (Hr : i0 mod T <> T - 1) by nia.
      destruct (Hmid Hr) as [Hm Hd].
      destruct (IH (i0 + 1) ltac:(lia)) as [IHl IHk]. rewrite Hm, Hd in IHl, IHk.
      replace ((i0 mod T + 1) * cs) with (i0 mod T * cs + cs) in IHl, IHk by lia.
      split; [cbn [length]; rewrite IHl; reflexivity|].
      intros [|k] Hk.
      * cbn. rewrite Z.add_0_r. reflexivity.
      * cbn [lookup list_lookup]. rewrite IHk by lia.
        replace (i0 + 1 + Z.of_nat k) with (i0 + Z.of_nat (S k)) by lia. reflexivity.
Qed.

Lemma px_store_Ret (pixels : list Z) (i v : Z) :
  0 <= i < Z.of_nat (length pixels) ->
  px_store pixels i v = Ret (<[Z.to_nat i := v]> pixels).
Proof.
  intros H. unfold px_store.
  destruct (Z.ltb_spec i 0); [lia|]. destruct (Z.leb_spec (Z.of_nat (length pixels)) i); [lia|].
  reflexivity.
Qed.

(** One row of a tile: the pixels [x0 .. x0 + n) of line [y] get the
    colour, every other pixel stays. *)
Lemma checker_row_spec (size y c : Z) :
  0 < size -> 0 <= y ->
  forall (n : nat) (x0 : Z) (pixels : list Z),
    0 <= x0 -> x0 + Z.of_nat n <= size ->
    (y + 1) * size <= Z.of_nat (length pixels) ->
    exists px',
      checker_row n x0 y size c pixels = Ret px'
      /\ length px' = length pixels
      /\ forall k : nat,
           px' !! k
           = if (Z.of_nat k / size =? y) && (x0 <=? Z.of_nat k mod size)
                && (Z.of_nat k mod size <? x0 + Z.of_nat n)
             then Some c else pixels !! k.
Proof.
  intros Hsize Hy n. induction n as [|n IH]; intros x0 pixels Hx0 Hfit Hlen.
  - exists pixels. split; [reflexivity|]. split; [reflexivity|]. intros k.
    destruct (Z.leb_spec x0 (Z.of_nat k mod size));
      destruct (Z.ltb_spec (Z.of_nat k mod size) (x0 + Z.of_nat 0));
      rewrite ?andb_false_r; try reflexivity; lia.
  - cbn [checker_row]. rewrite px_store_Ret by nia. cbn [bind].
    destruct (IH (x0 + 1) (<[Z.to_nat (x0 + y * size) := c]> pixels))
      as (px' & E & Hl & Hk); [lia | lia | rewrite length_insert; exact Hlen|].
    exists px'. split; [exact E|]. split; [rewrite Hl; apply length_insert|].
    intros k. rewrite Hk.
    destruct (index_div_mod size x0 y ltac:(lia)) as [Hd Hm].
    destruct (decide (k = Z.to_nat (x0 + y * size))) as [Ek|Hne].
    + subst k. rewrite Z2Nat.id by nia. rewrite Hd, Hm, Z.eqb_refl.
      rewrite list_lookup_insert_eq by nia.
      destruct (Z.leb_spec x0 x0); [|lia].
      destruct (Z.ltb_spec x0 (x0 + Z.of_nat (S n))); [|lia].
      cbn [andb]. destruct (_ && _); reflexivity.
    + rewrite list_lookup_insert_ne by auto.
      pose proof (index_of_div_mod size (Z.of_nat k) Hsize) as Hkk.
      destruct (Z.eqb_spec (Z.of_nat k / size) y) as [Ey|Ey]; cbn [andb]; [|reflexivity].
      rewrite Ey in Hkk.
      assert (Hx : Z.of_nat k mod size <> x0) by (intros Hx; apply Hne; lia).
      destruct (Z.leb_spec (x0 + 1) (Z.of_nat k mod size));
        destruct (Z.leb_spec x0 (Z.of_nat k mod size));
        destruct (Z.ltb_spec (Z.of_nat k mod size) (x0 + 1 + Z.of_nat n));
        destruct (Z.ltb_spec (Z.of_nat k mod size) (x0 + Z.of_nat (S n)));
        cbn [andb]; try reflexivity; lia.
Qed.

(** One tile: the pixels of the block get the colour, the others stay. *)
Lemma checker_tile_spec (size px end_x c : Z) :
  0 < size -> 0 <= px -> px <= end_x -> end_x <= size ->
  forall (n : nat) (y0 : Z) (pixels : list Z),
    0 <= y0 -> (y0 + Z.of_nat n) * size <= Z.of_nat (length pixels) ->
    exists px',
      checker_tile n y0 px end_x size c pixels = Ret px'
      /\ length px' = length pixels
      /\ forall k : nat,
           px' !! k
           = if (y0 <=? Z.of_nat k / size) && (Z.of_nat k / size <? y0 + Z.of_nat n)
                && (px <=? Z.of_nat k mod size) && (Z.of_nat k mod size <? end_x)
             then Some c else pixels !! k.
Proof.
  intros Hsize Hpx Hle Hend n. induction n as [|n IH]; intros y0 pixels Hy0 Hlen.
  - exists pixels. split; [reflexivity|]. split; [reflexivity|]. intros k.
    destruct (Z.leb_spec y0 (Z.of_nat k / size));
      destruct (Z.ltb_spec (Z.of_nat k / size) (y0 + Z.of_nat 0));
      cbn [andb]; try reflexivity; lia.
  - cbn [checker_tile].
    destruct (checker_row_spec size y0 c Hsize Hy0 (Z.to_nat (end_x - px)) px pixels)
      as (px1 & E1 & Hl1 & Hk1); [lia | lia | nia|].
    rewrite E1. cbn [bind].
    destruct (IH (y0 + 1) px1) as (px' & E & Hl & Hk); [lia | rewrite Hl1; nia|].
    exists px'. split; [exact E|]. split; [congruence|].
    intros k. rewrite Hk, Hk1.
    replace (px + Z.of_nat (Z.to_nat (end_x - px))) with end_x by lia.
    destruct (Z.eqb_spec (Z.of_nat k / size) y0);
      destruct (Z.leb_spec (y0 + 1) (Z.of_nat k / size));
      destruct (Z.leb_spec y0 (Z.of_nat k / size));
      destruct (Z.ltb_spec (Z.of_nat k / size) (y0 + 1 + Z.of_nat n));
      destruct (Z.ltb_spec (Z.of_nat k / size) (y0 + Z.of_nat (S n)));
      cbn [andb]; try reflexivity; try lia.
    all: destruct (_ && _); reflexivity.
Qed.

Lemma block_div (cs q v : Z) : 0 < cs -> (q * cs <= v < q * cs + cs <-> v / cs = q).
Proof.
  intros Hcs. split.
  - intros H. symmetry. apply (Z.div_unique v cs q (v - q * cs)); lia.
  - intros <-. pose proof (Z.div_mod v cs ltac:(lia)).
    pose proof (Z.mod_pos_bound v cs Hcs). lia.
Qed.

Lemma row_major_unique (T tx ty i : Z) :
  0 < T -> 0 <= tx < T -> ty * T + tx = i -> tx = i mod T /\ ty = i / T.
Proof.
  intros HT Htx <-. destruct (index_div_mod T tx ty Htx) as [Hd Hm].
  replace (ty * T + tx) with (tx + ty * T) by lia. auto.
Qed.

(** The colour index after tile [i] is the index of tile [i + 1]. *)
Lemma checker_index_next (T i : Z) :
  2 <= T -> 0 <= i ->
  (if (i =? 0) || negb (Z.rem (i + 1) T =? 0)
   then (if checker_index T (i mod T) (i / T) =? 0 then 1 else 0)
   else checker_index T (i mod T) (i / T))
  = checker_index T ((i + 1) mod T) ((i + 1) / T).
Proof.
  intros HT Hi. rewrite Z.rem_mod_nonneg by lia.
  destruct (succ_row_major T i ltac:(lia) Hi) as [Hlast Hmid].
  pose proof (Z.mod_pos_bound i T ltac:(lia)) as Hb.
  destruct (Z.eq_dec (i mod T) (T - 1)) as [Hr|Hr].
  - destruct (Hlast Hr) as [Hm Hd]. rewrite Hm, Hd, Hr. cbn [Z.eqb negb].
    destruct (Z.eqb_spec i 0) as [E0|_].
    { subst i. rewrite Z.mod_0_l in Hr by lia. lia. }
    cbn [orb]. unfold checker_index.
    rewrite !Z.even_add, Z.even_sub. cbn [Z.even].
    destruct (Z.even T), (Z.even (i / T)); reflexivity.
  - destruct (Hmid Hr) as [Hm Hd]. rewrite Hm, Hd.
    destruct (Z.eqb_spec (i mod T + 1) 0); [lia|]. rewrite orb_true_r.
    unfold checker_index. rewrite !Z.even_add. cbn [Z.even].
    destruct (Z.even T), (Z.even (i mod T)), (Z.even (i / T)); reflexivity.
Qed.

(** The loop over the tiles: once tile [i] is reached, the pixels of the
    tiles before it have their colour; at the end all pixels have. *)
Lemma checker_tiles_spec (cs T c0 c1 : Z) (poss : list (Z * Z)) :
  0 < cs -> 0 < T ->
  (forall i : nat, Z.of_nat i < T * T ->
     poss !! i = Some ((Z.of_nat i mod T) * cs, (Z.of_nat i / T) * cs)) ->
  forall (n : nat) (i color_idx : Z) (pixels : list Z),
    0 <= i -> i + Z.of_nat n = T * T ->
    (i < T * T -> color_idx = checker_index T (i mod T) (i / T)) ->
    (color_idx = 0 \/ color_idx = 1) ->
    Z.of_nat (length pixels) = (T * cs) * (T * cs) ->
    (forall k : nat, Z.of_nat k < (T * cs) * (T * cs) ->
       (Z.of_nat k / (T * cs) / cs) * T + (Z.of_nat k mod (T * cs)) / cs < i ->
       pixels !! k
       = Some (if checker_index T ((Z.of_nat k mod (T * cs)) / cs)
                                  (Z.of_nat k / (T * cs) / cs) =? 0
               then c0 else c1)) ->
    exists px',
      checker_tiles n i T cs (T * cs) [c0; c1] poss color_idx pixels = Ret px'
      /\ length px' = length pixels
      /\ forall k : nat, Z.of_nat k < (T * cs) * (T * cs) ->
           px' !! k
           = Some (if checker_index T ((Z.of_nat k mod (T * cs)) / cs)
                                      (Z.of_nat k / (T * cs) / cs) =? 0
                   then c0 else c1).
Proof.
  intros Hcs HT Hposs n. set (size := T * cs).
  assert (Esize : size = T * cs) by reflexivity. clearbody size.
  assert (Hsize : 0 < size) by nia.
  induction n as [|n IH]; intros i color_idx pixels Hi Hn Hidx Hbit Hlen Hinv.
  - exists pixels. split; [reflexivity|]. split; [reflexivity|].
    intros k Hk. apply Hinv; [exact Hk|].
    pose proof (Z.mod_pos_bound (Z.of_nat k) size Hsize) as Hm.
    assert (Hty : Z.of_nat k / size / cs < T).
    { apply Z.div_lt_upper_bound; [lia|]. apply Z.div_lt_upper_bound; [lia|]. nia. }
    assert (Htx : Z.of_nat k mod size / cs < T).
    { apply Z.div_lt_upper_bound; [lia|]. nia. }
    assert (0 <= Z.of_nat k / size / cs) by (apply Z.div_pos; [apply Z.div_pos|]; lia).
    nia.
  - assert (HiN : i < T * T) by lia. specialize (Hidx HiN).
    pose proof (Z.mod_pos_bound i T HT) as Hr.
    assert (Hq : 0 <= i / T < T).
    { split; [apply Z.div_pos; lia|]. apply Z.div_lt_upper_bound; lia. }
    cbn [checker_tiles].
    rewrite (proj2 (arr_at_Ret poss i ((i mod T) * cs, (i / T) * cs))).
    2:{ split; [exact Hi|]. rewrite Hposs by lia. rewrite Z2Nat.id by lia. reflexivity. }
    cbn [bind fst snd].
    assert (Hc : arr_at [c0; c1] color_idx = Ret (if color_idx =? 0 then c0 else c1))
      by (destruct Hbit as [-> | ->]; reflexivity).
    rewrite Hc. cbn [bind].
    destruct (checker_tile_spec size ((i mod T) * cs) ((i mod T) * cs + cs)
                (if color_idx =? 0 then c0 else c1) Hsize ltac:(nia) ltac:(lia)
                ltac:(nia)
                (Z.to_nat ((i / T) * cs + cs - (i / T) * cs)) ((i / T) * cs) pixels)
      as (px1 & E1 & Hl1 & Hk1); [nia | nia|].
    rewrite E1. cbn [bind].
    replace ((i / T) * cs + Z.of_nat (Z.to_nat ((i / T) * cs + cs - (i / T) * cs)))
      with ((i / T) * cs + cs) in Hk1 by lia.
    match goal with
    | |- exists px', checker_tiles n (i + 1) T cs size _ poss ?ci px1 = _ /\ _ =>
        destruct (IH (i + 1) ci px1) as (px' & E & Hl & Hk);
          [lia | lia | | | congruence | |
           exists px'; split; [exact E|]; split; [congruence | exact Hk]]
    end.
    + intros HiN'. subst color_idx. apply checker_index_next; [nia | exact Hi].
    + destruct ((i =? 0) || negb (Z.rem (i + 1) T =? 0));
        destruct Hbit as [-> | ->]; cbn; auto.
    + intros k Hk Hlt. rewrite Hk1.
      pose proof (Z.mod_pos_bound (Z.of_nat k) size Hsize) as Hm.
      assert (Htx : 0 <= Z.of_nat k mod size / cs < T).
      { split; [apply Z.div_pos; lia|]. apply Z.div_lt_upper_bound; [lia|]. nia. }
      pose proof (block_div cs (i / T) (Z.of_nat k / size) Hcs) as By.
      pose proof (block_div cs (i mod T) (Z.of_nat k mod size) Hcs) as Bx.
      destruct (Z.leb_spec ((i / T) * cs) (Z.of_nat k / size));
        destruct (Z.ltb_spec (Z.of_nat k / size) ((i / T) * cs + cs));
        destruct (Z.leb_spec ((i mod T) * cs) (Z.of_nat k mod size));
        destruct (Z.ltb_spec (Z.of_nat k mod size) ((i mod T) * cs + cs));
        cbn [andb].
      1:{ (* inside the block of tile [i] *)
          rewrite (proj1 Bx) by lia. rewrite (proj1 By) by lia. rewrite Hidx. reflexivity. }
      all: apply Hinv; [exact Hk|];
        assert (Hne : (Z.of_nat k / size / cs) * T + (Z.of_nat k mod size) / cs <> i)
          by (intros Heq; destruct (row_major_unique T _ _ i HT Htx Heq) as [Ex Ey];
              apply (proj2 Bx) in Ex; apply (proj2 By) in Ey; lia);
        lia.
Qed.

(** X15: The checker texture.  For a positive [checker_size] that divides
    [size], and [size] a multiple of four, [rizz__texture_create_checker]
    hands [make_image] a [size] x [size] RGBA8 image of [size * size * 4]
    bytes in which every pixel is written: pixel [(x, y)] has the colour of
    its tile, [colors[0]] or [colors[1]] by the parity of tile column plus
    tile row when a row has an even number of tiles (a checkerboard), but by
    the parity of the tile column alone when that number is odd (vertical
    bands), since the colour index is not flipped at the end of a row. *)
Theorem checker_texture_pattern (checker_size size c0 c1 : Z) (junk : nat -> Z) :
  0 < checker_size -> 0 < size ->
  size mod 4 = 0 -> size mod checker_size = 0 ->
  size * size * 4 <= INT_MAX ->
  exists pixels,
    rizz__texture_create_checker checker_size size [c0; c1] junk
    = Some (Ret (mk_image_desc size size 1 SG_PIXELFORMAT_RGBA8 pixels (size * size * 4),
                 mk_texture_info SG_IMAGETYPE_2D SG_PIXELFORMAT_RGBA8 (size * size * 4)
                                 size size 1 1 32))
    /\ Z.of_nat (length pixels) = size * size
    /\ forall x y, 0 <= x < size -> 0 <= y < size ->
         pixels !! Z.to_nat (x + y * size)
         = Some (if checker_index (size / checker_size) (x / checker_size)
                                  (y / checker_size) =? 0
                 then c0 else c1).
Proof.
  intros Hcs Hsize H4 Hdiv _.
  unfold rizz__texture_create_checker.
  rewrite Z.rem_mod_nonneg by lia. rewrite H4. cbn [Z.eqb sx_assert].
  destruct (Z.eqb_spec checker_size 0); [lia|].
  rewrite Z.rem_mod_nonneg by lia. rewrite Hdiv. cbn [Z.eqb sx_assert bind].
  rewrite Z.quot_div_nonneg by lia.
  set (T := size / checker_size).
  assert (ET : size = T * checker_size).
  { unfold T. pose proof (Z.div_mod size checker_size ltac:(lia)). lia. }
  clearbody T. subst size.
  assert (HT : 0 < T) by nia.
  destruct (checker_poss_spec checker_size (T * checker_size) T Hcs HT eq_refl
              (Z.to_nat (T * T)) 0 ltac:(lia))
    as [_ Hposs].
  rewrite Z.mod_0_l, Z.div_0_l in Hposs by lia. cbn [Z.mul] in Hposs.
  destruct (checker_tiles_spec checker_size T c0 c1
              (checker_poss (Z.to_nat (T * T)) checker_size (T * checker_size) 0 0) Hcs HT)
    with (n := Z.to_nat (T * T)) (i := 0) (color_idx := 0)
         (pixels := List.map junk
                      (seq 0 (Z.to_nat (T * checker_size * (T * checker_size)))))
    as (px' & E & Hl & Hk).
  - intros i Hi. rewrite Hposs by lia. reflexivity.
  - lia.
  - nia.
  - intros _. rewrite Z.mod_0_l, Z.div_0_l by lia. unfold checker_index.
    cbn. destruct (Z.even T); reflexivity.
  - left. reflexivity.
  - rewrite length_map, length_seq. nia.
  - intros k Hk Hlt.
    assert (0 <= Z.of_nat k / (T * checker_size) / checker_size)
      by (apply Z.div_pos; [apply Z.div_pos|]; nia).
    assert (0 <= Z.of_nat k mod (T * checker_size) / checker_size).
    { apply Z.div_pos; [|lia]. apply Z.mod_pos_bound. nia. }
    nia.
  - rewrite E. cbn [bind].
    exists px'. split; [reflexivity|]. split.
    { rewrite Hl, length_map, length_seq. nia. }
    intros x y Hx Hy. rewrite Hk by (rewrite Z2Nat.id by nia; nia).
    rewrite Z2Nat.id by nia.
    destruct (index_div_mod (T * checker_size) x y Hx) as [-> ->]. reflexivity.
Qed.

Lemma checker_texture_pattern_witness :
  exists pixels,
    (exists d, rizz__texture_create_checker 4 12 [1; 2] (fun _ => 0)
               = Some (Ret (mk_image_desc 12 12 1 SG_PIXELFORMAT_RGBA8 pixels 576, d)))
    /\ pixels !! 0%nat = Some 1 /\ pixels !! 4%nat = Some 2
    /\ pixels !! 48%nat = Some 1 /\ pixels !! 52%nat = Some 2.
Proof.
  destruct (checker_texture_pattern 4 12 1 2 (fun _ => 0)) as (pixels & E & _ & Hp);
    [lia | lia | reflexivity | reflexivity | unfold INT_MAX; lia|].
  exists pixels. split; [eexists; exact E|].
  split; [exact (Hp 0 0 ltac:(lia) ltac:(lia))|].
  split; [exact (Hp 4 0 ltac:(lia) ltac:(lia))|].
  split; [exact (Hp 0 4 ltac:(lia) ltac:(lia)) | exact (Hp 4 4 ltac:(lia) ltac:(lia))].
Defined.

(* ===================================================================== *)
(** * The properties on concrete runs *)

Lemma stage_find_not_found_witness :
  rizz__stage_find sample_hash (gfx_of scenario_two_stages) "transparent"
  = Ret (4294967295, gfx_of scenario_two_stages)
  /\ 4294967295 <> 0
  /\ (4294967295 =? 0) = false.
Proof.
  apply (stage_find_not_found sample_hash (gfx_of scenario_two_stages) "transparent").
  - reflexivity.
  - vm_compute. reflexivity.
Defined.

Lemma begin_stage_disabled_witness :
  rizz__cb_begin_stage (gfx_of scenario_shadow_disabled) 0 1
  = Ret (false, gfx_of scenario_shadow_disabled).
Proof.
  eapply (proj1 (begin_stage_disabled (gfx_of scenario_shadow_disabled) 0 1 _ _ _ _)).
  Unshelve.
  all: try match goal with |- arr_at _ _ = _ => vm_compute; reflexivity end.
  all: vm_compute; reflexivity.
Defined.


Lemma enable_disable_enable_grandchild_witness :
  let g := gfx_of scenario_three_stages in
  exists g1 g2 g3,
    rizz__stage_enable g 1 = Ret g1
    /\ rizz__stage_disable g1 3 = Ret g2
    /\ rizz__stage_enable g2 1 = Ret g3
    /\ rizz__stage_isenabled g3 3 = Ret (false, g3).
Proof.
  intros g.
  eapply (enable_disable_enable_grandchild g 1 2 3 _ _).
  Unshelve.
  all: try (vm_compute; reflexivity).
  - discriminate.
  - lia.
Defined.

Lemma execute_command_buffer_order_witness :
  let cmds := cmd_buffers_feed (gfx_of scenario_both_stages_recorded) in
  exists dispatched cmds',
    rizz__gfx_execute_command_buffer [] 0 2 cmds
    = Ret (Z.of_nat (length (all_refs cmds)), dispatched, cmds')
    /\ List.map fst dispatched ≡ₚ all_refs cmds
    /\ StronglySorted key_le (List.map fst dispatched)
    /\ (forall (i j : nat) a b,
          List.map fst dispatched !! i = Some a ->
          List.map fst dispatched !! j = Some b ->
          key_order a < key_order b -> (i < j)%nat)
    /\ (forall stage_order cmd_idx,
          0 <= stage_order < 65536 -> 0 <= cmd_idx < 65536 ->
          Z.shiftr (sort_key stage_order cmd_idx) 16 = stage_order).
Proof.
  intros cmds.
  apply (execute_command_buffer_order [] 2 cmds).
  - reflexivity.
  - apply Z.leb_le. vm_compute. reflexivity.
  - vm_compute. reflexivity.
  - vm_compute. reflexivity.
Defined.

Lemma execute_command_buffers_final_drains_witness :
  let g := gfx_of scenario_both_stages_recorded in
  exists dispatched g',
    rizz__gfx_execute_command_buffers_final g 0 2 = Ret (dispatched, g')
    /\ List.map fst dispatched
       = rizz__gfx_tim_sort (all_refs (cmd_buffers_render g))
         ++ rizz__gfx_tim_sort (all_refs (cmd_buffers_feed g))
    /\ length (cmd_buffers_render g') = length (cmd_buffers_render g)
    /\ length (cmd_buffers_feed g') = length (cmd_buffers_feed g)
    /\ forallb cb_drained (cmd_buffers_render g') = true
    /\ forallb cb_drained (cmd_buffers_feed g') = true
    /\ all_refs (cmd_buffers_render g') = []
    /\ all_refs (cmd_buffers_feed g') = [].
Proof.
  intros g.
  apply (execute_command_buffers_final_drains g 2).
  all: try (vm_compute; reflexivity).
  all: apply Z.leb_le; vm_compute; reflexivity.
Defined.

Lemma append_buffer_ranges_witness :
  let g := fst scenario_second_stream_buffer in
  let sg := snd scenario_second_stream_buffer in
  let calls := [mk_append_call 0 hundred_bytes 100; mk_append_call 1 hundred_bytes 100] in
  stream_buffs g = [mk_stream_buffer 10 0 64; mk_stream_buffer 9 0 256]
  /\ exists g' sg',
       append_all g sg 1 9 calls = Ret ([0; 100], g', sg')
       /\ stream_buffs g' = [mk_stream_buffer 10 0 64; mk_stream_buffer 9 200 256]
       /\ rizz__cb_append_buffer g' sg' 0 1 9 hundred_bytes 100 = Err (AssertFailed []).
Proof.
  intros g sg calls.
  assert (Hg : stream_buffs g = [mk_stream_buffer 10 0 64; mk_stream_buffer 9 0 256])
    by (vm_compute; reflexivity).
  split; [exact Hg|].
  pose (sb := mk_stream_buffer 9 0 256).
  destruct (append_buffer_ranges g sg 1 9 1 sb calls (mk_append_call 0 hundred_bytes 100))
    as (_ & _ & Hret & Hspec).
  - rewrite Hg. reflexivity.
  - rewrite Hg. reflexivity.
  - simpl. lia.
  - vm_compute. reflexivity.
  - destruct Hret as (offs & g' & sg' & E); [vm_compute; reflexivity | simpl; lia|].
    destruct (Hspec offs g' sg' E) as (Hoffs & _ & _ & Htr & _ & _ & Hover).
    exists g', sg'. split; [|split].
    + rewrite E, Hoffs. reflexivity.
    + rewrite Htr, Hg. reflexivity.
    + apply Hover. simpl. lia.
Defined.
